(** * musolsong: the sequence validator and the two sequence-processing engines

    Shallow embedding of
    - [controller/musolsong_tools/yaml_sequence_validator.py]
      (class [YAMLSequenceValidator]),
    - [controller/cli/sequence_processor.py] (class [MusolsongCLI]),
    - [controller/gui/background_QT_processing.py] (class [ProcessingWorker]).

    Python numbers are kept as the interpreter has them: [int] is [Z],
    [float] is a binary64 value ([PrimFloat.float]), and comparisons
    between the two are exact.  Methods that read and write [self] are
    functions in a small state-and-exception monad.

    The validator works on the document that [yaml.safe_load] returns;
    reading and parsing the file are outside the model.  Messages built
    with f-strings are constructors that carry the interpolated values.

    The engines talk to the positioner, the detector, the abort flag, the
    logger and the GUI signals.  The devices and the flag are arbitrary
    transition functions on a world state; everything an engine does that
    is visible from outside is recorded, in order, in a trace of events,
    and the properties below are statements about result and trace. *)

From Stdlib Require Import ZArith List String Ascii Bool Lia.
From Stdlib Require Import DecimalString.
From Stdlib Require Import Floats.PrimFloat Floats.SpecFloat Floats.FloatOps.
From Stdlib Require Import Floats.FloatAxioms.
From Stdlib Require Import Numbers.Cyclic.Int63.Uint63.
Import ListNotations.
Open Scope string_scope.
Open Scope list_scope.
Open Scope Z_scope.

Set Implicit Arguments.
Set Warnings "-register-all".

(** ** Exceptions and the state-and-exception monad *)

Inductive exn : Type :=
| KeyError (key : string)
| IndexError
| ZeroDivisionError
| TypeError
| ValueError
| OverflowError
| AttributeError
| OSError.

Inductive res (A : Type) : Type :=
| Ret (a : A)
| Raise (e : exn).
Arguments Ret {A} a.
Arguments Raise {A} e.

Definition M (S A : Type) : Type := S -> res A * S.

Definition ret {S A} (a : A) : M S A := fun s => (Ret a, s).
Definition raise {S A} (e : exn) : M S A := fun s => (Raise e, s).
Definition bind {S A B} (c : M S A) (k : A -> M S B) : M S B :=
  fun s => match c s with
           | (Ret a, s') => k a s'
           | (Raise e, s') => (Raise e, s')
           end.
Definition get {S} : M S S := fun s => (Ret s, s).
Definition modify {S} (f : S -> S) : M S unit := fun s => (Ret tt, f s).
Definition lift {S A} (r : res A) : M S A := fun s => (r, s).

Declare Scope monad_scope.
Delimit Scope monad_scope with monad.
Notation "x <- c ;; k" := (bind c (fun x => k))
  (at level 61, c at next level, right associativity) : monad_scope.
Notation "c ;; k" := (bind c (fun _ => k))
  (at level 61, right associativity) : monad_scope.
Open Scope monad_scope.

(** ** Python numbers *)

Inductive pynum : Type :=
| PyInt (z : Z)
| PyFloat (f : float).

(** [float(z)] for an [int] with [|z| < 2^53], where the conversion is
    exact.  Beyond that Python rounds, and raises [OverflowError] past
    the range of binary64, which this definition does not follow: the
    integers converted in the theorems are plan values that passed a
    range check, small constants, or step counts that the statement
    bounds. *)
Definition float_of_Z (z : Z) : float :=
  if z <? 0 then PrimFloat.opp (PrimFloat.of_uint63 (Uint63.of_Z (- z)))
  else PrimFloat.of_uint63 (Uint63.of_Z z).

(** [int(f)]: truncation toward zero; [ValueError] on NaN and
    [OverflowError] on an infinity. *)
Definition int_of_float (f : float) : res Z :=
  match Prim2SF f with
  | S754_zero _ => Ret 0
  | S754_finite s m e =>
      let a := match e with
               | Z0 => Zpos m
               | Zpos p => Zpos m * 2 ^ Zpos p
               | Zneg p => Zpos m / 2 ^ Zpos p
               end in
      Ret (if s then - a else a)
  | S754_infinity _ => Raise OverflowError
  | S754_nan => Raise ValueError
  end.

(** Exact comparison of a float with an integer, as CPython's
    [float_richcompare] does it; [None] when the float is NaN. *)
Definition float_cmp_Z (f : float) (z : Z) : option comparison :=
  match Prim2SF f with
  | S754_nan => None
  | S754_infinity s => Some (if s then Lt else Gt)
  | S754_zero _ => Some (0 ?= z)
  | S754_finite s m e =>
      let v := if s then Zneg m else Zpos m in
      match e with
      | Z0 => Some (v ?= z)
      | Zpos p => Some (v * 2 ^ Zpos p ?= z)
      | Zneg p => Some (v ?= z * 2 ^ Zpos p)
      end
  end.

Definition py_compare (a b : pynum) : option comparison :=
  match a, b with
  | PyInt x, PyInt y => Some (x ?= y)
  | PyFloat x, PyInt y => float_cmp_Z x y
  | PyInt x, PyFloat y => option_map CompOpp (float_cmp_Z y x)
  | PyFloat x, PyFloat y =>
      match PrimFloat.compare x y with
      | FEq => Some Eq
      | FLt => Some Lt
      | FGt => Some Gt
      | FNotComparable => None
      end
  end.

(** [a <= b] *)
Definition py_le (a b : pynum) : bool :=
  match py_compare a b with
  | Some Lt | Some Eq => true
  | _ => false
  end.

(** [a != b] *)
Definition py_ne (a b : pynum) : bool :=
  match py_compare a b with
  | Some Eq => false
  | _ => true
  end.

(** [a + b] *)
Definition py_add (a b : pynum) : pynum :=
  match a, b with
  | PyInt x, PyInt y => PyInt (x + y)
  | PyFloat x, PyInt y => PyFloat (PrimFloat.add x (float_of_Z y))
  | PyInt x, PyFloat y => PyFloat (PrimFloat.add (float_of_Z x) y)
  | PyFloat x, PyFloat y => PyFloat (PrimFloat.add x y)
  end.

(** [a / b] on two [int]s (true division). *)
Definition py_truediv (a b : Z) : res float :=
  if b =? 0 then Raise ZeroDivisionError
  else Ret (PrimFloat.div (float_of_Z a) (float_of_Z b)).

(** [a % f] for an [int] [a >= 0] and a float [f]: Python's [float_rem]
    computes [fmod], which is exact.  The only call site evaluates it
    after the range check [1 <= f <= 360], so [f] is finite and positive
    there; on any other float the value is NaN. *)
Definition py_mod_float (a : Z) (f : float) : float :=
  match Prim2SF f with
  | S754_finite false m e =>
      match e with
      | Z0 => float_of_Z (a mod Zpos m)
      | Zpos p => float_of_Z (a mod (Zpos m * 2 ^ Zpos p))
      | Zneg p =>
          Z.ldexp (float_of_Z ((a * 2 ^ Zpos p) mod Zpos m)) (Zneg p)
      end
  | _ => PrimFloat.nan
  end.

(** [a % n] for an [int] [a >= 0]. *)
Definition py_mod (a : Z) (n : pynum) : res pynum :=
  match n with
  | PyInt z => if z =? 0 then Raise ZeroDivisionError else Ret (PyInt (a mod z))
  | PyFloat f => Ret (PyFloat (py_mod_float a f))
  end.

(** [s.upper()] on ASCII text. *)
Definition upper_ascii (c : ascii) : ascii :=
  let n := nat_of_ascii c in
  if ((97 <=? n) && (n <=? 122))%nat then ascii_of_nat (n - 32) else c.

Fixpoint upper (s : string) : string :=
  match s with
  | EmptyString => EmptyString
  | String c r => String (upper_ascii c) (upper r)
  end.

(** ** Parsed YAML values (what [yaml.safe_load] hands to the validator)

    [YOther] stands for the remaining objects the loader can build
    (dates, byte strings, sets), known by the name of their type only. *)

Inductive yval : Type :=
| YNone
| YBool (b : bool)
| YInt (z : Z)
| YFloat (f : float)
| YStr (s : string)
| YList (l : list yval)
| YDict (d : list (string * yval))
| YOther (typename : string).

(** [key in d] and [d[key]] / [d.get(key)] on a mapping. *)
Fixpoint dict_get (d : list (string * yval)) (key : string) : option yval :=
  match d with
  | [] => None
  | (k, v) :: r => if String.eqb k key then Some v else dict_get r key
  end.

Definition dict_has (d : list (string * yval)) (key : string) : bool :=
  match dict_get d key with Some _ => true | None => false end.

(** [type(v).__name__] *)
Definition type_name (v : yval) : string :=
  match v with
  | YNone => "NoneType"
  | YBool _ => "bool"
  | YInt _ => "int"
  | YFloat _ => "float"
  | YStr _ => "str"
  | YList _ => "list"
  | YDict _ => "dict"
  | YOther typename => typename
  end.

(** [isinstance(v, (int, float))] together with the numeric value;
    [bool] is a subclass of [int]. *)
Definition as_number (v : yval) : option pynum :=
  match v with
  | YBool b => Some (PyInt (if b then 1 else 0))
  | YInt z => Some (PyInt z)
  | YFloat f => Some (PyFloat f)
  | _ => None
  end.

(** [float(v)] *)
Definition py_float (v : yval) : res float :=
  match as_number v with
  | Some (PyInt z) => Ret (float_of_Z z)
  | Some (PyFloat f) => Ret f
  | None => Raise TypeError
  end.

(** [int(v)] *)
Definition py_int (v : yval) : res Z :=
  match as_number v with
  | Some (PyInt z) => Ret z
  | Some (PyFloat f) => int_of_float f
  | None => Raise TypeError
  end.

(** ** The validator: [yaml_sequence_validator.py] *)

Inductive ModeType : Type := OBSERVATION | CALIBRATION.

(** [ModeType.value] *)
Definition ModeType_value (m : ModeType) : string :=
  match m with
  | OBSERVATION => "observation"
  | CALIBRATION => "calibration"
  end.

Record Modulation : Type := {
  alpha : float;
  beta : float;
  SONG_int_time : float;
  description : option string
}.

(** One constructor per message template that the validator appends to
    [self.errors]; the arguments are the values the f-string
    interpolates.  The messages are kept as data and are not formatted:
    the text Python builds for them, and the [ValueError] its f-string
    raises for an [int] of more than 4300 digits, are outside the
    model. *)
Inductive verror : Type :=
| ErrLoad (msg : string)
| ErrRootNotDict
| ErrModesNotDict
| ErrNoModePresent
| ErrSeveralModesPresent
| ErrModeNotDict (mode_name : string)
| ErrModeMissingModulations (mode_name : string)
| ErrModulationsNotList (mode_name : string)
| ErrModeNoModulation (mode_name : string)
| ErrModulationNotDict (index : nat)
| ErrModulationMissingField (index : nat) (field : string)
| ErrAngleNotNumber (index : nat) (angle : string) (typename : string)
| ErrAngleRange (index : nat) (angle : string) (got : yval)
| ErrIntTimeNotNumber (typename : string)
| ErrIntTimeRange (got : yval)
| ErrDescriptionNotString (index : nat)
| ErrOffsetsNotNumber (typename : string)
| ErrOffsetsRange (got : yval)
| ErrOffsetsNotFactor (got : yval)
| ErrCalibrationMissingOffsets.

(** What [_load_yaml] produces for the configured file path or content:
    the parsed document, or the text of the [ValidationError] it raises
    (invalid YAML, file not found).  YAML parsing itself is outside the
    model.  Any other exception of [open] and of reading (a directory, a
    file that may not be read or is no text) escapes [validate()]; it is
    no [load_result], and the validator is stated for the sources that
    can be read.  The entry point, which catches such an exception, has
    it in [load_yaml] of its [Host]. *)
Inductive load_result : Type :=
| Loaded (doc : yval)
| LoadFailed (msg : string).

Record validator : Type := {
  yaml_source : option load_result;
  data : option yval;
  errors : list verror;
  is_valid_flag : bool;
  mode_type : option ModeType;
  modulations : list Modulation;
  retarding_plate_offsets : option Z
}.

Module YAMLSequenceValidator.

Definition V (A : Type) : Type := M validator A.

Definition set_data (d : option yval) (v : validator) : validator :=
  {| yaml_source := yaml_source v; data := d; errors := errors v;
     is_valid_flag := is_valid_flag v; mode_type := mode_type v;
     modulations := modulations v;
     retarding_plate_offsets := retarding_plate_offsets v |}.

Definition set_errors (e : list verror) (v : validator) : validator :=
  {| yaml_source := yaml_source v; data := data v; errors := e;
     is_valid_flag := is_valid_flag v; mode_type := mode_type v;
     modulations := modulations v;
     retarding_plate_offsets := retarding_plate_offsets v |}.

Definition set_is_valid_flag (b : bool) (v : validator) : validator :=
  {| yaml_source := yaml_source v; data := data v; errors := errors v;
     is_valid_flag := b; mode_type := mode_type v;
     modulations := modulations v;
     retarding_plate_offsets := retarding_plate_offsets v |}.

Definition set_mode_type (m : option ModeType) (v : validator) : validator :=
  {| yaml_source := yaml_source v; data := data v; errors := errors v;
     is_valid_flag := is_valid_flag v; mode_type := m;
     modulations := modulations v;
     retarding_plate_offsets := retarding_plate_offsets v |}.

Definition set_modulations (l : list Modulation) (v : validator) : validator :=
  {| yaml_source := yaml_source v; data := data v; errors := errors v;
     is_valid_flag := is_valid_flag v; mode_type := mode_type v;
     modulations := l;
     retarding_plate_offsets := retarding_plate_offsets v |}.

Definition set_retarding_plate_offsets (o : option Z) (v : validator)
  : validator :=
  {| yaml_source := yaml_source v; data := data v; errors := errors v;
     is_valid_flag := is_valid_flag v; mode_type := mode_type v;
     modulations := modulations v;
     retarding_plate_offsets := o |}.

(** [self.errors.append(e)] *)
Definition errors_append (e : verror) : V unit :=
  modify (fun v => set_errors (errors v ++ [e]) v).

(** [d[key]] *)
Definition dict_item (d : list (string * yval)) (key : string) : V yval :=
  match dict_get d key with
  | Some x => ret x
  | None => raise (KeyError key)
  end.

(** The float literal [0.1]. *)
Definition f0_1 : float := 0x1.999999999999ap-4%float.

Definition _validate_angle (angle : yval) (index : nat) (angle_name : string)
  : V bool :=
  match as_number angle with
  | None =>
      errors_append (ErrAngleNotNumber index angle_name (type_name angle)) ;;
      ret false
  | Some n =>
      if negb (py_le (PyInt (-180)) n && py_le n (PyInt 180)) then
        errors_append (ErrAngleRange index angle_name angle) ;;
        ret false
      else ret true
  end.

Definition _validate_integration_time (int_time : yval) : V bool :=
  match as_number int_time with
  | None =>
      errors_append (ErrIntTimeNotNumber (type_name int_time)) ;;
      ret false
  | Some n =>
      if negb (py_le (PyFloat f0_1) n && py_le n (PyInt 300)) then
        errors_append (ErrIntTimeRange int_time) ;;
        ret false
      else ret true
  end.

Definition _validate_retarding_plate_offsets (offsets : yval) : V bool :=
  match as_number offsets with
  | None =>
      errors_append (ErrOffsetsNotNumber (type_name offsets)) ;;
      ret false
  | Some n =>
      if negb (py_le (PyInt 1) n && py_le n (PyInt 360)) then
        errors_append (ErrOffsetsRange offsets) ;;
        ret false
      else
        r <- lift (py_mod 360 n) ;;
        if py_ne r (PyInt 0) then
          errors_append (ErrOffsetsNotFactor offsets) ;;
          ret false
        else ret true
  end.

Definition required_fields : list string := ["alpha"; "beta"; "SONG_int_time"].

Definition _validate_modulation (modulation : yval) (index : nat)
  : V (option Modulation) :=
  match modulation with
  | YDict d =>
      match find (fun field => negb (dict_has d field)) required_fields with
      | Some field =>
          errors_append (ErrModulationMissingField index field) ;;
          ret None
      | None =>
          a <- dict_item d "alpha" ;;
          alpha_valid <- _validate_angle a index "alpha" ;;
          b <- dict_item d "beta" ;;
          beta_valid <- _validate_angle b index "beta" ;;
          t <- dict_item d "SONG_int_time" ;;
          int_time_valid <- _validate_integration_time t ;;
          let finish (descr : option string) : V (option Modulation) :=
            if alpha_valid && beta_valid && int_time_valid then
              fa <- lift (py_float a) ;;
              fb <- lift (py_float b) ;;
              ft <- lift (py_float t) ;;
              ret (Some {| alpha := fa; beta := fb; SONG_int_time := ft;
                           description := descr |})
            else ret None in
          match dict_get d "description" with
          | None | Some YNone => finish None
          | Some (YStr s) => finish (Some s)
          | Some _ =>
              errors_append (ErrDescriptionNotString index) ;;
              ret None
          end
      end
  | _ =>
      errors_append (ErrModulationNotDict index) ;;
      ret None
  end.

(** The loop [for i, modulation in enumerate(modulations)] of
    [_validate_mode], accumulating [valid_modulations]. *)
Fixpoint validate_each (l : list yval) (i : nat) (valid : list Modulation)
  : V (list Modulation) :=
  match l with
  | [] => ret valid
  | modulation :: rest =>
      validated_mod <- _validate_modulation modulation i ;;
      match validated_mod with
      | Some m => validate_each rest (S i) (valid ++ [m])
      | None => validate_each rest (S i) valid
      end
  end.

Definition _validate_mode (mode_name : string) (mode_data : yval) : V bool :=
  match mode_data with
  | YDict md =>
      match dict_get md "modulations" with
      | None =>
          errors_append (ErrModeMissingModulations mode_name) ;; ret false
      | Some (YList mods) =>
          match mods with
          | [] => errors_append (ErrModeNoModulation mode_name) ;; ret false
          | _ =>
              valid_modulations <- validate_each mods 0 [] ;;
              match valid_modulations with
              | [] => ret false
              | _ =>
                  modify (set_modulations valid_modulations) ;;
                  if String.eqb mode_name "calibration" then
                    match dict_get md "retarding_plate_offsets" with
                    | None =>
                        errors_append ErrCalibrationMissingOffsets ;;
                        ret false
                    | Some offsets =>
                        ok <- _validate_retarding_plate_offsets offsets ;;
                        if negb ok then ret false
                        else
                          o <- lift (py_int offsets) ;;
                          modify (set_retarding_plate_offsets (Some o)) ;;
                          ret true
                    end
                  else ret true
              end
          end
      | Some _ =>
          errors_append (ErrModulationsNotList mode_name) ;; ret false
      end
  | _ => errors_append (ErrModeNotDict mode_name) ;; ret false
  end.

Definition valid_modes : list (string * ModeType) :=
  [("observation", OBSERVATION); ("calibration", CALIBRATION)].

Definition validate : V bool :=
  modify (set_errors []) ;;
  modify (set_is_valid_flag false) ;;
  modify (set_mode_type None) ;;
  modify (set_modulations []) ;;
  modify (set_retarding_plate_offsets None) ;;
  v <- get ;;
  match yaml_source v with
  | None =>
      errors_append (ErrLoad "No YAML file path or content provided") ;;
      ret false
  | Some (LoadFailed msg) => errors_append (ErrLoad msg) ;; ret false
  | Some (Loaded doc) =>
      modify (set_data (Some doc)) ;;
      match doc with
      | YDict root =>
          modes <- dict_item root "modes" ;;
          match modes with
          | YDict ms =>
              let present_modes :=
                filter (fun m => dict_has ms (fst m)) valid_modes in
              match present_modes with
              | [] => errors_append ErrNoModePresent ;; ret false
              | [(mode_name, mt)] =>
                  modify (set_mode_type (Some mt)) ;;
                  mode_data <- dict_item ms mode_name ;;
                  ok <- _validate_mode mode_name mode_data ;;
                  if negb ok then ret false
                  else
                    modify (set_is_valid_flag true) ;;
                    ret true
              | _ => errors_append ErrSeveralModesPresent ;; ret false
              end
          | _ => errors_append ErrModesNotDict ;; ret false
          end
      | _ => errors_append ErrRootNotDict ;; ret false
      end
  end.

(** [__init__]: the fields as the constructor sets them, before the
    optional call of [validate]. *)
Definition fresh (src : option load_result) : validator :=
  {| yaml_source := src; data := None; errors := []; is_valid_flag := false;
     mode_type := None; modulations := []; retarding_plate_offsets := None |}.

(** [YAMLSequenceValidator(path, content)]: [validate] runs only when a
    path or content was given. *)
Definition init (src : option load_result) : res unit * validator :=
  match src with
  | None => (Ret tt, fresh None)
  | Some _ => (_ <- validate ;; ret tt) (fresh src)
  end.

Definition is_valid (v : validator) : list verror := errors v.

Definition get_errors (v : validator) : list verror := errors v.

Definition get_mode (v : validator) : option string :=
  option_map ModeType_value (mode_type v).

Definition get_modulations (v : validator) : list Modulation := modulations v.

Definition get_modulation_count (v : validator) : Z :=
  Z.of_nat (List.length (modulations v)).

Definition get_retarding_plate_offsets (v : validator) : option Z :=
  retarding_plate_offsets v.

Definition get_number_of_cycles (v : validator) : res (option Z) :=
  match retarding_plate_offsets v with
  | Some o =>
      match py_truediv 360 o with
      | Ret q =>
          match int_of_float q with
          | Ret n => Ret (Some n)
          | Raise e => Raise e
          end
      | Raise e => Raise e
      end
  | None => Ret None
  end.

(** [get_modulation(index)]: the guard [0 <= index < len(self.modulations)]
    comes before the subscript. *)
Definition get_modulation (v : validator) (index : Z)
  : res (option Modulation) :=
  if (0 <=? index) && (index <? Z.of_nat (List.length (modulations v))) then
    match nth_error (modulations v) (Z.to_nat index) with
    | Some m => Ret (Some m)
    | None => Raise IndexError
    end
  else Ret None.

(** The dictionary of [get_modulation_parameters]. *)
Definition parameters_of (m : Modulation) : list (string * yval) :=
  [("alpha", YFloat (alpha m));
   ("beta", YFloat (beta m));
   ("SONG_int_time", YFloat (SONG_int_time m));
   ("description",
    match description m with Some s => YStr s | None => YNone end)].

Definition get_modulation_parameters (v : validator) (index : Z)
  : res (option (list (string * yval))) :=
  match get_modulation v index with
  | Ret (Some modulation) => Ret (Some (parameters_of modulation))
  | Ret None => Ret None
  | Raise e => Raise e
  end.

Definition set_yaml_source (src : option load_result) (v : validator)
  : validator :=
  {| yaml_source := src; data := data v; errors := errors v;
     is_valid_flag := is_valid_flag v; mode_type := mode_type v;
     modulations := modulations v;
     retarding_plate_offsets := retarding_plate_offsets v |}.

(** [load_from_file(path)]: the source is replaced and [validate] runs;
    [src] is what [_load_yaml] produces for the new path. *)
Definition load_from_file (src : option load_result) : V bool :=
  modify (set_yaml_source src) ;;
  validate.

(** [load_from_string(content)], with [src] what [_load_yaml] produces
    for the new content. *)
Definition load_from_string (src : option load_result) : V bool :=
  modify (set_yaml_source src) ;;
  validate.

End YAMLSequenceValidator.

(** ** What the engines exchange with the devices and the progress sink *)

(** The tuple that [set_modulation] returns: achieved alpha, beta, theta,
    translation-unit position, and the error code at index 4. *)
Record plc_values : Type := {
  plc_alpha : float;
  plc_beta : float;
  plc_theta : float;
  plc_translation_unit : float;
  plc_error : Z
}.

(** The dictionary that [send_acquire_cmd] returns; ["timestamp"] and
    ["filename"] are absent from the error replies the client builds. *)
Record song_dict : Type := {
  status : Z;
  message : string;
  timestamp : option string;
  filename : option string
}.

(** The dictionary built by [prepare_data_for_processing] (without the
    three connector objects, which are the devices below). *)
Record input_data : Type := {
  in_modulations : list Modulation;
  op_mode : string;
  modulations_count : Z;
  number_of_cycles : Z;
  offset_angle : Z;
  proj_number : Z;
  proj_name : string
}.

(** The dictionary emitted through [progress_updated]. *)
Record progress : Type := {
  percetage_done : Z;
  pg_number_of_cycles : Z;
  current_cycle : Z;
  current_step : Z;
  pg_alpha : float;
  pg_beta : float;
  pg_theta : float;
  translation_unit : float;
  pg_SONG_int_time : float
}.

Inductive level : Type := DEBUG | INFO | ERROR | CRITICAL.

(** Log texts, one constructor per template, with the interpolated values. *)
Inductive log_msg : Type :=
| LogProcessStarted
| LogProcessingMode (mode : string)
| LogSetModeError (code : Z) (descr : string)
| LogProcessFailed
| LogProcessingCycle (cycle total : Z) (theta : pynum) (nmods : nat)
| LogCompleted
| LogAborted (step cycle total : Z)
| LogProcessingModulation (step count : Z)
| LogSendingSetModulation (a b : float) (theta : option pynum)
| LogPlcFailed (step cycle total : Z) (code : Z) (descr : string)
| LogPlcReturn (r : plc_values) (descr : string)
| LogSendingAcquire (nr : Z) (name : string) (int_time : float)
    (image_type : string) (a b : float) (theta : pynum)
| LogAcquireReturn (image_type : string) (st : Z) (msg ts fn : string)
| LogAcquisitionSuccessful (st : Z) (msg ts fn : string)
| LogSongFailed (step cycle total : Z) (st : Z) (msg : string).

(** Texts sent through [status_updated]. *)
Inductive status_msg : Type :=
| StProcessingStarted
| StSetModeFailed (code : Z) (descr : string)
| StCompleted
| StAborted (step cycle total : Z)
| StSendingModulation
| StPlcFailed (step cycle total : Z) (descr : string)
| StSendingAcquire
| StAcquisitionSuccessful (fn : string)
| StSongFailed (step cycle total : Z).

Inductive print_msg : Type :=
| PrintRule
| PrintIsAborted (flag : bool).

(** Everything a run does that is visible outside the engine, in order:
    device calls with their arguments and results, reads of the abort
    flag, log and console output, and the three GUI signals. *)
Inductive event : Type :=
| EvSetMode (mode : string) (r : Z)
| EvGetErrorDescription (code : Z) (text : string)
| EvIsAborted (flag : bool)
| EvSetModulation (a b : float) (theta : option pynum) (r : plc_values)
| EvAcquire (nr : Z) (name : string) (exptime : float) (imagetype : string)
    (a b : float) (theta : pynum) (comment : string) (r : song_dict)
| EvLog (lvl : level) (msg : log_msg)
| EvPrint (msg : print_msg)
| EvProgress (d : progress)
| EvStatus (msg : status_msg)
| EvFinished (completed : bool).

(** The two device clients and the abort flag, over an arbitrary world
    state: every call may depend on and change the world (the devices,
    and whoever sets the abort flag from outside). *)
Record Devices (World : Type) : Type := {
  musol_set_mode : string -> World -> Z * World;
  musol_set_modulation :
    float -> float -> option pynum -> World -> plc_values * World;
  musol_get_error_description : Z -> World -> string * World;
  song_send_acquire_cmd :
    Z -> string -> float -> string -> float -> float -> pynum -> string ->
    World -> song_dict * World;
  abort_flag : World -> bool * World
}.

Section Calls.

Variable World : Type.
Variable D : Devices World.

(** An engine computation threads the world and the trace so far. *)
Definition E (A : Type) : Type := M (World * list event) A.

Definition emit (e : event) : E unit :=
  fun s => (Ret tt, (fst s, snd s ++ [e])).

Definition call {A} (f : World -> A * World) (ev : A -> event) : E A :=
  fun s => let r := f (fst s) in (Ret (fst r), (snd r, snd s ++ [ev (fst r)])).

Definition set_mode (mode : string) : E Z :=
  call (musol_set_mode D mode) (EvSetMode mode).

Definition get_error_description (code : Z) : E string :=
  call (musol_get_error_description D code) (EvGetErrorDescription code).

Definition is_aborted : E bool :=
  call (abort_flag D) EvIsAborted.

Definition set_modulation (a b : float) (theta : option pynum)
  : E plc_values :=
  call (musol_set_modulation D a b theta) (EvSetModulation a b theta).

Definition send_acquire_cmd (nr : Z) (name : string) (exptime : float)
    (imagetype : string) (a b : float) (theta : pynum) (comment : string)
  : E song_dict :=
  call (song_send_acquire_cmd D nr name exptime imagetype a b theta comment)
       (EvAcquire nr name exptime imagetype a b theta comment).

(** [modulations[i]] *)
Definition list_item {A} (l : list A) (i : nat) : E A :=
  match nth_error l i with
  | Some x => ret x
  | None => raise IndexError
  end.

(** [return_dic[key]] for a key that may be absent. *)
Definition dict_key (key : string) (o : option string) : E string :=
  match o with
  | Some x => ret x
  | None => raise (KeyError key)
  end.

(** A [for i in ...] loop whose body may [return] a code. *)
Fixpoint for_each {S} (body : nat -> M S (option Z)) (idx : list nat)
  : M S (option Z) :=
  match idx with
  | [] => ret None
  | i :: rest =>
      r <- body i ;;
      match r with
      | Some code => ret (Some code)
      | None => for_each body rest
      end
  end.

(** [range(n)] *)
Definition range (n : Z) : list nat := seq 0 (Z.to_nat n).

(** The first lines of both [process_modulations]. *)
Definition theta_setup (current_theta : pynum)
  : option pynum * pynum * string :=
  if py_ne current_theta (PyInt 999)
  then (Some current_theta, current_theta, "CALIB")
  else (None, current_theta, "SUN").

(** [description] with the single-space default. *)
Definition description_or_space (m : Modulation) : string :=
  match description m with
  | None => " "
  | Some d => if String.eqb d "" then " " else d
  end.

End Calls.

(** ** The foreground engine: [cli/sequence_processor.py] *)

Module MusolsongCLI.

Definition prepare_data_for_processing (v : validator)
    (project_name : string) (project_number : Z) : res input_data :=
  match YAMLSequenceValidator.get_number_of_cycles v with
  | Raise e => Raise e
  | Ret cycles =>
      match
        match cycles with
        | None => Some (1, 0)
        | Some n =>
            match YAMLSequenceValidator.get_retarding_plate_offsets v with
            | Some o => Some (n, o)
            | None => None
            end
        end
      with
      | None => Raise TypeError
      | Some (n_cycles, offset) =>
          match YAMLSequenceValidator.get_mode v with
          | None => Raise AttributeError
          | Some mode =>
              Ret {| in_modulations := YAMLSequenceValidator.get_modulations v;
                     op_mode := upper mode;
                     modulations_count :=
                       YAMLSequenceValidator.get_modulation_count v;
                     number_of_cycles := n_cycles;
                     offset_angle := offset;
                     proj_number := project_number;
                     proj_name := project_name |}
          end
      end
  end.

Section Engine.

Variable World : Type.
Variable D : Devices World.

Definition process_step (mod_data : input_data) (cycle : Z)
    (theta_deg_for_PLC : option pynum) (theta_deg_for_SONG : pynum)
    (image_type : string) (i : nat) : E World (option Z) :=
  let step := Z.of_nat i + 1 in
  let total := number_of_cycles mod_data in
  aborted <- is_aborted D ;;
  if (aborted : bool) then
    emit (EvLog INFO (LogAborted step cycle total)) ;;
    ret (Some 2)
  else
    modulation <- list_item (in_modulations mod_data) i ;;
    emit (EvLog INFO
            (LogProcessingModulation step (modulations_count mod_data))) ;;
    let alpha_deg := alpha modulation in
    let beta_deg := beta modulation in
    let int_time := SONG_int_time modulation in
    let descr := description_or_space modulation in
    emit (EvLog INFO
            (LogSendingSetModulation alpha_deg beta_deg theta_deg_for_PLC)) ;;
    return_PLC_values <- set_modulation D alpha_deg beta_deg theta_deg_for_PLC ;;
    let error_var := plc_error return_PLC_values in
    if negb (error_var =? 0) then
      d <- get_error_description D error_var ;;
      emit (EvLog CRITICAL (LogPlcFailed step cycle total error_var d)) ;;
      ret (Some 1)
    else
      d <- get_error_description D error_var ;;
      emit (EvLog INFO (LogPlcReturn return_PLC_values d)) ;;
      emit (EvLog INFO
              (LogSendingAcquire (proj_number mod_data) (proj_name mod_data)
                 int_time image_type alpha_deg beta_deg theta_deg_for_SONG)) ;;
      return_dic <- send_acquire_cmd D (proj_number mod_data)
                      (proj_name mod_data) int_time image_type
                      alpha_deg beta_deg theta_deg_for_SONG descr ;;
      if status return_dic =? 0 then
        ts <- dict_key "timestamp" (timestamp return_dic) ;;
        fn <- dict_key "filename" (filename return_dic) ;;
        emit (EvLog INFO
                (LogAcquisitionSuccessful (status return_dic)
                   (message return_dic) ts fn)) ;;
        ret None
      else
        emit (EvLog ERROR
                (LogSongFailed step cycle total (status return_dic)
                   (message return_dic))) ;;
        ret (Some 1).

Definition process_modulations (mod_data : input_data) (current_cycle : Z)
    (current_theta : pynum) : E World Z :=
  let '(theta_plc, theta_song, image_type) := theta_setup current_theta in
  r <- for_each
         (process_step mod_data current_cycle theta_plc theta_song image_type)
         (range (modulations_count mod_data)) ;;
  ret (match r with Some code => code | None => 0 end).

(** What follows a cycle that returned a code [>= 1]. *)
Definition report_failed : E World bool :=
  flag <- is_aborted D ;;
  emit (EvPrint (PrintIsAborted flag)) ;;
  emit (EvLog ERROR LogProcessFailed) ;;
  ret false.

(** The calibration loop [for i in range(number_of_cycles)]; [true] when
    every cycle returned 0. *)
Fixpoint calibration_cycles (mod_data : input_data) (idx : list nat)
    (current_theta : pynum) : E World bool :=
  match idx with
  | [] => ret true
  | i :: rest =>
      let current_cycle := Z.of_nat i + 1 in
      emit (EvPrint PrintRule) ;;
      emit (EvLog INFO
              (LogProcessingCycle current_cycle (number_of_cycles mod_data)
                 current_theta (List.length (in_modulations mod_data)))) ;;
      r <- process_modulations mod_data current_cycle current_theta ;;
      if 1 <=? r then report_failed
      else calibration_cycles mod_data rest
             (py_add current_theta (PyInt (offset_angle mod_data)))
  end.

Definition process_modulation_data (mod_data : input_data) : E World bool :=
  emit (EvLog INFO LogProcessStarted) ;;
  emit (EvLog INFO (LogProcessingMode (op_mode mod_data))) ;;
  mode_status <- set_mode D (op_mode mod_data) ;;
  if negb (mode_status =? 0) then
    d <- get_error_description D mode_status ;;
    emit (EvLog CRITICAL (LogSetModeError mode_status d)) ;;
    ret false
  else
    completed <-
      (if String.eqb (op_mode mod_data) "OBSERVATION" then
         r <- process_modulations mod_data 1 (PyInt 999) ;;
         if 1 <=? r then report_failed else ret true
       else
         calibration_cycles mod_data (range (number_of_cycles mod_data))
           (PyFloat 0%float)) ;;
    if (completed : bool) then
      emit (EvLog DEBUG LogCompleted) ;;
      ret true
    else ret false.

(** A run from a fresh trace. *)
Definition run (mod_data : input_data) (w : World)
  : res bool * (World * list event) :=
  process_modulation_data mod_data (w, []).

End Engine.

End MusolsongCLI.

(** ** The background engine: [gui/background_QT_processing.py] *)

Module ProcessingWorker.

(** [int(modulations_sofar_processsed /
         total_modulations_to_be_processed * 100)] *)
Definition percentage (sofar total : Z) : res Z :=
  match py_truediv sofar total with
  | Raise e => Raise e
  | Ret q => int_of_float (PrimFloat.mul q (float_of_Z 100))
  end.

Definition prepare_updated_data_for_GUI (modulations_count number_of_cycles
    cycle step : Z) (a b theta translation int_time : float)
  : res progress :=
  let total_steps := modulations_count in
  let total_modulations_to_be_processed := total_steps * number_of_cycles in
  let modulations_sofar_processsed := (cycle - 1) * total_steps + step - 1 in
  match percentage modulations_sofar_processsed
          total_modulations_to_be_processed with
  | Raise e => Raise e
  | Ret percentage_done =>
      Ret {| percetage_done := percentage_done;
             pg_number_of_cycles := number_of_cycles;
             current_cycle := cycle;
             current_step := step;
             pg_alpha := a;
             pg_beta := b;
             pg_theta := theta;
             translation_unit := translation;
             pg_SONG_int_time := int_time |}
  end.

Section Engine.

Variable World : Type.
Variable D : Devices World.

Definition process_step (input : input_data) (cycle : Z)
    (theta_deg_for_PLC : option pynum) (theta_deg_for_SONG : pynum)
    (image_type : string) (i : nat) : E World (option Z) :=
  let step := Z.of_nat i + 1 in
  let count := modulations_count input in
  let total := number_of_cycles input in
  aborted <- is_aborted D ;;
  if (aborted : bool) then
    emit (EvStatus (StAborted step cycle total)) ;;
    emit (EvLog INFO (LogAborted step cycle total)) ;;
    ret (Some 1)
  else
    modulation <- list_item (in_modulations input) i ;;
    let alpha_deg := alpha modulation in
    let beta_deg := beta modulation in
    let int_time := SONG_int_time modulation in
    let descr := description_or_space modulation in
    emit (EvLog INFO
            (LogSendingSetModulation alpha_deg beta_deg theta_deg_for_PLC)) ;;
    emit (EvStatus StSendingModulation) ;;
    return_PLC_values <- set_modulation D alpha_deg beta_deg theta_deg_for_PLC ;;
    let error_var := plc_error return_PLC_values in
    if negb (error_var =? 0) then
      d1 <- get_error_description D error_var ;;
      emit (EvStatus (StPlcFailed step cycle total d1)) ;;
      d2 <- get_error_description D error_var ;;
      emit (EvLog CRITICAL (LogPlcFailed step cycle total error_var d2)) ;;
      ret (Some 1)
    else
      d <- get_error_description D error_var ;;
      emit (EvLog DEBUG (LogPlcReturn return_PLC_values d)) ;;
      status_updated_dict <-
        lift (prepare_updated_data_for_GUI count total cycle step
                (plc_alpha return_PLC_values) (plc_beta return_PLC_values)
                (plc_theta return_PLC_values)
                (plc_translation_unit return_PLC_values) int_time) ;;
      emit (EvProgress status_updated_dict) ;;
      emit (EvStatus StSendingAcquire) ;;
      emit (EvLog INFO
              (LogSendingAcquire (proj_number input) (proj_name input)
                 int_time image_type alpha_deg beta_deg theta_deg_for_SONG)) ;;
      return_dic <- send_acquire_cmd D (proj_number input) (proj_name input)
                      int_time image_type alpha_deg beta_deg
                      theta_deg_for_SONG descr ;;
      if status return_dic =? 0 then
        ts <- dict_key "timestamp" (timestamp return_dic) ;;
        fn <- dict_key "filename" (filename return_dic) ;;
        emit (EvLog DEBUG
                (LogAcquireReturn image_type (status return_dic)
                   (message return_dic) ts fn)) ;;
        emit (EvStatus (StAcquisitionSuccessful fn)) ;;
        emit (EvLog INFO
                (LogAcquisitionSuccessful (status return_dic)
                   (message return_dic) ts fn)) ;;
        ret None
      else
        emit (EvStatus (StSongFailed step cycle total)) ;;
        emit (EvLog ERROR
                (LogSongFailed step cycle total (status return_dic)
                   (message return_dic))) ;;
        ret (Some 1).

Definition process_modulations (input : input_data) (cycle : Z)
    (current_theta : pynum) : E World Z :=
  let '(theta_plc, theta_song, image_type) := theta_setup current_theta in
  r <- for_each
         (process_step input cycle theta_plc theta_song image_type)
         (range (modulations_count input)) ;;
  ret (match r with Some code => code | None => 0 end).

(** The calibration loop; [true] when no cycle returned 1.  On a cycle
    that returned 1 the loop has already emitted
    [processing_finished(False)]. *)
Fixpoint calibration_cycles (input : input_data) (idx : list nat)
    (current_theta : pynum) : E World bool :=
  match idx with
  | [] => ret true
  | i :: rest =>
      let current_cycle := Z.of_nat i + 1 in
      emit (EvLog INFO
              (LogProcessingCycle current_cycle (number_of_cycles input)
                 current_theta (List.length (in_modulations input)))) ;;
      r <- process_modulations input current_cycle current_theta ;;
      if r =? 1 then
        emit (EvFinished false) ;;
        ret false
      else calibration_cycles input rest
             (py_add current_theta (PyInt (offset_angle input)))
  end.

Definition process_modulation_data (input : input_data) : E World unit :=
  emit (EvStatus StProcessingStarted) ;;
  retval <- set_mode D (op_mode input) ;;
  if retval =? 0 then
    completed <-
      (if String.eqb (op_mode input) "OBSERVATION" then
         r <- process_modulations input 1 (PyInt 999) ;;
         if r =? 1 then
           emit (EvFinished false) ;;
           ret false
         else ret true
       else
         calibration_cycles input (range (number_of_cycles input))
           (PyFloat 0%float)) ;;
    if (completed : bool) then
      emit (EvStatus StCompleted) ;;
      emit (EvFinished true) ;;
      ret tt
    else ret tt
  else
    d1 <- get_error_description D retval ;;
    emit (EvLog CRITICAL (LogSetModeError retval d1)) ;;
    d2 <- get_error_description D retval ;;
    emit (EvStatus (StSetModeFailed retval d2)) ;;
    emit (EvFinished false) ;;
    ret tt.

(** A run from a fresh trace. *)
Definition run (input : input_data) (w : World)
  : res unit * (World * list event) :=
  process_modulation_data input (w, []).

End Engine.

End ProcessingWorker.

(** ** The entry point of the foreground engine:
       [MusolsongCLI.validate_project_yaml] and
       [MusolsongCLI.process_sequence_file]

    Besides the devices, these two methods look at the file system and
    ask the two clients whether they are connected.  Their log entries
    and the questions they ask are recorded in a trace of their own, in
    which the events of the engine are embedded. *)

(** [Path.exists()] and [Path.is_file()] answer or raise (an [OSError]
    for a name that the system refuses); [load_yaml] is the constructor
    of the validator reading the file, which gives what [_load_yaml]
    produces or raises what [open] and the reader raise. *)
Record Host (World : Type) : Type := {
  path_exists : string -> World -> res bool * World;
  path_is_file : string -> World -> res bool * World;
  load_yaml : string -> World -> res load_result * World;
  song_is_connected : World -> bool * World;
  plc_is_connected : World -> bool * World
}.

(** Log texts of the two methods, with the interpolated values. *)
Inductive cli_msg : Type :=
| MsgValidating (path : string)
| MsgNotExist (path : string)
| MsgNotFile (path : string)
| MsgFileValid
| MsgValidationErrors (errs : list verror)
| MsgReadError (e : exn)
| MsgProjectValid
| MsgValidateOnly
| MsgSongNotConnected
| MsgPlcNotConnected
| MsgNoSequence
| MsgStarting (name : string) (nr : Z)
| MsgProcessed (name : string)
| MsgProcessingFailed (e : exn).

Inductive cli_event : Type :=
| CliLog (lvl : level) (msg : cli_msg)
| CliExists (path : string) (r : bool)
| CliIsFile (path : string) (r : bool)
| CliLoad (path : string) (r : load_result)
| CliRaised (e : exn)
| CliSongConnected (r : bool)
| CliPlcConnected (r : bool)
| CliEngine (e : event).

(** The fields of the [MusolsongCLI] object that the two methods use,
    the world, and the trace. *)
Record cli_state (World : Type) : Type := {
  world : World;
  current_seq_data : option validator;
  current_file : option string;
  out : list cli_event
}.

Module SequenceFile.

Section Entry.

Variable World : Type.
Variable D : Devices World.
Variable H : Host World.

Definition C (A : Type) : Type := M (cli_state World) A.

Definition record (e : cli_event) : C unit :=
  modify (fun s => {| world := world s;
                      current_seq_data := current_seq_data s;
                      current_file := current_file s;
                      out := out s ++ [e] |}).

Definition log (lvl : level) (msg : cli_msg) : C unit :=
  record (CliLog lvl msg).

(** A question to the host, with its answer recorded. *)
Definition ask {A} (f : World -> A * World) (ev : A -> cli_event) : C A :=
  fun s => let r := f (world s) in
           (Ret (fst r),
            {| world := snd r;
               current_seq_data := current_seq_data s;
               current_file := current_file s;
               out := out s ++ [ev (fst r)] |}).

Definition set_current_seq_data (v : validator) : C unit :=
  modify (fun s => {| world := world s;
                      current_seq_data := Some v;
                      current_file := current_file s;
                      out := out s |}).

Definition set_current_file (path : string) : C unit :=
  modify (fun s => {| world := world s;
                      current_seq_data := current_seq_data s;
                      current_file := Some path;
                      out := out s |}).

(** A question to the host that may raise: the answer is recorded, or
    the exception. *)
Definition ask_res {A} (f : World -> res A * World) (ev : A -> cli_event)
  : C A :=
  fun s => let r := f (world s) in
           (fst r,
            {| world := snd r;
               current_seq_data := current_seq_data s;
               current_file := current_file s;
               out := out s ++ [match fst r with
                                | Ret a => ev a
                                | Raise e => CliRaised e
                                end] |}).

(** What [_load_yaml] does when [validate] calls it on a validator
    built for [file_path]: nothing is read for the empty path; an
    exception other than the two that [_load_yaml] converts (a decoding
    error, a directory, a missing permission) leaves the validator.  The
    call stands inside the [try] of [validate_project_yaml], so the
    exception is kept as a value. *)
Definition read_source (file_path : string)
  : C (res (option load_result)) :=
  if String.eqb file_path "" then ret (Ret None)
  else
    fun s => let r := load_yaml H file_path (world s) in
             (Ret (match fst r with
                   | Ret l => Ret (Some l)
                   | Raise e => Raise e
                   end),
              {| world := snd r;
                 current_seq_data := current_seq_data s;
                 current_file := current_file s;
                 out := out s ++ [match fst r with
                                  | Ret l => CliLoad file_path l
                                  | Raise e => CliRaised e
                                  end] |}).

(** [validate_project_yaml]: [path.exists()] and [path.is_file()] stand
    before the [try] and their exceptions leave the method; what is
    raised while the file is read and validated is caught. *)
Definition validate_project_yaml (file_path : string) : C bool :=
  log INFO (MsgValidating file_path) ;;
  found <- ask_res (path_exists H file_path) (CliExists file_path) ;;
  if negb found then
    log ERROR (MsgNotExist file_path) ;;
    ret false
  else
    is_file <- ask_res (path_is_file H file_path) (CliIsFile file_path) ;;
    if negb is_file then
      log ERROR (MsgNotFile file_path) ;;
      ret false
    else
      (* [YAMLSequenceValidator(file_path)]: the constructor validates *)
      src1 <- read_source file_path ;;
      match src1 with
      | Raise e =>
          log ERROR (MsgReadError e) ;;
          ret false
      | Ret src1 =>
          match YAMLSequenceValidator.init src1 with
          | (Raise e, _) =>
              log ERROR (MsgReadError e) ;;
              ret false
          | (Ret _, sequence_data) =>
              set_current_file file_path ;;
              (* [sequence_data.validate()] reads the file again *)
              src2 <- read_source file_path ;;
              match src2 with
              | Raise e =>
                  log ERROR (MsgReadError e) ;;
                  ret false
              | Ret src2 =>
                  match YAMLSequenceValidator.validate
                          (YAMLSequenceValidator.set_yaml_source src2
                             sequence_data)
                  with
                  | (Ret true, v) =>
                      log INFO MsgFileValid ;;
                      set_current_seq_data v ;;
                      ret true
                  | (Ret false, v) =>
                      log ERROR
                        (MsgValidationErrors
                           (YAMLSequenceValidator.get_errors v)) ;;
                      ret false
                  | (Raise e, _) =>
                      log ERROR (MsgReadError e) ;;
                      ret false
                  end
              end
          end
      end.

(** [process_modulation_data] inside the [try] of
    [process_sequence_file]: its events are appended to the trace and
    an exception becomes a value. *)
Definition engine (input : input_data) : C (res bool) :=
  fun s =>
    let r := MusolsongCLI.process_modulation_data D input (world s, []) in
    (Ret (fst r),
     {| world := fst (snd r);
        current_seq_data := current_seq_data s;
        current_file := current_file s;
        out := out s ++ map CliEngine (snd (snd r)) |}).

Definition process_sequence_file (sequence_yaml_file project_name : string)
    (project_number : Z) (validate_only : bool) : C bool :=
  ok <- validate_project_yaml sequence_yaml_file ;;
  if negb ok then ret false
  else
    log INFO MsgProjectValid ;;
    if validate_only then
      log INFO MsgValidateOnly ;;
      ret true
    else
      song_ok <- ask (song_is_connected H) CliSongConnected ;;
      if negb song_ok then
        log CRITICAL MsgSongNotConnected ;;
        ret false
      else
        plc_ok <- ask (plc_is_connected H) CliPlcConnected ;;
        if negb plc_ok then
          log CRITICAL MsgPlcNotConnected ;;
          ret false
        else
          s <- get ;;
          match current_seq_data s with
          | None =>
              log CRITICAL MsgNoSequence ;;
              ret false
          | Some v =>
              log INFO (MsgStarting project_name project_number) ;;
              match MusolsongCLI.prepare_data_for_processing
                      v project_name project_number with
              | Raise e =>
                  log ERROR (MsgProcessingFailed e) ;;
                  ret false
              | Ret initial_data =>
                  r <- engine initial_data ;;
                  match r with
                  | Ret true =>
                      log DEBUG (MsgProcessed project_name) ;;
                      ret true
                  | Ret false => ret false
                  | Raise e =>
                      log ERROR (MsgProcessingFailed e) ;;
                      ret false
                  end
              end
          end.

(** A new [MusolsongCLI] object in the world [w]. *)
Definition start (w : World) : cli_state World :=
  {| world := w; current_seq_data := None; current_file := None;
     out := [] |}.

End Entry.

End SequenceFile.

(** ** The plan editor: [yamleditor/yaml_editor_gui/yaml_sequences_editor_gui.py]

    The widgets are modelled by the values they hold: a [QSpinBox] by
    its integer, a [QDoubleSpinBox] by its float, a [QLineEdit] by its
    text, a check box by its state.  Every row of a modulation table is
    created by [add_row] with its four cell widgets. *)

(** [c.isspace()] and [s.strip()] on ASCII text.  On other text Python
    also strips the white space of Unicode (U+00A0, U+2028 and others),
    which these definitions leave in place: what is proved with them is
    stated for ASCII text. *)
Definition is_space (c : ascii) : bool :=
  let n := nat_of_ascii c in
  ((9 <=? n) && (n <=? 13) || (28 <=? n) && (n <=? 32))%nat.

Fixpoint lstrip (s : string) : string :=
  match s with
  | EmptyString => EmptyString
  | String c r => if is_space c then lstrip r else s
  end.

Fixpoint rstrip (s : string) : string :=
  match s with
  | EmptyString => EmptyString
  | String c r =>
      match rstrip r with
      | EmptyString => if is_space c then EmptyString else String c EmptyString
      | r' => String c r'
      end
  end.

Definition strip (s : string) : string := rstrip (lstrip s).

Record table_row : Type := {
  alpha_spin : float;
  beta_spin : float;
  int_time_spin : float;
  desc_edit : string
}.

Record editor : Type := {
  cal_enabled : bool;
  obs_enabled : bool;
  offsets_spin : Z;
  cal_modulations : list table_row;
  obs_modulations : list table_row
}.

Inductive editor_error : Type :=
| EdNoModeEnabled
| EdBothModesEnabled
| EdCalibrationNoModulation
| EdOffsetNotFactor (offset_value : Z) (valid_factors : list Z)
| EdObservationNoModulation.

Inductive message_box : Type :=
| BoxWarning (errors : list editor_error)
| BoxInformation.

Inductive cycles_label : Type :=
| LabelInvalid (offset : Z)
| LabelCycles (required_cycles : Z).

Module YAMLEditorGUI.

Definition ALLOWED_THETA_ANGLE_VALUES : list Z :=
  [1; 2; 3; 4; 5; 6; 8; 9; 10; 12; 15; 18; 20; 24; 30; 36; 40; 45; 60; 72;
   90; 120; 180; 360].

(** [ModulationTableWidget.get_modulations] *)
Definition get_modulation_of_row (r : table_row) : yval :=
  YDict ([("alpha", YFloat (alpha_spin r));
          ("beta", YFloat (beta_spin r));
          ("SONG_int_time", YFloat (int_time_spin r))] ++
         match strip (desc_edit r) with
         | EmptyString => []
         | text => [("description", YStr text)]
         end).

Definition get_modulations (rows : list table_row) : list yval :=
  map get_modulation_of_row rows.

Definition update_number_of_cycles (e : editor) : cycles_label :=
  let offset := offsets_spin e in
  if negb (existsb (Z.eqb offset) ALLOWED_THETA_ANGLE_VALUES)
  then LabelInvalid offset
  else LabelCycles (360 / offset).

Definition is_factor_of_360 (value : Z) : bool :=
  if (value <=? 0) || (value >? 360) then false
  else 360 mod value =? 0.

Definition get_factors_of_360 : list Z :=
  filter (fun i => 360 mod i =? 0) (map Z.of_nat (seq 1 360)).

(** [validate_data]: the answer and the message box it shows. *)
Definition validate_data (e : editor) : bool * message_box :=
  let errors1 :=
    if negb (cal_enabled e) && negb (obs_enabled e)
    then [EdNoModeEnabled] else [] in
  let errors2 :=
    if cal_enabled e && obs_enabled e
    then errors1 ++ [EdBothModesEnabled] else errors1 in
  let errors3 :=
    if cal_enabled e then
      let cal_mods := get_modulations (cal_modulations e) in
      let errors3a :=
        match cal_mods with
        | [] => errors2 ++ [EdCalibrationNoModulation]
        | _ => errors2
        end in
      let offset_value := offsets_spin e in
      if negb (is_factor_of_360 offset_value)
      then errors3a ++ [EdOffsetNotFactor offset_value get_factors_of_360]
      else errors3a
    else errors2 in
  let errors4 :=
    if obs_enabled e then
      match get_modulations (obs_modulations e) with
      | [] => errors3 ++ [EdObservationNoModulation]
      | _ => errors3
      end
    else errors3 in
  match errors4 with
  | [] => (true, BoxInformation)
  | _ => (false, BoxWarning errors4)
  end.

Definition get_yaml_data (e : editor) : yval :=
  let cal :=
    if cal_enabled e then
      [("calibration",
        YDict [("retarding_plate_offsets", YInt (offsets_spin e));
               ("modulations", YList (get_modulations (cal_modulations e)))])]
    else [] in
  let obs :=
    if obs_enabled e then
      [("observation",
        YDict [("modulations", YList (get_modulations (obs_modulations e)))])]
    else [] in
  YDict [("modes", YDict (cal ++ obs))].

(** [save_to_file]: the document handed to [yaml.dump], if any. *)
Definition save_to_file (e : editor) : option yval :=
  if negb (fst (validate_data e)) then None
  else Some (get_yaml_data e).

End YAMLEditorGUI.

(** ** The simulated PLC library: [musol_lib_simulator/musol_simulator.py]

    The simulator draws random numbers and sleeps.  [draws] is the
    sequence of results of [random.random()], each a float in [0, 1),
    and [drawn] counts the draws made so far; what is slept and what
    [_log_message] hands to the log file is recorded in order. *)

Module MusolLibSimulator.

Definition SUCCESS : Z := 0.
Definition ERR_CONNECTION_FAILED : Z := 1.
Definition ERR_DIR_NOT_FOUND : Z := 2.
Definition ERR_INVALID_LENGTH : Z := 3.
Definition ERR_INVALID_MODE : Z := 4.
Definition ERR_INVALID_ANGLE : Z := 5.
Definition ERR_INVALID_POSITION : Z := 6.
Definition ERR_PLC_COMM_FAILURE : Z := 7.
Definition ERR_PLC_FAILURE : Z := 8.
Definition ERR_TIMEOUT : Z := 9.
Definition ERR_UNEXPECTED_CONDITION : Z := 10.
Definition ERR_EMERGENCY_STOP_ACTIVE : Z := 11.
Definition ERR_AXIS_NOT_READY : Z := 12.
Definition ERR_AXIS_NOT_CALIBRATED : Z := 13.

Definition VALID_MODES : list string := ["CALIBRATION"; "OBSERVATION"].

Definition alpha_min : float := (-180)%float.
Definition alpha_max : float := 180%float.
Definition beta_min : float := (-180)%float.
Definition beta_max : float := 180%float.
Definition theta_min : float := (-360)%float.
Definition theta_max : float := 360%float.

(** The float literals of the module. *)
Definition f0_01 : float := 0x1.47ae147ae147bp-7%float.
Definition f0_03 : float := 0x1.eb851eb851eb8p-6%float.
Definition f0_05 : float := 0x1.999999999999ap-5%float.
Definition f0_1 : float := 0x1.999999999999ap-4%float.
Definition f0_2 : float := 0x1.999999999999ap-3%float.
Definition f0_3 : float := 0x1.3333333333333p-2%float.
Definition f0_4 : float := 0x1.999999999999ap-2%float.
Definition f0_5 : float := 0x1p-1%float.
Definition f0_6 : float := 0x1.3333333333333p-1%float.
Definition f0_7 : float := 0x1.6666666666666p-1%float.
Definition f0_8 : float := 0x1.999999999999ap-1%float.
Definition f1_5 : float := 0x1.8p+0%float.

Record simulator : Type := {
  connected : bool;
  is_initialized : bool;
  current_mode : option string;
  logs_enabled : bool;
  logs_dir_path : option string;
  emergency_stop_active : bool;
  l511_position : float;
  dt80_01_position : float;
  dt80_02_position : float;
  dt80_03_position : float
}.

(** Log texts, one constructor per template. *)
Inductive sim_msg : Type :=
| SimAttemptingConnection (plc_ams_net_id : string)
| SimLogDirNotFound (path : string)
| SimConnectionFailed
| SimConnected (plc_ams_net_id : string)
| SimStartingHoming
| SimTimeoutHoming
| SimFailureHoming
| SimHomingCompleted
| SimInvalidMode (mode : string)
| SimTimeoutMode
| SimFailureMode
| SimModeSet (mode : string)
| SimInvalidAlpha (angle : float)
| SimInvalidBeta (angle : float)
| SimInvalidTheta (angle : pynum)
| SimTimeoutModulation
| SimFailureModulation
| SimModulationSet (a b : float) (theta : option pynum)
| SimTimeoutStatus
| SimFailureStatus
| SimClosing
| SimEmergencyStop.

Inductive sim_event : Type :=
| SimSleep (seconds : float)
| SimLog (message : sim_msg).

Record plc_world : Type := {
  plc : simulator;
  draws : nat -> float;
  drawn : nat;
  plc_events : list sim_event
}.

Definition P (A : Type) : Type := M plc_world A.

(** [__init__] *)
Definition new : simulator :=
  {| connected := false; is_initialized := false; current_mode := None;
     logs_enabled := false; logs_dir_path := None;
     emergency_stop_active := false;
     l511_position := 0%float; dt80_01_position := 0%float;
     dt80_02_position := 0%float; dt80_03_position := 0%float |}.

Definition update (f : simulator -> simulator) : P unit :=
  modify (fun w => {| plc := f (plc w); draws := draws w; drawn := drawn w;
                      plc_events := plc_events w |}).

Definition this : P simulator := w <- get ;; ret (plc w).

Definition note (e : sim_event) : P unit :=
  modify (fun w => {| plc := plc w; draws := draws w; drawn := drawn w;
                      plc_events := plc_events w ++ [e] |}).

(** [random.random()] *)
Definition random : P float :=
  fun w => (Ret (draws w (drawn w)),
            {| plc := plc w; draws := draws w; drawn := S (drawn w);
               plc_events := plc_events w |}).

(** [random.uniform(a, b)], which is [a + (b - a) * random()] *)
Definition uniform (a b : float) : P float :=
  r <- random ;;
  ret (PrimFloat.add a (PrimFloat.mul (PrimFloat.sub b a) r)).

(** [time.sleep(seconds)] *)
Definition sleep (seconds : float) : P unit := note (SimSleep seconds).

Definition is_connected : P bool := s <- this ;; ret (connected s).

Definition enable_axes : P Z := ret SUCCESS.

Definition disable_axes : P Z := ret SUCCESS.

(** [_log_message]: an entry is written when logs are enabled and a
    non-empty directory path is set; a failure of the write is caught
    and printed. *)
Definition _log_message (message : sim_msg) : P unit :=
  s <- this ;;
  if logs_enabled s &&
     match logs_dir_path s with
     | Some (String _ _) => true
     | _ => false
     end
  then note (SimLog message)
  else ret tt.

Definition _simulate_communication_delay : P unit :=
  d <- uniform f0_01 f0_05 ;;
  sleep d.

Definition _simulate_random_failure (failure_rate : float) : P bool :=
  r <- random ;;
  ret (PrimFloat.ltb r failure_rate).

(** [connect]; [path_exists] is [os.path.exists]. *)
Definition connect (path_exists : string -> bool) (plc_ams_net_id : string)
    (logs : bool) (logs_dir : string) : P Z :=
  _log_message (SimAttemptingConnection plc_ams_net_id) ;;
  if logs && negb (path_exists logs_dir) then
    _log_message (SimLogDirNotFound logs_dir) ;;
    ret ERR_DIR_NOT_FOUND
  else
    _simulate_communication_delay ;;
    failed <- _simulate_random_failure f0_1 ;;
    if failed then
      _log_message SimConnectionFailed ;;
      ret ERR_CONNECTION_FAILED
    else
      update (fun s =>
        {| connected := true; is_initialized := is_initialized s;
           current_mode := current_mode s; logs_enabled := logs;
           logs_dir_path := Some logs_dir;
           emergency_stop_active := emergency_stop_active s;
           l511_position := l511_position s;
           dt80_01_position := dt80_01_position s;
           dt80_02_position := dt80_02_position s;
           dt80_03_position := dt80_03_position s |}) ;;
      _log_message (SimConnected plc_ams_net_id) ;;
      ret SUCCESS.

Definition initialize : P Z :=
  s <- this ;;
  if negb (connected s) then ret ERR_PLC_FAILURE
  else
    _log_message SimStartingHoming ;;
    d <- uniform f0_5 f1_5 ;;
    sleep d ;;
    timeout <- _simulate_random_failure f0_05 ;;
    if timeout then
      _log_message SimTimeoutHoming ;;
      ret ERR_TIMEOUT
    else
      failure <- _simulate_random_failure f0_03 ;;
      if failure then
        _log_message SimFailureHoming ;;
        ret ERR_PLC_FAILURE
      else
        update (fun s =>
          {| connected := connected s; is_initialized := true;
             current_mode := current_mode s;
             logs_enabled := logs_enabled s;
             logs_dir_path := logs_dir_path s;
             emergency_stop_active := false;
             l511_position := 0%float; dt80_01_position := 0%float;
             dt80_02_position := 0%float; dt80_03_position := 0%float |}) ;;
        _log_message SimHomingCompleted ;;
        ret SUCCESS.

Definition set_mode (mode : string) : P Z :=
  s <- this ;;
  if negb (connected s) then ret ERR_PLC_FAILURE
  else if negb (is_initialized s) then ret ERR_PLC_FAILURE
  else if negb (existsb (String.eqb mode) VALID_MODES) then
    _log_message (SimInvalidMode mode) ;;
    ret ERR_INVALID_MODE
  else
    _simulate_communication_delay ;;
    timeout <- _simulate_random_failure f0_05 ;;
    if timeout then
      _log_message SimTimeoutMode ;;
      ret ERR_TIMEOUT
    else
      failure <- _simulate_random_failure 0%float ;;
      if failure then
        _log_message SimFailureMode ;;
        ret ERR_PLC_FAILURE
      else
        update (fun s =>
          {| connected := connected s; is_initialized := is_initialized s;
             current_mode := Some mode;
             logs_enabled := logs_enabled s;
             logs_dir_path := logs_dir_path s;
             emergency_stop_active := emergency_stop_active s;
             l511_position := l511_position s;
             dt80_01_position := dt80_01_position s;
             dt80_02_position := dt80_02_position s;
             dt80_03_position := dt80_03_position s |}) ;;
        _log_message (SimModeSet mode) ;;
        ret SUCCESS.

(** The tuple [(L-511, DT80-01, DT80-02, DT80-03, error_code)] with the
    stored positions. *)
Definition positions_with (code : Z) : P plc_values :=
  s <- this ;;
  ret {| plc_alpha := l511_position s; plc_beta := dt80_01_position s;
         plc_theta := dt80_02_position s;
         plc_translation_unit := dt80_03_position s;
         plc_error := code |}.

Definition set_positions (l511 dt80_01 dt80_02 dt80_03 : float)
    (s : simulator) : simulator :=
  {| connected := connected s; is_initialized := is_initialized s;
     current_mode := current_mode s; logs_enabled := logs_enabled s;
     logs_dir_path := logs_dir_path s;
     emergency_stop_active := emergency_stop_active s;
     l511_position := l511; dt80_01_position := dt80_01;
     dt80_02_position := dt80_02; dt80_03_position := dt80_03 |}.

Definition set_modulation (alpha_angle beta_angle : float)
    (calibration_theta_angle : option pynum) : P plc_values :=
  sleep 6%float ;;
  s <- this ;;
  if negb (connected s) || negb (is_initialized s) then
    positions_with ERR_PLC_FAILURE
  else if emergency_stop_active s then positions_with ERR_PLC_FAILURE
  else if negb (PrimFloat.leb alpha_min alpha_angle &&
                PrimFloat.leb alpha_angle alpha_max) then
    _log_message (SimInvalidAlpha alpha_angle) ;;
    positions_with ERR_INVALID_ANGLE
  else if negb (PrimFloat.leb beta_min beta_angle &&
                PrimFloat.leb beta_angle beta_max) then
    _log_message (SimInvalidBeta beta_angle) ;;
    positions_with ERR_INVALID_ANGLE
  else
    let moving : P plc_values :=
      d <- uniform f0_2 f0_8 ;;
      sleep d ;;
      timeout <- _simulate_random_failure f0_05 ;;
      if timeout then
        _log_message SimTimeoutModulation ;;
        positions_with ERR_TIMEOUT
      else
        failure <- _simulate_random_failure 0%float ;;
        if failure then
          _log_message SimFailureModulation ;;
          positions_with ERR_PLC_FAILURE
        else
          let l511 := PrimFloat.add (PrimFloat.mul alpha_angle f0_5)
                                    (PrimFloat.mul beta_angle f0_3) in
          n1 <- uniform (PrimFloat.opp f0_1) f0_1 ;;
          let dt80_01 := PrimFloat.add (PrimFloat.mul alpha_angle f0_8) n1 in
          n2 <- uniform (PrimFloat.opp f0_1) f0_1 ;;
          let dt80_02 := PrimFloat.add (PrimFloat.mul beta_angle f0_7) n2 in
          n3 <- uniform (PrimFloat.opp f0_1) f0_1 ;;
          let dt80_03 :=
            match calibration_theta_angle with
            | Some theta =>
                PrimFloat.add
                  (PrimFloat.mul
                     match theta with
                     | PyFloat t => t
                     | PyInt z => float_of_Z z
                     end f0_6) n3
            | None =>
                PrimFloat.add
                  (PrimFloat.mul (PrimFloat.add alpha_angle beta_angle) f0_4)
                  n3
            end in
          update (set_positions l511 dt80_01 dt80_02 dt80_03) ;;
          _log_message
            (SimModulationSet alpha_angle beta_angle
               calibration_theta_angle) ;;
          positions_with SUCCESS in
    match calibration_theta_angle with
    | Some theta =>
        if negb (py_le (PyFloat theta_min) theta &&
                 py_le theta (PyFloat theta_max)) then
          _log_message (SimInvalidTheta theta) ;;
          positions_with ERR_INVALID_ANGLE
        else moving
    | None => moving
    end.

Record status_values : Type := {
  st_mode : string;
  st_dt80_01 : float;
  st_dt80_02 : float;
  st_dt80_03 : float;
  st_l511 : float;
  st_error : Z
}.

(** [self.current_mode or default] *)
Definition mode_or (s : simulator) (default : string) : string :=
  match current_mode s with
  | Some (String c r) => String c r
  | _ => default
  end.

Definition stored_status (code : Z) : P status_values :=
  s <- this ;;
  ret {| st_mode := mode_or s "UNKNOWN";
         st_dt80_01 := dt80_01_position s;
         st_dt80_02 := dt80_02_position s;
         st_dt80_03 := dt80_03_position s;
         st_l511 := l511_position s; st_error := code |}.

Definition get_current_status : P status_values :=
  s <- this ;;
  if negb (connected s) then
    ret {| st_mode := "UNKNOWN"; st_dt80_01 := 0%float;
           st_dt80_02 := 0%float; st_dt80_03 := 0%float;
           st_l511 := 0%float; st_error := ERR_PLC_FAILURE |}
  else
    _simulate_communication_delay ;;
    timeout <- _simulate_random_failure f0_05 ;;
    if timeout then
      _log_message SimTimeoutStatus ;;
      stored_status ERR_TIMEOUT
    else
      failure <- _simulate_random_failure f0_03 ;;
      if failure then
        _log_message SimFailureStatus ;;
        stored_status ERR_PLC_FAILURE
      else
        s <- this ;;
        n0 <- uniform (PrimFloat.opp f0_01) f0_01 ;;
        n1 <- uniform (PrimFloat.opp f0_01) f0_01 ;;
        n2 <- uniform (PrimFloat.opp f0_01) f0_01 ;;
        n3 <- uniform (PrimFloat.opp f0_01) f0_01 ;;
        ret {| st_mode := mode_or s "NOT_SET";
               st_dt80_01 := PrimFloat.add (dt80_01_position s) n1;
               st_dt80_02 := PrimFloat.add (dt80_02_position s) n2;
               st_dt80_03 := PrimFloat.add (dt80_03_position s) n3;
               st_l511 := PrimFloat.add (l511_position s) n0;
               st_error := SUCCESS |}.

Definition close : P unit :=
  s <- this ;;
  if connected s then
    _log_message SimClosing ;;
    update (fun s =>
      {| connected := false; is_initialized := false; current_mode := None;
         logs_enabled := logs_enabled s; logs_dir_path := logs_dir_path s;
         emergency_stop_active := false;
         l511_position := l511_position s;
         dt80_01_position := dt80_01_position s;
         dt80_02_position := dt80_02_position s;
         dt80_03_position := dt80_03_position s |})
  else ret tt.

Definition simulate_emergency_stop : P unit :=
  update (fun s =>
    {| connected := connected s; is_initialized := is_initialized s;
       current_mode := current_mode s; logs_enabled := logs_enabled s;
       logs_dir_path := logs_dir_path s;
       emergency_stop_active := true;
       l511_position := l511_position s;
       dt80_01_position := dt80_01_position s;
       dt80_02_position := dt80_02_position s;
       dt80_03_position := dt80_03_position s |}) ;;
  _log_message SimEmergencyStop.

Definition error_descriptions : list (Z * string) :=
  [(SUCCESS, "Operation successful");
   (ERR_CONNECTION_FAILED, "Connection to PLC failed");
   (ERR_DIR_NOT_FOUND, "Log directory not found");
   (ERR_INVALID_LENGTH, "Invalid length parameter");
   (ERR_INVALID_MODE, "Invalid operational mode");
   (ERR_INVALID_ANGLE, "Invalid angle parameter");
   (ERR_INVALID_POSITION, "Invalid position parameter");
   (ERR_PLC_COMM_FAILURE, "PLC communication failure");
   (ERR_PLC_FAILURE, "PLC failure or not connected");
   (ERR_TIMEOUT, "Communication timeout");
   (ERR_UNEXPECTED_CONDITION, "Unexpected condition");
   (ERR_EMERGENCY_STOP_ACTIVE, "Emergency stop active");
   (ERR_AXIS_NOT_READY, "Axis not ready");
   (ERR_AXIS_NOT_CALIBRATED, "Axis not calibrated")].

Definition get_error_description (error_code : Z) : string :=
  match find (fun kv => fst kv =? error_code) error_descriptions with
  | Some kv => snd kv
  | None => "Unknown error"
  end.

End MusolLibSimulator.

(** ** The detector side: [song_client_module/song_xmlrp_client.py] and
       [song_server_simulator/xmlrpc_song_server_simulator.py] *)

(** [a < b] on numbers. *)
Definition py_lt (a b : pynum) : bool :=
  match py_compare a b with
  | Some Lt => true
  | _ => false
  end.

(** The value of a number as a float, as in [int + float]. *)
Definition float_of_pynum (n : pynum) : float :=
  match n with
  | PyInt z => float_of_Z z
  | PyFloat f => f
  end.

(** [f"{n:04d}"] *)
Definition format_04d (n : Z) : string :=
  let digits (k : Z) : string :=
    NilZero.string_of_uint (N.to_uint (Z.to_N k)) in
  let pad (width : nat) (s : string) : string :=
    (String.concat "" (repeat "0" (width - String.length s)%nat) ++ s)%string in
  if n <? 0 then String.append "-" (pad 3%nat (digits (- n)))
  else pad 4%nat (digits n).

(** The dictionary of an acquisition reply.  ["status"] and ["message"]
    are in every reply; for the other keys the outer [option] says
    whether the key is present, and the inner one of ["filename"] and
    ["acquisition_id"] whether its value is a string or [None]. *)
Record reply_dict : Type := {
  ar_status : Z;
  ar_message : string;
  ar_timestamp : option string;
  ar_filename : option (option string);
  ar_acquisition_id : option (option string)
}.

Module xmlrpcSONGClient.

Record client : Type := {
  serverhost : string;
  serverport : Z;
  connection_timeout : float;
  server : bool;
  connected : bool
}.

(** [__init__]; [server] tells whether [self.server] holds a proxy. *)
Definition new (host : string) (port : Z) (timeout : float) : client :=
  {| serverhost := host; serverport := port; connection_timeout := timeout;
     server := false; connected := false |}.

Definition set_link (proxy is_connected : bool) (c : client) : client :=
  {| serverhost := serverhost c; serverport := serverport c;
     connection_timeout := connection_timeout c;
     server := proxy; connected := is_connected |}.

Section Remote.

(** The server behind the proxy: a call changes the remote world and
    either returns a value or raises (a fault, a network error).
    [str_of_exn] is [str(e)]. *)
Variable R : Type.
Variable remote_is_alive : R -> res yval * R.
Variable remote_acquire :
  Z -> string -> float -> string -> float -> float -> pynum -> string ->
  R -> res reply_dict * R.
Variable str_of_exn : exn -> string.

Definition K (A : Type) : Type := M (client * R) A.

Definition me : K client := s <- get ;; ret (fst s).

Definition update (f : client -> client) : K unit :=
  modify (fun s => (f (fst s), snd s)).

(** A call through the proxy, with the exception it may raise as a
    value. *)
Definition remote {A} (f : R -> res A * R) : K (res A) :=
  fun s => let r := f (snd s) in (Ret (fst r), (fst s, snd r)).

Definition server_url (c : client) : string :=
  let digits (k : Z) : string :=
    NilZero.string_of_uint (N.to_uint (Z.to_N k)) in
  let port : string :=
    if serverport c <? 0 then String.append "-" (digits (- serverport c))
    else digits (serverport c) in
  ("http://" ++ serverhost c ++ ":" ++ port)%string.

(** Truth value of what [is_alive] returned, a value unmarshalled from
    XML-RPC: besides the types listed, a [DateTime] or [Binary] object,
    which is true. *)
Definition truthy (v : yval) : bool :=
  match v with
  | YNone => false
  | YBool b => b
  | YInt z => negb (z =? 0)
  | YFloat f => negb (PrimFloat.eqb f 0%float)
  | YStr s => negb (String.eqb s "")
  | YList l => match l with [] => false | _ => true end
  | YDict d => match d with [] => false | _ => true end
  | YOther _ => true
  end.

Definition connect : K (bool * string) :=
  c <- me ;;
  let url := server_url c in
  update (set_link true (connected c)) ;;
  alive <- remote remote_is_alive ;;
  match alive with
  | Ret v =>
      if negb (truthy v) then
        update (set_link true false) ;;
        ret (false,
             ("song_xmlrp_client.py: Failed to connect to SONG server at "
              ++ url)%string)
      else
        update (set_link true true) ;;
        ret (true, "None")
  | Raise e =>
      update (set_link false false) ;;
      ret (false,
           ("song_xmlrp_client.py: Failed to connect to SONG server: "
            ++ str_of_exn e)%string)
  end.

Definition error_reply (error_msg : string) : reply_dict :=
  {| ar_status := 1; ar_message := error_msg; ar_timestamp := None;
     ar_filename := None; ar_acquisition_id := None |}.

Definition send_acquire_cmd (proj_nr : Z) (proj_name : string)
    (exptime : float) (imagetype : string) (alpha_deg beta_deg : float)
    (calibration_theta_deg : pynum) (comment : string) : K reply_dict :=
  c <- me ;;
  if negb (connected c) || negb (server c) then
    ret (error_reply
           "song_xmlrp_client.py: Error: Not connected to SONG server. Call connect() first.")
  else
    result <- remote (remote_acquire proj_nr proj_name exptime imagetype
                        alpha_deg beta_deg calibration_theta_deg comment) ;;
    match result with
    | Ret r => ret r
    | Raise e =>
        ret (error_reply
               ("song_xmlrp_client.py: Unspected Error sending acquisition command: "
                ++ str_of_exn e)%string)
    end.

Definition disconnect : K unit := update (set_link false false).

Definition is_connected : K bool := c <- me ;; ret (connected c).

End Remote.

End xmlrpcSONGClient.

Module SONGSpectrographSimulator.

Definition valid_imagetypes : list string := ["SUN"; "CALIB"].
Definition max_exptime : float := 300%float.
Definition min_exptime : float := 0x1.47ae147ae147bp-7%float.

Record server : Type := {
  is_busy : bool;
  observation_count : Z
}.

(** [datetime.now()]: the two renderings that the server uses,
    [isoformat()] and [strftime('%Y%m%d_%H%M%S')]. *)
Record datetime : Type := {
  isoformat : string;
  compact : string
}.

Inductive srv_event : Type :=
| SrvRequest (proj_nr proj_name exptime imagetype alpha_deg beta_deg
              calibration_theta_deg comment : yval)
| SrvBusy
| SrvValidationFailed (message : string)
| SrvStarting (acquisition_id : string)
| SrvSleep (seconds : float)
| SrvProgress (acquisition_id : string) (percent : Z)
| SrvCompleted (acquisition_id : string)
| SrvUnexpected (message : string).

(** The world of the server: its attributes, the results of
    [random.random()] and of [datetime.now()] in the order of the calls,
    and what it logs and sleeps. *)
Record srv_world : Type := {
  srv : server;
  srv_draws : nat -> float;
  srv_drawn : nat;
  clock : nat -> datetime;
  ticks : nat;
  srv_events : list srv_event
}.

Definition new : server := {| is_busy := false; observation_count := 0 |}.

Section Sleep.

(** What [time.sleep] raises for a duration, if anything, and
    [str(e)]. *)
Variable time_sleep : float -> option exn.
Variable str_of_exn : exn -> string.

Definition Q (A : Type) : Type := M srv_world A.

Definition this : Q server := w <- get ;; ret (srv w).

Definition update (f : server -> server) : Q unit :=
  modify (fun w => {| srv := f (srv w); srv_draws := srv_draws w;
                      srv_drawn := srv_drawn w; clock := clock w;
                      ticks := ticks w; srv_events := srv_events w |}).

Definition note (e : srv_event) : Q unit :=
  modify (fun w => {| srv := srv w; srv_draws := srv_draws w;
                      srv_drawn := srv_drawn w; clock := clock w;
                      ticks := ticks w;
                      srv_events := srv_events w ++ [e] |}).

Definition now : Q datetime :=
  fun w => (Ret (clock w (ticks w)),
            {| srv := srv w; srv_draws := srv_draws w;
               srv_drawn := srv_drawn w; clock := clock w;
               ticks := S (ticks w); srv_events := srv_events w |}).

(** [random.uniform(a, b)] *)
Definition uniform (a b : float) : Q float :=
  fun w => (Ret (PrimFloat.add a
                   (PrimFloat.mul (PrimFloat.sub b a)
                      (srv_draws w (srv_drawn w)))),
            {| srv := srv w; srv_draws := srv_draws w;
               srv_drawn := S (srv_drawn w); clock := clock w;
               ticks := ticks w; srv_events := srv_events w |}).

Definition sleep (seconds : float) : Q unit :=
  match time_sleep seconds with
  | Some e => raise e
  | None => note (SrvSleep seconds)
  end.

Definition is_alive : Q yval := ret (YInt 1).

Definition invalid (message : string) : Q reply_dict :=
  t <- now ;;
  ret {| ar_status := 1; ar_message := message;
         ar_timestamp := Some (isoformat t); ar_filename := None;
         ar_acquisition_id := Some None |}.

Definition _validate_parameters (proj_nr proj_name exptime imagetype
    alpha_deg beta_deg calibration_theta_deg : yval) : Q reply_dict :=
  if match proj_nr with
     | YInt z => z <? 0
     | YBool _ => false
     | _ => true
     end
  then invalid "Invalid project number: must be a non-negative integer"
  else if match proj_name with
          | YStr s => (String.length (strip s) =? 0)%nat
          | _ => true
          end
  then invalid "Invalid project name: must be a non-empty string"
  else if match as_number exptime with
          | Some t => py_lt t (PyFloat min_exptime) ||
                      py_lt (PyFloat max_exptime) t
          | None => true
          end
  then invalid
         "Invalid exposure time: must be between 0.01 and 300.0 seconds"
  else if negb match imagetype with
               | YStr s => existsb (String.eqb s) valid_imagetypes
               | _ => false
               end
  then invalid "Invalid image type: must be one of ['SUN', 'CALIB']"
  else
    match find (fun an => match as_number (fst an) with
                          | Some _ => false
                          | None => true
                          end)
               [(alpha_deg, "alpha_deg"); (beta_deg, "beta_deg");
                (calibration_theta_deg, "calibration_theta_deg")] with
    | Some an =>
        invalid ("Invalid " ++ snd an ++ ": must be a number")%string
    | None =>
        ret {| ar_status := 0; ar_message := "Parameters valid";
               ar_timestamp := None; ar_filename := None;
               ar_acquisition_id := None |}
    end.

(** The five [time.sleep(step_time)] with their progress entries. *)
Fixpoint progress_steps (acquisition_id : string) (step_time : float)
    (steps : list nat) : Q unit :=
  match steps with
  | [] => ret tt
  | step :: rest =>
      sleep step_time ;;
      note (SrvProgress acquisition_id ((Z.of_nat step + 1) * 20)) ;;
      progress_steps acquisition_id step_time rest
  end.

(** The text of a checked [imagetype] and the number of a checked
    [exptime]. *)
Definition text_of (v : yval) : string :=
  match v with YStr s => s | _ => "" end.

Definition number_of (v : yval) : pynum :=
  match as_number v with Some n => n | None => PyInt 0 end.

(** The body of the [try] block; [success] is the constant [True], so
    the branch of a failed acquisition is never taken. *)
Definition acquisition (exptime imagetype : yval) : Q reply_dict :=
  update (fun s => {| is_busy := true;
                      observation_count := observation_count s |}) ;;
  t0 <- now ;;
  s <- this ;;
  let acquisition_id :=
    ("SONG_" ++ compact t0 ++ "_" ++ format_04d (observation_count s))%string
  in
  note (SrvStarting acquisition_id) ;;
  overhead_time <- uniform 2%float 5%float ;;
  let total_time :=
    PrimFloat.add (float_of_pynum (number_of exptime)) overhead_time in
  let step_time := PrimFloat.div total_time 5%float in
  progress_steps acquisition_id step_time (seq 0 5) ;;
  update (fun s => {| is_busy := is_busy s;
                      observation_count := observation_count s + 1 |}) ;;
  t1 <- now ;;
  note (SrvCompleted acquisition_id) ;;
  ret {| ar_status := 0;
         ar_message := "Acquisition completed successfully";
         ar_timestamp := Some (isoformat t1);
         ar_filename :=
           Some (Some (acquisition_id ++ "_" ++ text_of imagetype
                       ++ ".fits")%string);
         ar_acquisition_id := None |}.

Definition acquire_a_solar_image (proj_nr proj_name exptime imagetype
    alpha_deg beta_deg calibration_theta_deg comment : yval)
  : Q reply_dict :=
  note (SrvRequest proj_nr proj_name exptime imagetype alpha_deg beta_deg
          calibration_theta_deg comment) ;;
  s <- this ;;
  if is_busy s then
    note SrvBusy ;;
    t <- now ;;
    ret {| ar_status := 1;
           ar_message :=
             "System is currently busy with another acquisition";
           ar_timestamp := Some (isoformat t); ar_filename := None;
           ar_acquisition_id := Some None |}
  else
    validation_result <-
      _validate_parameters proj_nr proj_name exptime imagetype alpha_deg
        beta_deg calibration_theta_deg ;;
    if negb (ar_status validation_result =? 0) then
      note (SrvValidationFailed (ar_message validation_result)) ;;
      ret validation_result
    else
      fun w =>
        let tried := acquisition exptime imagetype w in
        let caught :=
          match fst tried with
          | Ret result => ret result
          | Raise e =>
              let error_msg :=
                ("Unexpected error during acquisition: "
                 ++ str_of_exn e)%string in
              note (SrvUnexpected error_msg) ;;
              t <- now ;;
              ret {| ar_status := 1; ar_message := error_msg;
                     ar_timestamp := Some (isoformat t);
                     ar_filename := Some None;
                     ar_acquisition_id := None |}
          end in
        (result <- caught ;;
         update (fun s => {| is_busy := false;
                             observation_count := observation_count s |}) ;;
         ret result) (snd tried).

End Sleep.

End SONGSpectrographSimulator.

(** ** The simulated installation

    [main.setup_system_components] builds the PLC library, which is the
    simulator when USE_MUSOLLIB_SIMULATOR is 1, and the detector client;
    [prepare_data_for_processing] hands both to the engine.  Here the
    client reaches the simulated server, and every call and reply is
    delivered as it was sent. *)

(** A number as the value that reaches the server. *)
Definition yval_of_pynum (n : pynum) : yval :=
  match n with
  | PyInt z => YInt z
  | PyFloat f => YFloat f
  end.

(** What the engines read from a reply dictionary; they read
    ["timestamp"] and ["filename"] from replies with status 0 only. *)
Definition song_dict_of (r : reply_dict) : song_dict :=
  {| status := ar_status r; message := ar_message r;
     timestamp := ar_timestamp r;
     filename := match ar_filename r with
                 | Some (Some f) => Some f
                 | _ => None
                 end |}.

Record sys_world : Type := {
  plc_side : MusolLibSimulator.plc_world;
  song_client : xmlrpcSONGClient.client;
  song_server : SONGSpectrographSimulator.srv_world;
  is_aborting : bool
}.

Module SimulatedSystem.

Section Wiring.

Variable time_sleep : float -> option exn.
Variable str_of_exn : exn -> string.

Definition with_plc (p : MusolLibSimulator.plc_world) (w : sys_world)
  : sys_world :=
  {| plc_side := p; song_client := song_client w;
     song_server := song_server w; is_aborting := is_aborting w |}.

Definition with_song
    (s : xmlrpcSONGClient.client * SONGSpectrographSimulator.srv_world)
    (w : sys_world) : sys_world :=
  {| plc_side := plc_side w; song_client := fst s; song_server := snd s;
     is_aborting := is_aborting w |}.

(** The value of a call that returned; the simulators raise nothing, so
    [default] is never used. *)
Definition returned {A : Type} (default : A) (r : res A) : A :=
  match r with
  | Ret x => x
  | Raise _ => default
  end.

(** The two methods of the server as the proxy of the client reaches
    them. *)
Definition served_is_alive (s : SONGSpectrographSimulator.srv_world)
  : res yval * SONGSpectrographSimulator.srv_world :=
  SONGSpectrographSimulator.is_alive s.

Definition served_acquire (proj_nr : Z) (proj_name : string)
    (exptime : float) (imagetype : string) (alpha_deg beta_deg : float)
    (calibration_theta_deg : pynum) (comment : string)
    (s : SONGSpectrographSimulator.srv_world)
  : res reply_dict * SONGSpectrographSimulator.srv_world :=
  SONGSpectrographSimulator.acquire_a_solar_image time_sleep str_of_exn
    (YInt proj_nr) (YStr proj_name) (YFloat exptime) (YStr imagetype)
    (YFloat alpha_deg) (YFloat beta_deg)
    (yval_of_pynum calibration_theta_deg) (YStr comment) s.

Definition failed_values : plc_values :=
  {| plc_alpha := 0%float; plc_beta := 0%float; plc_theta := 0%float;
     plc_translation_unit := 0%float;
     plc_error := MusolLibSimulator.ERR_UNEXPECTED_CONDITION |}.

Definition simulated_devices : Devices sys_world :=
  {| musol_set_mode := fun mode w =>
       let r := MusolLibSimulator.set_mode mode (plc_side w) in
       (returned MusolLibSimulator.ERR_UNEXPECTED_CONDITION (fst r),
        with_plc (snd r) w);
     musol_set_modulation := fun a b theta w =>
       let r := MusolLibSimulator.set_modulation a b theta (plc_side w) in
       (returned failed_values (fst r), with_plc (snd r) w);
     musol_get_error_description := fun code w =>
       (MusolLibSimulator.get_error_description code, w);
     song_send_acquire_cmd := fun nr name t it a b theta comment w =>
       let r := xmlrpcSONGClient.send_acquire_cmd served_acquire str_of_exn
                  nr name t it a b theta comment
                  (song_client w, song_server w) in
       (song_dict_of
          (returned (xmlrpcSONGClient.error_reply "") (fst r)),
        with_song (snd r) w);
     abort_flag := fun w => (is_aborting w, w) |}.

End Wiring.

End SimulatedSystem.

(** ** The event store of the logger: [logging_module/system_logger.py] *)

Module LogLevel.

Inductive t : Type := DEBUG | INFO | WARNING | ERROR | CRITICAL.

Definition value (l : t) : string :=
  match l with
  | DEBUG => "DEBUG"
  | INFO => "INFO"
  | WARNING => "WARNING"
  | ERROR => "ERROR"
  | CRITICAL => "CRITICAL"
  end.

Definition eqb (a b : t) : bool :=
  match a, b with
  | DEBUG, DEBUG | INFO, INFO | WARNING, WARNING | ERROR, ERROR
  | CRITICAL, CRITICAL => true
  | _, _ => false
  end.

End LogLevel.

Module EventType.

Inductive t : Type :=
| SYSTEM_START
| SYSTEM_STOP
| PERFORMANCE
| ERROR
| HEALTH_CHECK
| CUSTOM.

Definition eqb (a b : t) : bool :=
  match a, b with
  | SYSTEM_START, SYSTEM_START | SYSTEM_STOP, SYSTEM_STOP
  | PERFORMANCE, PERFORMANCE | ERROR, ERROR | HEALTH_CHECK, HEALTH_CHECK
  | CUSTOM, CUSTOM => true
  | _, _ => false
  end.

End EventType.

(** A [datetime] is modelled by its position on the time axis. *)
Record LogEvent : Type := {
  le_timestamp : Z;
  le_level : LogLevel.t;
  le_event_type : EventType.t;
  le_message : string;
  le_component : string;
  le_metadata : yval;
  le_error_details : yval
}.

(** The entry of [component_stats] for one component. *)
Record stats : Type := {
  event_count : Z;
  error_count : Z;
  last_activity : option Z
}.

(** What is passed as [exception] to [log_error]: nothing, an exception
    with its class name and text, or, as the wrappers of the engines do,
    a string. *)
Inductive exception_arg : Type :=
| NoException
| Exception (class_name text : string)
| Text (s : string).

(** [json.dumps] raises [TypeError] on objects that have no JSON form;
    a value of another type is taken to be such an object.  The model
    has no circular values, on which [json.dumps] raises [ValueError]. *)
Fixpoint json_serializable (v : yval) : bool :=
  match v with
  | YOther _ => false
  | YList l => forallb json_serializable l
  | YDict d =>
      forallb (fun kv => match kv with (_, x) => json_serializable x end) d
  | _ => true
  end.

(** Dictionaries with string keys, in insertion order. *)
Fixpoint lookup {A : Type} (d : list (string * A)) (k : string)
  : option A :=
  match d with
  | [] => None
  | (k', v) :: r => if String.eqb k' k then Some v else lookup r k
  end.

Fixpoint store {A : Type} (k : string) (v : A) (d : list (string * A))
  : list (string * A) :=
  match d with
  | [] => [(k, v)]
  | (k', v') :: r =>
      if String.eqb k' k then (k', v) :: r else (k', v') :: store k v r
  end.

(** [deque(maxlen=n).append(x)] *)
Definition deque_append {A : Type} (maxlen : Z) (q : list A) (x : A)
  : list A :=
  if maxlen =? 0 then q
  else if Z.of_nat (List.length q) <? maxlen then q ++ [x]
  else List.tl q ++ [x].

Module SystemLogger.

Record logger : Type := {
  log_level : LogLevel.t;
  max_events : Z;
  events : list LogEvent;
  error_counts : list (string * Z);
  component_stats : list (string * stats)
}.

(** The logger, the results of [datetime.now()] in the order of the
    calls, and the records handed to the underlying Python logger, each
    with its level, its message and its [log_data]. *)
Record log_world : Type := {
  lg : logger;
  lg_clock : nat -> Z;
  lg_ticks : nat;
  handed : list (LogLevel.t * string * yval)
}.

Definition L (A : Type) : Type := M log_world A.

(** [__init__]: the event store is a [deque(maxlen=max_events)], whose
    constructor raises [ValueError] on a negative bound.  The handlers
    of the underlying logger, which decide where its records go, are
    outside the model. *)
Definition init (level : LogLevel.t) (bound : Z) : res logger :=
  if bound <? 0 then Raise ValueError
  else Ret {| log_level := level; max_events := bound; events := [];
              error_counts := []; component_stats := [] |}.

Definition this : L logger := w <- get ;; ret (lg w).

Definition update (f : logger -> logger) : L unit :=
  modify (fun w => {| lg := f (lg w); lg_clock := lg_clock w;
                      lg_ticks := lg_ticks w; handed := handed w |}).

Definition now : L Z :=
  fun w => (Ret (lg_clock w (lg_ticks w)),
            {| lg := lg w; lg_clock := lg_clock w;
               lg_ticks := S (lg_ticks w); handed := handed w |}).

Definition hand_over (level : LogLevel.t) (message : string)
    (log_data : yval) : L unit :=
  if json_serializable log_data then
    modify (fun w => {| lg := lg w; lg_clock := lg_clock w;
                        lg_ticks := lg_ticks w;
                        handed := handed w ++ [(level, message, log_data)] |})
  else raise TypeError.

Definition set_events (e : list LogEvent) (l : logger) : logger :=
  {| log_level := log_level l; max_events := max_events l; events := e;
     error_counts := error_counts l;
     component_stats := component_stats l |}.

Definition set_error_counts (c : list (string * Z)) (l : logger) : logger :=
  {| log_level := log_level l; max_events := max_events l;
     events := events l; error_counts := c;
     component_stats := component_stats l |}.

Definition set_component_stats (s : list (string * stats)) (l : logger)
  : logger :=
  {| log_level := log_level l; max_events := max_events l;
     events := events l; error_counts := error_counts l;
     component_stats := s |}.

(** The entry of a component, as the subscript finds it after the
    initialisation. *)
Definition stats_of (l : logger) (component : string) : stats :=
  match lookup (component_stats l) component with
  | Some s => s
  | None => {| event_count := 0; error_count := 0; last_activity := None |}
  end.

Definition is_error_level (level : LogLevel.t) : bool :=
  match level with
  | LogLevel.ERROR | LogLevel.CRITICAL => true
  | _ => false
  end.

Definition log_event (level : LogLevel.t) (message component : string)
    (event_type : EventType.t) (metadata error_details : yval) : L unit :=
  let metadata := match metadata with YNone => YDict [] | _ => metadata end in
  t <- now ;;
  let event :=
    {| le_timestamp := t; le_level := level; le_event_type := event_type;
       le_message := message; le_component := component;
       le_metadata := metadata; le_error_details := error_details |} in
  update (fun l => set_events (deque_append (max_events l) (events l) event)
                     l) ;;
  l <- this ;;
  (match lookup (component_stats l) component with
   | Some _ => ret tt
   | None =>
       update (set_component_stats
                 (store component
                    {| event_count := 0; error_count := 0;
                       last_activity := None |} (component_stats l)))
   end) ;;
  update (fun l =>
    let s := stats_of l component in
    set_component_stats
      (store component
         {| event_count := event_count s + 1; error_count := error_count s;
            last_activity := last_activity s |} (component_stats l)) l) ;;
  t' <- now ;;
  update (fun l =>
    let s := stats_of l component in
    set_component_stats
      (store component
         {| event_count := event_count s; error_count := error_count s;
            last_activity := Some t' |} (component_stats l)) l) ;;
  (if is_error_level level then
     update (fun l =>
       set_error_counts
         (store component
            (match lookup (error_counts l) component with
             | Some c => c
             | None => 0
             end + 1) (error_counts l)) l) ;;
     update (fun l =>
       let s := stats_of l component in
       set_component_stats
         (store component
            {| event_count := event_count s;
               error_count := error_count s + 1;
               last_activity := last_activity s |} (component_stats l)) l)
   else ret tt) ;;
  let log_data :=
    YDict ([("comp", YStr component); ("metadata", metadata)] ++
           if xmlrpcSONGClient.truthy error_details
           then [("error_details", error_details)] else []) in
  hand_over level message log_data.

Section Traceback.

(** What [traceback.format_exc()] returns. *)
Variable format_exc : string.

Definition log_error (message component : string)
    (exception : exception_arg) (metadata : yval) : L unit :=
  let details (class_name text : string) : yval :=
    YDict [("exception_type", YStr class_name);
           ("exception_message", YStr text);
           ("traceback", YStr format_exc)] in
  let error_details :=
    match exception with
    | NoException => YDict []
    | Exception class_name text => details class_name text
    | Text s => if String.eqb s "" then YDict [] else details "str" s
    end in
  log_event LogLevel.ERROR message component EventType.ERROR
    (if xmlrpcSONGClient.truthy metadata then metadata else YDict [])
    error_details.

End Traceback.

Definition log_info (message component : string) (metadata : yval)
  : L unit :=
  log_event LogLevel.INFO message component EventType.CUSTOM metadata YNone.

Definition log_warning (message component : string) (metadata : yval)
  : L unit :=
  log_event LogLevel.WARNING message component EventType.CUSTOM metadata
    YNone.

Definition log_debug (message component : string) (metadata : yval)
  : L unit :=
  log_event LogLevel.DEBUG message component EventType.CUSTOM metadata YNone.

Definition log_critical (message component : string) (metadata : yval)
  : L unit :=
  log_event LogLevel.CRITICAL message component EventType.CUSTOM metadata
    YNone.

(** [sort(key=timestamp, reverse=True)]: newest first, events of equal
    time in their stored order. *)
Fixpoint insert_newest_first (e : LogEvent) (sorted : list LogEvent)
  : list LogEvent :=
  match sorted with
  | [] => [e]
  | x :: r =>
      if le_timestamp x <=? le_timestamp e then e :: sorted
      else x :: insert_newest_first e r
  end.

Definition sort_newest_first (l : list LogEvent) : list LogEvent :=
  fold_right insert_newest_first [] l.

(** [events[:limit]] *)
Definition slice_to {A : Type} (l : list A) (limit : Z) : list A :=
  if limit <? 0
  then firstn (List.length l - Z.to_nat (- limit)) l
  else firstn (Z.to_nat limit) l.

Definition get_events (component : option string)
    (level : option LogLevel.t) (event_type : option EventType.t)
    (since : option Z) (limit : option Z) (l : logger) : list LogEvent :=
  let events1 :=
    match component with
    | Some (String c r) =>
        filter (fun e => String.eqb (le_component e) (String c r)) (events l)
    | _ => events l
    end in
  let events2 :=
    match level with
    | Some lv => filter (fun e => LogLevel.eqb (le_level e) lv) events1
    | None => events1
    end in
  let events3 :=
    match event_type with
    | Some et => filter (fun e => EventType.eqb (le_event_type e) et) events2
    | None => events2
    end in
  let events4 :=
    match since with
    | Some t => filter (fun e => t <? le_timestamp e) events3
    | None => events3
    end in
  let sorted := sort_newest_first events4 in
  match limit with
  | Some n => if n =? 0 then sorted else slice_to sorted n
  | None => sorted
  end.

Definition get_component_stats (l : logger) : list (string * stats) :=
  component_stats l.

Definition get_error_counts (l : logger) : list (string * Z) :=
  error_counts l.

(** The last moment a [datetime] can hold, 9999-12-31 23:59:59.999999,
    in microseconds from the first one, and the most days a [timedelta]
    can hold. *)
Definition datetime_max : Z := 315537897599999999.

Definition timedelta_max_days : Z := 999999999.

(** [get_recent_errors]; a [timedelta] of [minutes] minutes is
    [minutes * 60000000] microseconds.  The clock is read first; then
    [timedelta(minutes=minutes)] raises [OverflowError] beyond its days,
    and the subtraction raises it when the result is no [datetime]. *)
Definition get_recent_errors (minutes limit : Z) : L (list LogEvent) :=
  t <- now ;;
  if (minutes / 1440 <? - timedelta_max_days) ||
     (timedelta_max_days <? minutes / 1440)
  then raise OverflowError
  else
    let since := t - minutes * 60000000 in
    if (since <? 0) || (datetime_max <? since) then raise OverflowError
    else
      l <- this ;;
      ret (get_events None (Some LogLevel.ERROR) None (Some since)
             (Some limit) l).

Definition clear_events : L unit :=
  update (fun l =>
    {| log_level := log_level l; max_events := max_events l; events := [];
       error_counts := []; component_stats := [] |}).

End SystemLogger.

(** The logging wrappers of [MusolsongCLI] for a logger that is
    present ([cli/sequence_processor.py]); without a logger they print
    the message. *)
Module CliLogging.

Section Wrappers.

Variable format_exc : string.

Definition text_of (metadata : option string) : yval :=
  match metadata with
  | Some s => YStr s
  | None => YNone
  end.

Definition _log_debug (message component : string)
    (metadata : option string) : SystemLogger.L unit :=
  SystemLogger.log_debug message component (text_of metadata).

Definition _log_info (message component : string)
    (metadata : option string) : SystemLogger.L unit :=
  SystemLogger.log_info message component (text_of metadata).

Definition _log_critical (message component : string)
    (metadata : option string) : SystemLogger.L unit :=
  SystemLogger.log_critical message component (text_of metadata).

Definition _log_error (message component : string)
    (metadata : option string) : SystemLogger.L unit :=
  SystemLogger.log_error format_exc message component
    (match metadata with
     | Some s => Text s
     | None => NoException
     end) YNone.

End Wrappers.

End CliLogging.

(** A call of [log_event] with its arguments. *)
Record log_call : Type := {
  lc_level : LogLevel.t;
  lc_message : string;
  lc_component : string;
  lc_event_type : EventType.t;
  lc_metadata : yval;
  lc_error_details : yval
}.

Definition log_call_run (c : log_call) : SystemLogger.L unit :=
  SystemLogger.log_event (lc_level c) (lc_message c) (lc_component c)
    (lc_event_type c) (lc_metadata c) (lc_error_details c).

(** ** Concrete devices and plans used in the examples *)

Module Examples.

Definition ok_plc : plc_values :=
  {| plc_alpha := 0%float; plc_beta := 0%float; plc_theta := 0%float;
     plc_translation_unit := 0%float; plc_error := 0 |}.

Definition ok_song : song_dict :=
  {| status := 0; message := "OK"; timestamp := Some "t";
     filename := Some "f.fits" |}.


Definition bad_song : song_dict :=
  {| status := 1; message := "error"; timestamp := None; filename := None |}.

(** Devices that always succeed; nobody requests an abort. *)
Definition good_devices : Devices unit :=
  {| musol_set_mode := fun _ w => (0, w);
     musol_set_modulation := fun _ _ _ w => (ok_plc, w);
     musol_get_error_description := fun _ w => ("No error", w);
     song_send_acquire_cmd := fun _ _ _ _ _ _ _ _ w => (ok_song, w);
     abort_flag := fun w => (false, w) |}.



(** Devices whose detector fails on the call number [k] (counted from 0);
    the world counts the acquisitions made so far. *)
Definition song_failing_devices (k : nat) : Devices nat :=
  {| musol_set_mode := fun _ w => (0, w);
     musol_set_modulation := fun _ _ _ w => (ok_plc, w);
     musol_get_error_description := fun _ w => ("No error", w);
     song_send_acquire_cmd :=
       fun _ _ _ _ _ _ _ _ w =>
         (if Nat.eqb w k then bad_song else ok_song, S w);
     abort_flag := fun w => (false, w) |}.

(** A detector reply with status 0 that lacks the file name, and devices
    whose detector always gives it. *)
Definition nameless_song : song_dict :=
  {| status := 0; message := "OK"; timestamp := Some "t";
     filename := None |}.

Definition nameless_devices : Devices unit :=
  {| musol_set_mode := fun _ w => (0, w);
     musol_set_modulation := fun _ _ _ w => (ok_plc, w);
     musol_get_error_description := fun _ w => ("No error", w);
     song_send_acquire_cmd := fun _ _ _ _ _ _ _ _ w => (nameless_song, w);
     abort_flag := fun w => (false, w) |}.

(** Devices whose positioner rejects [set_mode]. *)
Definition mode_rejecting_devices : Devices unit :=
  {| musol_set_mode := fun _ w => (4, w);
     musol_set_modulation := fun _ _ _ w => (ok_plc, w);
     musol_get_error_description := fun _ w => ("Invalid mode", w);
     song_send_acquire_cmd := fun _ _ _ _ _ _ _ _ w => (ok_song, w);
     abort_flag := fun w => (false, w) |}.

Definition m1 : Modulation :=
  {| alpha := 45%float; beta := 90%float; SONG_int_time := 1.5%float;
     description := Some "first" |}.

Definition m2 : Modulation :=
  {| alpha := (-30)%float; beta := 60%float; SONG_int_time := 2%float;
     description := None |}.

Definition observation_input (mods : list Modulation) : input_data :=
  {| in_modulations := mods; op_mode := "OBSERVATION";
     modulations_count := Z.of_nat (List.length mods);
     number_of_cycles := 1; offset_angle := 0;
     proj_number := 7; proj_name := "sun" |}.

Definition calibration_input (mods : list Modulation) (cycles offset : Z)
  : input_data :=
  {| in_modulations := mods; op_mode := "CALIBRATION";
     modulations_count := Z.of_nat (List.length mods);
     number_of_cycles := cycles; offset_angle := offset;
     proj_number := 7; proj_name := "sun" |}.

(** Plan documents as [yaml.safe_load] returns them. *)
Definition ymodulation (a b t : yval) : yval :=
  YDict [("alpha", a); ("beta", b); ("SONG_int_time", t)].

Definition observation_plan (mods : list yval) : yval :=
  YDict [("modes", YDict [("observation", YDict [("modulations", YList mods)])])].

Definition calibration_plan (offsets : yval) (mods : list yval) : yval :=
  YDict [("modes",
          YDict [("calibration",
                  YDict [("retarding_plate_offsets", offsets);
                         ("modulations", YList mods)])])].

Definition good_modulation : yval :=
  ymodulation (YFloat 45%float) (YInt 90) (YFloat 1.5%float).

(** The same step with alpha = 200, outside [-180, 180]. *)
Definition bad_modulation : yval :=
  ymodulation (YFloat 200%float) (YInt 90) (YFloat 1.5%float).

(** A host on which every path is a file that holds the document [doc],
    and both clients are connected. *)
Definition file_host (doc : yval) : Host unit :=
  {| path_exists := fun _ w => (Ret true, w);
     path_is_file := fun _ w => (Ret true, w);
     load_yaml := fun _ w => (Ret (Loaded doc), w);
     song_is_connected := fun w => (true, w);
     plc_is_connected := fun w => (true, w) |}.

(** [validate()] on a validator built for the document [doc]. *)
Definition validate_doc (doc : yval) : res bool * validator :=
  YAMLSequenceValidator.validate
    (YAMLSequenceValidator.fresh (Some (Loaded doc))).

(** An editor with the calibration tab switched on, the offset 90 and
    one row. *)
Definition sample_editor : editor :=
  {| cal_enabled := true; obs_enabled := false; offsets_spin := 90;
     cal_modulations :=
       [{| alpha_spin := 0%float; beta_spin := (-45)%float;
           int_time_spin := 2%float; desc_edit := " dark " |}];
     obs_modulations := [] |}.

(** A simulated PLC that is connected and initialised, in a world in
    which every random draw is 0.5. *)
Definition ready_simulator : MusolLibSimulator.simulator :=
  {| MusolLibSimulator.connected := true;
     MusolLibSimulator.is_initialized := true;
     MusolLibSimulator.current_mode := None;
     MusolLibSimulator.logs_enabled := false;
     MusolLibSimulator.logs_dir_path := None;
     MusolLibSimulator.emergency_stop_active := false;
     MusolLibSimulator.l511_position := 0%float;
     MusolLibSimulator.dt80_01_position := 0%float;
     MusolLibSimulator.dt80_02_position := 0%float;
     MusolLibSimulator.dt80_03_position := 0%float |}.

Definition calm_plc_world : MusolLibSimulator.plc_world :=
  {| MusolLibSimulator.plc := ready_simulator;
     MusolLibSimulator.draws := fun _ => 0.5%float;
     MusolLibSimulator.drawn := 0;
     MusolLibSimulator.plc_events := [] |}.

(** The calibration plan with offset 90 and one step. *)
Definition quarter_turn_plan : validator :=
  YAMLSequenceValidator.fresh
    (Some (Loaded (calibration_plan (YInt 90) [good_modulation]))).

(** The modulation that the validator stores for [good_modulation]. *)
Definition good_step : Modulation :=
  {| alpha := 45%float; beta := 90%float; SONG_int_time := 1.5%float;
     description := None |}.

(** A simulated server that is not busy, with a fixed clock and every
    random draw 0.5; a connected client; a [time.sleep] that always
    returns. *)
Definition sample_clock (k : nat) : SONGSpectrographSimulator.datetime :=
  {| SONGSpectrographSimulator.isoformat := "2025-01-01T12:00:00";
     SONGSpectrographSimulator.compact := "20250101_120000" |}.

Definition idle_srv_world : SONGSpectrographSimulator.srv_world :=
  {| SONGSpectrographSimulator.srv := SONGSpectrographSimulator.new;
     SONGSpectrographSimulator.srv_draws := fun _ => 0.5%float;
     SONGSpectrographSimulator.srv_drawn := 0;
     SONGSpectrographSimulator.clock := sample_clock;
     SONGSpectrographSimulator.ticks := 0;
     SONGSpectrographSimulator.srv_events := [] |}.

Definition connected_client : xmlrpcSONGClient.client :=
  {| xmlrpcSONGClient.serverhost := "127.0.0.1";
     xmlrpcSONGClient.serverport := 8050;
     xmlrpcSONGClient.connection_timeout := 5%float;
     xmlrpcSONGClient.server := true;
     xmlrpcSONGClient.connected := true |}.

Definition quiet_sleep (seconds : float) : option exn := None.

Definition exn_text (e : exn) : string := "error".

Definition sample_installation : sys_world :=
  {| plc_side := calm_plc_world; song_client := connected_client;
     song_server := idle_srv_world; is_aborting := false |}.

(** A new logger that keeps two events, a clock that shows the number
    of the reading, and three calls of two components. *)
Definition small_logger : SystemLogger.logger :=
  {| SystemLogger.log_level := LogLevel.INFO;
     SystemLogger.max_events := 2; SystemLogger.events := [];
     SystemLogger.error_counts := [];
     SystemLogger.component_stats := [] |}.

Definition counting_clock (k : nat) : Z := Z.of_nat k.

Definition small_log_world : SystemLogger.log_world :=
  {| SystemLogger.lg := small_logger;
     SystemLogger.lg_clock := counting_clock;
     SystemLogger.lg_ticks := 0; SystemLogger.handed := [] |}.

Definition call_of (level : LogLevel.t) (message component : string)
  : log_call :=
  {| lc_level := level; lc_message := message; lc_component := component;
     lc_event_type := EventType.CUSTOM; lc_metadata := YNone;
     lc_error_details := YNone |}.

Definition three_calls : list log_call :=
  [call_of LogLevel.INFO "started" "plc";
   call_of LogLevel.ERROR "timeout" "plc";
   call_of LogLevel.CRITICAL "no link" "song"].

(** A host on which every path is too long for the file system, and one
    on which the file cannot be decoded. *)
Definition long_name_host : Host unit :=
  {| path_exists := fun _ w => (Raise OSError, w);
     path_is_file := fun _ w => (Ret true, w);
     load_yaml := fun _ w => (Ret (Loaded YNone), w);
     song_is_connected := fun w => (true, w);
     plc_is_connected := fun w => (true, w) |}.

Definition undecodable_host : Host unit :=
  {| path_exists := fun _ w => (Ret true, w);
     path_is_file := fun _ w => (Ret true, w);
     load_yaml := fun _ w => (Raise ValueError, w);
     song_is_connected := fun w => (true, w);
     plc_is_connected := fun w => (true, w) |}.

End Examples.

(** * Vocabulary of the properties *)

Unset Implicit Arguments.

(** ** Validator *)

(** The number of messages accumulated so far. *)
Definition nerr (v : validator) : nat := List.length (errors v).

(** [keeps v v']: no message was removed, and [is_valid_flag], the
    stored modulations and the mode are as before; [grows v v']:
    moreover at least one message was appended. *)
Definition keeps (v v' : validator) : Prop :=
  (nerr v <= nerr v')%nat /\ is_valid_flag v' = is_valid_flag v /\
  modulations v' = modulations v /\ mode_type v' = mode_type v.

Definition grows (v v' : validator) : Prop :=
  (nerr v < nerr v')%nat /\ is_valid_flag v' = is_valid_flag v /\
  modulations v' = modulations v /\ mode_type v' = mode_type v.

(** A check that answers [True] leaves the validator untouched; one that
    answers [False] has appended a message. *)
Definition check_post (v : validator) (out : res bool * validator) : Prop :=
  match out with
  | (Ret true, v') => v' = v
  | (Ret false, v') => grows v v'
  | (Raise _, _) => False
  end.

(** [get_number_of_cycles] on a stored integer offset that divides 360. *)
Definition cycles_of (o : Z) : res (option Z) :=
  YAMLSequenceValidator.get_number_of_cycles
    (YAMLSequenceValidator.set_retarding_plate_offsets (Some o)
       (YAMLSequenceValidator.fresh None)).

Definition cycles_exact (n : nat) : bool :=
  let o := Z.of_nat n in
  if (360 mod o =? 0) then
    match cycles_of o with
    | Ret (Some c) => c =? 360 / o
    | _ => false
    end
  else true.

(** The range checks on the fields of a stored modulation. *)
Definition angle_in_range (f : float) : bool :=
  py_le (PyInt (-180)) (PyFloat f) && py_le (PyFloat f) (PyInt 180).

Definition int_time_in_range (f : float) : bool :=
  py_le (PyFloat YAMLSequenceValidator.f0_1) (PyFloat f) &&
  py_le (PyFloat f) (PyInt 300).

Definition in_ranges (m : Modulation) : bool :=
  angle_in_range (alpha m) && angle_in_range (beta m) &&
  int_time_in_range (SONG_int_time m).

(** The verdict of [_validate_retarding_plate_offsets] on a value. *)
Definition offsets_verdict (o : yval) : res bool :=
  fst (YAMLSequenceValidator._validate_retarding_plate_offsets o
         (YAMLSequenceValidator.fresh None)).

(** On the float with the integer value [n], the verdict is the divisor
    test. *)
Definition integral_float_verdict_exact (n : nat) : bool :=
  match offsets_verdict (YFloat (float_of_Z (Z.of_nat n))) with
  | Ret b => Bool.eqb b (360 mod Z.of_nat n =? 0)
  | Raise _ => false
  end.

(** The entry [entry] of a plan document is stored as the modulation
    [m]: the three required fields converted with [float()], the
    description kept when it is a string. *)
Definition stored_as (entry : yval) (m : Modulation) : Prop :=
  exists d a b t,
    entry = YDict d /\
    dict_get d "alpha" = Some a /\ py_float a = Ret (alpha m) /\
    dict_get d "beta" = Some b /\ py_float b = Ret (beta m) /\
    dict_get d "SONG_int_time" = Some t /\
    py_float t = Ret (SONG_int_time m) /\
    description m = match dict_get d "description" with
                    | Some (YStr s) => Some s
                    | _ => None
                    end.

(** The modulation entries of a plan document: the list under
    [modes / <mode> / modulations], for the one mode that is present. *)
Definition plan_entries (doc : yval) : option (list yval) :=
  match doc with
  | YDict root =>
      match dict_get root "modes" with
      | Some (YDict ms) =>
          match dict_get ms "observation", dict_get ms "calibration" with
          | Some (YDict md), None | None, Some (YDict md) =>
              match dict_get md "modulations" with
              | Some (YList entries) => Some entries
              | _ => None
              end
          | _, _ => None
          end
      | _ => None
      end
  | _ => None
  end.

(** On the stored offset [n], [get_number_of_cycles] returns the integer
    quotient [360 // n], the number the main window displays. *)
Definition cycles_floor (n : nat) : bool :=
  match cycles_of (Z.of_nat n) with
  | Ret (Some c) => c =? 360 / Z.of_nat n
  | _ => false
  end.

(** Two validators answer every getter alike. *)
Definition same_model (v1 v2 : validator) : Prop :=
  errors v1 = errors v2 /\ is_valid_flag v1 = is_valid_flag v2 /\
  mode_type v1 = mode_type v2 /\ modulations v1 = modulations v2 /\
  retarding_plate_offsets v1 = retarding_plate_offsets v2.

(** ** Engines *)

(** The device commands of a run, without their results. *)
Inductive command : Type :=
| CmdSetMode (mode : string)
| CmdSetModulation (a b : float) (theta : option pynum)
| CmdAcquire (nr : Z) (name : string) (exptime : float) (imagetype : string)
    (a b : float) (theta : pynum) (comment : string).

Definition command_of (e : event) : list command :=
  match e with
  | EvSetMode mode _ => [CmdSetMode mode]
  | EvSetModulation a b theta _ => [CmdSetModulation a b theta]
  | EvAcquire nr name t it a b theta c _ => [CmdAcquire nr name t it a b theta c]
  | _ => []
  end.

Definition commands (tr : list event) : list command :=
  flat_map command_of tr.

(** The trace of a finished computation. *)
Definition trace {A W : Type} (out : res A * (W * list event)) : list event :=
  snd (snd out).

(** The commands of one cycle of the plan. *)
Definition cycle_commands (input : input_data) (theta_plc : option pynum)
    (theta_song : pynum) (image_type : string) : list command :=
  flat_map
    (fun m =>
       [CmdSetModulation (alpha m) (beta m) theta_plc;
        CmdAcquire (proj_number input) (proj_name input) (SONG_int_time m)
          image_type (alpha m) (beta m) theta_song (description_or_space m)])
    (in_modulations input).

(** The four kinds of event of the per-step protocol: a read of the
    abort flag, a positioner command (with whether it succeeded), a
    progress emission, and a detector command (with whether it
    succeeded). *)
Inductive pev : Type :=
| PCheck (flag : bool)
| PPositioner (ok : bool)
| PProgress
| PDetector (ok : bool).

Definition protocol_of (e : event) : list pev :=
  match e with
  | EvIsAborted flag => [PCheck flag]
  | EvSetModulation _ _ _ r => [PPositioner (plc_error r =? 0)]
  | EvProgress _ => [PProgress]
  | EvAcquire _ _ _ _ _ _ _ _ r => [PDetector (status r =? 0)]
  | _ => []
  end.

Definition protocol (tr : list event) : list pev := flat_map protocol_of tr.

(** Where a run stands in the per-step protocol. *)
Inductive pstate : Type :=
| AtCheck
| AtPositioner
| AtProgress
| AtDetector
| Stopped
| Reported.

(** The order of the background engine: check, positioner, progress,
    detector; a set flag or a failed command stops the run. *)
Definition gui_next (s : pstate) (e : pev) : option pstate :=
  match s, e with
  | AtCheck, PCheck false => Some AtPositioner
  | AtCheck, PCheck true => Some Stopped
  | AtPositioner, PPositioner true => Some AtProgress
  | AtPositioner, PPositioner false => Some Stopped
  | AtProgress, PProgress => Some AtDetector
  | AtDetector, PDetector true => Some AtCheck
  | AtDetector, PDetector false => Some Stopped
  | _, _ => None
  end.

(** The order of the foreground engine: check, positioner, detector, no
    progress emission; after a stop the flag is read once more for the
    console. *)
Definition cli_next (s : pstate) (e : pev) : option pstate :=
  match s, e with
  | AtCheck, PCheck false => Some AtPositioner
  | AtCheck, PCheck true => Some Stopped
  | AtPositioner, PPositioner true => Some AtDetector
  | AtPositioner, PPositioner false => Some Stopped
  | AtDetector, PDetector true => Some AtCheck
  | AtDetector, PDetector false => Some Stopped
  | Stopped, PCheck _ => Some Reported
  | _, _ => None
  end.

(** Running a protocol automaton over a list of protocol events. *)
Fixpoint follows (next : pstate -> pev -> option pstate) (s : pstate)
    (l : list pev) : option pstate :=
  match l with
  | [] => Some s
  | e :: r =>
      match next s e with
      | Some s' => follows next s' r
      | None => None
      end
  end.

(** The events that the cycle loops emit between two cycles. *)
Definition between_cycles (e : event) : bool :=
  match e with
  | EvPrint PrintRule => true
  | EvLog INFO (LogProcessingCycle _ _ _ _) => true
  | _ => false
  end.

(** The end of a foreground run in which a cycle returned a code
    [>= 1]: the abort flag is read and printed and the failure is
    logged. *)
Definition cli_failed_tail (flag : bool) : list event :=
  [EvIsAborted flag; EvPrint (PrintIsAborted flag); EvLog ERROR LogProcessFailed].

(** The trace of a run whose [set_mode] was rejected. *)
Definition cli_set_mode_failed (mode : string) (r : Z) (d : string)
  : list event :=
  [EvLog INFO LogProcessStarted; EvLog INFO (LogProcessingMode mode);
   EvSetMode mode r; EvGetErrorDescription r d;
   EvLog CRITICAL (LogSetModeError r d)].

Definition gui_set_mode_failed (mode : string) (r : Z) (d1 d2 : string)
  : list event :=
  [EvStatus StProcessingStarted; EvSetMode mode r;
   EvGetErrorDescription r d1; EvLog CRITICAL (LogSetModeError r d1);
   EvGetErrorDescription r d2; EvStatus (StSetModeFailed r d2);
   EvFinished false].




(** The values sent through [processing_finished]. *)
Definition finished_signals (tr : list event) : list bool :=
  flat_map (fun e => match e with EvFinished b => [b] | _ => [] end) tr.

(** The reply of a detector call. *)
Definition acquire_reply (e : event) : option song_dict :=
  match e with
  | EvAcquire _ _ _ _ _ _ _ _ r => Some r
  | _ => None
  end.

(** The statuses of the detector calls of a trace, in order. *)
Definition statuses (tr : list event) : list Z :=
  flat_map (fun e => match acquire_reply e with
                     | Some r => [status r]
                     | None => []
                     end) tr.

(** Some detector call of the trace returned a non-zero status. *)
Definition detector_failed (tr : list event) : bool :=
  existsb (fun st => negb (st =? 0)) (statuses tr).

(** A foreground run stopped by the detector at step [i] of cycle [c]
    (both from 0): the failing call is preceded by [c * n + i]
    successful acquisitions and followed only by the message that names
    step [i + 1] and cycle [c + 1]. *)
Definition cli_detector_stop (input : input_data) (n : nat)
    (tr : list event) : Prop :=
  exists c i pre ev r,
    (i < n)%nat /\
    tr = pre ++
         [ev; EvLog ERROR
                (LogSongFailed (Z.of_nat i + 1) (Z.of_nat c + 1)
                   (number_of_cycles input) (status r) (message r))] /\
    acquire_reply ev = Some r /\ status r <> 0 /\
    detector_failed pre = false /\
    List.length (statuses pre) = (c * n + i)%nat.

(** The same for the background engine, which also sends the message
    through [status_updated]. *)
Definition gui_detector_stop (input : input_data) (n : nat)
    (tr : list event) : Prop :=
  exists c i pre ev r,
    (i < n)%nat /\
    tr = pre ++
         [ev; EvStatus (StSongFailed (Z.of_nat i + 1) (Z.of_nat c + 1)
                          (number_of_cycles input));
          EvLog ERROR
            (LogSongFailed (Z.of_nat i + 1) (Z.of_nat c + 1)
               (number_of_cycles input) (status r) (message r))] /\
    acquire_reply ev = Some r /\ status r <> 0 /\
    detector_failed pre = false /\
    List.length (statuses pre) = (c * n + i)%nat.

(** The progress dictionaries emitted during a run. *)
Definition progress_of (e : event) : list progress :=
  match e with
  | EvProgress d => [d]
  | _ => []
  end.

Definition progress_events (tr : list event) : list progress :=
  flat_map progress_of tr.



(** The number of cycles a run goes through. *)
Definition cycles_run (input : input_data) : nat :=
  if String.eqb (op_mode input) "OBSERVATION" then 1%nat
  else Z.to_nat (number_of_cycles input).

(** The value of [current_theta] at the start of cycle number [i]
    (counted from 0) of a calibration run: [0.0], then [+= offset_angle]
    after every cycle. *)
Fixpoint cycle_theta (offset : Z) (i : nat) : pynum :=
  match i with
  | O => PyFloat 0%float
  | S k => py_add (cycle_theta offset k) (PyInt offset)
  end.

(** [a == b] on numbers. *)
Definition py_eq (a b : pynum) : bool := negb (py_ne a b).

(** For the offset [o]: in every cycle theta differs from the marker 999
    and is numerically equal to [i * o]. *)
Definition theta_ok (o : Z) : bool :=
  forallb
    (fun i => py_ne (cycle_theta o i) (PyInt 999) &&
              py_eq (cycle_theta o i) (PyInt (Z.of_nat i * o)))
    (seq 0 (Z.to_nat (360 / o))).

Definition theta_ok_if_divisor (n : nat) : bool :=
  if 360 mod Z.of_nat n =? 0 then theta_ok (Z.of_nat n) else true.

(** What holds after a loop body or a loop: [Inv] when it ran through,
    [Stop] when it returned a code, [Exc] when it raised. *)
Definition loop_post (S : Type) (Inv : nat -> S -> Prop)
    (Stop : Z -> S -> Prop) (Exc : exn -> S -> Prop)
    (i : nat) (out : res (option Z) * S) : Prop :=
  match out with
  | (Ret None, s') => Inv i s'
  | (Ret (Some code), s') => Stop code s'
  | (Raise e, s') => Exc e s'
  end.

(** The state after [report_failed]. *)
Definition cli_failed {World : Type} (Stop : World * list event -> Prop)
    (st : World * list event) : Prop :=
  exists w tr flag, Stop (w, tr) /\ snd st = tr ++ cli_failed_tail flag.

(** The state after a cycle returned 1: [processing_finished(False)]
    has been emitted. *)
Definition gui_failed {World : Type} (Stop : World * list event -> Prop)
    (st : World * list event) : Prop :=
  exists tr, Stop (fst st, tr) /\ snd st = tr ++ [EvFinished false].

(** The protocol events so far lead from the start of a step to the
    state [s]. *)
Definition gui_at {World : Type} (s : pstate) (st : World * list event) : Prop :=
  follows gui_next AtCheck (protocol (snd st)) = Some s.

Definition cli_at {World : Type} (s : pstate) (st : World * list event) : Prop :=
  follows cli_next AtCheck (protocol (snd st)) = Some s.

Definition gui_accepted {World : Type} (st : World * list event) : Prop :=
  follows gui_next AtCheck (protocol (snd st)) <> None.

Definition cli_accepted {World : Type} (st : World * list event) : Prop :=
  follows cli_next AtCheck (protocol (snd st)) <> None.


(** [processing_finished] has not been emitted. *)
Definition unfinished {World : Type} (st : World * list event) : Prop :=
  finished_signals (snd st) = [].

(** No detector call has failed and [k] acquisitions were made. *)
Definition clean {World : Type} (k : nat) (st : World * list event) : Prop :=
  detector_failed (snd st) = false /\ List.length (statuses (snd st)) = k.

(** No detector call has failed. *)
Definition undamaged {World : Type} (st : World * list event) : Prop :=
  detector_failed (snd st) = false.

(** The protocol events of a step that went through, in the foreground
    and in the background engine, and those of [k] such steps. *)
Definition cli_step_done : list pev :=
  [PCheck false; PPositioner true; PDetector true].

Definition gui_step_done : list pev :=
  [PCheck false; PPositioner true; PProgress; PDetector true].

Definition steps_done (step : list pev) (k : nat) : list pev :=
  List.concat (repeat step k).

(** [k] steps went through and nothing else happened on the protocol
    level; for the background engine, [processing_finished] has not been
    emitted either. *)
Definition cli_done {World : Type} (k : nat) (st : World * list event)
  : Prop :=
  protocol (snd st) = steps_done cli_step_done k.

Definition gui_done {World : Type} (k : nat) (st : World * list event)
  : Prop :=
  protocol (snd st) = steps_done gui_step_done k /\ unfinished st.

(** ** Entry point of the foreground engine *)

(** The events of the engine embedded in a trace of the entry point. *)
Definition engine_events (l : list cli_event) : list event :=
  flat_map (fun e => match e with CliEngine x => [x] | _ => [] end) l.

(** What is asked of the two clients: whether they are connected, and
    everything the engine does. *)
Definition client_contact (e : cli_event) : bool :=
  match e with
  | CliSongConnected _ | CliPlcConnected _ | CliEngine _ => true
  | _ => false
  end.

(** An entry of level ERROR or CRITICAL written by the entry point. *)
Definition is_error_entry (e : cli_event) : bool :=
  match e with
  | CliLog ERROR _ | CliLog CRITICAL _ => true
  | _ => false
  end.

(** The [set_mode] call of a run was rejected. *)
Definition set_mode_rejected {World : Type} (D : Devices World)
    (input : input_data) (w : World) : Prop :=
  fst (musol_set_mode D (op_mode input) w) <> 0.

(** ** Plan editor *)

(** The modulation that a table row stands for. *)
Definition modulation_of_row (r : table_row) : Modulation :=
  {| alpha := alpha_spin r; beta := beta_spin r;
     SONG_int_time := int_time_spin r;
     description := match strip (desc_edit r) with
                    | EmptyString => None
                    | text => Some text
                    end |}.

(** The table of the mode that is switched on. *)
Definition enabled_rows (e : editor) : list table_row :=
  if cal_enabled e then cal_modulations e else obs_modulations e.

(** ** Simulated PLC library *)

(** The world after [_log_message]. *)
Definition logged (m : MusolLibSimulator.sim_msg)
    (w : MusolLibSimulator.plc_world) : MusolLibSimulator.plc_world :=
  snd (MusolLibSimulator._log_message m w).

(** The four stored positions. *)
Definition stored_positions (s : MusolLibSimulator.simulator)
  : float * float * float * float :=
  (MusolLibSimulator.l511_position s, MusolLibSimulator.dt80_01_position s,
   MusolLibSimulator.dt80_02_position s,
   MusolLibSimulator.dt80_03_position s).

(** The four positions of the tuple that [set_modulation] returns. *)
Definition returned_positions (r : plc_values)
  : float * float * float * float :=
  (plc_alpha r, plc_beta r, plc_theta r, plc_translation_unit r).

(** The device accepts motion commands. *)
Definition ready (s : MusolLibSimulator.simulator) : bool :=
  MusolLibSimulator.connected s && MusolLibSimulator.is_initialized s &&
  negb (MusolLibSimulator.emergency_stop_active s).

(** The limits that [set_modulation] checks on its arguments. *)
Definition within_limits (a b : float) (th : option pynum) : bool :=
  PrimFloat.leb MusolLibSimulator.alpha_min a &&
  PrimFloat.leb a MusolLibSimulator.alpha_max &&
  (PrimFloat.leb MusolLibSimulator.beta_min b &&
   PrimFloat.leb b MusolLibSimulator.beta_max) &&
  match th with
  | Some theta =>
      py_le (PyFloat MusolLibSimulator.theta_min) theta &&
      py_le theta (PyFloat MusolLibSimulator.theta_max)
  | None => true
  end.

(** For the offset [o]: theta lies within the limits of the simulated
    PLC in every cycle of a calibration run. *)
Definition theta_within (o : Z) : bool :=
  forallb
    (fun i =>
       py_le (PyFloat MusolLibSimulator.theta_min) (cycle_theta o i) &&
       py_le (cycle_theta o i) (PyFloat MusolLibSimulator.theta_max))
    (seq 0 (Z.to_nat (360 / o))).

(** The theta that the engines pass to [set_modulation] in cycle [i]
    (counted from 0) of a validated plan. *)
Definition plan_theta (v : validator) (i : nat) : option pynum :=
  match retarding_plate_offsets v with
  | Some o => Some (cycle_theta o i)
  | None => None
  end.

(** The cycles of a validated plan, counted from 0. *)
Definition plan_cycle (v : validator) (i : nat) : Prop :=
  match retarding_plate_offsets v with
  | Some o => (i < Z.to_nat (360 / o))%nat
  | None => i = O
  end.

(** No draw of the sequence is below the failure rate 0.05. *)
Definition no_failure_drawn (w : MusolLibSimulator.plc_world) : Prop :=
  forall k,
    PrimFloat.ltb (MusolLibSimulator.draws w k) MusolLibSimulator.f0_05
      = false.

(** ** Detector client and simulated server *)

(** The duration of each of the five sleeps of an acquisition, from the
    exposure time and the random draw of the overhead. *)
Definition step_time (exptime : pynum) (draw : float) : float :=
  PrimFloat.div
    (PrimFloat.add (float_of_pynum exptime)
       (PrimFloat.add 2%float
          (PrimFloat.mul (PrimFloat.sub 5%float 2%float) draw)))
    5%float.

(** The name of the file of an acquisition. *)
Definition fits_name (t : SONGSpectrographSimulator.datetime) (count : Z)
    (imagetype : string) : string :=
  (("SONG_" ++ SONGSpectrographSimulator.compact t ++ "_" ++
    format_04d count) ++ "_" ++ imagetype ++ ".fits")%string.

(** ** Simulated installation *)

(** The state of the installation in which a run succeeds, after [k]
    completed steps: the PLC simulator is ready and draws no failure,
    the client is connected, the server is not busy and has counted [k]
    more observations than at the start, and nobody has asked for an
    abort. *)
Definition installation_ok (plc_draws srv_random : nat -> float)
    (count0 : Z) (k : nat) (w : sys_world) : Prop :=
  ready (MusolLibSimulator.plc (plc_side w)) = true /\
  MusolLibSimulator.draws (plc_side w) = plc_draws /\
  xmlrpcSONGClient.connected (song_client w) = true /\
  xmlrpcSONGClient.server (song_client w) = true /\
  SONGSpectrographSimulator.is_busy
    (SONGSpectrographSimulator.srv (song_server w)) = false /\
  SONGSpectrographSimulator.observation_count
    (SONGSpectrographSimulator.srv (song_server w))
    = count0 + Z.of_nat k /\
  SONGSpectrographSimulator.srv_draws (song_server w) = srv_random /\
  is_aborting w = false.

(** The sleeps of the acquisitions of a plan return. *)
Definition sleeps_return (time_sleep : float -> option exn)
    (mods : list Modulation) (srv_random : nat -> float) : Prop :=
  forall m k, In m mods ->
    time_sleep (step_time (PyFloat (SONG_int_time m)) (srv_random k)) = None.

(** The theta of cycle [c] (counted from 0) of a run. *)
Definition run_theta (input : input_data) (c : nat) : pynum :=
  if String.eqb (op_mode input) "OBSERVATION" then PyInt 999
  else cycle_theta (offset_angle input) c.

(** ** Event store of the logger *)

(** An operation on the logger, and the world after a sequence of them;
    an operation that raises leaves the world as it was when it
    raised, and the next one goes on from there. *)
Inductive log_op : Type :=
| OpLog (c : log_call)
| OpClear.

Definition log_op_run (w : SystemLogger.log_world) (o : log_op)
  : SystemLogger.log_world :=
  match o with
  | OpLog c => snd (log_call_run c w)
  | OpClear => snd (SystemLogger.clear_events w)
  end.

Definition after_ops (ops : list log_op) (w : SystemLogger.log_world)
  : SystemLogger.log_world :=
  fold_left log_op_run ops w.

(** The event that a call stores when the clock shows [t]. *)
Definition event_of (c : log_call) (t : Z) : LogEvent :=
  {| le_timestamp := t; le_level := lc_level c;
     le_event_type := lc_event_type c; le_message := lc_message c;
     le_component := lc_component c;
     le_metadata := match lc_metadata c with
                    | YNone => YDict []
                    | _ => lc_metadata c
                    end;
     le_error_details := lc_error_details c |}.

(** The events of a sequence of calls; every call reads the clock
    twice. *)
Fixpoint events_of (calls : list log_call) (clock : nat -> Z) (ticks : nat)
  : list LogEvent :=
  match calls with
  | [] => []
  | c :: rest => event_of c (clock ticks) :: events_of rest clock (2 + ticks)
  end.

(** The last [n] elements of a list. *)
Definition last_n {A : Type} (n : nat) (l : list A) : list A :=
  skipn (List.length l - n) l.

(** Counting the calls for a component, and those of level ERROR or
    CRITICAL among them, since the last [clear_events]. *)
Fixpoint calls_for (component : string) (ops : list log_op) (sofar : Z)
  : Z :=
  match ops with
  | [] => sofar
  | OpClear :: rest => calls_for component rest 0
  | OpLog c :: rest =>
      calls_for component rest
        (if String.eqb (lc_component c) component then sofar + 1 else sofar)
  end.

Fixpoint errors_for (component : string) (ops : list log_op) (sofar : Z)
  : Z :=
  match ops with
  | [] => sofar
  | OpClear :: rest => errors_for component rest 0
  | OpLog c :: rest =>
      errors_for component rest
        (if String.eqb (lc_component c) component &&
            SystemLogger.is_error_level (lc_level c)
         then sofar + 1 else sofar)
  end.

(** The counter of [error_counts] for a component, 0 when absent. *)
Definition error_counter (l : SystemLogger.logger) (component : string)
  : Z :=
  match lookup (SystemLogger.error_counts l) component with
  | Some n => n
  | None => 0
  end.

(** The stored events of a component. *)
Definition stored_for (l : SystemLogger.logger) (component : string)
  : list LogEvent :=
  filter (fun e => String.eqb (le_component e) component)
         (SystemLogger.events l).

(** Newest first. *)
Fixpoint newest_first (l : list LogEvent) : Prop :=
  match l with
  | [] => True
  | x :: r =>
      Forall (fun y => le_timestamp y <= le_timestamp x) r /\ newest_first r
  end.

(** The filters of [get_events] on one event. *)
Definition selected (component : option string) (level : option LogLevel.t)
    (event_type : option EventType.t) (since : option Z) (e : LogEvent)
  : Prop :=
  match component with
  | Some (String c r) => le_component e = String c r
  | _ => True
  end /\
  match level with Some lv => le_level e = lv | None => True end /\
  match event_type with Some et => le_event_type e = et | None => True end /\
  match since with Some t => t < le_timestamp e | None => True end.

(** The events that pass the four filters of [get_events]. *)
Definition filtered (component : option string) (level : option LogLevel.t)
    (event_type : option EventType.t) (since : option Z)
    (l : SystemLogger.logger) : list LogEvent :=
  let events1 :=
    match component with
    | Some (String c r) =>
        filter (fun e => String.eqb (le_component e) (String c r))
               (SystemLogger.events l)
    | _ => SystemLogger.events l
    end in
  let events2 :=
    match level with
    | Some lv => filter (fun e => LogLevel.eqb (le_level e) lv) events1
    | None => events1
    end in
  let events3 :=
    match event_type with
    | Some et => filter (fun e => EventType.eqb (le_event_type e) et) events2
    | None => events2
    end in
  match since with
  | Some t => filter (fun e => t <? le_timestamp e) events3
  | None => events3
  end.

(** The [log_data] that a call hands to the underlying logger, and
    whether [json.dumps] can encode what the call was given. *)
Definition log_data_of (c : log_call) : yval :=
  YDict ([("comp", YStr (lc_component c));
          ("metadata", match lc_metadata c with
                       | YNone => YDict []
                       | _ => lc_metadata c
                       end)] ++
         if xmlrpcSONGClient.truthy (lc_error_details c)
         then [("error_details", lc_error_details c)] else []).

Definition encodable (c : log_call) : bool :=
  json_serializable (lc_metadata c) &&
  json_serializable (lc_error_details c).

(** The calls that the wrappers of the engine make for a text given as
    their third argument. *)
Definition text_call (level : LogLevel.t) (message component s : string)
  : log_call :=
  {| lc_level := level; lc_message := message; lc_component := component;
     lc_event_type := EventType.CUSTOM; lc_metadata := YStr s;
     lc_error_details := YNone |}.

Definition text_as_exception (format_exc message component s : string)
  : log_call :=
  {| lc_level := LogLevel.ERROR; lc_message := message;
     lc_component := component; lc_event_type := EventType.ERROR;
     lc_metadata := YDict [];
     lc_error_details :=
       YDict [("exception_type", YStr "str");
              ("exception_message", YStr s);
              ("traceback", YStr format_exc)] |}.

(** The start of the window of [get_recent_errors], and whether
    [timedelta(minutes=minutes)] and the subtraction from the time of
    the call can be computed. *)
Definition window_start (w : SystemLogger.log_world) (minutes : Z) : Z :=
  SystemLogger.lg_clock w (SystemLogger.lg_ticks w) - minutes * 60000000.

Definition window_computable (w : SystemLogger.log_world) (minutes : Z)
  : bool :=
  (- SystemLogger.timedelta_max_days <=? minutes / 1440) &&
  (minutes / 1440 <=? SystemLogger.timedelta_max_days) &&
  (0 <=? window_start w minutes) &&
  (window_start w minutes <=? SystemLogger.datetime_max).

(** ** Runs in which the calls succeeded *)

(** A device call of a run that succeeded, as the engines judge it: a
    [set_mode] or [set_modulation] with error code 0, a detector reply
    with status 0 that carries the two keys read from it, and a read of
    the abort flag that found it unset.  Every other event counts as
    succeeded. *)
Definition call_succeeded (e : event) : bool :=
  match e with
  | EvSetMode _ r => r =? 0
  | EvIsAborted flag => negb flag
  | EvSetModulation _ _ _ r => plc_error r =? 0
  | EvAcquire _ _ _ _ _ _ _ _ r =>
      (status r =? 0) &&
      match timestamp r with Some _ => true | None => false end &&
      match filename r with Some _ => true | None => false end
  | _ => true
  end.

(** Every device call of the trace succeeded and no abort was seen. *)
Definition calls_succeeded (tr : list event) : bool :=
  forallb call_succeeded tr.

(** The computation went on from the trace [tr] and either some call
    failed on the way, or it returned a value with [ok]. *)
Definition continued {World A : Type} (tr : list event)
    (out : res A * (World * list event)) (ok : A -> list event -> Prop)
  : Prop :=
  exists evs,
    snd (snd out) = tr ++ evs /\
    (calls_succeeded evs = false \/
     exists a, fst out = Ret a /\ ok a evs).

(** The commands of one step of the plan. *)
Definition step_commands (input : input_data) (theta_plc : option pynum)
    (theta_song : pynum) (image_type : string) (m : Modulation)
  : list command :=
  [CmdSetModulation (alpha m) (beta m) theta_plc;
   CmdAcquire (proj_number input) (proj_name input) (SONG_int_time m)
     image_type (alpha m) (beta m) theta_song (description_or_space m)].






(** ** Entry point: what the host raised *)

(** [Path.exists()] raised [e], or it answered [True] and
    [Path.is_file()] raised [e]. *)
Definition host_raised {World : Type} (H : Host World) (file : string)
    (w : World) (e : exn) : Prop :=
  fst (path_exists H file w) = Raise e \/
  (fst (path_exists H file w) = Ret true /\
   fst (path_is_file H file (snd (path_exists H file w))) = Raise e).

(** Nothing was asked of the two clients. *)
Definition no_contact (evs : list cli_event) : Prop :=
  forallb (fun e => negb (client_contact e)) evs = true.

(** ** Text *)

(** The text holds ASCII characters only.  [strip] and [is_space] are
    those of Python on such text; beyond it Python also strips the white
    space of Unicode. *)
Definition is_ascii (s : string) : bool :=
  forallb (fun c => (nat_of_ascii c <? 128)%nat) (list_ascii_of_string s).


(** * Properties of the validator *)

Module ValidatorFacts.

Import YAMLSequenceValidator.

Lemma py_le_int (a b : Z) : py_le (PyInt a) (PyInt b) = (a <=? b).
Proof.
  unfold py_le, py_compare, Z.leb. destruct (a ?= b); reflexivity.
Qed.

Lemma py_ne_int (a b : Z) : py_ne (PyInt a) (PyInt b) = negb (a =? b).
Proof.
  unfold py_ne, py_compare.
  destruct (Z.eqb_spec a b) as [->|H].
  - now rewrite Z.compare_refl.
  - destruct (a ?= b) eqn:E; try reflexivity.
    apply Z.compare_eq_iff in E. contradiction.
Qed.

(** On an [int] value the offset check is the divisor test of the
    docstring. *)
Lemma offsets_int_accepted_iff (z : Z) (v : validator) :
  fst (_validate_retarding_plate_offsets (YInt z) v) = Ret true <->
  1 <= z <= 360 /\ 360 mod z = 0.
Proof.
  unfold _validate_retarding_plate_offsets, py_mod, bind, lift,
    errors_append, modify, ret.
  cbn [as_number]. rewrite !py_le_int.
  destruct (1 <=? z) eqn:E1; cbn [andb negb fst].
  2:{ split; [discriminate | lia]. }
  destruct (z <=? 360) eqn:E2; cbn [andb negb fst].
  2:{ split; [discriminate | lia]. }
  destruct (z =? 0) eqn:E0; [lia|].
  rewrite py_ne_int.
  destruct (360 mod z =? 0) eqn:E3; cbn [negb fst].
  - split; [lia | reflexivity].
  - split; [discriminate | lia].
Qed.

Lemma nerr_append (e : verror) (v : validator) :
  nerr (set_errors (errors v ++ [e]) v) = S (nerr v).
Proof. unfold nerr. cbn. rewrite length_app. cbn. lia. Qed.

Lemma nerr_pos (v : validator) : (0 < nerr v)%nat -> errors v <> [].
Proof. unfold nerr. destruct (errors v); cbn; [lia | discriminate]. Qed.

Ltac vstep :=
  unfold bind, lift, errors_append, modify, ret, raise, dict_item; cbn.

Ltac vsolve :=
  subst; unfold grows, keeps, nerr in *; cbn in *; rewrite ?length_app; cbn;
  repeat match goal with H : _ /\ _ |- _ => destruct H end;
  repeat split; try reflexivity; try congruence; try lia.

Lemma _validate_angle_post (a : yval) (i : nat) (n : string) (v : validator) :
  check_post v (_validate_angle a i n v).
Proof.
  unfold _validate_angle. destruct (as_number a) as [x|]; vstep.
  - destruct (negb _); vstep; vsolve.
  - vsolve.
Qed.

Lemma _validate_integration_time_post (t : yval) (v : validator) :
  check_post v (_validate_integration_time t v).
Proof.
  unfold _validate_integration_time. destruct (as_number t) as [x|]; vstep.
  - destruct (negb _); vstep; vsolve.
  - vsolve.
Qed.

Lemma _validate_retarding_plate_offsets_post (o : yval) (v : validator) :
  match _validate_retarding_plate_offsets o v with
  | (Ret true, v') => v' = v
  | (Ret false, v') => grows v v'
  | (Raise _, v') => v' = v
  end.
Proof.
  unfold _validate_retarding_plate_offsets.
  destruct (as_number o) as [x|]; vstep; [|vsolve].
  destruct (negb _); vstep; [vsolve|].
  destruct (py_mod 360 x) as [r|e]; [|reflexivity].
  destruct (py_ne r (PyInt 0)); vstep; vsolve.
Qed.

Ltac use_check H :=
  match type of H with
  | check_post _ (?c) =>
      let v' := fresh "v" in
      destruct c as [[[|]|?] v']; cbn in H; [subst v' | | contradiction]
  end.

Ltac destruct_inner t :=
  lazymatch t with
  | context [match ?y with _ => _ end] => destruct_inner y
  | _ => destruct t
  end.

Ltac vcrush :=
  repeat (cbn;
    match goal with
    | |- context [_validate_angle ?a ?i ?n ?v] =>
        let H := fresh "H" in
        pose proof (_validate_angle_post a i n v) as H; use_check H
    | |- context [_validate_integration_time ?t ?v] =>
        let H := fresh "H" in
        pose proof (_validate_integration_time_post t v) as H; use_check H
    | |- context [match ?x with _ => _ end] => destruct_inner x
    end).

Lemma _validate_modulation_post (m : yval) (i : nat) (v : validator) :
  match _validate_modulation m i v with
  | (Ret (Some _), v') => v' = v
  | (Ret None, v') => grows v v'
  | (Raise _, v') => keeps v v'
  end.
Proof.
  unfold _validate_modulation.
  destruct m; vstep; try solve [vsolve].
  vcrush; vsolve.
Qed.

Lemma validate_each_post (l : list yval) :
  forall (i : nat) (valid : list Modulation) (v : validator),
  match validate_each l i valid v with
  | (Ret valid', v') =>
      keeps v v' /\
      (List.length valid' = (List.length valid + List.length l)%nat \/
       (nerr v < nerr v')%nat)
  | (Raise _, v') => keeps v v'
  end.
Proof.
  induction l as [|m rest IH]; intros i valid v; cbn.
  - vsolve; try (left; lia).
  - unfold bind.
    pose proof (_validate_modulation_post m i v) as Hm.
    destruct (_validate_modulation m i v) as [[[md|]|e] v1]; [| |exact Hm].
    + subst v1. specialize (IH (S i) (valid ++ [md]) v).
      destruct (validate_each rest (S i) (valid ++ [md]) v) as [[valid'|e] v'];
        [|exact IH].
      rewrite length_app in IH. cbn in IH.
      split; [tauto | lia].
    + specialize (IH (S i) valid v1).
      destruct Hm as [Hm1 [Hm2 [Hm3 Hm4]]].
      destruct (validate_each rest (S i) valid v1) as [[valid'|e] v'].
      * destruct IH as [[K1 [K2 [K3 K4]]] _]. unfold keeps.
        split; [split; [lia | repeat split; congruence] | right; lia].
      * destruct IH as [K1 [K2 [K3 K4]]]. unfold keeps.
        split; [lia | repeat split; congruence].
Qed.

Lemma _validate_mode_post (mode_name : string) (mode_data : yval)
    (v : validator) :
  match _validate_mode mode_name mode_data v with
  | (Ret false, v') =>
      (nerr v < nerr v')%nat /\ is_valid_flag v' = is_valid_flag v
  | (_, v') => is_valid_flag v' = is_valid_flag v
  end.
Proof.
  unfold _validate_mode.
  destruct mode_data; vstep; try solve [vsolve].
  destruct (dict_get d "modulations") as [[]|]; vstep; try solve [vsolve].
  destruct l as [|m rest]; [vstep; vsolve|].
  pose proof (validate_each_post (m :: rest) 0 [] v) as He.
  destruct (validate_each (m :: rest) 0 [] v) as [[valid'|e] v1];
    [|vsolve].
  destruct valid' as [|m0 valid'].
  - vsolve.
  - cbn. destruct (String.eqb mode_name "calibration"); [|vsolve].
    destruct (dict_get d "retarding_plate_offsets") as [o|]; cbn.
    + match goal with
      | |- context [_validate_retarding_plate_offsets o ?s] =>
          pose proof (_validate_retarding_plate_offsets_post o s) as Ho;
          destruct (_validate_retarding_plate_offsets o s) as [[[|]|e] v2]
      end; cbn; try solve [vsolve].
      destruct (py_int o); vsolve.
    + vsolve.
Qed.

(** [validate()] returns [False] only after recording a message, and
    returns [True] only with [is_valid_flag] set. *)
Lemma validate_post (v : validator) :
  match validate v with
  | (Ret false, v') => errors v' <> [] /\ is_valid_flag v' = false
  | (Ret true, v') => is_valid_flag v' = true
  | (Raise _, v') => is_valid_flag v' = false
  end.
Proof.
  assert (Hmode : forall n y s,
    nerr s = 0%nat -> is_valid_flag s = false ->
    match
      (let (r, s') := _validate_mode n y s in
       match r with
       | Ret a =>
           (if negb a
            then fun s0 : validator => (Ret false, s0)
            else fun s0 : validator => (Ret true, set_is_valid_flag true s0))
             s'
       | Raise e => (Raise e, s')
       end)
    with
    | (Ret false, v') => errors v' <> [] /\ is_valid_flag v' = false
    | (Ret true, v') => is_valid_flag v' = true
    | (Raise _, v') => is_valid_flag v' = false
    end).
  { intros n y s H0 Hf.
    pose proof (_validate_mode_post n y s) as Hm.
    destruct (_validate_mode n y s) as [[[|]|e] v1]; cbn.
    - reflexivity.
    - destruct Hm as [Hm1 Hm2]. split; [|congruence].
      apply nerr_pos. lia.
    - congruence. }
  unfold validate. vstep.
  destruct (yaml_source v) as [[doc|msg]|]; cbn;
    try (split; [discriminate | reflexivity]).
  destruct doc; cbn; try (split; [discriminate | reflexivity]).
  destruct (dict_get d "modes") as [modes|]; cbn; [|reflexivity].
  destruct modes; cbn; try (split; [discriminate | reflexivity]).
  rename d0 into ms.
  unfold dict_has.
  destruct (dict_get ms "observation") eqn:Eo,
           (dict_get ms "calibration") eqn:Ec; cbn;
    rewrite ?Eo, ?Ec; cbn;
    try (split; [discriminate | reflexivity]);
    apply Hmode; reflexivity.
Qed.

(** *** Every stored modulation passes its range checks *)

Lemma int_angles_in_range :
  forallb (fun k => angle_in_range (float_of_Z (Z.of_nat k - 180)))
          (seq 0 361) = true.
Proof. vm_compute. reflexivity. Qed.

Lemma int_times_in_range :
  forallb (fun k => int_time_in_range (float_of_Z (Z.of_nat k)))
          (seq 1 300) = true.
Proof. vm_compute. reflexivity. Qed.

Lemma angle_value_in_range (a : yval) (n : pynum) (f : float) :
  as_number a = Some n ->
  py_le (PyInt (-180)) n && py_le n (PyInt 180) = true ->
  py_float a = Ret f ->
  angle_in_range f = true.
Proof.
  intros Hn Hr Hf. unfold py_float in Hf. rewrite Hn in Hf.
  destruct n as [z|g].
  - inversion Hf; subst f. rewrite !py_le_int in Hr.
    apply andb_true_iff in Hr. destruct Hr as [H1 H2].
    apply Z.leb_le in H1, H2.
    pose proof int_angles_in_range as H. rewrite forallb_forall in H.
    specialize (H (Z.to_nat (z + 180)) ltac:(apply in_seq; lia)).
    rewrite Z2Nat.id in H by lia.
    now replace (z + 180 - 180) with z in H by lia.
  - inversion Hf; subst f. exact Hr.
Qed.

Lemma f0_1_le_int (z : Z) : py_le (PyFloat f0_1) (PyInt z) = true -> 1 <= z.
Proof.
  unfold py_le, py_compare, float_cmp_Z.
  replace (Prim2SF f0_1) with (S754_finite false 7205759403792794 (-56))
    by (vm_compute; reflexivity).
  change (2 ^ Z.pos 56) with 72057594037927936.
  destruct (Z.compare_spec (Z.pos 7205759403792794) (z * 72057594037927936));
    try discriminate; lia.
Qed.

Lemma int_time_value_in_range (t : yval) (n : pynum) (f : float) :
  as_number t = Some n ->
  py_le (PyFloat f0_1) n && py_le n (PyInt 300) = true ->
  py_float t = Ret f ->
  int_time_in_range f = true.
Proof.
  intros Hn Hr Hf. unfold py_float in Hf. rewrite Hn in Hf.
  destruct n as [z|g].
  - inversion Hf; subst f.
    apply andb_true_iff in Hr. destruct Hr as [H1 H2].
    apply f0_1_le_int in H1. rewrite py_le_int in H2. apply Z.leb_le in H2.
    pose proof int_times_in_range as H. rewrite forallb_forall in H.
    specialize (H (Z.to_nat z) ltac:(apply in_seq; lia)).
    now rewrite Z2Nat.id in H by lia.
  - inversion Hf; subst f. exact Hr.
Qed.

Lemma _validate_angle_true (a : yval) (i : nat) (nm : string) (v : validator) :
  fst (_validate_angle a i nm v) = Ret true ->
  exists n, as_number a = Some n /\
            py_le (PyInt (-180)) n && py_le n (PyInt 180) = true.
Proof.
  unfold _validate_angle. destruct (as_number a) as [n|]; vstep;
    [|discriminate].
  destruct (py_le (PyInt (-180)) n && py_le n (PyInt 180)) eqn:E; cbn;
    [eauto | discriminate].
Qed.

Lemma _validate_integration_time_true (t : yval) (v : validator) :
  fst (_validate_integration_time t v) = Ret true ->
  exists n, as_number t = Some n /\
            py_le (PyFloat f0_1) n && py_le n (PyInt 300) = true.
Proof.
  unfold _validate_integration_time. destruct (as_number t) as [n|]; vstep;
    [|discriminate].
  destruct (py_le (PyFloat f0_1) n && py_le n (PyInt 300)) eqn:E; cbn;
    [eauto | discriminate].
Qed.

Lemma _validate_modulation_in_ranges (m : yval) (i : nat) (v : validator) :
  match _validate_modulation m i v with
  | (Ret (Some md), _) => in_ranges md = true
  | _ => True
  end.
Proof.
  unfold _validate_modulation.
  destruct m; vstep; try exact I.
  destruct (negb (dict_has d "alpha")); vstep; [exact I|].
  destruct (negb (dict_has d "beta")); vstep; [exact I|].
  destruct (negb (dict_has d "SONG_int_time")); vstep; [exact I|].
  destruct (dict_get d "alpha") as [a|]; vstep; [|exact I].
  destruct (_validate_angle a i "alpha" v) as [[av|e] v1] eqn:Ea; [|exact I].
  destruct (dict_get d "beta") as [b|]; vstep; [|exact I].
  destruct (_validate_angle b i "beta" v1) as [[bv|e] v2] eqn:Eb; [|exact I].
  destruct (dict_get d "SONG_int_time") as [t|]; vstep; [|exact I].
  destruct (_validate_integration_time t v2) as [[tv|e] v3] eqn:Et;
    [|exact I].
  assert (Hfin : forall descr,
    match
      (if av && bv && tv
       then
         fun s : validator =>
         match py_float a with
         | Ret fa =>
             match py_float b with
             | Ret fb =>
                 match py_float t with
                 | Ret ft =>
                     (Ret (Some {| alpha := fa; beta := fb;
                                   SONG_int_time := ft;
                                   description := descr |}), s)
                 | Raise e => (Raise e, s)
                 end
             | Raise e => (Raise e, s)
             end
         | Raise e => (Raise e, s)
         end
       else fun s : validator => (Ret None, s)) v3
    with
    | (Ret (Some md), _) => in_ranges md = true
    | _ => True
    end).
  { intros descr. destruct av, bv, tv; cbn [andb]; try exact I.
    destruct (_validate_angle_true a i "alpha" v) as [na [A1 A2]];
      [now rewrite Ea|].
    destruct (_validate_angle_true b i "beta" v1) as [nb [B1 B2]];
      [now rewrite Eb|].
    destruct (_validate_integration_time_true t v2) as [nt [T1 T2]];
      [now rewrite Et|].
    destruct (py_float a) as [fa|] eqn:Fa; [|exact I].
    destruct (py_float b) as [fb|] eqn:Fb; [|exact I].
    destruct (py_float t) as [ft|] eqn:Ft; [|exact I].
    unfold in_ranges. cbn [alpha beta SONG_int_time].
    rewrite (angle_value_in_range a na fa A1 A2 Fa),
      (angle_value_in_range b nb fb B1 B2 Fb),
      (int_time_value_in_range t nt ft T1 T2 Ft).
    reflexivity. }
  destruct (dict_get d "description") as [[]|]; try apply Hfin; exact I.
Qed.

Lemma validate_each_in_ranges (l : list yval) :
  forall (i : nat) (valid : list Modulation) (v : validator),
  Forall (fun m => in_ranges m = true) valid ->
  match validate_each l i valid v with
  | (Ret valid', _) => Forall (fun m => in_ranges m = true) valid'
  | _ => True
  end.
Proof.
  induction l as [|m rest IH]; intros i valid v Hv; cbn; [exact Hv|].
  unfold bind.
  pose proof (_validate_modulation_in_ranges m i v) as Hm.
  destruct (_validate_modulation m i v) as [[[md|]|e] v1]; [| |exact I].
  - apply IH. apply Forall_app. split; [exact Hv|].
    constructor; [exact Hm | constructor].
  - now apply IH.
Qed.

Lemma _validate_mode_in_ranges (mode_name : string) (mode_data : yval)
    (v : validator) :
  Forall (fun m => in_ranges m = true) (modulations v) ->
  Forall (fun m => in_ranges m = true)
    (modulations (snd (_validate_mode mode_name mode_data v))).
Proof.
  intros Hv. unfold _validate_mode.
  destruct mode_data; vstep; try exact Hv.
  destruct (dict_get d "modulations") as [[]|]; vstep; try exact Hv.
  destruct l as [|m rest]; [vstep; exact Hv|].
  pose proof (validate_each_in_ranges (m :: rest) 0 [] v (Forall_nil _)) as He.
  pose proof (validate_each_post (m :: rest) 0 [] v) as Hk.
  destruct (validate_each (m :: rest) 0 [] v) as [[valid'|e] v1].
  - destruct Hk as [[_ [_ [Hk _]]] _].
    destruct valid' as [|m0 valid']; cbn; [now rewrite Hk|].
    destruct (String.eqb mode_name "calibration"); [|exact He].
    destruct (dict_get d "retarding_plate_offsets") as [o|]; cbn;
      [|exact He].
    match goal with
    | |- context [_validate_retarding_plate_offsets o ?s] =>
        pose proof (_validate_retarding_plate_offsets_post o s) as Ho;
        destruct (_validate_retarding_plate_offsets o s) as [[[|]|e] v2]
    end; cbn.
    + subst v2. destruct (py_int o); exact He.
    + destruct Ho as [_ [_ [Ho _]]]. rewrite Ho. exact He.
    + subst v2. exact He.
  - destruct Hk as [_ [_ [Hk _]]]. cbn. now rewrite Hk.
Qed.

(** Whatever [validate()] answers, every modulation it has stored passes
    the range checks of its fields. *)
Lemma validate_stores_checked_modulations (v : validator) :
  Forall (fun m => in_ranges m = true) (modulations (snd (validate v))).
Proof.
  unfold validate. vstep.
  destruct (yaml_source v) as [[doc|msg]|]; cbn; try constructor.
  destruct doc; cbn; try constructor.
  destruct (dict_get d "modes") as [modes|]; cbn; [|constructor].
  destruct modes; cbn; try constructor.
  rename d0 into ms. unfold dict_has.
  destruct (dict_get ms "observation") eqn:Eo,
           (dict_get ms "calibration") eqn:Ec; cbn;
    rewrite ?Eo, ?Ec; cbn; try constructor.
  all: match goal with
       | |- context [_validate_mode ?nm ?y ?s] =>
           pose proof (_validate_mode_in_ranges nm y s (Forall_nil _)) as H;
           destruct (_validate_mode nm y s) as [[[|]|e] v1]; exact H
       end.
Qed.

Lemma cycles_exact_all : forallb cycles_exact (seq 1 360) = true.
Proof. vm_compute. reflexivity. Qed.

Lemma get_number_of_cycles_exact (o : Z) (v : validator) :
  retarding_plate_offsets v = Some o ->
  1 <= o <= 360 -> 360 mod o = 0 ->
  get_number_of_cycles v = Ret (Some (360 / o)).
Proof.
  intros Ho Hr Hd.
  pose proof cycles_exact_all as H.
  rewrite forallb_forall in H.
  specialize (H (Z.to_nat o)).
  assert (Hin : In (Z.to_nat o) (seq 1 360)) by (apply in_seq; lia).
  specialize (H Hin). unfold cycles_exact in H.
  rewrite Z2Nat.id in H by lia.
  rewrite Hd in H. cbn [Z.eqb] in H.
  unfold cycles_of, get_number_of_cycles in *. cbn in H. rewrite Ho.
  destruct (py_truediv 360 o) as [q|]; [|discriminate].
  destruct (int_of_float q) as [c|]; [|discriminate].
  apply Z.eqb_eq in H. now subst.
Qed.

(** A calibration plan with an [int] offset that [validate()] accepts
    is stored with that offset, and the offset is a divisor of 360 in
    [1, 360]: the premises of the calibration properties below. *)
Lemma validated_int_offset_is_divisor
    (v v' : validator) (root ms md : list (string * yval)) (o : Z) :
  yaml_source v = Some (Loaded (YDict root)) ->
  dict_get root "modes" = Some (YDict ms) ->
  dict_get ms "observation" = None ->
  dict_get ms "calibration" = Some (YDict md) ->
  dict_get md "retarding_plate_offsets" = Some (YInt o) ->
  validate v = (Ret true, v') ->
  mode_type v' = Some CALIBRATION /\
  retarding_plate_offsets v' = Some o /\
  1 <= o <= 360 /\ 360 mod o = 0.
Proof.
  intros Hsrc Hmodes Hobs Hcal Hoff.
  unfold validate. vstep. rewrite Hsrc. cbn. rewrite Hmodes. cbn.
  unfold dict_has. rewrite Hobs, Hcal. cbn. rewrite Hcal. cbn.
  unfold _validate_mode.
  destruct (dict_get md "modulations") as [[]|]; vstep; try discriminate.
  destruct l as [|m rest]; [vstep; discriminate|].
  match goal with
  | |- context [validate_each (m :: rest) 0 [] ?s] =>
      pose proof (validate_each_post (m :: rest) 0 [] s) as Hk;
      destruct (validate_each (m :: rest) 0 [] s) as [[valid'|e] v1]
  end; [|discriminate].
  destruct Hk as [[_ [_ [_ Hk]]] _]. cbn in Hk.
  destruct valid' as [|m0 valid']; cbn; [discriminate|].
  rewrite Hoff. cbv beta iota.
  match goal with
  | |- context [_validate_retarding_plate_offsets (YInt o) ?s] =>
      pose proof (_validate_retarding_plate_offsets_post (YInt o) s) as Hp;
      pose proof (offsets_int_accepted_iff o s) as Hi;
      destruct (_validate_retarding_plate_offsets (YInt o) s)
        as [[[|]|e] v2]
  end; cbn; try discriminate.
  subst v2. intros E. inversion E; subst v'. cbn.
  destruct Hi as [Hi _]. specialize (Hi eq_refl). tauto.
Qed.

Import Examples.

(** C4 (the code breaks it): a plan whose second modulation has
    alpha = 200 is accepted.  [validate()] returns [True] and sets
    [is_valid_flag], the failing modulation is dropped from the model
    although its message was recorded.  The same modulation alone makes
    [validate()] return [False]. *)
Theorem C4_failing_modulation_is_dropped :
  let out := validate_doc (observation_plan [good_modulation; bad_modulation]) in
  let alone := validate_doc (observation_plan [bad_modulation]) in
  (fst out = Ret true /\
   is_valid_flag (snd out) = true /\
   modulations (snd out) =
     [{| alpha := 45%float; beta := 90%float; SONG_int_time := 1.5%float;
         description := None |}] /\
   errors (snd out) = [ErrAngleRange 1 "alpha" (YFloat 200%float)]) /\
  (fst alone = Ret false /\
   errors (snd alone) = [ErrAngleRange 0 "alpha" (YFloat 200%float)]).
Proof. vm_compute. repeat split; reflexivity. Qed.

(** C5 (the code breaks it): on a top-level dictionary without the key
    ['modes'], [validate()] raises [KeyError] instead of returning
    [False], and no message is recorded. *)
Theorem C5_missing_modes_raises :
  let out := validate_doc (YDict [("observation", YDict [])]) in
  fst out = Raise (KeyError "modes") /\ get_errors (snd out) = [].
Proof. vm_compute. split; reflexivity. Qed.

(** The same for every dictionary without ['modes'], the empty one
    included. *)
Lemma validate_without_modes_raises (root : list (string * yval)) :
  dict_get root "modes" = None ->
  let out := validate_doc (YDict root) in
  fst out = Raise (KeyError "modes") /\ get_errors (snd out) = [].
Proof.
  intros H. unfold validate_doc, validate. vstep. rewrite H. cbn. tauto.
Qed.

Lemma offsets_verdict_eq (o : yval) (v : validator) :
  fst (_validate_retarding_plate_offsets o v) = offsets_verdict o.
Proof.
  unfold offsets_verdict, _validate_retarding_plate_offsets.
  destruct (as_number o) as [x|]; vstep; [|reflexivity].
  destruct (negb _); vstep; [reflexivity|].
  destruct (py_mod 360 x) as [r|e]; [|reflexivity].
  destruct (py_ne r (PyInt 0)); reflexivity.
Qed.

Lemma integral_float_verdicts :
  forallb integral_float_verdict_exact (seq 1 360) = true.
Proof. vm_compute. reflexivity. Qed.

(** A float offset with an integer value in [1, 360] is accepted exactly
    when that value divides 360 (the [45.0] of the module's own
    example). *)
Lemma offsets_integral_float_accepted_iff (z : Z) (v : validator) :
  1 <= z <= 360 ->
  (fst (_validate_retarding_plate_offsets (YFloat (float_of_Z z)) v) = Ret true
   <-> 360 mod z = 0).
Proof.
  intros Hz. rewrite offsets_verdict_eq.
  pose proof integral_float_verdicts as H.
  rewrite forallb_forall in H.
  specialize (H (Z.to_nat z) ltac:(apply in_seq; lia)).
  unfold integral_float_verdict_exact in H. rewrite Z2Nat.id in H by lia.
  destruct (offsets_verdict (YFloat (float_of_Z z))) as [b|e];
    [|discriminate].
  apply Bool.eqb_prop in H. subst b.
  split.
  - intros E. inversion E as [E']. now apply Z.eqb_eq.
  - intros E. f_equal. now apply Z.eqb_eq.
Qed.

(** C6 (the code breaks it): the non-integer offsets 7.5 and 1.5 are
    accepted; they are stored truncated, as 7 (not a divisor of 360,
    giving 51 cycles) and as 1 (giving 360 cycles).  The integer cases of
    the claim hold: 7 is rejected, 45 is accepted with 8 cycles. *)
Theorem C6_non_integer_offsets_accepted :
  let o75 := validate_doc (calibration_plan (YFloat 7.5%float) [good_modulation]) in
  let o15 := validate_doc (calibration_plan (YFloat 1.5%float) [good_modulation]) in
  let o7 := validate_doc (calibration_plan (YInt 7) [good_modulation]) in
  let o45 := validate_doc (calibration_plan (YInt 45) [good_modulation]) in
  (fst o75 = Ret true /\ retarding_plate_offsets (snd o75) = Some 7 /\
   get_number_of_cycles (snd o75) = Ret (Some 51)) /\
  (fst o15 = Ret true /\ retarding_plate_offsets (snd o15) = Some 1 /\
   get_number_of_cycles (snd o15) = Ret (Some 360)) /\
  (fst o7 = Ret false /\ errors (snd o7) = [ErrOffsetsNotFactor (YInt 7)]) /\
  (fst o45 = Ret true /\ retarding_plate_offsets (snd o45) = Some 45 /\
   get_number_of_cycles (snd o45) = Ret (Some 8)).
Proof. vm_compute. repeat split; reflexivity. Qed.

(** C10, as stated, fails in both directions: a validator that has not
    validated anything returns the empty list although no plan is valid,
    and after a [validate()] that returned [True] the list can be
    non-empty. *)
Lemma C10_counterexample :
  (let v := snd (init None) in
   is_valid v = [] /\ is_valid_flag v = false) /\
  (let out := validate_doc (observation_plan [good_modulation; bad_modulation]) in
   fst out = Ret true /\ is_valid (snd out) <> []).
Proof. vm_compute. repeat split; try reflexivity. discriminate. Qed.

(** C10 (amended): [is_valid()] returns the accumulated message list
    (what [get_errors()] returns), not a boolean.  After a [validate()]
    call that returned [False] the list is non-empty; so when it is empty
    after a [validate()] call that returned, that call returned [True]
    and set [is_valid_flag]. *)
Theorem C10_is_valid_returns_errors (v0 v : validator) (b : bool) :
  validate v0 = (Ret b, v) ->
  is_valid v = get_errors v /\
  (b = false -> is_valid v <> []) /\
  (is_valid v = [] -> b = true /\ is_valid_flag v = true).
Proof.
  intros H. pose proof (validate_post v0) as P. rewrite H in P.
  unfold is_valid, get_errors.
  split; [reflexivity|].
  destruct b.
  - split; [discriminate | tauto].
  - destruct P as [P1 P2]. split; [tauto | intros E; contradiction].
Qed.

Lemma C10_is_valid_returns_errors_witness :
  let v0 := fresh (Some (Loaded (calibration_plan (YInt 7) [good_modulation]))) in
  let v := snd (validate v0) in
  validate v0 = (Ret false, v) /\
  is_valid v = get_errors v /\
  (false = false -> is_valid v <> []) /\
  (is_valid v = [] -> false = true /\ is_valid_flag v = true).
Proof.
  split; [vm_compute; reflexivity|].
  apply (@C10_is_valid_returns_errors
           (fresh (Some (Loaded (calibration_plan (YInt 7) [good_modulation]))))).
  vm_compute; reflexivity.
Defined.

End ValidatorFacts.

(** * Properties of the engines *)

Module EngineFacts.

Lemma commands_app (l1 l2 : list event) :
  commands (l1 ++ l2) = commands l1 ++ commands l2.
Proof. apply flat_map_app. Qed.

Section Loop.

Variable S : Type.
Variable body : nat -> M S (option Z).
Variable Inv : nat -> S -> Prop.
Variable Stop : Z -> S -> Prop.
Variable Exc : exn -> S -> Prop.

(** The rule for [for_each]: an invariant kept by every completed
    iteration holds at the end, unless the body returned or raised. *)
Lemma for_each_rule (n : nat) :
  forall lo : nat,
  (forall i s, (lo <= i < lo + n)%nat -> Inv i s ->
               loop_post S Inv Stop Exc (Datatypes.S i) (body i s)) ->
  forall s, Inv lo s ->
  loop_post S Inv Stop Exc (lo + n)%nat (for_each body (seq lo n) s).
Proof.
  induction n as [|n IH]; intros lo Hbody s Hs; cbn.
  - now rewrite Nat.add_0_r.
  - unfold bind. specialize (Hbody lo s ltac:(lia) Hs) as Hb.
    destruct (body lo s) as [[[code|]|e] s1]; cbn in *; auto.
    replace (lo + Datatypes.S n)%nat with (Datatypes.S lo + n)%nat by lia.
    apply IH; auto. intros i s2 Hi. apply Hbody. lia.
Qed.

End Loop.

Ltac erun :=
  unfold is_aborted, set_modulation, get_error_description,
    send_acquire_cmd, set_mode, list_item, dict_key;
  unfold bind, ret, raise, lift, emit, call;
  cbn [fst snd negb].

Lemma nth_error_in_range {A} (l : list A) (i : nat) :
  (i < List.length l)%nat -> exists x, nth_error l i = Some x.
Proof.
  intros H. destruct (nth_error l i) eqn:E; eauto.
  apply nth_error_None in E. lia.
Qed.

Lemma range_of_nat (n : nat) : range (Z.of_nat n) = seq 0 n.
Proof. unfold range. now rewrite Nat2Z.id. Qed.

Section CLI.

Import MusolsongCLI.

Variable World : Type.
Variable D : Devices World.
Variable input : input_data.

Lemma calibration_cycles_cons (i : nat) (rest : list nat) (theta : pynum)
    (w : World) (tr : list event) :
  calibration_cycles D input (i :: rest) theta (w, tr) =
  match
    process_modulations D input (Z.of_nat i + 1) theta
      (w, (tr ++ [EvPrint PrintRule]) ++
          [EvLog INFO
             (LogProcessingCycle (Z.of_nat i + 1) (number_of_cycles input)
                theta (List.length (in_modulations input)))])
  with
  | (Ret r, s') =>
      if 1 <=? r then report_failed D s'
      else calibration_cycles D input rest
             (py_add theta (PyInt (offset_angle input))) s'
  | (Raise e, s') => (Raise e, s')
  end.
Proof.
  cbn [calibration_cycles]. unfold bind, emit. cbn [fst snd].
  destruct (process_modulations D input _ _ _) as [[r|e] s']; [|reflexivity].
  destruct (1 <=? r); reflexivity.
Qed.

Lemma process_modulation_data_eq (w : World) :
  run D input w =
  let tr0 := [EvLog INFO LogProcessStarted;
              EvLog INFO (LogProcessingMode (op_mode input))] in
  let r := musol_set_mode D (op_mode input) w in
  let tr1 := tr0 ++ [EvSetMode (op_mode input) (fst r)] in
  if negb (fst r =? 0) then
    let d := musol_get_error_description D (fst r) (snd r) in
    (Ret false,
     (snd d,
      (tr1 ++ [EvGetErrorDescription (fst r) (fst d)]) ++
      [EvLog CRITICAL (LogSetModeError (fst r) (fst d))]))
  else
    match
      (if String.eqb (op_mode input) "OBSERVATION" then
         match process_modulations D input 1 (PyInt 999) (snd r, tr1) with
         | (Ret c, s') => if 1 <=? c then report_failed D s' else (Ret true, s')
         | (Raise e, s') => (Raise e, s')
         end
       else
         calibration_cycles D input (range (number_of_cycles input))
           (PyFloat 0%float) (snd r, tr1))
    with
    | (Ret true, s') => (Ret true, (fst s', snd s' ++ [EvLog DEBUG LogCompleted]))
    | (Ret false, s') => (Ret false, s')
    | (Raise e, s') => (Raise e, s')
    end.
Proof.
  unfold run, process_modulation_data, bind, emit, set_mode,
    get_error_description, call, ret.
  cbn [fst snd app].
  destruct (negb (fst (musol_set_mode D (op_mode input) w) =? 0));
    [reflexivity|].
  destruct (String.eqb (op_mode input) "OBSERVATION").
  - destruct (process_modulations D input 1 (PyInt 999) _) as [[c|e] s'];
      [|reflexivity].
    destruct (1 <=? c); [|reflexivity].
    destruct (report_failed D s') as [[[|]|e] s'']; reflexivity.
  - destruct (calibration_cycles D input _ _ _) as [[[|]|e] s']; reflexivity.
Qed.

Lemma theta_setup_calib (theta : pynum) :
  py_ne theta (PyInt 999) = true ->
  theta_setup theta = (Some theta, theta, "CALIB").
Proof. intros H. unfold theta_setup. now rewrite H. Qed.

End CLI.


Section GUI.

Import ProcessingWorker.

Variable World : Type.
Variable D : Devices World.
Variable input : input_data.

Lemma gui_calibration_cycles_cons (i : nat) (rest : list nat) (theta : pynum)
    (w : World) (tr : list event) :
  calibration_cycles D input (i :: rest) theta (w, tr) =
  match
    process_modulations D input (Z.of_nat i + 1) theta
      (w, tr ++
          [EvLog INFO
             (LogProcessingCycle (Z.of_nat i + 1) (number_of_cycles input)
                theta (List.length (in_modulations input)))])
  with
  | (Ret r, s') =>
      if r =? 1 then (Ret false, (fst s', snd s' ++ [EvFinished false]))
      else calibration_cycles D input rest
             (py_add theta (PyInt (offset_angle input))) s'
  | (Raise e, s') => (Raise e, s')
  end.
Proof.
  cbn [calibration_cycles]. unfold bind, emit, ret. cbn [fst snd].
  destruct (process_modulations D input _ _ _) as [[r|e] s']; [|reflexivity].
  destruct (r =? 1); reflexivity.
Qed.

Lemma gui_process_modulation_data_eq (w : World) :
  run D input w =
  let r := musol_set_mode D (op_mode input) w in
  let tr1 := [EvStatus StProcessingStarted; EvSetMode (op_mode input) (fst r)] in
  if fst r =? 0 then
    match
      (if String.eqb (op_mode input) "OBSERVATION" then
         match process_modulations D input 1 (PyInt 999) (snd r, tr1) with
         | (Ret c, s') =>
             if c =? 1 then (Ret false, (fst s', snd s' ++ [EvFinished false]))
             else (Ret true, s')
         | (Raise e, s') => (Raise e, s')
         end
       else
         calibration_cycles D input (range (number_of_cycles input))
           (PyFloat 0%float) (snd r, tr1))
    with
    | (Ret true, s') =>
        (Ret tt, (fst s', (snd s' ++ [EvStatus StCompleted]) ++ [EvFinished true]))
    | (Ret false, s') => (Ret tt, s')
    | (Raise e, s') => (Raise e, s')
    end
  else
    let d1 := musol_get_error_description D (fst r) (snd r) in
    let d2 := musol_get_error_description D (fst r) (snd d1) in
    (Ret tt,
     (snd d2,
      ((((tr1 ++ [EvGetErrorDescription (fst r) (fst d1)]) ++
         [EvLog CRITICAL (LogSetModeError (fst r) (fst d1))]) ++
        [EvGetErrorDescription (fst r) (fst d2)]) ++
       [EvStatus (StSetModeFailed (fst r) (fst d2))]) ++
      [EvFinished false])).
Proof.
  unfold run, process_modulation_data, bind, emit, set_mode,
    get_error_description, call, ret.
  cbn [fst snd app].
  destruct (fst (musol_set_mode D (op_mode input) w) =? 0); [|reflexivity].
  destruct (String.eqb (op_mode input) "OBSERVATION").
  - destruct (process_modulations D input 1 (PyInt 999) _) as [[c|e] s'];
      [|reflexivity].
    destruct (c =? 1); reflexivity.
  - destruct (calibration_cycles D input _ _ _) as [[[|]|e] s']; reflexivity.
Qed.

End GUI.

Lemma protocol_app (l1 l2 : list event) :
  protocol (l1 ++ l2) = protocol l1 ++ protocol l2.
Proof. apply flat_map_app. Qed.

Lemma follows_app (next : pstate -> pev -> option pstate) (l1 l2 : list pev) :
  forall s,
  follows next s (l1 ++ l2) =
  match follows next s l1 with
  | Some s' => follows next s' l2
  | None => None
  end.
Proof.
  induction l1 as [|e l1 IH]; intros s; cbn; [reflexivity|].
  destruct (next s e); [apply IH | reflexivity].
Qed.

Ltac destruct_inner t :=
  lazymatch t with
  | context [match ?y with _ => _ end] => destruct_inner y
  | _ => let E := fresh "E" in destruct t eqn:E
  end.

(** Case analysis on every test of a symbolically executed step. *)
Ltac ecrush :=
  repeat (cbn [fst snd negb];
    match goal with
    | |- context [match ?x with _ => _ end] => destruct_inner x
    end).

Ltac rewrite_tests :=
  repeat match goal with
         | H : negb _ = true |- _ => apply negb_true_iff in H
         | H : negb _ = false |- _ => apply negb_false_iff in H
         end;
  repeat match goal with
         | H : ?x = true |- context [?x] => rewrite H
         | H : ?x = false |- context [?x] => rewrite H
         end.

(** ** A proof rule for whole runs

    [Inv c i] is to hold when the run is about to execute step [i] of
    cycle [c] (both from 0); [Stop] when a step has returned a code;
    [Exc] when an exception has been raised. *)

Section CliRule.

Import MusolsongCLI.

Variable World : Type.
Variable D : Devices World.
Variable input : input_data.

Let state : Type := (World * list event)%type.
Let n : nat := Z.to_nat (modulations_count input).

Variable Inv : nat -> nat -> state -> Prop.
Variable Stop : state -> Prop.
Variable Exc : state -> Prop.

Hypothesis Hstep :
  forall c tp ts it i st, (i < n)%nat -> Inv c i st ->
  loop_post _ (Inv c) (fun code st' => 1 <= code /\ Stop st')
    (fun _ st' => Exc st') (Datatypes.S i)
    (process_step D input (Z.of_nat c + 1) tp ts it i st).

Hypothesis Hbetween :
  forall c i w tr e, between_cycles e = true ->
  Inv c i (w, tr) -> Inv c i (w, tr ++ [e]).

Hypothesis Hnext : forall c st, Inv c n st -> Inv (Datatypes.S c) 0%nat st.

Hypothesis Hinit :
  forall w, Inv 0%nat 0%nat
    (w, [EvLog INFO LogProcessStarted;
         EvLog INFO (LogProcessingMode (op_mode input));
         EvSetMode (op_mode input) 0]).

Lemma cli_cycle_rule (c : nat) (theta : pynum) (st : state) :
  Inv c 0%nat st ->
  match process_modulations D input (Z.of_nat c + 1) theta st with
  | (Ret code, st') => (code = 0 /\ Inv c n st') \/ (1 <= code /\ Stop st')
  | (Raise _, st') => Exc st'
  end.
Proof.
  intros H0. unfold process_modulations.
  destruct (theta_setup theta) as [[tp ts] it].
  pose proof (for_each_rule _
                (process_step D input (Z.of_nat c + 1) tp ts it)
                (Inv c) (fun code st' => 1 <= code /\ Stop st')
                (fun _ st' => Exc st') n 0%nat) as R.
  cbn [Nat.add] in R.
  specialize (R ltac:(intros i s Hi Hs; apply Hstep; [lia | exact Hs]) st H0).
  unfold bind, range. fold n.
  destruct (for_each (process_step D input (Z.of_nat c + 1) tp ts it)
              (seq 0 n) st) as [[[code|]|e] st']; cbn in *; auto.
Qed.

Lemma report_failed_eq (w : World) (tr : list event) :
  report_failed D (w, tr) =
  (Ret false,
   (snd (abort_flag D w), tr ++ cli_failed_tail (fst (abort_flag D w)))).
Proof.
  unfold report_failed, bind, is_aborted, call, emit, ret, cli_failed_tail.
  cbn [fst snd]. rewrite <- !app_assoc. reflexivity.
Qed.

Lemma cli_calibration_rule (k : nat) :
  forall (lo : nat) (theta : pynum) (w : World) (tr : list event),
  Inv lo 0%nat (w, tr) ->
  match calibration_cycles D input (seq lo k) theta (w, tr) with
  | (Ret true, st') => Inv (lo + k)%nat 0%nat st'
  | (Ret false, st') => cli_failed Stop st'
  | (Raise _, st') => Exc st'
  end.
Proof.
  induction k as [|k IH]; intros lo theta w tr H0.
  - cbn. now rewrite Nat.add_0_r.
  - cbn [seq]. rewrite calibration_cycles_cons.
    match goal with
    | |- context [process_modulations D input _ _ ?s] =>
        assert (H1 : Inv lo 0%nat s)
          by (apply Hbetween; [reflexivity|];
              apply Hbetween; [reflexivity | exact H0]);
        pose proof (cli_cycle_rule lo theta s H1) as R;
        destruct (process_modulations D input (Z.of_nat lo + 1) theta s)
          as [[code|e] [w1 tr1]]
    end; [|exact R].
    destruct R as [[-> R]|[Hc R]].
    + cbn [Z.leb Z.compare].
      replace (lo + Datatypes.S k)%nat with (Datatypes.S lo + k)%nat by lia.
      apply IH. now apply Hnext.
    + apply Z.leb_le in Hc. rewrite Hc. rewrite report_failed_eq.
      exists w1, tr1, (fst (abort_flag D w1)). split; [exact R | reflexivity].
Qed.

(** What a whole run leaves behind: on [True] a state satisfying the
    invariant, extended by the final log entry; on [False] a stopped
    cycle followed by the failure report, or a rejected [set_mode]. *)
Theorem cli_run_rule (w : World) :
  match run D input w with
  | (Ret true, st') =>
      exists c i tr, Inv c i (fst st', tr) /\
                     snd st' = tr ++ [EvLog DEBUG LogCompleted]
  | (Ret false, st') =>
      cli_failed Stop st' \/
      exists r d, r <> 0 /\
                  snd st' = cli_set_mode_failed (op_mode input) r d
  | (Raise _, st') => Exc st'
  end.
Proof.
  rewrite process_modulation_data_eq. cbn zeta.
  destruct (fst (musol_set_mode D (op_mode input) w) =? 0) eqn:E0;
    cbn [negb].
  2:{ right. eexists. eexists. split; [|reflexivity].
      now apply Z.eqb_neq. }
  apply Z.eqb_eq in E0. rewrite E0. cbn [app].
  pose proof (Hinit (snd (musol_set_mode D (op_mode input) w))) as H0.
  destruct (String.eqb (op_mode input) "OBSERVATION").
  - pose proof (cli_cycle_rule 0%nat (PyInt 999) _ H0) as R.
    cbn [Z.of_nat Z.add] in R.
    destruct (process_modulations D input 1 (PyInt 999) _)
      as [[code|e] [w1 tr1]]; [|exact R].
    destruct R as [[-> R]|[Hc R]].
    + cbn. exists 0%nat, n, tr1. split; [exact R | reflexivity].
    + apply Z.leb_le in Hc. rewrite Hc. rewrite report_failed_eq.
      left. exists w1, tr1, (fst (abort_flag D w1)).
      split; [exact R | reflexivity].
  - pose proof (cli_calibration_rule (Z.to_nat (number_of_cycles input))
                  0%nat (PyFloat 0%float) _ _ H0) as R.
    unfold range.
    destruct (calibration_cycles D input _ _ _) as [[[|]|e] [w1 tr1]].
    + cbn. eexists. exists 0%nat, tr1. split; [exact R | reflexivity].
    + left. exact R.
    + exact R.
Qed.

End CliRule.

Section GuiRule.

Import ProcessingWorker.

Variable World : Type.
Variable D : Devices World.
Variable input : input_data.

Let state : Type := (World * list event)%type.
Let n : nat := Z.to_nat (modulations_count input).

Variable Inv : nat -> nat -> state -> Prop.
Variable Stop : state -> Prop.
Variable Exc : state -> Prop.

Hypothesis Hstep :
  forall c tp ts it i st, (i < n)%nat -> Inv c i st ->
  loop_post _ (Inv c) (fun code st' => code = 1 /\ Stop st')
    (fun _ st' => Exc st') (Datatypes.S i)
    (process_step D input (Z.of_nat c + 1) tp ts it i st).

Hypothesis Hbetween :
  forall c i w tr e, between_cycles e = true ->
  Inv c i (w, tr) -> Inv c i (w, tr ++ [e]).

Hypothesis Hnext : forall c st, Inv c n st -> Inv (Datatypes.S c) 0%nat st.

Hypothesis Hinit :
  forall w, Inv 0%nat 0%nat
    (w, [EvStatus StProcessingStarted; EvSetMode (op_mode input) 0]).

Lemma gui_cycle_rule (c : nat) (theta : pynum) (st : state) :
  Inv c 0%nat st ->
  match process_modulations D input (Z.of_nat c + 1) theta st with
  | (Ret code, st') => (code = 0 /\ Inv c n st') \/ (code = 1 /\ Stop st')
  | (Raise _, st') => Exc st'
  end.
Proof.
  intros H0. unfold process_modulations.
  destruct (theta_setup theta) as [[tp ts] it].
  pose proof (for_each_rule _
                (process_step D input (Z.of_nat c + 1) tp ts it)
                (Inv c) (fun code st' => code = 1 /\ Stop st')
                (fun _ st' => Exc st') n 0%nat) as R.
  cbn [Nat.add] in R.
  specialize (R ltac:(intros i s Hi Hs; apply Hstep; [lia | exact Hs]) st H0).
  unfold bind, range. fold n.
  destruct (for_each (process_step D input (Z.of_nat c + 1) tp ts it)
              (seq 0 n) st) as [[[code|]|e] st']; cbn in *; auto.
Qed.

Lemma gui_calibration_rule (k : nat) :
  forall (lo : nat) (theta : pynum) (w : World) (tr : list event),
  Inv lo 0%nat (w, tr) ->
  match calibration_cycles D input (seq lo k) theta (w, tr) with
  | (Ret true, st') => Inv (lo + k)%nat 0%nat st'
  | (Ret false, st') => gui_failed Stop st'
  | (Raise _, st') => Exc st'
  end.
Proof.
  induction k as [|k IH]; intros lo theta w tr H0.
  - cbn. now rewrite Nat.add_0_r.
  - cbn [seq]. rewrite gui_calibration_cycles_cons.
    match goal with
    | |- context [process_modulations D input _ _ ?s] =>
        assert (H1 : Inv lo 0%nat s)
          by (apply Hbetween; [reflexivity | exact H0]);
        pose proof (gui_cycle_rule lo theta s H1) as R;
        destruct (process_modulations D input (Z.of_nat lo + 1) theta s)
          as [[code|e] [w1 tr1]]
    end; [|exact R].
    destruct R as [[-> R]|[-> R]].
    + cbn [Z.eqb].
      replace (lo + Datatypes.S k)%nat with (Datatypes.S lo + k)%nat by lia.
      apply IH. now apply Hnext.
    + cbn [Z.eqb Pos.eqb fst snd]. exists tr1. split; [exact R | reflexivity].
Qed.

(** What a whole run leaves behind: a state satisfying the invariant
    followed by the completion message and [processing_finished(True)];
    or a stopped cycle followed by [processing_finished(False)]; or a
    rejected [set_mode]. *)
Theorem gui_run_rule (w : World) :
  match run D input w with
  | (Ret _, st') =>
      (exists c i tr, Inv c i (fst st', tr) /\
         snd st' = tr ++ [EvStatus StCompleted; EvFinished true]) \/
      gui_failed Stop st' \/
      (exists r d1 d2, r <> 0 /\
         snd st' = gui_set_mode_failed (op_mode input) r d1 d2)
  | (Raise _, st') => Exc st'
  end.
Proof.
  rewrite gui_process_modulation_data_eq. cbn zeta.
  destruct (fst (musol_set_mode D (op_mode input) w) =? 0) eqn:E0.
  2:{ right. right. eexists. eexists. eexists. split; [|reflexivity].
      now apply Z.eqb_neq. }
  apply Z.eqb_eq in E0. rewrite E0.
  pose proof (Hinit (snd (musol_set_mode D (op_mode input) w))) as H0.
  destruct (String.eqb (op_mode input) "OBSERVATION").
  - pose proof (gui_cycle_rule 0%nat (PyInt 999) _ H0) as R.
    cbn [Z.of_nat Z.add] in R.
    destruct (process_modulations D input 1 (PyInt 999) _)
      as [[code|e] [w1 tr1]]; [|exact R].
    destruct R as [[-> R]|[-> R]].
    + cbn. left. exists 0%nat, n, tr1. split; [exact R|].
      now rewrite <- app_assoc.
    + cbn. right. left. exists tr1. split; [exact R | reflexivity].
  - pose proof (gui_calibration_rule (Z.to_nat (number_of_cycles input))
                  0%nat (PyFloat 0%float) _ _ H0) as R.
    unfold range.
    destruct (calibration_cycles D input _ _ _) as [[[|]|e] [w1 tr1]].
    + cbn. left. eexists. exists 0%nat, tr1. split; [exact R|].
      now rewrite <- app_assoc.
    + right. left. exact R.
    + exact R.
Qed.

End GuiRule.

Lemma protocol_between (tr : list event) (e : event) :
  between_cycles e = true -> protocol (tr ++ [e]) = protocol tr.
Proof.
  intros H. rewrite protocol_app.
  destruct e as [| | | | |lvl []| []| | |]; try discriminate H;
    try (destruct lvl; try discriminate H); cbn; apply app_nil_r.
Qed.

Section Order.

Variable World : Type.
Variable D : Devices World.
Variable input : input_data.

Ltac order_solve :=
  unfold gui_at, cli_at, gui_accepted, cli_accepted in *;
  cbn [fst snd] in *;
  rewrite ?protocol_app;
  cbn [protocol protocol_of flat_map app];
  rewrite ?app_nil_r; rewrite ?follows_app;
  repeat match goal with
         | H : follows _ _ _ = Some _ |- _ => rewrite H
         end;
  cbn [follows]; rewrite_tests; cbn [gui_next cli_next follows];
  try reflexivity; try discriminate.

Lemma gui_step_order (cycle : Z) (tp : option pynum) (ts : pynum)
    (it : string) (i : nat) (st : World * list event) :
  gui_at AtCheck st ->
  loop_post _ (fun _ => gui_at AtCheck)
    (fun code st' => code = 1 /\ gui_at Stopped st')
    (fun _ st' => gui_accepted st')
    (Datatypes.S i)
    (ProcessingWorker.process_step D input cycle tp ts it i st).
Proof.
  destruct st as [w tr]. intros H.
  unfold ProcessingWorker.process_step,
    ProcessingWorker.prepare_updated_data_for_GUI. erun.
  ecrush; cbn [loop_post]; try (split; [reflexivity|]); order_solve.
Qed.

Lemma cli_step_order (cycle : Z) (tp : option pynum) (ts : pynum)
    (it : string) (i : nat) (st : World * list event) :
  cli_at AtCheck st ->
  loop_post _ (fun _ => cli_at AtCheck)
    (fun code st' => 1 <= code /\ cli_at Stopped st')
    (fun _ st' => cli_accepted st')
    (Datatypes.S i)
    (MusolsongCLI.process_step D input cycle tp ts it i st).
Proof.
  destruct st as [w tr]. intros H.
  unfold MusolsongCLI.process_step. erun.
  ecrush; cbn [loop_post]; try (split; [lia|]); order_solve.
Qed.

Lemma gui_order (w : World) :
  gui_accepted (snd (ProcessingWorker.run D input w)).
Proof.
  pose proof (gui_run_rule World D input
                (fun _ _ => gui_at AtCheck) (gui_at Stopped) gui_accepted
                ltac:(intros; now apply gui_step_order)
                ltac:(intros c i w0 tr e He H; unfold gui_at in *;
                      cbn [snd] in *; now rewrite protocol_between)
                ltac:(auto) ltac:(reflexivity) w) as R.
  destruct (ProcessingWorker.run D input w) as [[[]|e] [w' tr']];
    [|exact R].
  cbn [fst snd] in R.
  destruct R as [[c [i [tr [H ->]]]]|[[tr [H E]]|[r [d1 [d2 [_ ->]]]]]].
  - order_solve.
  - cbn [snd] in E. subst tr'. order_solve.
  - unfold gui_accepted. cbn. discriminate.
Qed.

Lemma cli_order (w : World) :
  cli_accepted (snd (MusolsongCLI.run D input w)).
Proof.
  pose proof (cli_run_rule World D input
                (fun _ _ => cli_at AtCheck) (cli_at Stopped) cli_accepted
                ltac:(intros; now apply cli_step_order)
                ltac:(intros c i w0 tr e He H; unfold cli_at in *;
                      cbn [snd] in *; now rewrite protocol_between)
                ltac:(auto) ltac:(reflexivity) w) as R.
  destruct (MusolsongCLI.run D input w) as [[[|]|e] [w' tr']];
    cbn [fst snd] in R.
  - destruct R as [c [i [tr [H ->]]]]. order_solve.
  - destruct R as [[w0 [tr [flag [H E]]]]|[r [d [_ ->]]]].
    + cbn [snd] in E. subst tr'. unfold cli_failed_tail. order_solve.
    + unfold cli_accepted. cbn. discriminate.
  - exact R.
Qed.

End Order.

(** In every list the background automaton accepts, a progress emission
    comes directly after a successful positioner command, and what
    follows it, if anything, is the detector command. *)
Lemma gui_progress_placement (l pre post : list pev) (s s' : pstate) :
  follows gui_next s l = Some s' ->
  l = pre ++ PProgress :: post ->
  (s = AtProgress /\ pre = [] \/ exists pre', pre = pre' ++ [PPositioner true]) /\
  (post = [] \/ exists ok post', post = PDetector ok :: post').
Proof.
  intros H ->. rewrite follows_app in H.
  destruct (follows gui_next s pre) as [s1|] eqn:E1; [|discriminate].
  cbn [follows] in H.
  assert (Hs1 : s1 = AtProgress) by (destruct s1; cbn in H; congruence).
  subst s1. cbn [gui_next] in H. split.
  - clear H. destruct pre as [|x pre] using rev_ind.
    + cbn in E1. left. split; congruence.
    + right. rewrite follows_app in E1.
      destruct (follows gui_next s pre) as [s2|]; [|discriminate].
      cbn in E1. exists pre.
      destruct s2, x as [[|]|[|]| |[|]]; cbn in E1; congruence.
  - destruct post as [|e post]; [now left|]. right.
    cbn in H. destruct e as [[|]|[|]| |ok]; try discriminate H. eauto.
Qed.

(** A list the foreground automaton accepts has no progress emission. *)
Lemma cli_no_progress (l : list pev) :
  forall s, follows cli_next s l <> None -> ~ In PProgress l.
Proof.
  induction l as [|e l IH]; intros s H; cbn; [tauto|].
  cbn in H. destruct (cli_next s e) as [s1|] eqn:E; [|congruence].
  intros [->|Hin].
  - destruct s; discriminate E.
  - exact (IH s1 H Hin).
Qed.



Section Reports.

Variable World : Type.
Variable D : Devices World.
Variable input : input_data.





Lemma finished_signals_between (tr : list event) (e : event) :
  between_cycles e = true -> finished_signals (tr ++ [e]) = finished_signals tr.
Proof.
  intros H. unfold finished_signals. rewrite flat_map_app.
  destruct e; try discriminate H; cbn; apply app_nil_r.
Qed.


End Reports.

Lemma snoc3 {A} (l : list A) (a b c : A) :
  ((l ++ [a]) ++ [b]) ++ [c] = l ++ [a; b; c].
Proof. now rewrite <- !app_assoc. Qed.

Lemma statuses_app (l1 l2 : list event) :
  statuses (l1 ++ l2) = statuses l1 ++ statuses l2.
Proof. apply flat_map_app. Qed.

Lemma detector_failed_app (l1 l2 : list event) :
  detector_failed (l1 ++ l2) = detector_failed l1 || detector_failed l2.
Proof. unfold detector_failed. rewrite statuses_app. apply existsb_app. Qed.

Lemma statuses_between (tr : list event) (e : event) :
  between_cycles e = true -> statuses (tr ++ [e]) = statuses tr.
Proof.
  intros H. rewrite statuses_app.
  destruct e; try discriminate H; cbn; apply app_nil_r.
Qed.

Section FailStop.

Variable World : Type.
Variable D : Devices World.
Variable input : input_data.

Let n : nat := Z.to_nat (modulations_count input).

Ltac clean_solve :=
  unfold clean, undamaged in *; cbn [fst snd] in *;
  rewrite ?detector_failed_app, ?statuses_app, ?length_app;
  repeat match goal with
         | H : detector_failed _ = false |- _ => rewrite H
         | H : List.length (statuses _) = _ |- _ => rewrite H
         end;
  cbn [detector_failed statuses flat_map acquire_reply app existsb orb
       List.length];
  rewrite_tests; cbn [negb orb]; try reflexivity; try lia.

Lemma cli_step_failstop (c : nat) (tp : option pynum) (ts : pynum)
    (it : string) (i : nat) (st : World * list event) :
  (i < n)%nat ->
  clean (c * n + i) st ->
  loop_post _ (fun j => clean (c * n + j))
    (fun code st' =>
       1 <= code /\ (undamaged st' \/ cli_detector_stop input n (snd st')))
    (fun _ st' => undamaged st') (Datatypes.S i)
    (MusolsongCLI.process_step D input (Z.of_nat c + 1) tp ts it i st).
Proof.
  destruct st as [w tr]. intros Hi [H1 H2].
  unfold MusolsongCLI.process_step. erun.
  ecrush; cbn [loop_post].
  all: try solve [clean_solve].
  all: try solve [split; [lia | left; clean_solve]].
  all: try solve [split; clean_solve].
  split; [lia|]. right.
  exists c, i. eexists. eexists. eexists.
  split; [exact Hi|].
  split; [cbn [snd]; rewrite <- app_assoc; reflexivity|].
  split; [reflexivity|].
  split; [apply Z.eqb_neq; eassumption|].
  split; clean_solve.
Qed.

Lemma gui_step_failstop (c : nat) (tp : option pynum) (ts : pynum)
    (it : string) (i : nat) (st : World * list event) :
  (i < n)%nat ->
  clean (c * n + i) st ->
  loop_post _ (fun j => clean (c * n + j))
    (fun code st' =>
       code = 1 /\ (undamaged st' \/ gui_detector_stop input n (snd st')))
    (fun _ st' => undamaged st') (Datatypes.S i)
    (ProcessingWorker.process_step D input (Z.of_nat c + 1) tp ts it i st).
Proof.
  destruct st as [w tr]. intros Hi [H1 H2].
  unfold ProcessingWorker.process_step,
    ProcessingWorker.prepare_updated_data_for_GUI. erun.
  ecrush; cbn [loop_post].
  all: try solve [clean_solve].
  all: try solve [split; [reflexivity | left; clean_solve]].
  all: try solve [split; clean_solve].
  split; [reflexivity|]. right.
  exists c, i. eexists. eexists. eexists.
  split; [exact Hi|].
  split; [cbn [snd]; apply snoc3|].
  split; [reflexivity|].
  split; [apply Z.eqb_neq; eassumption|].
  split; clean_solve.
Qed.

Lemma clean_between (c i : nat) (w : World) (tr : list event) (e : event) :
  between_cycles e = true ->
  clean (c * n + i) (w, tr) -> clean (c * n + i) (w, tr ++ [e]).
Proof.
  intros He [H1 H2]. unfold clean, detector_failed in *. cbn [snd] in *.
  now rewrite statuses_between.
Qed.

Lemma clean_next (c : nat) (st : World * list event) :
  clean (c * n + n) st -> clean (Datatypes.S c * n + 0) st.
Proof.
  unfold clean. intros [H1 H2]. split; [exact H1|]. rewrite H2. lia.
Qed.

(** A foreground run in which a detector call returned a non-zero
    status. *)
Lemma cli_failstop (w : World) :
  detector_failed (trace (MusolsongCLI.run D input w)) = true ->
  fst (MusolsongCLI.run D input w) = Ret false /\
  exists tr0 flag,
    cli_detector_stop input n tr0 /\
    trace (MusolsongCLI.run D input w) = tr0 ++ cli_failed_tail flag.
Proof.
  pose proof (cli_run_rule World D input
                (fun c i => clean (c * n + i))
                (fun st => undamaged st \/ cli_detector_stop input n (snd st))
                undamaged
                ltac:(intros; now apply cli_step_failstop)
                clean_between clean_next
                ltac:(intros; split; reflexivity) w) as R.
  unfold trace.
  destruct (MusolsongCLI.run D input w) as [[[|]|e] [w' tr']];
    cbn [fst snd] in *; intros Hf.
  - destruct R as [c [i [tr [[H1 H2] ->]]]]. cbn [snd] in *.
    rewrite detector_failed_app, H1 in Hf. discriminate Hf.
  - split; [reflexivity|].
    destruct R as [[w0 [tr [flag [[H|H] E]]]]|[r [d [_ ->]]]].
    + cbn [snd] in E. subst tr'. unfold undamaged in H. cbn [snd] in H.
      rewrite detector_failed_app, H in Hf. discriminate Hf.
    + exists tr, flag. split; [exact H | exact E].
    + discriminate Hf.
  - unfold undamaged in R. cbn [snd] in R. congruence.
Qed.

(** A background run in which a detector call returned a non-zero
    status. *)
Lemma gui_failstop (w : World) :
  detector_failed (trace (ProcessingWorker.run D input w)) = true ->
  fst (ProcessingWorker.run D input w) = Ret tt /\
  exists tr0,
    gui_detector_stop input n tr0 /\
    trace (ProcessingWorker.run D input w) = tr0 ++ [EvFinished false].
Proof.
  pose proof (gui_run_rule World D input
                (fun c i => clean (c * n + i))
                (fun st => undamaged st \/ gui_detector_stop input n (snd st))
                undamaged
                ltac:(intros; now apply gui_step_failstop)
                clean_between clean_next
                ltac:(intros; split; reflexivity) w) as R.
  unfold trace.
  destruct (ProcessingWorker.run D input w) as [[[]|e] [w' tr']];
    cbn [fst snd] in *; intros Hf.
  - split; [reflexivity|].
    destruct R as [[c [i [tr [[H1 H2] ->]]]]|[[tr [[H|H] E]]|[r [d1 [d2 [_ ->]]]]]].
    + cbn [snd] in *. rewrite detector_failed_app, H1 in Hf. discriminate Hf.
    + cbn [snd] in E. subst tr'. unfold undamaged in H. cbn [snd] in H.
      rewrite detector_failed_app, H in Hf. discriminate Hf.
    + exists tr. split; [exact H | exact E].
    + discriminate Hf.
  - unfold undamaged in R. cbn [snd] in R. congruence.
Qed.

End FailStop.

Lemma calls_succeeded_app (l1 l2 : list event) :
  calls_succeeded (l1 ++ l2) = calls_succeeded l1 && calls_succeeded l2.
Proof. apply forallb_app. Qed.

Lemma skipn_nth {A} (l : list A) :
  forall (i : nat) (x : A),
  nth_error l i = Some x -> skipn i l = x :: skipn (Datatypes.S i) l.
Proof.
  induction l as [|a l IH]; intros [|i] x H; cbn in *; try discriminate.
  - now inversion H.
  - now apply IH.
Qed.

Ltac failing F :=
  rewrite ?calls_succeeded_app, F; cbn;
  repeat (rewrite ?andb_false_r; cbn [andb]);
  first [reflexivity | discriminate].

Ltac rewrite_eqs :=
  repeat match goal with
         | H : ?x = _ |- context [?x] => rewrite H
         end.

(** ** Runs in which the calls succeeded

    The devices are arbitrary: what is known is only what the trace of
    the run shows. *)

Section CliReplay.

Import MusolsongCLI.

Variable World : Type.
Variable D : Devices World.
Variable input : input_data.

Hypothesis Hcount :
  modulations_count input = Z.of_nat (List.length (in_modulations input)).

Lemma cli_step_replay (cycle : Z) (tp : option pynum) (ts : pynum)
    (it : string) (i : nat) (m : Modulation) (w : World)
    (tr : list event) :
  nth_error (in_modulations input) i = Some m ->
  continued tr (process_step D input cycle tp ts it i (w, tr))
    (fun r evs => r = None /\ commands evs = step_commands input tp ts it m).
Proof.
  intros Hm. unfold continued, process_step. erun. rewrite Hm.
  ecrush; cbn [fst snd]; rewrite <- ?app_assoc;
    (eexists; split; [reflexivity|]);
    first
      [ solve [ right; eexists; split; [reflexivity|];
                split; reflexivity ]
      | solve [ left; cbn; rewrite_tests; rewrite_eqs; reflexivity ] ].
Qed.

Lemma cli_steps_replay (cycle : Z) (tp : option pynum) (ts : pynum)
    (it : string) (k : nat) :
  forall (lo : nat) (w : World) (tr : list event),
  (lo + k <= List.length (in_modulations input))%nat ->
  continued tr
    (for_each (process_step D input cycle tp ts it) (seq lo k) (w, tr))
    (fun r evs =>
       r = None /\
       commands evs =
         flat_map (step_commands input tp ts it)
           (firstn k (skipn lo (in_modulations input)))).
Proof.
  induction k as [|k IH]; intros lo w tr Hk.
  - exists []. cbn. rewrite app_nil_r. split; [reflexivity|].
    right. exists None. repeat split.
  - cbn [seq for_each]. unfold bind.
    destruct (nth_error_in_range (in_modulations input) lo ltac:(lia))
      as [m Hm].
    destruct (cli_step_replay cycle tp ts it lo m w tr Hm)
      as [evs1 [E1 R1]].
    destruct (process_step D input cycle tp ts it lo (w, tr))
      as [r1 [w1 tr1]].
    cbn [fst snd] in *. subst tr1.
    destruct (IH (Datatypes.S lo) w1 (tr ++ evs1) ltac:(lia))
      as [evs2 [E2 R2]].
    destruct r1 as [[code|]|e].
    + exists evs1. split; [reflexivity|]. left.
      destruct R1 as [F|[a [Ea [Hn _]]]]; [exact F|].
      congruence.
    + exists (evs1 ++ evs2). split; [now rewrite E2, app_assoc|].
      destruct R1 as [F|[a [_ [_ C1]]]];
        [left; failing F|].
      destruct R2 as [F|[a2 [Ea2 [Hn C2]]]];
        [left; failing F|].
      right. exists a2. split; [exact Ea2|]. split; [exact Hn|].
      rewrite commands_app, C1, C2, (skipn_nth _ _ _ Hm). reflexivity.
    + exists evs1. split; [reflexivity|]. left.
      destruct R1 as [F|[a [Ea _]]]; [exact F | discriminate Ea].
Qed.

Lemma cli_cycle_replay (cycle : Z) (theta : pynum) (w : World)
    (tr : list event) :
  continued tr (process_modulations D input cycle theta (w, tr))
    (fun code evs =>
       code = 0 /\
       commands evs =
         cycle_commands input (fst (fst (theta_setup theta)))
           (snd (fst (theta_setup theta))) (snd (theta_setup theta))).
Proof.
  unfold process_modulations.
  destruct (theta_setup theta) as [[tp ts] it]. cbn [fst snd].
  rewrite Hcount, range_of_nat. unfold bind.
  destruct (cli_steps_replay cycle tp ts it
              (List.length (in_modulations input)) 0%nat w tr
              ltac:(cbn; lia)) as [evs [E R]].
  destruct (for_each _ _ (w, tr)) as [r st']. cbn [fst snd] in *.
  exists evs.
  destruct r as [[code|]|e]; cbn [fst snd]; (split; [exact E|]);
    destruct R as [F|[a [Ea [Hn C]]]]; try (left; exact F);
    try congruence.
  right. exists 0. repeat split.
  rewrite C. cbn [skipn]. now rewrite firstn_all.
Qed.

Lemma cli_calibration_replay (k : nat) :
  forall (lo : nat) (w : World) (tr : list event),
  (forall i, (lo <= i < lo + k)%nat ->
             py_ne (cycle_theta (offset_angle input) i) (PyInt 999) = true) ->
  continued tr
    (calibration_cycles D input (seq lo k)
       (cycle_theta (offset_angle input) lo) (w, tr))
    (fun b evs =>
       b = true /\
       commands evs =
         flat_map
           (fun i => cycle_commands input
                       (Some (cycle_theta (offset_angle input) i))
                       (cycle_theta (offset_angle input) i) "CALIB")
           (seq lo k)).
Proof.
  induction k as [|k IH]; intros lo w tr Hne.
  - exists []. cbn. rewrite app_nil_r. split; [reflexivity|].
    right. exists true. repeat split.
  - cbn [seq]. rewrite calibration_cycles_cons.
    match goal with
    | |- context [process_modulations D input ?c ?t (?w0, ?tr0)] =>
        destruct (cli_cycle_replay c t w0 tr0) as [evs1 [E1 R1]];
        destruct (process_modulations D input c t (w0, tr0))
          as [r1 [w1 tr1]]
    end.
    cbn [fst snd] in *. subst tr1.
    rewrite theta_setup_calib in R1 by (apply Hne; lia). cbn [fst snd] in R1.
    destruct r1 as [code|e].
    + destruct (1 <=? code) eqn:Ecode.
      * rewrite report_failed_eq. cbn [fst snd].
        eexists. split; [rewrite <- !app_assoc; reflexivity|].
        left. destruct R1 as [F|[a [Ea [Hz _]]]].
        -- failing F.
        -- assert (code = 0) by congruence. subst code.
           discriminate Ecode.
      * change (py_add (cycle_theta (offset_angle input) lo)
                  (PyInt (offset_angle input)))
          with (cycle_theta (offset_angle input) (Datatypes.S lo)).
        match goal with
        | |- context [calibration_cycles D input _ _ (?w0, ?tr0)] =>
            destruct (IH (Datatypes.S lo) w0 tr0
                        ltac:(intros i Hi; apply Hne; lia))
              as [evs2 [E2 R2]]
        end.
        eexists. split; [rewrite E2, <- !app_assoc; reflexivity|].
        destruct R1 as [F|[a [_ [_ C1]]]].
        -- left. failing F.
        -- destruct R2 as [F|[a2 [Ea2 [Hb C2]]]].
           ++ left. failing F.
           ++ right. exists a2. split; [exact Ea2|]. split; [exact Hb|].
              rewrite !commands_app, C1, C2. reflexivity.
    + cbn [fst snd]. eexists.
      split; [rewrite <- !app_assoc; reflexivity|]. left.
      destruct R1 as [F|[a [Ea _]]]; [|discriminate Ea].
      failing F.
Qed.

(** An observation run whose calls succeeded. *)
Lemma cli_observation_replay (w : World) :
  op_mode input = "OBSERVATION" ->
  calls_succeeded (trace (run D input w)) = true ->
  fst (run D input w) = Ret true /\
  commands (trace (run D input w)) =
    CmdSetMode "OBSERVATION" :: cycle_commands input None (PyInt 999) "SUN".
Proof.
  intros Hmode. rewrite process_modulation_data_eq. cbn zeta.
  destruct (fst (musol_set_mode D (op_mode input) w) =? 0) eqn:E0;
    cbn [negb].
  2:{ unfold trace. cbn [fst snd]. rewrite !calls_succeeded_app. cbn.
      rewrite E0. cbn. discriminate. }
  rewrite Hmode. cbn [String.eqb Ascii.eqb Bool.eqb].
  match goal with
  | |- context [process_modulations D input ?c ?t (?w0, ?tr0)] =>
      destruct (cli_cycle_replay c t w0 tr0) as [evs1 [E1 R1]];
      destruct (process_modulations D input c t (w0, tr0))
        as [r1 [w1 tr1]]
  end.
  cbn [fst snd theta_setup py_ne] in *. subst tr1.
  assert (Hfail : calls_succeeded evs1 = false ->
    forall tail,
    calls_succeeded
      ((([EvLog INFO LogProcessStarted;
          EvLog INFO (LogProcessingMode "OBSERVATION")] ++
         [EvSetMode "OBSERVATION"
            (fst (musol_set_mode D "OBSERVATION" w))]) ++ evs1) ++ tail)
    = true -> False).
  { intros F tail. failing F. }
  unfold trace.
  destruct r1 as [code|e].
  - destruct (1 <=? code) eqn:Ecode.
    + rewrite report_failed_eq. cbn [fst snd]. intros Hs. exfalso.
      destruct R1 as [F|[a [Ea [Hz _]]]].
      * exact (Hfail F _ Hs).
      * assert (code = 0) by congruence. subst code. discriminate Ecode.
    + cbn [fst snd]. intros Hs.
      destruct R1 as [F|[a [_ [_ C1]]]]; [exfalso; exact (Hfail F _ Hs)|].
      split; [reflexivity|].
      rewrite !commands_app, C1. cbn. now rewrite app_nil_r.
  - cbn [fst snd]. intros Hs. exfalso.
    destruct R1 as [F|[a [Ea _]]]; [|discriminate Ea].
    apply (Hfail F []). now rewrite app_nil_r.
Qed.

(** A calibration run whose calls succeeded. *)
Lemma cli_calibration_replay_run (w : World) :
  String.eqb (op_mode input) "OBSERVATION" = false ->
  (forall i, (i < Z.to_nat (number_of_cycles input))%nat ->
             py_ne (cycle_theta (offset_angle input) i) (PyInt 999) = true) ->
  calls_succeeded (trace (run D input w)) = true ->
  fst (run D input w) = Ret true /\
  commands (trace (run D input w)) =
    CmdSetMode (op_mode input) ::
    flat_map
      (fun i => cycle_commands input
                  (Some (cycle_theta (offset_angle input) i))
                  (cycle_theta (offset_angle input) i) "CALIB")
      (seq 0 (Z.to_nat (number_of_cycles input))).
Proof.
  intros Hmode Hne. rewrite process_modulation_data_eq. cbn zeta.
  destruct (fst (musol_set_mode D (op_mode input) w) =? 0) eqn:E0;
    cbn [negb].
  2:{ unfold trace. cbn [fst snd]. rewrite !calls_succeeded_app. cbn.
      rewrite E0. cbn. discriminate. }
  rewrite Hmode. unfold range.
  match goal with
  | |- context [calibration_cycles D input _ _ (?w0, ?tr0)] =>
      destruct (cli_calibration_replay
                  (Z.to_nat (number_of_cycles input)) 0%nat w0 tr0
                  ltac:(intros i Hi; apply Hne; lia)) as [evs1 [E1 R1]];
      cbn [cycle_theta] in E1, R1;
      destruct (calibration_cycles D input
                  (seq 0 (Z.to_nat (number_of_cycles input)))
                  (PyFloat 0%float) (w0, tr0)) as [r1 [w1 tr1]]
  end.
  cbn [fst snd] in *. subst tr1. unfold trace.
  destruct r1 as [[|]|e]; cbn [fst snd]; intros Hs.
  - destruct R1 as [F|[a [_ [_ C1]]]].
    + exfalso. revert Hs. failing F.
    + split; [reflexivity|].
      rewrite !commands_app, C1. cbn. now rewrite app_nil_r.
  - exfalso. destruct R1 as [F|[a [Ea [Hb _]]]].
    + revert Hs. failing F.
    + congruence.
  - exfalso. destruct R1 as [F|[a [Ea _]]]; [|discriminate Ea].
    revert Hs. failing F.
Qed.

End CliReplay.

Lemma theta_ok_all : forallb theta_ok_if_divisor (seq 1 360) = true.
Proof. vm_compute. reflexivity. Qed.

Lemma theta_ok_divisor (o : Z) :
  1 <= o <= 360 -> 360 mod o = 0 -> theta_ok o = true.
Proof.
  intros Hr Hd. pose proof theta_ok_all as H.
  rewrite forallb_forall in H. specialize (H (Z.to_nat o)).
  unfold theta_ok_if_divisor in H. rewrite Z2Nat.id in H by lia.
  rewrite Hd in H. apply H. apply in_seq. lia.
Qed.

Lemma cycle_theta_facts (o : Z) (i : nat) :
  1 <= o <= 360 -> 360 mod o = 0 -> (i < Z.to_nat (360 / o))%nat ->
  py_ne (cycle_theta o i) (PyInt 999) = true /\
  py_eq (cycle_theta o i) (PyInt (Z.of_nat i * o)) = true.
Proof.
  intros Hr Hd Hi. pose proof (theta_ok_divisor o Hr Hd) as H.
  unfold theta_ok in H. rewrite forallb_forall in H.
  specialize (H i). apply andb_true_iff. apply H. apply in_seq. lia.
Qed.

Import Examples.

(** C7: an observation run in which every device call succeeds and no
    abort is requested issues one [set_mode], then for each modulation of
    the plan, in order, one [set_modulation] (without theta) and one
    acquisition (image type SUN, theta 999), and returns [True]; the
    [number_of_cycles] entry of the input plays no part.  The devices
    are arbitrary: that the calls succeeded is read off the trace of the
    run. *)
Theorem C7_observation_run_issues_each_step_once
    (World : Type) (D : Devices World) (input : input_data) (w : World) :
  op_mode input = "OBSERVATION" ->
  modulations_count input = Z.of_nat (List.length (in_modulations input)) ->
  calls_succeeded (trace (MusolsongCLI.run D input w)) = true ->
  fst (MusolsongCLI.run D input w) = Ret true /\
  commands (trace (MusolsongCLI.run D input w)) =
    CmdSetMode "OBSERVATION" :: cycle_commands input None (PyInt 999) "SUN".
Proof.
  intros Hmode Hcount Hcalls.
  exact (cli_observation_replay World D input Hcount w Hmode Hcalls).
Qed.

(** The witness runs the plan on devices whose detector would fail on
    its sixth call. *)
Lemma C7_observation_run_witness :
  let input := observation_input [m1; m2] in
  let D := song_failing_devices 5 in
  (op_mode input = "OBSERVATION" /\
   modulations_count input = Z.of_nat (List.length (in_modulations input)) /\
   calls_succeeded (trace (MusolsongCLI.run D input 0%nat)) = true) /\
  fst (MusolsongCLI.run D input 0%nat) = Ret true /\
  commands (trace (MusolsongCLI.run D input 0%nat)) =
    CmdSetMode "OBSERVATION" :: cycle_commands input None (PyInt 999) "SUN".
Proof.
  split.
  - repeat split; vm_compute; reflexivity.
  - apply (C7_observation_run_issues_each_step_once
             nat (song_failing_devices 5) (observation_input [m1; m2])
             0%nat).
    + reflexivity.
    + reflexivity.
    + vm_compute. reflexivity.
Defined.

(** C8: for a validated calibration plan whose offset [o] is an integer
    divisor of 360 in [1, 360], the number of cycles is [360 / o]; in a
    run in which every device call succeeds and no abort is requested
    (as the trace of the run shows, whatever the devices are), cycle
    number [i] (from 0) sends the same theta to the positioner and to the
    detector, and that theta is numerically [i * o]. *)
Theorem C8_calibration_cycles_and_theta
    (v : validator) (o : Z) (name : string) (nr : Z) :
  mode_type v = Some CALIBRATION ->
  retarding_plate_offsets v = Some o ->
  1 <= o <= 360 ->
  360 mod o = 0 ->
  exists input,
    MusolsongCLI.prepare_data_for_processing v name nr = Ret input /\
    in_modulations input = modulations v /\
    YAMLSequenceValidator.get_number_of_cycles v = Ret (Some (360 / o)) /\
    number_of_cycles input = 360 / o /\
    (forall i, (i < Z.to_nat (360 / o))%nat ->
       py_eq (cycle_theta o i) (PyInt (Z.of_nat i * o)) = true) /\
    forall (World : Type) (D : Devices World) (w : World),
      calls_succeeded (trace (MusolsongCLI.run D input w)) = true ->
      fst (MusolsongCLI.run D input w) = Ret true /\
      commands (trace (MusolsongCLI.run D input w)) =
        CmdSetMode "CALIBRATION" ::
        flat_map
          (fun i => cycle_commands input (Some (cycle_theta o i))
                      (cycle_theta o i) "CALIB")
          (seq 0 (Z.to_nat (360 / o))).
Proof.
  intros Hmode Ho Hr Hd.
  pose proof (ValidatorFacts.get_number_of_cycles_exact o v Ho Hr Hd) as Hc.
  unfold MusolsongCLI.prepare_data_for_processing.
  rewrite Hc. unfold YAMLSequenceValidator.get_retarding_plate_offsets,
    YAMLSequenceValidator.get_mode. rewrite Ho, Hmode. cbn [option_map].
  eexists. split; [reflexivity|]. cbn [in_modulations number_of_cycles].
  split; [reflexivity|]. split; [reflexivity|]. split; [reflexivity|].
  split.
  - intros i Hi. now apply cycle_theta_facts.
  - intros World D w.
    match goal with
    | |- context [MusolsongCLI.run D ?inp w] => set (input := inp)
    end.
    assert (Hcount : modulations_count input =
                     Z.of_nat (List.length (in_modulations input)))
      by reflexivity.
    assert (Hm : String.eqb (op_mode input) "OBSERVATION" = false)
      by reflexivity.
    pose proof (cli_calibration_replay_run World D input Hcount w Hm) as R.
    change (offset_angle input) with o in R.
    change (number_of_cycles input) with (360 / o) in R.
    change (op_mode input) with "CALIBRATION" in R.
    apply R. intros i Hi. now apply cycle_theta_facts.
Qed.


(** The percentage is computed in binary64: 29 of 100 steps give 28. *)
Example percentage_29_of_100 : ProcessingWorker.percentage 29 100 = Ret 28.
Proof. vm_compute. reflexivity. Qed.

Lemma C8_calibration_cycles_and_theta_witness :
  let v := snd (validate_doc
                  (calibration_plan (YInt 90) [good_modulation; good_modulation])) in
  (mode_type v = Some CALIBRATION /\ retarding_plate_offsets v = Some 90 /\
   1 <= 90 <= 360 /\ 360 mod 90 = 0) /\
  exists input,
    MusolsongCLI.prepare_data_for_processing v "sun" 7 = Ret input /\
    in_modulations input = modulations v /\
    YAMLSequenceValidator.get_number_of_cycles v = Ret (Some (360 / 90)) /\
    number_of_cycles input = 360 / 90 /\
    (forall i, (i < Z.to_nat (360 / 90))%nat ->
       py_eq (cycle_theta 90 i) (PyInt (Z.of_nat i * 90)) = true) /\
    forall (World : Type) (D : Devices World) (w : World),
      calls_succeeded (trace (MusolsongCLI.run D input w)) = true ->
      fst (MusolsongCLI.run D input w) = Ret true /\
      commands (trace (MusolsongCLI.run D input w)) =
        CmdSetMode "CALIBRATION" ::
        flat_map
          (fun i => cycle_commands input (Some (cycle_theta 90 i))
                      (cycle_theta 90 i) "CALIB")
          (seq 0 (Z.to_nat (360 / 90))).
Proof.
  split.
  - repeat split; try reflexivity; lia.
  - apply (C8_calibration_cycles_and_theta
             (snd (validate_doc
                     (calibration_plan (YInt 90)
                        [good_modulation; good_modulation])))
             90 "sun" 7).
    + reflexivity.
    + reflexivity.
    + lia.
    + reflexivity.
Defined.

(** The thetas of the example of C8: offset 90 with two modulations gives
    four cycles, and theta 0, 0, 90, 90, 180, 180, 270, 270 is sent to the
    positioner and to the detector. *)
Example calibration_90_thetas :
  let cs := commands (trace (MusolsongCLI.run good_devices
                               (calibration_input [m1; m2] 4 90) tt)) in
  flat_map (fun c => match c with
                     | CmdSetModulation _ _ (Some t) => [t]
                     | _ => []
                     end) cs =
    map PyFloat [0; 0; 90; 90; 180; 180; 270; 270]%float /\
  flat_map (fun c => match c with
                     | CmdAcquire _ _ _ _ _ _ t _ => [t]
                     | _ => []
                     end) cs =
    map PyFloat [0; 0; 90; 90; 180; 180; 270; 270]%float.
Proof. vm_compute. split; reflexivity. Qed.

(** C2, as stated, fails: the background engine emits the progress
    dictionary of a step before the detector call of that step, so also
    for a step whose detector call then fails. *)
Lemma C2_counterexample :
  protocol (trace (ProcessingWorker.run (song_failing_devices 0)
                     (observation_input [m1]) 0%nat)) =
    [PCheck false; PPositioner true; PProgress; PDetector false] /\
  protocol (trace (ProcessingWorker.run good_devices
                     (observation_input [m1]) tt)) <>
    [PCheck false; PPositioner true; PDetector true; PProgress].
Proof. vm_compute. split; [reflexivity | discriminate]. Qed.

(** C2 (amended): in every run of the background engine each step goes
    through abort-flag check, positioner command, progress emission,
    detector command, in this order, and a set flag or a failed command
    ends the run; so a progress emission comes directly after a
    successful positioner command and before the detector command of the
    step.  In every run of the foreground engine each step goes through
    abort-flag check, positioner command, detector command, and no
    progress is emitted. *)
Theorem C2_step_order
    (World : Type) (D : Devices World) (input : input_data) (w : World) :
  (follows gui_next AtCheck
     (protocol (trace (ProcessingWorker.run D input w))) <> None /\
   forall pre post,
     protocol (trace (ProcessingWorker.run D input w)) =
       pre ++ PProgress :: post ->
     (exists pre', pre = pre' ++ [PPositioner true]) /\
     (post = [] \/ exists ok post', post = PDetector ok :: post')) /\
  (follows cli_next AtCheck
     (protocol (trace (MusolsongCLI.run D input w))) <> None /\
   ~ In PProgress (protocol (trace (MusolsongCLI.run D input w)))).
Proof.
  pose proof (gui_order World D input w) as G.
  pose proof (cli_order World D input w) as C.
  unfold gui_accepted, cli_accepted in *.
  change (snd (snd (ProcessingWorker.run D input w)))
    with (trace (ProcessingWorker.run D input w)) in G.
  change (snd (snd (MusolsongCLI.run D input w)))
    with (trace (MusolsongCLI.run D input w)) in C.
  split; [split; [exact G|] | split; [exact C|]].
  - intros pre post E.
    destruct (follows gui_next AtCheck
                (protocol (trace (ProcessingWorker.run D input w))))
      as [s'|] eqn:F; [|congruence].
    destruct (gui_progress_placement _ pre post _ _ F E) as [[[H _]|H] H'];
      [discriminate H | split; assumption].
  - exact (cli_no_progress _ _ C).
Qed.




(** C9: when a detector call of a run returns a non-zero status, that
    call is the last device command of the run.  With [n] steps per
    cycle, the failing call of step [i + 1] of cycle [c + 1] comes after
    [c * n + i] successful acquisitions and is followed only by the
    message naming that step and cycle and by the end-of-run report; the
    run reports [False]. *)
Theorem C9_detector_failure_stops_run
    (World : Type) (D : Devices World) (input : input_data) (w : World) :
  let n := Z.to_nat (modulations_count input) in
  (detector_failed (trace (MusolsongCLI.run D input w)) = true ->
   fst (MusolsongCLI.run D input w) = Ret false /\
   exists c i pre ev r flag,
     (i < n)%nat /\
     trace (MusolsongCLI.run D input w) =
       pre ++
       [ev; EvLog ERROR
              (LogSongFailed (Z.of_nat i + 1) (Z.of_nat c + 1)
                 (number_of_cycles input) (status r) (message r));
        EvIsAborted flag; EvPrint (PrintIsAborted flag);
        EvLog ERROR LogProcessFailed] /\
     acquire_reply ev = Some r /\ status r <> 0 /\
     detector_failed pre = false /\
     List.length (statuses pre) = (c * n + i)%nat) /\
  (detector_failed (trace (ProcessingWorker.run D input w)) = true ->
   fst (ProcessingWorker.run D input w) = Ret tt /\
   exists c i pre ev r,
     (i < n)%nat /\
     trace (ProcessingWorker.run D input w) =
       pre ++
       [ev; EvStatus (StSongFailed (Z.of_nat i + 1) (Z.of_nat c + 1)
                        (number_of_cycles input));
        EvLog ERROR
          (LogSongFailed (Z.of_nat i + 1) (Z.of_nat c + 1)
             (number_of_cycles input) (status r) (message r));
        EvFinished false] /\
     acquire_reply ev = Some r /\ status r <> 0 /\
     detector_failed pre = false /\
     List.length (statuses pre) = (c * n + i)%nat).
Proof.
  intros n. split; intros Hf.
  - destruct (cli_failstop World D input w Hf) as [Hr [tr0 [flag [Hs E]]]].
    split; [exact Hr|].
    destruct Hs as [c [i [pre [ev [r [Hi [E0 [Ha [Hst [Hp Hl]]]]]]]]]].
    exists c, i, pre, ev, r, flag.
    repeat split; try assumption.
    rewrite E, E0. unfold cli_failed_tail. now rewrite <- app_assoc.
  - destruct (gui_failstop World D input w Hf) as [Hr [tr0 [Hs E]]].
    split; [exact Hr|].
    destruct Hs as [c [i [pre [ev [r [Hi [E0 [Ha [Hst [Hp Hl]]]]]]]]]].
    exists c, i, pre, ev, r.
    repeat split; try assumption.
    rewrite E, E0. now rewrite <- app_assoc.
Qed.

Lemma C9_detector_failure_stops_run_witness :
  let D := song_failing_devices 1 in
  let input := observation_input [m1; m2] in
  (detector_failed (trace (MusolsongCLI.run D input 0%nat)) = true /\
   detector_failed (trace (ProcessingWorker.run D input 0%nat)) = true) /\
  fst (MusolsongCLI.run D input 0%nat) = Ret false /\
  fst (ProcessingWorker.run D input 0%nat) = Ret tt.
Proof.
  split.
  - vm_compute. split; reflexivity.
  - destruct (C9_detector_failure_stops_run nat (song_failing_devices 1)
                (observation_input [m1; m2]) 0%nat) as [Hc Hg].
    split.
    + apply Hc. vm_compute. reflexivity.
    + apply Hg. vm_compute. reflexivity.
Defined.

(** The rule at work: the detector fails on the second step of a
    two-step observation plan. *)
Example detector_fails_on_second_step :
  let out := MusolsongCLI.run (song_failing_devices 1)
               (observation_input [m1; m2]) 0%nat in
  detector_failed (trace out) = true /\
  fst out = Ret false /\
  statuses (trace out) = [0; 1] /\
  List.length (commands (trace out)) = 5%nat /\
  existsb (fun e => match e with
                    | EvLog ERROR (LogSongFailed 2 1 _ _ _) => true
                    | _ => false
                    end) (trace out) = true.
Proof. vm_compute. repeat split; reflexivity. Qed.

End EngineFacts.

(** * Further guarantees *)

Module ValidatorGuarantees.

Import YAMLSequenceValidator ValidatorFacts.

(** *** [validate()] raises nothing but the [KeyError] of ['modes'] *)

Lemma py_mod_in_range (n : pynum) :
  py_le (PyInt 1) n = true -> exists r, py_mod 360 n = Ret r.
Proof.
  destruct n as [z|f]; [|cbn; eauto].
  rewrite py_le_int. intros H. apply Z.leb_le in H. unfold py_mod.
  destruct (z =? 0) eqn:E; [lia | eauto].
Qed.

Lemma offsets_never_raise (o : yval) (v : validator) :
  exists b, fst (_validate_retarding_plate_offsets o v) = Ret b.
Proof.
  unfold _validate_retarding_plate_offsets.
  destruct (as_number o) as [n|]; vstep; [|eauto].
  destruct (py_le (PyInt 1) n) eqn:E1; cbn; [|eauto].
  destruct (py_le n (PyInt 360)); cbn; [|eauto].
  destruct (py_mod_in_range n E1) as [r ->]. cbn.
  destruct (py_ne r (PyInt 0)); cbn; eauto.
Qed.

Lemma cmp_le (c : comparison) :
  match c with Lt | Eq => true | Gt => false end = true -> c <> Gt.
Proof. destruct c; congruence. Qed.

Lemma cmp_ge (c : comparison) :
  match CompOpp c with Lt | Eq => true | Gt => false end = true -> c <> Lt.
Proof. destruct c; cbn; congruence. Qed.

(** A float that passes [1 <= f <= 360] is finite, and [int(f)] lies in
    the same range. *)
Lemma int_of_float_in_range (f : float) :
  py_le (PyInt 1) (PyFloat f) = true ->
  py_le (PyFloat f) (PyInt 360) = true ->
  exists z, int_of_float f = Ret z /\ 1 <= z <= 360.
Proof.
  unfold py_le, py_compare, float_cmp_Z, int_of_float.
  destruct (Prim2SF f) as [s|s| |s m e]; cbn [option_map];
    try (destruct s; discriminate); try discriminate.
  destruct e as [|p|p]; cbn [option_map]; intros H1 H2;
    apply cmp_ge in H1; apply cmp_le in H2;
    rewrite Z.compare_lt_iff in H1; rewrite Z.compare_gt_iff in H2.
  - destruct s; eexists; (split; [reflexivity|]); lia.
  - assert (0 < 2 ^ Z.pos p) by (apply Z.pow_pos_nonneg; lia).
    destruct s; eexists; (split; [reflexivity|]); nia.
  - assert (0 < 2 ^ Z.pos p) by (apply Z.pow_pos_nonneg; lia).
    destruct s; [nia|].
    eexists; split; [reflexivity|]. split.
    + apply Z.div_le_lower_bound; lia.
    + apply Z.div_le_upper_bound; lia.
Qed.

(** An accepted offset converts with [int()] to a value in [1, 360]. *)
Lemma accepted_offset_converts (o : yval) (v : validator) :
  fst (_validate_retarding_plate_offsets o v) = Ret true ->
  exists z, py_int o = Ret z /\ 1 <= z <= 360.
Proof.
  unfold _validate_retarding_plate_offsets, py_int.
  destruct (as_number o) as [n|]; vstep; [|discriminate].
  destruct (py_le (PyInt 1) n) eqn:E1; cbn; [|discriminate].
  destruct (py_le n (PyInt 360)) eqn:E2; cbn; [|discriminate].
  intros _. destruct n as [z|f].
  - rewrite py_le_int in E1, E2. apply Z.leb_le in E1, E2. eauto.
  - now apply int_of_float_in_range.
Qed.

Lemma py_float_number (a : yval) (n : pynum) :
  as_number a = Some n -> exists f, py_float a = Ret f.
Proof. unfold py_float. intros ->. destruct n; eauto. Qed.

Lemma dict_has_get (d : list (string * yval)) (k : string) :
  negb (dict_has d k) = false -> exists x, dict_get d k = Some x.
Proof.
  unfold dict_has. destruct (dict_get d k); [eauto | discriminate].
Qed.

(** A modulation entry is either stored, field by field, without a
    message, or dropped; no exception escapes. *)
Lemma _validate_modulation_stored (m : yval) (i : nat) (v : validator) :
  match _validate_modulation m i v with
  | (Ret (Some md), _) => stored_as m md
  | (Ret None, _) => True
  | (Raise _, _) => False
  end.
Proof.
  unfold _validate_modulation.
  destruct m; vstep; try exact I.
  destruct (negb (dict_has d "alpha")) eqn:Ha; vstep; [exact I|].
  destruct (negb (dict_has d "beta")) eqn:Hb; vstep; [exact I|].
  destruct (negb (dict_has d "SONG_int_time")) eqn:Ht; vstep; [exact I|].
  destruct (dict_has_get _ _ Ha) as [a Ea].
  destruct (dict_has_get _ _ Hb) as [b Eb].
  destruct (dict_has_get _ _ Ht) as [t Et].
  rewrite Ea. cbn.
  pose proof (_validate_angle_post a i "alpha" v) as Pa.
  destruct (_validate_angle a i "alpha" v) as [[av|e] v1] eqn:Va;
    [|destruct Pa].
  rewrite Eb. cbn.
  pose proof (_validate_angle_post b i "beta" v1) as Pb.
  destruct (_validate_angle b i "beta" v1) as [[bv|e] v2] eqn:Vb;
    [|destruct Pb].
  rewrite Et. cbn.
  pose proof (_validate_integration_time_post t v2) as Pt.
  destruct (_validate_integration_time t v2) as [[tv|e] v3] eqn:Vt;
    [|destruct Pt].
  assert (Hfin : forall descr,
    descr = match dict_get d "description" with
            | Some (YStr s) => Some s
            | _ => None
            end ->
    match
      (if av && bv && tv
       then
         fun s : validator =>
         match py_float a with
         | Ret fa =>
             match py_float b with
             | Ret fb =>
                 match py_float t with
                 | Ret ft =>
                     (Ret (Some {| alpha := fa; beta := fb;
                                   SONG_int_time := ft;
                                   description := descr |}), s)
                 | Raise e => (Raise e, s)
                 end
             | Raise e => (Raise e, s)
             end
         | Raise e => (Raise e, s)
         end
       else fun s : validator => (Ret None, s)) v3
    with
    | (Ret (Some md), _) => stored_as (YDict d) md
    | (Ret None, _) => True
    | (Raise _, _) => False
    end).
  { intros descr Hd. destruct av, bv, tv; cbn [andb]; try exact I.
    destruct (_validate_angle_true a i "alpha" v) as [na [A1 _]];
      [now rewrite Va|].
    destruct (_validate_angle_true b i "beta" v1) as [nb [B1 _]];
      [now rewrite Vb|].
    destruct (_validate_integration_time_true t v2) as [nt [T1 _]];
      [now rewrite Vt|].
    destruct (py_float_number a na A1) as [fa Fa].
    destruct (py_float_number b nb B1) as [fb Fb].
    destruct (py_float_number t nt T1) as [ft Ft].
    rewrite Fa, Fb, Ft.
    exists d, a, b, t. cbn. repeat split; assumption. }
  destruct (dict_get d "description") as [[]|]; try apply Hfin;
    try reflexivity; exact I.
Qed.

(** The loop over the entries: what is kept extends [valid] in document
    order, every dropped entry has left a message, and nothing raises. *)
Lemma validate_each_stored (l : list yval) :
  forall (i : nat) (valid : list Modulation) (v : validator),
  match validate_each l i valid v with
  | (Ret valid', v') =>
      exists kept, valid' = valid ++ kept /\
        (List.length l + nerr v <= List.length kept + nerr v')%nat /\
        (nerr v' = nerr v -> Forall2 stored_as l kept)
  | (Raise _, _) => False
  end.
Proof.
  induction l as [|m rest IH]; intros i valid v; cbn.
  - exists []. rewrite app_nil_r. repeat split; [cbn; lia | constructor].
  - unfold bind.
    pose proof (_validate_modulation_post m i v) as Hp.
    pose proof (_validate_modulation_stored m i v) as Hs.
    destruct (_validate_modulation m i v) as [[[md|]|e] v1]; [| |exact Hs].
    + subst v1. specialize (IH (S i) (valid ++ [md]) v).
      destruct (validate_each rest (S i) (valid ++ [md]) v)
        as [[valid'|e] v']; [|exact IH].
      destruct IH as [kept [E [Hn Hf]]].
      exists (md :: kept). rewrite E, <- app_assoc. cbn.
      repeat split; [lia|]. intros Hv. constructor; auto.
    + specialize (IH (S i) valid v1).
      pose proof (validate_each_post rest (S i) valid v1) as Hk.
      destruct (validate_each rest (S i) valid v1) as [[valid'|e] v'];
        [|exact IH].
      destruct IH as [kept [E [Hn Hf]]].
      destruct Hp as [Hp _]. destruct Hk as [[Hk _] _].
      exists kept. repeat split; [exact E | lia | intros Hv; lia].
Qed.

(** The checks of a modulation touch no field but [errors]. *)
Lemma only_errors_trans (v v1 v2 : validator) :
  v1 = set_errors (errors v1) v -> v2 = set_errors (errors v2) v1 ->
  v2 = set_errors (errors v2) v.
Proof. intros E1 E2. rewrite E2 at 1. rewrite E1. reflexivity. Qed.

Lemma only_errors_refl (v : validator) : v = set_errors (errors v) v.
Proof. destruct v; reflexivity. Qed.

Lemma only_errors_set (v v1 : validator) (e : list verror) :
  v1 = set_errors (errors v1) v -> set_errors e v1 = set_errors e v.
Proof. intros ->. reflexivity. Qed.

Lemma _validate_angle_only_errors (a : yval) (i : nat) (n : string)
    (v : validator) :
  snd (_validate_angle a i n v) =
  set_errors (errors (snd (_validate_angle a i n v))) v.
Proof.
  unfold _validate_angle. destruct (as_number a) as [x|]; vstep.
  - destruct (negb _); vstep; [reflexivity | apply only_errors_refl].
  - reflexivity.
Qed.

Lemma _validate_integration_time_only_errors (t : yval) (v : validator) :
  snd (_validate_integration_time t v) =
  set_errors (errors (snd (_validate_integration_time t v))) v.
Proof.
  unfold _validate_integration_time. destruct (as_number t) as [x|]; vstep.
  - destruct (negb _); vstep; [reflexivity | apply only_errors_refl].
  - reflexivity.
Qed.

Lemma _validate_modulation_only_errors (m : yval) (i : nat) (v : validator) :
  snd (_validate_modulation m i v) =
  set_errors (errors (snd (_validate_modulation m i v))) v.
Proof.
  unfold _validate_modulation.
  destruct m; vstep; try reflexivity.
  destruct (negb (dict_has d "alpha")); vstep; [reflexivity|].
  destruct (negb (dict_has d "beta")); vstep; [reflexivity|].
  destruct (negb (dict_has d "SONG_int_time")); vstep; [reflexivity|].
  destruct (dict_get d "alpha") as [a|]; vstep; [|apply only_errors_refl].
  pose proof (_validate_angle_only_errors a i "alpha" v) as Ha.
  destruct (_validate_angle a i "alpha" v) as [[av|e] v1]; cbn [snd] in Ha;
    [|exact Ha].
  destruct (dict_get d "beta") as [b|]; vstep; [|exact Ha].
  pose proof (_validate_angle_only_errors b i "beta" v1) as Hb.
  destruct (_validate_angle b i "beta" v1) as [[bv|e] v2]; cbn [snd] in Hb;
    pose proof (only_errors_trans _ _ _ Ha Hb) as Hab; [|exact Hab].
  destruct (dict_get d "SONG_int_time") as [t|]; vstep; [|exact Hab].
  pose proof (_validate_integration_time_only_errors t v2) as Ht.
  destruct (_validate_integration_time t v2) as [[tv|e] v3];
    cbn [snd] in Ht;
    pose proof (only_errors_trans _ _ _ Hab Ht) as H3; [|exact H3].
  destruct (dict_get d "description") as [[]|]; cbn;
    try (apply only_errors_set; exact H3);
    destruct (av && bv && tv); cbn; try exact H3;
    destruct (py_float a); cbn; try exact H3;
    destruct (py_float b); cbn; try exact H3;
    destruct (py_float t); cbn; exact H3.
Qed.

Lemma validate_each_only_errors (l : list yval) :
  forall (i : nat) (valid : list Modulation) (v : validator),
  snd (validate_each l i valid v) =
  set_errors (errors (snd (validate_each l i valid v))) v.
Proof.
  induction l as [|m rest IH]; intros i valid v; cbn;
    [apply only_errors_refl|].
  unfold bind.
  pose proof (_validate_modulation_only_errors m i v) as Hm.
  destruct (_validate_modulation m i v) as [[[md|]|e] v1]; cbn [snd] in Hm;
    [| |exact Hm].
  - exact (only_errors_trans _ _ _ Hm (IH (S i) (valid ++ [md]) v1)).
  - exact (only_errors_trans _ _ _ Hm (IH (S i) valid v1)).
Qed.

Lemma _validate_mode_model (mode_name : string) (mode_data : yval)
    (v : validator) :
  match _validate_mode mode_name mode_data v with
  | (Ret true, v') =>
      exists md entries,
        mode_data = YDict md /\
        dict_get md "modulations" = Some (YList entries) /\
        modulations v' <> [] /\
        (List.length entries + nerr v <=
         List.length (modulations v') + nerr v')%nat /\
        (nerr v' = nerr v -> Forall2 stored_as entries (modulations v')) /\
        mode_type v' = mode_type v /\
        (if String.eqb mode_name "calibration"
         then exists o, retarding_plate_offsets v' = Some o /\ 1 <= o <= 360
         else retarding_plate_offsets v' = retarding_plate_offsets v)
  | (Ret false, _) => True
  | (Raise _, _) => False
  end.
Proof.
  unfold _validate_mode.
  destruct mode_data; vstep; try exact I.
  destruct (dict_get d "modulations") as [[]|] eqn:Em; vstep; try exact I.
  destruct l as [|m rest]; [vstep; exact I|].
  pose proof (validate_each_stored (m :: rest) 0 [] v) as Hs.
  pose proof (validate_each_post (m :: rest) 0 [] v) as Hk.
  pose proof (validate_each_only_errors (m :: rest) 0 [] v) as Hoe.
  destruct (validate_each (m :: rest) 0 [] v) as [[valid'|e] v1];
    [|exact Hs].
  cbn [snd] in Hoe.
  destruct Hs as [kept [E [Hn Hf]]]. cbn [app] in E. subst valid'.
  destruct Hk as [[_ [_ [_ Hmt]]] _].
  destruct kept as [|m0 kept]; [exact I|]. cbn.
  destruct (String.eqb mode_name "calibration").
  - destruct (dict_get d "retarding_plate_offsets") as [o|]; cbn; [|exact I].
    match goal with
    | |- context [_validate_retarding_plate_offsets o ?s] =>
        pose proof (_validate_retarding_plate_offsets_post o s) as Ho;
        pose proof (accepted_offset_converts o s) as Hc;
        destruct (offsets_never_raise o s) as [ok Eok];
        destruct (_validate_retarding_plate_offsets o s) as [r v2]
    end.
    cbn [fst] in Eok, Hc. subst r. destruct ok; cbn; [|exact I].
    subst v2. destruct (Hc eq_refl) as [z [-> Hz]]. cbn.
    exists d, (m :: rest). repeat split; try assumption; try discriminate.
    exists z. split; [reflexivity | exact Hz].
  - exists d, (m :: rest). cbn.
    repeat split; try assumption; try discriminate.
    rewrite Hoe. reflexivity.
Qed.

(** What [validate()] leaves behind, by its answer. *)
Lemma validate_model (v : validator) :
  match validate v with
  | (Ret true, v') =>
      exists doc entries,
        yaml_source v = Some (Loaded doc) /\
        plan_entries doc = Some entries /\
        modulations v' <> [] /\
        (List.length entries <= List.length (modulations v') + nerr v')%nat /\
        (errors v' = [] -> Forall2 stored_as entries (modulations v')) /\
        (mode_type v' = Some OBSERVATION /\
         retarding_plate_offsets v' = None \/
         mode_type v' = Some CALIBRATION /\
         exists o, retarding_plate_offsets v' = Some o /\ 1 <= o <= 360)
  | (Ret false, _) => True
  | (Raise e, _) =>
      e = KeyError "modes" /\
      exists root, yaml_source v = Some (Loaded (YDict root)) /\
                   dict_get root "modes" = None
  end.
Proof.
  unfold validate. vstep.
  destruct (yaml_source v) as [[doc|msg]|]; cbn; try exact I.
  destruct doc; cbn; try exact I.
  destruct (dict_get d "modes") as [modes|] eqn:Emodes; cbn;
    [|split; [reflexivity | eauto]].
  destruct modes; cbn; try exact I.
  rename d0 into ms. unfold dict_has.
  destruct (dict_get ms "observation") as [yo|] eqn:Eo,
           (dict_get ms "calibration") as [yc|] eqn:Ec; cbn;
    rewrite ?Eo, ?Ec; cbn; try exact I.
  all: match goal with
       | |- context [_validate_mode ?nm ?y ?s] =>
           pose proof (_validate_mode_model nm y s) as H;
           destruct (_validate_mode nm y s) as [[[|]|e] v1]; cbn;
             [|exact I|destruct H]
       end.
  all: destruct H as [md [entries [-> [E1 [E2 [E3 [E4 [E5 E6]]]]]]]].
  all: cbn in E3, E4, E5, E6.
  all: eexists; exists entries; split; [reflexivity|]; cbn.
  all: rewrite Emodes, Eo, Ec, E1.
  all: split; [reflexivity|].
  all: split; [exact E2|].
  all: split; [unfold nerr in *; lia|].
  all: split; [intros Hnil; apply E4; unfold nerr; now rewrite Hnil|].
  - left. split; assumption.
  - right. split; assumption.
Qed.

Lemma cycles_floor_all : forallb cycles_floor (seq 1 360) = true.
Proof. vm_compute. reflexivity. Qed.

Lemma get_number_of_cycles_floor (o : Z) (v : validator) :
  retarding_plate_offsets v = Some o -> 1 <= o <= 360 ->
  get_number_of_cycles v = Ret (Some (360 / o)).
Proof.
  intros Ho Hr. pose proof cycles_floor_all as H.
  rewrite forallb_forall in H.
  specialize (H (Z.to_nat o) ltac:(apply in_seq; lia)).
  unfold cycles_floor in H. rewrite Z2Nat.id in H by lia.
  unfold cycles_of, get_number_of_cycles in *. cbn in H. rewrite Ho.
  destruct (py_truediv 360 o) as [q|]; [|discriminate].
  destruct (int_of_float q) as [c|]; [|discriminate].
  apply Z.eqb_eq in H. now subst.
Qed.

Import Examples.

(** X2: after a [validate()] that returned [True] the flag is set, at
    least one modulation is stored, and the getters agree with the mode:
    an observation plan has no offset and no number of cycles; a
    calibration plan has an integer offset [o] in [1, 360] and
    [get_number_of_cycles()] is the integer quotient [360 // o], between
    1 and 360. *)
Theorem validate_true_gives_consistent_model (v v' : validator) :
  validate v = (Ret true, v') ->
  is_valid_flag v' = true /\
  get_modulations v' <> [] /\
  (get_mode v' = Some "observation" /\
   get_retarding_plate_offsets v' = None /\
   get_number_of_cycles v' = Ret None
   \/
   get_mode v' = Some "calibration" /\
   exists o, get_retarding_plate_offsets v' = Some o /\
             1 <= o <= 360 /\
             get_number_of_cycles v' = Ret (Some (360 / o)) /\
             1 <= 360 / o <= 360).
Proof.
  intros H. pose proof (validate_model v) as M.
  pose proof (validate_post v) as P. rewrite H in M, P.
  destruct M as [doc [entries [_ [_ [Hne [_ [_ Hmode]]]]]]].
  split; [exact P|]. split; [exact Hne|].
  unfold get_mode, get_retarding_plate_offsets.
  destruct Hmode as [[Hm Ho]|[Hm [o [Ho Hr]]]]; rewrite Hm; cbn.
  - left. repeat split; [exact Ho|].
    unfold get_number_of_cycles. now rewrite Ho.
  - right. split; [reflexivity|]. exists o.
    split; [exact Ho|]. split; [exact Hr|].
    split; [now apply get_number_of_cycles_floor|].
    split.
    + apply Z.div_le_lower_bound; lia.
    + apply Z.div_le_upper_bound; lia.
Qed.

Lemma validate_true_gives_consistent_model_witness :
  let v := fresh (Some (Loaded (calibration_plan (YFloat 7.5%float)
                                  [good_modulation]))) in
  let v' := snd (validate v) in
  validate v = (Ret true, v') /\
  get_retarding_plate_offsets v' = Some 7 /\
  is_valid_flag v' = true /\
  get_modulations v' <> [] /\
  (get_mode v' = Some "observation" /\
   get_retarding_plate_offsets v' = None /\
   get_number_of_cycles v' = Ret None
   \/
   get_mode v' = Some "calibration" /\
   exists o, get_retarding_plate_offsets v' = Some o /\
             1 <= o <= 360 /\
             get_number_of_cycles v' = Ret (Some (360 / o)) /\
             1 <= 360 / o <= 360).
Proof.
  split; [vm_compute; reflexivity|].
  split; [vm_compute; reflexivity|].
  apply (@validate_true_gives_consistent_model
           (fresh (Some (Loaded (calibration_plan (YFloat 7.5%float)
                                   [good_modulation]))))).
  vm_compute; reflexivity.
Defined.

(** X3: a [validate()] that returned [True] has dropped no entry of the
    document silently: the entries stored and the messages recorded are
    together at least as many as the entries of the document.  When no
    message was recorded, the stored modulations are the entries of the
    document, one by one and in document order, each field converted
    with [float()]. *)
Theorem validate_drops_no_entry_silently (v v' : validator) :
  validate v = (Ret true, v') ->
  exists doc entries,
    yaml_source v = Some (Loaded doc) /\
    plan_entries doc = Some entries /\
    (List.length entries <=
     List.length (get_modulations v') + List.length (get_errors v'))%nat /\
    (is_valid v' = [] -> Forall2 stored_as entries (get_modulations v')).
Proof.
  intros H. pose proof (validate_model v) as M. rewrite H in M.
  destruct M as [doc [entries [Hs [Hp [_ [Hl [Hf _]]]]]]].
  exists doc, entries. repeat split; assumption.
Qed.

Lemma validate_drops_no_entry_silently_witness :
  let v := fresh (Some (Loaded (observation_plan
                                  [good_modulation; bad_modulation]))) in
  let v' := snd (validate v) in
  validate v = (Ret true, v') /\
  (List.length (get_modulations v') = 1%nat /\
   List.length (get_errors v') = 1%nat) /\
  exists doc entries,
    yaml_source v = Some (Loaded doc) /\
    plan_entries doc = Some entries /\
    (List.length entries <=
     List.length (get_modulations v') + List.length (get_errors v'))%nat /\
    (is_valid v' = [] -> Forall2 stored_as entries (get_modulations v')).
Proof.
  split; [vm_compute; reflexivity|].
  split; [vm_compute; split; reflexivity|].
  apply (@validate_drops_no_entry_silently
           (fresh (Some (Loaded (observation_plan
                                   [good_modulation; bad_modulation]))))).
  vm_compute; reflexivity.
Defined.

(** *** [validate()] starts from scratch *)

Lemma validate_source_only (v1 v2 : validator) :
  yaml_source v1 = yaml_source v2 ->
  match yaml_source v1 with
  | Some (Loaded _) => validate v1 = validate v2
  | _ =>
      fst (validate v1) = fst (validate v2) /\
      same_model (snd (validate v1)) (snd (validate v2)) /\
      data (snd (validate v1)) = data v1
  end.
Proof.
  destruct v1 as [s1 d1 e1 f1 m1 l1 o1], v2 as [s2 d2 e2 f2 m2 l2 o2].
  cbn [yaml_source]. intros <-.
  unfold validate. vstep.
  destruct s1 as [[doc|msg]|]; cbn;
    [reflexivity | |]; repeat split; reflexivity.
Qed.

Lemma offsets_only_errors (o : yval) (v : validator) :
  snd (_validate_retarding_plate_offsets o v) =
  set_errors (errors (snd (_validate_retarding_plate_offsets o v))) v.
Proof.
  unfold _validate_retarding_plate_offsets.
  destruct (as_number o) as [x|]; vstep; [|reflexivity].
  destruct (negb _); vstep; [reflexivity|].
  destruct (py_mod 360 x) as [r|e]; cbn; [|apply only_errors_refl].
  destruct (py_ne r (PyInt 0)); cbn; [reflexivity | apply only_errors_refl].
Qed.

Lemma _validate_mode_keeps_source (mode_name : string) (mode_data : yval)
    (v : validator) :
  yaml_source (snd (_validate_mode mode_name mode_data v)) = yaml_source v /\
  data (snd (_validate_mode mode_name mode_data v)) = data v.
Proof.
  unfold _validate_mode.
  destruct mode_data; vstep; try (split; reflexivity).
  destruct (dict_get d "modulations") as [[]|]; vstep;
    try (split; reflexivity).
  destruct l as [|m rest]; [vstep; split; reflexivity|].
  pose proof (validate_each_only_errors (m :: rest) 0 [] v) as He.
  destruct (validate_each (m :: rest) 0 [] v) as [[valid'|e] v1];
    cbn [snd] in He; [|rewrite He; split; reflexivity].
  destruct valid' as [|m0 valid']; cbn; [rewrite He; split; reflexivity|].
  destruct (String.eqb mode_name "calibration");
    [|rewrite He; split; reflexivity].
  destruct (dict_get d "retarding_plate_offsets") as [o|]; cbn;
    [|rewrite He; split; reflexivity].
  match goal with
  | |- context [_validate_retarding_plate_offsets o ?s] =>
      pose proof (offsets_only_errors o s) as Ho;
      destruct (_validate_retarding_plate_offsets o s) as [[[|]|e] v2]
  end; cbn [snd] in Ho; cbn; try (rewrite Ho, He; split; reflexivity).
  destruct (py_int o); cbn; rewrite Ho, He; split; reflexivity.
Qed.

Lemma validate_keeps_source (v : validator) :
  yaml_source (snd (validate v)) = yaml_source v /\
  match yaml_source v with
  | Some (Loaded _) => True
  | _ => data (snd (validate v)) = data v
  end.
Proof.
  unfold validate. vstep.
  destruct (yaml_source v) as [[doc|msg]|] eqn:Es; cbn;
    [|rewrite Es; split; reflexivity..].
  destruct doc as [|b|z|f|s|l|root|tn]; cbn;
    try (rewrite Es; split; [reflexivity | exact I]).
  destruct (dict_get root "modes") as [modes|]; cbn;
    [|rewrite Es; split; [reflexivity | exact I]].
  destruct modes as [|b|z|f|s|l|ms|tn]; cbn;
    try (rewrite Es; split; [reflexivity | exact I]).
  unfold dict_has.
  destruct (dict_get ms "observation") eqn:Eo,
           (dict_get ms "calibration") eqn:Ec; cbn;
    rewrite ?Eo, ?Ec; cbn;
    try (rewrite Es; split; [reflexivity | exact I]).
  all: match goal with
       | |- context [_validate_mode ?nm ?y ?s] =>
           destruct (_validate_mode_keeps_source nm y s) as [H _];
           destruct (_validate_mode nm y s) as [[[|]|e] v1]; cbn in *;
           rewrite H, Es; (split; [reflexivity | exact I])
       end.
Qed.

(** X4: [validate()] starts from scratch.  The answer and everything
    the getters return afterwards depend on the source alone, not on
    what the object held before: [load_from_string] and [load_from_file]
    on a used validator give what [validate()] gives on an object that
    holds nothing but that source, which for a source that is not empty
    is the state in which the constructor leaves a new validator.
    (Without a source the constructor does not validate and leaves no
    message, while the two loaders answer [False] with the message that
    no source was provided.)  A second [validate()] on the same source
    (both callers validate again after the constructor has) returns the
    same answer and leaves the same state. *)
Theorem validate_starts_from_scratch (v : validator)
    (src : option load_result) :
  (fst (load_from_string src v) = fst (validate (fresh src)) /\
   same_model (snd (load_from_string src v)) (snd (validate (fresh src)))) /\
  (fst (load_from_file src v) = fst (validate (fresh src)) /\
   same_model (snd (load_from_file src v)) (snd (validate (fresh src)))) /\
  validate (snd (validate v)) = validate v /\
  (src <> None -> snd (init src) = snd (validate (fresh src))) /\
  (snd (init None) = fresh None /\
   fst (load_from_string None v) = Ret false /\
   errors (snd (load_from_string None v)) =
     [ErrLoad "No YAML file path or content provided"]).
Proof.
  assert (L : forall u,
    fst (validate (set_yaml_source src u)) = fst (validate (fresh src)) /\
    same_model (snd (validate (set_yaml_source src u)))
               (snd (validate (fresh src)))).
  { intros u.
    pose proof (validate_source_only (set_yaml_source src u) (fresh src)
                  eq_refl) as H.
    cbn [yaml_source set_yaml_source] in H.
    destruct src as [[doc|msg]|].
    - rewrite H. split; [reflexivity | repeat split; reflexivity].
    - destruct H as [H1 [H2 _]]. split; assumption.
    - destruct H as [H1 [H2 _]]. split; assumption. }
  split; [exact (L v)|]. split; [exact (L v)|].
  split; [|split].
  - destruct (validate_keeps_source v) as [Ks Kd].
    pose proof (validate_source_only (snd (validate v)) v Ks) as H.
    rewrite Ks in H.
    destruct (yaml_source v) as [[doc|msg]|] eqn:Es; [exact H | |].
    + clear H Kd Ks L. destruct v as [s d e f m l o].
      cbn [yaml_source] in Es. subst s. reflexivity.
    + clear H Kd Ks L. destruct v as [s d e f m l o].
      cbn [yaml_source] in Es. subst s. reflexivity.
  - intros Hsrc. destruct src as [l|]; [|congruence].
    unfold init, bind, ret.
    destruct (validate (fresh (Some l))) as [[b|e] v1]; reflexivity.
  - repeat split.
Qed.

(** X5: [get_modulation] and [get_modulation_parameters] never raise.
    For an index in [range(get_modulation_count())] they return the
    stored modulation of that position and the dictionary of its four
    fields; for any other index, a negative one included, they return
    [None]. *)
Theorem get_modulation_by_index (v : validator) (index : Z) :
  (0 <= index < get_modulation_count v ->
   exists m,
     nth_error (get_modulations v) (Z.to_nat index) = Some m /\
     get_modulation v index = Ret (Some m) /\
     get_modulation_parameters v index = Ret (Some (parameters_of m))) /\
  (~ 0 <= index < get_modulation_count v ->
   get_modulation v index = Ret None /\
   get_modulation_parameters v index = Ret None).
Proof.
  unfold get_modulation_parameters, get_modulation, get_modulation_count,
    get_modulations.
  split; intros H.
  - destruct (nth_error (modulations v) (Z.to_nat index)) as [m|] eqn:E.
    + exists m. split; [reflexivity|].
      replace (0 <=? index) with true by (symmetry; apply Z.leb_le; lia).
      replace (index <? Z.of_nat (List.length (modulations v))) with true
        by (symmetry; apply Z.ltb_lt; lia).
      cbn. split; reflexivity.
    + apply nth_error_None in E. lia.
  - destruct (0 <=? index) eqn:E1; cbn; [|split; reflexivity].
    destruct (index <? Z.of_nat (List.length (modulations v))) eqn:E2;
      cbn; [|split; reflexivity].
    apply Z.leb_le in E1. apply Z.ltb_lt in E2. lia.
Qed.

Lemma parameters_of_revalidate (m : Modulation) (i : nat) (v : validator) :
  in_ranges m = true ->
  _validate_modulation (YDict (parameters_of m)) i v = (Ret (Some m), v).
Proof.
  destruct m as [a b t d]. unfold in_ranges, angle_in_range,
    int_time_in_range. cbn [alpha beta SONG_int_time].
  intros H. apply andb_true_iff in H. destruct H as [H Ht].
  apply andb_true_iff in H. destruct H as [Ha Hb].
  unfold _validate_modulation, parameters_of, _validate_angle,
    _validate_integration_time.
  cbn [alpha beta SONG_int_time description].
  vstep. rewrite Ha. cbn. rewrite Hb. cbn. rewrite Ht. cbn.
  destruct d; reflexivity.
Qed.

(** X6: the dictionary that [get_modulation_parameters] returns for a
    modulation of a validated plan is itself a valid modulation entry:
    [_validate_modulation] on it records no message and gives back the
    same modulation. *)
Theorem parameters_round_trip (v0 : validator) (index : Z) (i : nat)
    (params : list (string * yval)) (v : validator) :
  get_modulation_parameters (snd (validate v0)) index = Ret (Some params) ->
  exists m,
    get_modulation (snd (validate v0)) index = Ret (Some m) /\
    _validate_modulation (YDict params) i v = (Ret (Some m), v).
Proof.
  unfold get_modulation_parameters.
  destruct (get_modulation (snd (validate v0)) index) as [[m|]|e] eqn:E;
    try discriminate.
  intros H. inversion H; subst params. exists m. split; [reflexivity|].
  apply parameters_of_revalidate.
  pose proof (validate_stores_checked_modulations v0) as F.
  rewrite Forall_forall in F. apply F.
  unfold get_modulation in E.
  destruct (_ && _); [|discriminate].
  destruct (nth_error _ _) eqn:En; [|discriminate].
  inversion E; subst. eapply nth_error_In; eassumption.
Qed.

Lemma parameters_round_trip_witness :
  let v0 := fresh (Some (Loaded (observation_plan
                                   [good_modulation; good_modulation]))) in
  let params := parameters_of
                  {| alpha := 45%float; beta := 90%float;
                     SONG_int_time := 1.5%float; description := None |} in
  get_modulation_parameters (snd (validate v0)) 1 = Ret (Some params) /\
  exists m,
    get_modulation (snd (validate v0)) 1 = Ret (Some m) /\
    _validate_modulation (YDict params) 0 (fresh None) =
      (Ret (Some m), fresh None).
Proof.
  split; [vm_compute; reflexivity|].
  apply (@parameters_round_trip
           (fresh (Some (Loaded (observation_plan
                                   [good_modulation; good_modulation]))))
           1 0%nat).
  vm_compute; reflexivity.
Defined.

End ValidatorGuarantees.

Module EngineGuarantees.

Import EngineFacts Examples.

(** ** The run rules, with the final position and the [set_mode] answer *)

Section CliExact.

Import MusolsongCLI.

Variable World : Type.
Variable D : Devices World.
Variable input : input_data.

Let state : Type := (World * list event)%type.
Let n : nat := Z.to_nat (modulations_count input).

Variable Inv : nat -> nat -> state -> Prop.
Variable Stop : state -> Prop.
Variable Exc : state -> Prop.

Hypothesis Hstep :
  forall c tp ts it i st, (i < n)%nat -> Inv c i st ->
  loop_post _ (Inv c) (fun code st' => 1 <= code /\ Stop st')
    (fun _ st' => Exc st') (Datatypes.S i)
    (process_step D input (Z.of_nat c + 1) tp ts it i st).

Hypothesis Hbetween :
  forall c i w tr e, between_cycles e = true ->
  Inv c i (w, tr) -> Inv c i (w, tr ++ [e]).

Hypothesis Hnext : forall c st, Inv c n st -> Inv (Datatypes.S c) 0%nat st.

Hypothesis Hinit :
  forall w, Inv 0%nat 0%nat
    (w, [EvLog INFO LogProcessStarted;
         EvLog INFO (LogProcessingMode (op_mode input));
         EvSetMode (op_mode input) 0]).

(** A run that returns [True] has gone through every cycle; one that
    returns [False] either had its [set_mode] rejected or stopped in a
    step. *)
Lemma cli_run_rule_exact (w : World) :
  match run D input w with
  | (Ret true, st') =>
      ~ set_mode_rejected D input w /\
      exists tr, Inv (cycles_run input) 0%nat (fst st', tr) /\
                 snd st' = tr ++ [EvLog DEBUG LogCompleted]
  | (Ret false, st') =>
      ~ set_mode_rejected D input w /\ cli_failed Stop st' \/
      set_mode_rejected D input w /\
      exists d, snd st' =
                cli_set_mode_failed (op_mode input)
                  (fst (musol_set_mode D (op_mode input) w)) d
  | (Raise _, st') => ~ set_mode_rejected D input w /\ Exc st'
  end.
Proof.
  rewrite process_modulation_data_eq. cbn zeta. unfold set_mode_rejected.
  destruct (fst (musol_set_mode D (op_mode input) w) =? 0) eqn:E0;
    cbn [negb].
  2:{ apply Z.eqb_neq in E0. right. split; [exact E0|].
      eexists. reflexivity. }
  apply Z.eqb_eq in E0. rewrite E0. cbn [app].
  assert (Hz : ~ 0 <> 0) by (intros H; now apply H).
  pose proof (Hinit (snd (musol_set_mode D (op_mode input) w))) as H0.
  unfold cycles_run.
  destruct (String.eqb (op_mode input) "OBSERVATION").
  - pose proof (cli_cycle_rule World D input Inv Stop Exc Hstep
                  0%nat (PyInt 999) _ H0) as R.
    cbn [Z.of_nat Z.add] in R.
    destruct (process_modulations D input 1 (PyInt 999) _)
      as [[code|e] [w1 tr1]]; [|split; [exact Hz | exact R]].
    destruct R as [[-> R]|[Hc R]].
    + cbn. split; [exact Hz|]. exists tr1.
      split; [apply Hnext; exact R | reflexivity].
    + apply Z.leb_le in Hc. rewrite Hc. rewrite report_failed_eq.
      left. split; [exact Hz|]. exists w1, tr1, (fst (abort_flag D w1)).
      split; [exact R | reflexivity].
  - pose proof (cli_calibration_rule World D input Inv Stop Exc
                  Hstep Hbetween Hnext
                  (Z.to_nat (number_of_cycles input))
                  0%nat (PyFloat 0%float) _ _ H0) as R.
    unfold range.
    destruct (calibration_cycles D input _ _ _) as [[[|]|e] [w1 tr1]].
    + cbn. split; [exact Hz|]. exists tr1. split; [exact R | reflexivity].
    + left. split; [exact Hz | exact R].
    + split; [exact Hz | exact R].
Qed.

End CliExact.

Section GuiExact.

Import ProcessingWorker.

Variable World : Type.
Variable D : Devices World.
Variable input : input_data.

Let state : Type := (World * list event)%type.
Let n : nat := Z.to_nat (modulations_count input).

Variable Inv : nat -> nat -> state -> Prop.
Variable Stop : state -> Prop.
Variable Exc : state -> Prop.

Hypothesis Hstep :
  forall c tp ts it i st, (i < n)%nat -> Inv c i st ->
  loop_post _ (Inv c) (fun code st' => code = 1 /\ Stop st')
    (fun _ st' => Exc st') (Datatypes.S i)
    (process_step D input (Z.of_nat c + 1) tp ts it i st).

Hypothesis Hbetween :
  forall c i w tr e, between_cycles e = true ->
  Inv c i (w, tr) -> Inv c i (w, tr ++ [e]).

Hypothesis Hnext : forall c st, Inv c n st -> Inv (Datatypes.S c) 0%nat st.

Hypothesis Hinit :
  forall w, Inv 0%nat 0%nat
    (w, [EvStatus StProcessingStarted; EvSetMode (op_mode input) 0]).

Lemma gui_run_rule_exact (w : World) :
  match run D input w with
  | (Ret _, st') =>
      (~ set_mode_rejected D input w /\
       exists tr, Inv (cycles_run input) 0%nat (fst st', tr) /\
                  snd st' = tr ++ [EvStatus StCompleted; EvFinished true]) \/
      (~ set_mode_rejected D input w /\ gui_failed Stop st') \/
      (set_mode_rejected D input w /\
       exists d1 d2, snd st' =
                     gui_set_mode_failed (op_mode input)
                       (fst (musol_set_mode D (op_mode input) w)) d1 d2)
  | (Raise _, st') => ~ set_mode_rejected D input w /\ Exc st'
  end.
Proof.
  rewrite gui_process_modulation_data_eq. cbn zeta.
  unfold set_mode_rejected.
  destruct (fst (musol_set_mode D (op_mode input) w) =? 0) eqn:E0.
  2:{ apply Z.eqb_neq in E0. right. right. split; [exact E0|].
      eexists. eexists. reflexivity. }
  apply Z.eqb_eq in E0. rewrite E0.
  assert (Hz : ~ 0 <> 0) by (intros H; now apply H).
  pose proof (Hinit (snd (musol_set_mode D (op_mode input) w))) as H0.
  unfold cycles_run.
  destruct (String.eqb (op_mode input) "OBSERVATION").
  - pose proof (gui_cycle_rule World D input Inv Stop Exc Hstep
                  0%nat (PyInt 999) _ H0) as R.
    cbn [Z.of_nat Z.add] in R.
    destruct (process_modulations D input 1 (PyInt 999) _)
      as [[code|e] [w1 tr1]]; [|split; [exact Hz | exact R]].
    destruct R as [[-> R]|[-> R]].
    + cbn. left. split; [exact Hz|]. exists tr1.
      split; [apply Hnext; exact R|]. now rewrite <- app_assoc.
    + cbn. right. left. split; [exact Hz|]. exists tr1.
      split; [exact R | reflexivity].
  - pose proof (gui_calibration_rule World D input Inv Stop Exc
                  Hstep Hbetween Hnext
                  (Z.to_nat (number_of_cycles input))
                  0%nat (PyFloat 0%float) _ _ H0) as R.
    unfold range.
    destruct (calibration_cycles D input _ _ _) as [[[|]|e] [w1 tr1]].
    + cbn. left. split; [exact Hz|]. exists tr1. split; [exact R|].
      now rewrite <- app_assoc.
    + right. left. split; [exact Hz | exact R].
    + split; [exact Hz | exact R].
Qed.

End GuiExact.

(** ** What a reported success stands for *)

Lemma steps_done_succ (step : list pev) (k : nat) :
  steps_done step (Datatypes.S k) = steps_done step k ++ step.
Proof.
  unfold steps_done. induction k as [|k IH]; cbn in *.
  - now rewrite app_nil_r.
  - rewrite IH at 1. now rewrite app_assoc.
Qed.

Ltac protocol_solve :=
  cbn [fst snd] in *;
  rewrite ?protocol_app;
  cbn [protocol protocol_of flat_map app];
  rewrite ?app_nil_r;
  rewrite_tests.

Section Done.

Variable World : Type.
Variable D : Devices World.
Variable input : input_data.

Let n : nat := Z.to_nat (modulations_count input).

Lemma cli_step_done_rule (c : nat) (tp : option pynum) (ts : pynum)
    (it : string) (i : nat) (st : World * list event) :
  cli_done (c * n + i) st ->
  loop_post _ (fun j => cli_done (c * n + j))
    (fun code _ => 1 <= code /\ True) (fun _ _ => True) (Datatypes.S i)
    (MusolsongCLI.process_step D input (Z.of_nat c + 1) tp ts it i st).
Proof.
  destruct st as [w tr]. unfold cli_done. intros H.
  unfold MusolsongCLI.process_step. erun.
  ecrush; cbn [loop_post]; try exact I; try (split; [lia | exact I]).
  protocol_solve. rewrite H.
  replace (c * n + Datatypes.S i)%nat with (Datatypes.S (c * n + i)) by lia.
  rewrite steps_done_succ. unfold cli_step_done.
  rewrite <- !app_assoc. reflexivity.
Qed.

Lemma gui_step_done_rule (c : nat) (tp : option pynum) (ts : pynum)
    (it : string) (i : nat) (st : World * list event) :
  gui_done (c * n + i) st ->
  loop_post _ (fun j => gui_done (c * n + j))
    (fun code st' => code = 1 /\ unfinished st')
    (fun _ st' => unfinished st') (Datatypes.S i)
    (ProcessingWorker.process_step D input (Z.of_nat c + 1) tp ts it i st).
Proof.
  destruct st as [w tr]. unfold gui_done, unfinished. intros [H U].
  cbn [snd] in U.
  unfold ProcessingWorker.process_step,
    ProcessingWorker.prepare_updated_data_for_GUI. erun.
  ecrush; cbn [loop_post snd]; unfold finished_signals in *;
    rewrite ?flat_map_app, ?U; try reflexivity;
    try (split; reflexivity).
  split; [|reflexivity].
  protocol_solve. rewrite H.
  replace (c * n + Datatypes.S i)%nat with (Datatypes.S (c * n + i)) by lia.
  rewrite steps_done_succ. unfold gui_step_done.
  rewrite <- !app_assoc. reflexivity.
Qed.

Lemma cli_done_between (c i : nat) (w : World) (tr : list event)
    (e : event) :
  between_cycles e = true ->
  cli_done (c * n + i) (w, tr) -> cli_done (c * n + i) (w, tr ++ [e]).
Proof.
  unfold cli_done. cbn [snd]. intros He H. now rewrite protocol_between.
Qed.

Lemma gui_done_between (c i : nat) (w : World) (tr : list event)
    (e : event) :
  between_cycles e = true ->
  gui_done (c * n + i) (w, tr) -> gui_done (c * n + i) (w, tr ++ [e]).
Proof.
  unfold gui_done, unfinished. cbn [snd]. intros He [H U].
  now rewrite protocol_between, finished_signals_between.
Qed.

Lemma cli_done_run (w : World) :
  fst (MusolsongCLI.run D input w) = Ret true ->
  protocol (trace (MusolsongCLI.run D input w)) =
  steps_done cli_step_done (cycles_run input * n).
Proof.
  pose proof (cli_run_rule_exact World D input
                (fun c i => cli_done (c * n + i)) (fun _ => True)
                (fun _ => True)
                ltac:(intros; now apply cli_step_done_rule)
                cli_done_between
                ltac:(intros c st H; unfold cli_done in *; rewrite H;
                      f_equal; lia)
                ltac:(intros; reflexivity) w) as R.
  unfold trace.
  destruct (MusolsongCLI.run D input w) as [[[|]|e] [w' tr']];
    cbn [fst snd] in *; try discriminate.
  intros _. destruct R as [_ [tr [H ->]]]. unfold cli_done in H.
  cbn [snd] in H. rewrite protocol_app. cbn. rewrite app_nil_r.
  now rewrite H, Nat.add_0_r.
Qed.

Lemma gui_finished_once (w : World) :
  match fst (ProcessingWorker.run D input w) with
  | Ret _ =>
      exists tr b,
        trace (ProcessingWorker.run D input w) = tr ++ [EvFinished b] /\
        finished_signals tr = [] /\
        (b = true ->
         protocol tr = steps_done gui_step_done (cycles_run input * n))
  | Raise _ =>
      finished_signals (trace (ProcessingWorker.run D input w)) = []
  end.
Proof.
  pose proof (gui_run_rule_exact World D input
                (fun c i => gui_done (c * n + i)) unfinished unfinished
                ltac:(intros; now apply gui_step_done_rule)
                gui_done_between
                ltac:(intros c st [H U]; unfold gui_done in *;
                      split; [rewrite H; f_equal; lia | exact U])
                ltac:(intros; split; reflexivity) w) as R.
  unfold trace.
  destruct (ProcessingWorker.run D input w) as [[[]|e] [w' tr']];
    cbn [fst snd] in *; [|exact (proj2 R)].
  destruct R as [[_ [tr [[H U] ->]]]|[[_ [tr [U E]]]|[_ [d1 [d2 ->]]]]];
    unfold unfinished in *; cbn [snd] in *.
  - exists (tr ++ [EvStatus StCompleted]), true.
    split; [now rewrite <- app_assoc|].
    unfold finished_signals in *. rewrite flat_map_app, U.
    split; [reflexivity|]. intros _.
    rewrite protocol_app. cbn. rewrite app_nil_r.
    now rewrite H, Nat.add_0_r.
  - subst tr'. exists tr, false. split; [reflexivity|].
    split; [exact U | discriminate].
  - eexists. exists false. unfold gui_set_mode_failed.
    split; [|split; [|discriminate]].
    + change [EvStatus StProcessingStarted;
              EvSetMode (op_mode input)
                (fst (musol_set_mode D (op_mode input) w));
              EvGetErrorDescription
                (fst (musol_set_mode D (op_mode input) w)) d1;
              EvLog CRITICAL
                (LogSetModeError
                   (fst (musol_set_mode D (op_mode input) w)) d1);
              EvGetErrorDescription
                (fst (musol_set_mode D (op_mode input) w)) d2;
              EvStatus
                (StSetModeFailed
                   (fst (musol_set_mode D (op_mode input) w)) d2);
              EvFinished false]
        with ([EvStatus StProcessingStarted;
               EvSetMode (op_mode input)
                 (fst (musol_set_mode D (op_mode input) w));
               EvGetErrorDescription
                 (fst (musol_set_mode D (op_mode input) w)) d1;
               EvLog CRITICAL
                 (LogSetModeError
                    (fst (musol_set_mode D (op_mode input) w)) d1);
               EvGetErrorDescription
                 (fst (musol_set_mode D (op_mode input) w)) d2;
               EvStatus
                 (StSetModeFailed
                    (fst (musol_set_mode D (op_mode input) w)) d2)] ++
              [EvFinished false]).
      reflexivity.
    + reflexivity.
Qed.

End Done.

(** ** What a reported failure stands for *)


Section Explained.

Variable World : Type.
Variable D : Devices World.
Variable input : input_data.




Lemma finished_signals_in (tr : list event) (b : bool) :
  In (EvFinished b) tr <-> In b (finished_signals tr).
Proof.
  unfold finished_signals. rewrite in_flat_map. split.
  - intros H. exists (EvFinished b). split; [exact H | now left].
  - intros [e [H1 H2]]. destruct e; cbn in H2; try contradiction.
    destruct H2 as [->|[]]. exact H1.
Qed.


End Explained.

Lemma theta_ok_every_offset :
  forallb (fun k => theta_ok (Z.of_nat k)) (seq 1 360) = true.
Proof. vm_compute. reflexivity. Qed.

Lemma cycle_theta_clear (o : Z) (i : nat) :
  1 <= o <= 360 -> (i < Z.to_nat (360 / o))%nat ->
  py_ne (cycle_theta o i) (PyInt 999) = true.
Proof.
  intros Hr Hi. pose proof theta_ok_every_offset as H.
  rewrite forallb_forall in H.
  specialize (H (Z.to_nat o) ltac:(apply in_seq; lia)).
  rewrite Z2Nat.id in H by lia. unfold theta_ok in H.
  rewrite forallb_forall in H.
  specialize (H i ltac:(apply in_seq; lia)).
  apply andb_true_iff in H. tauto.
Qed.

Ltac in_last :=
  repeat match goal with
         | |- _ \/ _ => first [left; reflexivity | right]
         end.

(** X7: a reported success stands for a complete run, whatever the
    devices do.  When the foreground engine returns [True], and when the
    background engine emits [processing_finished(True)], the run went
    through every step of every cycle: the abort flag was read unset,
    the positioner command succeeded and the detector command succeeded,
    [cycles x modulations_count] times, and nothing else was asked of
    the flag or the devices after [set_mode]. *)
Theorem success_means_every_step_done
    (World : Type) (D : Devices World) (input : input_data) (w : World) :
  let n := Z.to_nat (modulations_count input) in
  (fst (MusolsongCLI.run D input w) = Ret true ->
   protocol (trace (MusolsongCLI.run D input w)) =
     steps_done cli_step_done (cycles_run input * n)) /\
  (In (EvFinished true) (trace (ProcessingWorker.run D input w)) ->
   protocol (trace (ProcessingWorker.run D input w)) =
     steps_done gui_step_done (cycles_run input * n)).
Proof.
  intros n. split.
  - apply cli_done_run.
  - intros Hin. apply finished_signals_in in Hin.
    pose proof (gui_finished_once World D input w) as G.
    destruct (fst (ProcessingWorker.run D input w)) as [[]|e].
    + destruct G as [tr [b [E [U Hb]]]]. rewrite E in *.
      unfold finished_signals in Hin, U. rewrite flat_map_app, U in Hin.
      cbn in Hin. destruct Hin as [->|[]].
      rewrite protocol_app. cbn. rewrite app_nil_r. now apply Hb.
    + rewrite G in Hin. destruct Hin.
Qed.

Lemma success_means_every_step_done_witness :
  let input := calibration_input [m1; m2] 4 90 in
  (fst (MusolsongCLI.run good_devices input tt) = Ret true /\
   In (EvFinished true) (trace (ProcessingWorker.run good_devices input tt))) /\
  protocol (trace (MusolsongCLI.run good_devices input tt)) =
    steps_done cli_step_done 8 /\
  protocol (trace (ProcessingWorker.run good_devices input tt)) =
    steps_done gui_step_done 8.
Proof.
  split.
  - split; [vm_compute; reflexivity|].
    vm_compute. in_last.
  - destruct (success_means_every_step_done unit good_devices
                (calibration_input [m1; m2] 4 90) tt) as [Hc Hg].
    split.
    + apply Hc. vm_compute. reflexivity.
    + apply Hg. vm_compute. in_last.
Defined.


(** X9: in every run of the background engine that returns,
    [processing_finished] is emitted exactly once, as the last thing the
    run does.  In a run that ends with an exception (a detector reply
    with status 0 and no file name raises [KeyError]) it is not emitted
    at all, so the window is never told that the run is over. *)
Theorem finished_signal_once_and_last
    (World : Type) (D : Devices World) (input : input_data) (w : World) :
  match fst (ProcessingWorker.run D input w) with
  | Ret _ =>
      exists tr b,
        trace (ProcessingWorker.run D input w) = tr ++ [EvFinished b] /\
        finished_signals tr = []
  | Raise _ =>
      finished_signals (trace (ProcessingWorker.run D input w)) = []
  end.
Proof.
  pose proof (gui_finished_once World D input w) as G.
  destruct (fst (ProcessingWorker.run D input w)) as [[]|e]; [|exact G].
  destruct G as [tr [b [E [U _]]]]. exists tr, b. split; assumption.
Qed.

(** The second case happens: the reply lacks the file name. *)
Example nameless_reply_raises :
  let out := ProcessingWorker.run nameless_devices
               (observation_input [m1]) tt in
  fst out = Raise (KeyError "filename") /\
  finished_signals (trace out) = [] /\
  fst (MusolsongCLI.run nameless_devices (observation_input [m1]) tt) =
    Raise (KeyError "filename").
Proof. vm_compute. repeat split; reflexivity. Qed.

(** X11: from the validated plan to the devices.  After a [validate()]
    that returned [True], [prepare_data_for_processing] raises nothing,
    and a run of the foreground engine in which every device call
    succeeds and no abort is requested (as the trace of the run shows,
    whatever the devices are) returns [True] after sending [set_mode]
    with the upper-case mode name and then, for each stored modulation
    in order, one positioner and one detector command: once for an
    observation plan (no theta for the positioner, 999 and SUN for the
    detector), and [360 // o] times for a calibration plan with stored
    offset [o], cycle [i] with the theta reached by adding [o] [i] times
    to 0.0, and CALIB. *)
Theorem validated_plan_is_run_entirely
    (v0 v : validator) (name : string) (nr : Z)
    (World : Type) (D : Devices World) (w : World) :
  YAMLSequenceValidator.validate v0 = (Ret true, v) ->
  exists input,
    MusolsongCLI.prepare_data_for_processing v name nr = Ret input /\
    in_modulations input = YAMLSequenceValidator.get_modulations v /\
    (calls_succeeded (trace (MusolsongCLI.run D input w)) = true ->
     fst (MusolsongCLI.run D input w) = Ret true /\
     commands (trace (MusolsongCLI.run D input w)) =
       match YAMLSequenceValidator.get_retarding_plate_offsets v with
       | None =>
           CmdSetMode "OBSERVATION" ::
           cycle_commands input None (PyInt 999) "SUN"
       | Some o =>
           CmdSetMode "CALIBRATION" ::
           flat_map
             (fun i => cycle_commands input (Some (cycle_theta o i))
                         (cycle_theta o i) "CALIB")
             (seq 0 (Z.to_nat (360 / o)))
       end).
Proof.
  intros Hv.
  pose proof (ValidatorGuarantees.validate_model v0) as M. rewrite Hv in M.
  destruct M as [doc [entries [_ [_ [_ [_ [_ Hmode]]]]]]].
  unfold MusolsongCLI.prepare_data_for_processing,
    YAMLSequenceValidator.get_retarding_plate_offsets,
    YAMLSequenceValidator.get_mode.
  destruct Hmode as [[Hm Ho]|[Hm [o [Ho Hr]]]].
  - unfold YAMLSequenceValidator.get_number_of_cycles.
    rewrite Ho, Hm. cbn [option_map].
    eexists. split; [reflexivity|]. split; [reflexivity|].
    match goal with
    | |- context [MusolsongCLI.run D ?inp w] => set (input := inp)
    end.
    exact (cli_observation_replay World D input eq_refl w eq_refl).
  - rewrite (ValidatorGuarantees.get_number_of_cycles_floor o v Ho Hr).
    rewrite Ho, Hm. cbn [option_map].
    eexists. split; [reflexivity|]. split; [reflexivity|].
    match goal with
    | |- context [MusolsongCLI.run D ?inp w] => set (input := inp)
    end.
    pose proof (cli_calibration_replay_run World D input eq_refl w
                  eq_refl) as R.
    change (offset_angle input) with o in R.
    change (number_of_cycles input) with (360 / o) in R.
    change (op_mode input) with "CALIBRATION" in R.
    apply R. intros i Hi. now apply cycle_theta_clear.
Qed.

(** The witness runs a validated calibration plan on devices whose
    detector would fail on its hundredth call. *)
Lemma validated_plan_is_run_entirely_witness :
  let v0 := YAMLSequenceValidator.fresh
              (Some (Loaded (calibration_plan (YInt 90)
                               [good_modulation; good_modulation]))) in
  let v := snd (YAMLSequenceValidator.validate v0) in
  YAMLSequenceValidator.validate v0 = (Ret true, v) /\
  exists input,
    MusolsongCLI.prepare_data_for_processing v "sun" 7 = Ret input /\
    in_modulations input = YAMLSequenceValidator.get_modulations v /\
    (calls_succeeded
       (trace (MusolsongCLI.run (song_failing_devices 99) input 0%nat))
     = true ->
     fst (MusolsongCLI.run (song_failing_devices 99) input 0%nat)
       = Ret true /\
     commands
       (trace (MusolsongCLI.run (song_failing_devices 99) input 0%nat)) =
       match YAMLSequenceValidator.get_retarding_plate_offsets v with
       | None =>
           CmdSetMode "OBSERVATION" ::
           cycle_commands input None (PyInt 999) "SUN"
       | Some o =>
           CmdSetMode "CALIBRATION" ::
           flat_map
             (fun i => cycle_commands input (Some (cycle_theta o i))
                         (cycle_theta o i) "CALIB")
             (seq 0 (Z.to_nat (360 / o)))
       end).
Proof.
  split; [vm_compute; reflexivity|].
  apply (@validated_plan_is_run_entirely
           (YAMLSequenceValidator.fresh
              (Some (Loaded (calibration_plan (YInt 90)
                               [good_modulation; good_modulation]))))
           _ "sun" 7 nat (song_failing_devices 99) 0%nat).
  vm_compute; reflexivity.
Defined.

(** In that run the calls do succeed. *)
Example validated_plan_run_succeeds :
  let v := snd (validate_doc
                  (calibration_plan (YInt 90)
                     [good_modulation; good_modulation])) in
  match MusolsongCLI.prepare_data_for_processing v "sun" 7 with
  | Ret input =>
      calls_succeeded
        (trace (MusolsongCLI.run (song_failing_devices 99) input 0%nat))
      = true
  | Raise _ => False
  end.
Proof. vm_compute. reflexivity. Qed.

End EngineGuarantees.

Module RunReports.

Import EngineFacts EngineGuarantees Examples.

(** ** Progress of the background engine *)





Section GuiProgress.

Import ProcessingWorker.

Variable World : Type.
Variable D : Devices World.
Variable input : input_data.

Let n : nat := Z.to_nat (modulations_count input).
Let total : Z := modulations_count input * number_of_cycles input.





End GuiProgress.





Section GuiComplete.

Import ProcessingWorker.

Variable World : Type.
Variable D : Devices World.
Variable input : input_data.

Let n : nat := Z.to_nat (modulations_count input).
Let total : Z := modulations_count input * number_of_cycles input.

Hypothesis Hmods : (n <= List.length (in_modulations input))%nat.



End GuiComplete.

(** ** Abort and failure *)



Section Reasons.

Variable World : Type.
Variable D : Devices World.
Variable input : input_data.

Let n : nat := Z.to_nat (modulations_count input).





Hypothesis Hmods : (n <= List.length (in_modulations input))%nat.



End Reasons.




(** The run of the example of the claim, on devices that could fail
    later: eight dictionaries, the last one with 87. *)
Example calibration_90_percentages :
  let input := calibration_input [m1; m2] 4 90 in
  let out := ProcessingWorker.run (song_failing_devices 8) input 0%nat in
  calls_succeeded (trace out) = true /\
  map percetage_done (progress_events (trace out)) =
    [0; 12; 25; 37; 50; 62; 75; 87] /\
  last (trace out) (EvFinished false) = EvFinished true.
Proof. vm_compute. repeat split; reflexivity. Qed.



End RunReports.

Module EntryGuarantees.

Import EngineFacts Examples SequenceFile.

Ltac crun :=
  unfold read_source, engine, log;
  unfold record, ask, ask_res, set_current_seq_data, set_current_file;
  unfold bind, ret, raise, lift, modify, get;
  cbn [fst snd negb world current_seq_data current_file out].

Ltac cred := cbn [fst snd negb world current_seq_data current_file out].

Ltac trace_out :=
  cbn [fst snd world current_seq_data current_file out];
  rewrite <- ?app_assoc; reflexivity.

Ltac answer_false :=
  eexists;
  cbn [fst snd world current_seq_data current_file out];
  split; [trace_out|];
  split; [reflexivity|];
  split; [split; reflexivity|];
  unfold host_raised; intros e0 [R|[R1 R2]]; congruence.

Section Entry.

Variable World : Type.
Variable D : Devices World.
Variable H : Host World.

(** What [validate_project_yaml] leaves behind. *)
Lemma validate_project_yaml_post (file_path : string)
    (s : cli_state World) :
  exists evs,
    out (snd (validate_project_yaml H file_path s)) = out s ++ evs /\
    no_contact evs /\
    match fst (validate_project_yaml H file_path s) with
    | Ret true =>
        exists v,
          current_seq_data (snd (validate_project_yaml H file_path s))
          = Some v /\
          is_valid_flag v = true
    | Ret false =>
        current_seq_data (snd (validate_project_yaml H file_path s)) =
          current_seq_data s /\
        existsb is_error_entry evs = true
    | Raise e =>
        host_raised H file_path (world s) e /\
        current_seq_data (snd (validate_project_yaml H file_path s)) =
          current_seq_data s
    end /\
    forall e, host_raised H file_path (world s) e ->
              fst (validate_project_yaml H file_path s) = Raise e.
Proof.
  assert (Hempty :
    YAMLSequenceValidator.validate
      (YAMLSequenceValidator.set_yaml_source None
         (YAMLSequenceValidator.fresh None)) =
    (Ret false,
     snd (YAMLSequenceValidator.validate
            (YAMLSequenceValidator.set_yaml_source None
               (YAMLSequenceValidator.fresh None))))) by reflexivity.
  unfold validate_project_yaml, no_contact. crun.
  destruct (fst (path_exists H file_path (world s))) as [[|]|e] eqn:Ex;
    cbn [fst snd negb world current_seq_data current_file out].
  2:{ answer_false. }
  2:{ eexists. split; [trace_out|]. split; [reflexivity|].
      split; [split; [left; exact Ex | reflexivity]|].
      unfold host_raised. intros e0 [R|[R1 R2]]; congruence. }
  destruct (fst (path_is_file H file_path _)) as [[|]|e] eqn:Ef;
    cbn [fst snd negb world current_seq_data current_file out].
  2:{ answer_false. }
  2:{ eexists. split; [trace_out|]. split; [reflexivity|].
      split; [split; [right; split; [exact Ex | exact Ef] | reflexivity]|].
      unfold host_raised. intros e0 [R|[R1 R2]]; congruence. }
  destruct (String.eqb file_path "");
    cbn [fst snd negb world current_seq_data current_file out].
  - unfold YAMLSequenceValidator.init.
    cbn [fst snd negb world current_seq_data current_file out].
    rewrite Hempty. answer_false.
  - destruct (fst (load_yaml H file_path _)) as [l1|e1] eqn:El1;
      cbn [fst snd negb world current_seq_data current_file out];
      [|answer_false].
    unfold YAMLSequenceValidator.init, bind, ret.
    cbn [fst snd negb world current_seq_data current_file out].
    match goal with
    | |- context [YAMLSequenceValidator.validate ?x] =>
        destruct (YAMLSequenceValidator.validate x) as [[b1|e] v1]
    end; [|answer_false].
    cbn [fst snd negb world current_seq_data current_file out].
    match goal with
    | |- context [load_yaml H file_path (snd (load_yaml H file_path ?w0))] =>
        destruct (fst (load_yaml H file_path
                         (snd (load_yaml H file_path w0))))
          as [l2|e2] eqn:El2
    end;
      cbn [fst snd negb world current_seq_data current_file out];
      [|answer_false].
    match goal with
    | |- context [YAMLSequenceValidator.validate ?x] =>
        pose proof (ValidatorFacts.validate_post x) as P;
        destruct (YAMLSequenceValidator.validate x) as [[[|]|e] v2]
    end; [|answer_false..].
    eexists.
    cbn [fst snd world current_seq_data current_file out].
    split; [trace_out|]. split; [reflexivity|].
    split; [exists v2; split; [reflexivity | exact P]|].
    unfold host_raised. intros e0 [R|[R1 R2]]; congruence.
Qed.

Lemma forallb_quiet_app (l1 l2 : list cli_event) :
  no_contact l1 -> no_contact l2 -> no_contact (l1 ++ l2).
Proof.
  unfold no_contact. intros H1 H2. rewrite forallb_app, H1, H2. reflexivity.
Qed.

Lemma engine_events_app (l1 l2 : list cli_event) :
  engine_events (l1 ++ l2) = engine_events l1 ++ engine_events l2.
Proof. apply flat_map_app. Qed.

Lemma engine_events_quiet (l : list cli_event) :
  no_contact l -> engine_events l = [].
Proof.
  unfold no_contact. induction l as [|e l IH]; cbn; [reflexivity|].
  intros Hq. apply andb_true_iff in Hq. destruct Hq as [He Hl].
  destruct e; cbn in *; try discriminate; auto.
Qed.

Lemma engine_events_map (tr : list event) :
  engine_events (map CliEngine tr) = tr.
Proof.
  induction tr as [|e tr IH]; cbn; [reflexivity|]. f_equal. exact IH.
Qed.

(** What [process_sequence_file] leaves behind. *)
Lemma process_sequence_file_post (file name : string) (nr : Z)
    (validate_only : bool) (s : cli_state World) :
  exists evs,
    out (snd (process_sequence_file D H file name nr validate_only s))
    = out s ++ evs /\
    (validate_only = true -> no_contact evs) /\
    (engine_events evs <> [] ->
     (exists pre post,
        evs = pre ++ CliSongConnected true :: CliPlcConnected true :: post /\
        no_contact pre) /\
     exists v,
       current_seq_data
         (snd (process_sequence_file D H file name nr validate_only s))
       = Some v /\
       is_valid_flag v = true) /\
    match fst (process_sequence_file D H file name nr validate_only s) with
    | Ret true =>
        exists v,
          current_seq_data
            (snd (process_sequence_file D H file name nr validate_only s))
          = Some v /\
          is_valid_flag v = true /\
          (validate_only = false ->
           exists input w,
             MusolsongCLI.prepare_data_for_processing v name nr
             = Ret input /\
             fst (MusolsongCLI.run D input w) = Ret true /\
             engine_events evs = trace (MusolsongCLI.run D input w))
    | Ret false => True
    | Raise e => host_raised H file (world s) e /\ no_contact evs
    end /\
    forall e, host_raised H file (world s) e ->
      fst (process_sequence_file D H file name nr validate_only s)
      = Raise e.
Proof.
  unfold process_sequence_file.
  destruct (validate_project_yaml_post file s)
    as [evs0 [Eout [Hq [Hres Hconv]]]].
  crun.
  destruct (validate_project_yaml H file s) as [r0 s1].
  cbn [fst snd] in *.
  pose proof (engine_events_quiet evs0 Hq) as Hsilent.
  destruct r0 as [[|]|e0];
    cbn [fst snd negb world current_seq_data current_file out].
  3:{ exists evs0. cbn [fst snd]. cbv beta iota.
      split; [exact Eout|]. split; [intros _; exact Hq|].
      split; [intros C; now rewrite Hsilent in C|].
      split; [split; [apply Hres | exact Hq] | exact Hconv]. }
  2:{ exists evs0. cbn [fst snd]. cbv beta iota.
      split; [exact Eout|]. split; [intros _; exact Hq|].
      split; [intros C; now rewrite Hsilent in C|].
      split; [exact I|]. intros e He. discriminate (Hconv e He). }
  assert (Hno : forall e, host_raised H file (world s) e -> False)
    by (intros e He; discriminate (Hconv e He)).
  destruct Hres as [v [Ev Hflag]]. clear Hconv.
  destruct validate_only; cred.
  { eexists.
    split; [rewrite Eout, <- !app_assoc; reflexivity|].
    split; [intros _; apply forallb_quiet_app; [exact Hq | reflexivity]|].
    split.
    - rewrite engine_events_app, Hsilent. cbn. intros C. now contradiction C.
    - split; [|intros e He; destruct (Hno e He)].
      exists v. repeat split; try assumption. discriminate. }
  destruct (fst (song_is_connected H (world s1))) eqn:Esong; cred.
  2:{ eexists.
      split; [rewrite Eout, <- !app_assoc; reflexivity|].
      split; [discriminate|].
      split; [|split; [exact I | intros e He; destruct (Hno e He)]].
      rewrite engine_events_app, Hsilent. cbn. intros C. now contradiction C. }
  destruct (fst (plc_is_connected H _)) eqn:Eplc; cred.
  2:{ eexists.
      split; [rewrite Eout, <- !app_assoc; reflexivity|].
      split; [discriminate|].
      split; [|split; [exact I | intros e He; destruct (Hno e He)]].
      rewrite engine_events_app, Hsilent. cbn. intros C. now contradiction C. }
  rewrite Ev. cred.
  destruct (MusolsongCLI.prepare_data_for_processing v name nr)
    as [input|e] eqn:Eprep; cred.
  2:{ eexists.
      split; [rewrite Eout, <- !app_assoc; reflexivity|].
      split; [discriminate|].
      split; [|split; [exact I | intros e1 He; destruct (Hno e1 He)]].
      rewrite engine_events_app, Hsilent. cbn. intros C. now contradiction C. }
  match goal with
  | |- context [MusolsongCLI.process_modulation_data D input (?w0, [])] =>
      change (MusolsongCLI.process_modulation_data D input (w0, []))
        with (MusolsongCLI.run D input w0);
      set (w1 := w0)
  end.
  assert (Hsplit : forall tail,
    exists pre post,
      evs0 ++ [CliLog INFO MsgProjectValid; CliSongConnected true;
               CliPlcConnected true;
               CliLog INFO (MsgStarting name nr)] ++ tail =
      pre ++ CliSongConnected true :: CliPlcConnected true :: post /\
      no_contact pre).
  { intros tail. exists (evs0 ++ [CliLog INFO MsgProjectValid]).
    eexists. split; [rewrite <- app_assoc; reflexivity|].
    apply forallb_quiet_app; [exact Hq | reflexivity]. }
  assert (Hev : forall tail,
    engine_events
      (evs0 ++ [CliLog INFO MsgProjectValid; CliSongConnected true;
                CliPlcConnected true;
                CliLog INFO (MsgStarting name nr)] ++
       map CliEngine (trace (MusolsongCLI.run D input w1)) ++ tail) =
    trace (MusolsongCLI.run D input w1) ++ engine_events tail).
  { intros tail. rewrite engine_events_app, Hsilent. cbn.
    now rewrite engine_events_app, engine_events_map. }
  unfold trace in Hev.
  destruct (MusolsongCLI.run D input w1) as [[[|]|e] [w2 tr]] eqn:Erun;
    cbn [fst snd] in Hev;
    cbn [fst snd world current_seq_data current_file out].
  - exists (evs0 ++ [CliLog INFO MsgProjectValid; CliSongConnected true;
                     CliPlcConnected true;
                     CliLog INFO (MsgStarting name nr)] ++
            map CliEngine tr ++ [CliLog DEBUG (MsgProcessed name)]).
    split; [rewrite Eout, <- !app_assoc; reflexivity|].
    split; [discriminate|].
    split; [|split; [|intros e He; destruct (Hno e He)]].
    + intros _. split; [apply Hsplit|].
      exists v. split; [reflexivity | exact Hflag].
    + exists v. split; [reflexivity|]. split; [exact Hflag|].
      intros _. exists input, w1. split; [exact Eprep|].
      rewrite Erun. split; [reflexivity|].
      rewrite (Hev [CliLog DEBUG (MsgProcessed name)]). unfold trace. cbn.
      now rewrite app_nil_r.
  - exists (evs0 ++ [CliLog INFO MsgProjectValid; CliSongConnected true;
                     CliPlcConnected true;
                     CliLog INFO (MsgStarting name nr)] ++
            map CliEngine tr ++ []).
    split; [rewrite Eout, <- !app_assoc, app_nil_r; reflexivity|].
    split; [discriminate|].
    split; [|split; [exact I | intros e He; destruct (Hno e He)]].
    intros _. split; [apply Hsplit|].
    exists v. split; [reflexivity | exact Hflag].
  - exists (evs0 ++ [CliLog INFO MsgProjectValid; CliSongConnected true;
                     CliPlcConnected true;
                     CliLog INFO (MsgStarting name nr)] ++
            map CliEngine tr ++ [CliLog ERROR (MsgProcessingFailed e)]).
    split; [rewrite Eout, <- !app_assoc; reflexivity|].
    split; [discriminate|].
    split; [|split; [exact I | intros e1 He; destruct (Hno e1 He)]].
    intros _. split; [apply Hsplit|].
    exists v. split; [reflexivity | exact Hflag].
Qed.

End Entry.

(** X12: [validate_project_yaml] raises only what [Path.exists()] or
    [Path.is_file()] raise, which stand before its [try] (an [OSError]
    for a name that is too long, say), and then it raises just that.
    Every exception raised while the file is read and validated, such as
    the [KeyError] of a document without ['modes'] or the decoding error
    of a file that is no text, is logged as an error and the method
    returns [False].  When it returns [True], [current_seq_data] holds a
    validator whose flag is set; when it returns [False] or raises,
    [current_seq_data] is what it was before, and after [False] an entry
    of level ERROR was written.  The method asks nothing of the two
    clients. *)
Theorem validate_project_yaml_contains_exceptions
    (World : Type) (H : Host World) (file_path : string)
    (s : cli_state World) :
  let r := validate_project_yaml H file_path s in
  exists evs,
    out (snd r) = out s ++ evs /\
    no_contact evs /\
    match fst r with
    | Ret true =>
        exists v, current_seq_data (snd r) = Some v /\
                  is_valid_flag v = true
    | Ret false =>
        current_seq_data (snd r) = current_seq_data s /\
        existsb is_error_entry evs = true
    | Raise e =>
        host_raised H file_path (world s) e /\
        current_seq_data (snd r) = current_seq_data s
    end /\
    forall e, host_raised H file_path (world s) e -> fst r = Raise e.
Proof.
  exact (validate_project_yaml_post World H file_path s).
Qed.

(** The document without ['modes'], the file that cannot be decoded and
    the name that is too long at the entry point. *)
Example missing_modes_is_logged :
  let out0 := validate_project_yaml
                (file_host (YDict [("observation", YDict [])]))
                "plan.yaml" (start tt) in
  fst out0 = Ret false /\
  In (CliLog ERROR (MsgReadError (KeyError "modes"))) (out (snd out0)) /\
  current_seq_data (snd out0) = None.
Proof. vm_compute. repeat split; try reflexivity. tauto. Qed.

Example undecodable_file_is_logged :
  let out0 := validate_project_yaml undecodable_host "plan.bin"
                (start tt) in
  fst out0 = Ret false /\
  last (out (snd out0)) (CliLog INFO MsgNoSequence) =
    CliLog ERROR (MsgReadError ValueError).
Proof. vm_compute. split; reflexivity. Qed.

Example long_name_raises :
  fst (validate_project_yaml long_name_host "plan.yaml" (start tt)) =
    Raise OSError /\
  fst (process_sequence_file good_devices long_name_host "plan.yaml"
         "sun" 7 false (start tt)) = Raise OSError.
Proof. vm_compute. split; reflexivity. Qed.

(** X13: when [process_sequence_file], called without [validate_only],
    returns [True], what the validator stored of the file has been run
    entirely: the validator in [current_seq_data] has its flag set, the
    input of the engine was prepared from it, and the engine went
    through every step of every cycle of that input, each with the abort
    flag unset and both device commands succeeding.  The steps are the
    modulations that [validate()] stored; an entry of the file that it
    dropped is not among them. *)
Theorem processed_file_was_run_entirely
    (World : Type) (D : Devices World) (H : Host World)
    (file name : string) (nr : Z) (s s' : cli_state World) :
  process_sequence_file D H file name nr false s = (Ret true, s') ->
  exists v input evs,
    out s' = out s ++ evs /\
    current_seq_data s' = Some v /\ is_valid_flag v = true /\
    MusolsongCLI.prepare_data_for_processing v name nr = Ret input /\
    in_modulations input = YAMLSequenceValidator.get_modulations v /\
    modulations_count input = YAMLSequenceValidator.get_modulation_count v /\
    protocol (engine_events evs) =
      steps_done cli_step_done
        (cycles_run input * Z.to_nat (modulations_count input)).
Proof.
  intros E.
  destruct (process_sequence_file_post World D H file name nr false s)
    as [evs [Eout [_ [_ [Ht _]]]]].
  rewrite E in *. cbn [fst snd] in *.
  destruct Ht as [v [Ev [Hflag Hrun]]].
  destruct (Hrun eq_refl) as [input [w [Eprep [Er Eev]]]].
  exists v, input, evs.
  split; [exact Eout|]. split; [exact Ev|]. split; [exact Hflag|].
  split; [exact Eprep|].
  assert (Hin : in_modulations input =
                YAMLSequenceValidator.get_modulations v /\
                modulations_count input =
                YAMLSequenceValidator.get_modulation_count v).
  { revert Eprep. unfold MusolsongCLI.prepare_data_for_processing.
    destruct (YAMLSequenceValidator.get_number_of_cycles v)
      as [[c|]|e]; try discriminate.
    - destruct (YAMLSequenceValidator.get_retarding_plate_offsets v);
        try discriminate.
      destruct (YAMLSequenceValidator.get_mode v); try discriminate.
      intros Ei. inversion Ei. split; reflexivity.
    - destruct (YAMLSequenceValidator.get_mode v); try discriminate.
      intros Ei. inversion Ei. split; reflexivity. }
  split; [apply Hin|]. split; [apply Hin|].
  rewrite Eev. now apply EngineGuarantees.cli_done_run.
Qed.

Lemma processed_file_was_run_entirely_witness :
  let H := file_host (observation_plan [good_modulation; good_modulation]) in
  let s' := snd (process_sequence_file good_devices H "plan.yaml" "sun" 7
                   false (start tt)) in
  process_sequence_file good_devices H "plan.yaml" "sun" 7 false (start tt)
    = (Ret true, s') /\
  exists v input evs,
    out s' = out (start tt) ++ evs /\
    current_seq_data s' = Some v /\ is_valid_flag v = true /\
    MusolsongCLI.prepare_data_for_processing v "sun" 7 = Ret input /\
    in_modulations input = YAMLSequenceValidator.get_modulations v /\
    modulations_count input = YAMLSequenceValidator.get_modulation_count v /\
    protocol (engine_events evs) =
      steps_done cli_step_done
        (cycles_run input * Z.to_nat (modulations_count input)).
Proof.
  split; [vm_compute; reflexivity|].
  apply (processed_file_was_run_entirely unit good_devices
           (file_host (observation_plan [good_modulation; good_modulation]))
           "plan.yaml" "sun" 7 (start tt)).
  vm_compute; reflexivity.
Defined.

(** The file with one entry out of range is answered [True] after the
    one step that the validator kept. *)
Example dropped_entry_is_not_run :
  let H := file_host (observation_plan [good_modulation; bad_modulation]) in
  let out0 := process_sequence_file good_devices H "plan.yaml" "sun" 7
                false (start tt) in
  fst out0 = Ret true /\
  protocol (engine_events (out (snd out0))) = steps_done cli_step_done 1.
Proof. vm_compute. split; reflexivity. Qed.

(** X14: [process_sequence_file] raises only what [Path.exists()] or
    [Path.is_file()] raise in [validate_project_yaml], before anything
    is asked of the clients; every exception of the validator, of
    [prepare_data_for_processing] and of the engine ends as the answer
    [False].  With [validate_only] it asks nothing of the two clients.
    The engine is started, and so a command is sent to a device, only
    after the file has validated and both clients have answered, in this
    order and as the first things asked of them, that they are
    connected. *)
Theorem devices_contacted_only_when_ready
    (World : Type) (D : Devices World) (H : Host World)
    (file name : string) (nr : Z) (validate_only : bool)
    (s : cli_state World) :
  let r := process_sequence_file D H file name nr validate_only s in
  exists evs,
    out (snd r) = out s ++ evs /\
    (validate_only = true -> no_contact evs) /\
    (engine_events evs <> [] ->
     (exists pre post,
        evs = pre ++ CliSongConnected true :: CliPlcConnected true :: post /\
        no_contact pre) /\
     exists v, current_seq_data (snd r) = Some v /\ is_valid_flag v = true) /\
    (forall e, fst r = Raise e ->
               host_raised H file (world s) e /\ no_contact evs) /\
    forall e, host_raised H file (world s) e -> fst r = Raise e.
Proof.
  destruct (process_sequence_file_post World D H file name nr
              validate_only s)
    as [evs [Eout [Hq [Hguard [Hres Hconv]]]]].
  exists evs. split; [exact Eout|]. split; [exact Hq|].
  split; [exact Hguard|]. split; [|exact Hconv].
  intros e He. rewrite He in Hres. exact Hres.
Qed.

(** An exception of the engine at the entry point: the detector reply
    without a file name ends as [False] and an error entry. *)
Example engine_exception_is_logged :
  let out0 := process_sequence_file nameless_devices
                (file_host (observation_plan [good_modulation]))
                "plan.yaml" "sun" 7 false (start tt) in
  fst out0 = Ret false /\
  last (out (snd out0)) (CliLog INFO MsgNoSequence) =
    CliLog ERROR (MsgProcessingFailed (KeyError "filename")).
Proof. vm_compute. split; reflexivity. Qed.

End EntryGuarantees.

Module EditorGuarantees.

Import YAMLSequenceValidator ValidatorFacts ValidatorGuarantees YAMLEditorGUI.
Import Examples.
Open Scope string_scope.
Open Scope list_scope.
Open Scope Z_scope.

Lemma factors_are_allowed_values :
  get_factors_of_360 = ALLOWED_THETA_ANGLE_VALUES.
Proof. vm_compute. reflexivity. Qed.

Lemma allowed_values_are_divisors :
  forallb (fun n => Bool.eqb (existsb (Z.eqb (Z.of_nat n))
                                ALLOWED_THETA_ANGLE_VALUES)
                             (360 mod Z.of_nat n =? 0))
          (seq 1 360) = true.
Proof. vm_compute. reflexivity. Qed.

Lemma allowed_iff_divisor (v : Z) :
  existsb (Z.eqb v) ALLOWED_THETA_ANGLE_VALUES = true <->
  1 <= v <= 360 /\ 360 mod v = 0.
Proof.
  split.
  - intros H. apply existsb_exists in H. destruct H as [x [Hx Hv]].
    apply Z.eqb_eq in Hv. subst x.
    unfold ALLOWED_THETA_ANGLE_VALUES in Hx. cbn [In] in Hx.
    repeat (destruct Hx as [<-|Hx]; [split; [lia | reflexivity]|]).
    contradiction.
  - intros [Hr Hd]. pose proof allowed_values_are_divisors as H.
    rewrite forallb_forall in H.
    specialize (H (Z.to_nat v) ltac:(apply in_seq; lia)).
    rewrite Z2Nat.id in H by lia.
    apply Z.eqb_eq in Hd. rewrite Hd in H.
    now apply Bool.eqb_prop in H.
Qed.

Lemma is_factor_iff_divisor (v : Z) :
  is_factor_of_360 v = true <-> 1 <= v <= 360 /\ 360 mod v = 0.
Proof.
  unfold is_factor_of_360.
  destruct (v <=? 0) eqn:E1; cbn [orb].
  - split; [discriminate | lia].
  - destruct (v >? 360) eqn:E2.
    + split; [discriminate | lia].
    + rewrite Z.eqb_eq. split; [intros H; split; [lia | exact H] | tauto].
Qed.

(** X15: the three tests of the editor for the retarding plate offset
    and the check of the validator accept the same integers, the 24
    divisors of 360; on them the number of cycles that the editor
    displays is the number that [get_number_of_cycles] returns for the
    stored offset, and on every other integer the editor displays the
    invalid-offset text. *)
Theorem editor_offset_checks_agree (v : Z) (e : editor) (vd : validator) :
  get_factors_of_360 = ALLOWED_THETA_ANGLE_VALUES /\
  (is_factor_of_360 v = true <-> In v ALLOWED_THETA_ANGLE_VALUES) /\
  (is_factor_of_360 v = true <->
   fst (_validate_retarding_plate_offsets (YInt v) vd) = Ret true) /\
  (offsets_spin e = v ->
   update_number_of_cycles e =
     if is_factor_of_360 v then LabelCycles (360 / v) else LabelInvalid v) /\
  (is_factor_of_360 v = true ->
   retarding_plate_offsets vd = Some v ->
   get_number_of_cycles vd = Ret (Some (360 / v))).
Proof.
  split; [exact factors_are_allowed_values|].
  split.
  { rewrite is_factor_iff_divisor, <- allowed_iff_divisor.
    rewrite existsb_exists. split.
    - intros [x [Hx Hv]]. apply Z.eqb_eq in Hv. now subst.
    - intros H. exists v. split; [exact H | apply Z.eqb_refl]. }
  split.
  { now rewrite is_factor_iff_divisor, offsets_int_accepted_iff. }
  split.
  { intros Hv. unfold update_number_of_cycles. rewrite Hv.
    destruct (is_factor_of_360 v) eqn:E.
    - apply is_factor_iff_divisor, allowed_iff_divisor in E.
      now rewrite E.
    - destruct (existsb (Z.eqb v) ALLOWED_THETA_ANGLE_VALUES) eqn:Ea;
        [|reflexivity].
      apply allowed_iff_divisor, is_factor_iff_divisor in Ea. congruence. }
  intros Hf Ho. apply is_factor_iff_divisor in Hf.
  apply get_number_of_cycles_floor; tauto.
Qed.

(** A row whose values lie in the ranges of its spin boxes is stored by
    the validator as it stands, without a message. *)
Lemma row_is_stored (r : table_row) (i : nat) (v : validator) :
  in_ranges (modulation_of_row r) = true ->
  _validate_modulation (get_modulation_of_row r) i v =
    (Ret (Some (modulation_of_row r)), v).
Proof.
  unfold in_ranges, angle_in_range, int_time_in_range, modulation_of_row.
  cbn [alpha beta SONG_int_time].
  intros H. apply andb_true_iff in H. destruct H as [H Ht].
  apply andb_true_iff in H. destruct H as [Ha Hb].
  unfold _validate_modulation, get_modulation_of_row.
  cbn [app find required_fields dict_has dict_get String.eqb Ascii.eqb
       Bool.eqb negb].
  unfold bind, dict_item.
  cbn [dict_get String.eqb Ascii.eqb Bool.eqb ret fst snd].
  unfold _validate_angle, _validate_integration_time.
  cbn [as_number]. rewrite Ha, Hb, Ht. cbn [negb ret andb].
  destruct (strip (desc_edit r)) eqn:Es;
    cbn [dict_get String.eqb Ascii.eqb Bool.eqb app];
    unfold lift, ret, py_float; cbn [as_number]; reflexivity.
Qed.

Lemma rows_are_stored (rows : list table_row) :
  forall (i : nat) (valid : list Modulation) (v : validator),
  Forall (fun r => in_ranges (modulation_of_row r) = true) rows ->
  validate_each (get_modulations rows) i valid v =
    (Ret (valid ++ map modulation_of_row rows), v).
Proof.
  induction rows as [|r rest IH]; intros i valid v Hr;
    unfold get_modulations; cbn [map validate_each].
  - unfold ret. now rewrite app_nil_r.
  - fold (get_modulations rest). inversion Hr as [|? ? H1 H2]; subst. unfold bind.
    rewrite (row_is_stored r i v H1). cbn [fst snd].
    rewrite (IH (S i) (valid ++ [modulation_of_row r]) v H2).
    now rewrite <- app_assoc.
Qed.

Lemma accepted_offset (o : Z) (vd : validator) :
  is_factor_of_360 o = true ->
  _validate_retarding_plate_offsets (YInt o) vd = (Ret true, vd).
Proof.
  intros Hf. apply is_factor_iff_divisor in Hf. destruct Hf as [Hr Hd].
  unfold _validate_retarding_plate_offsets. cbn [as_number].
  rewrite !py_le_int.
  replace (1 <=? o) with true by (symmetry; apply Z.leb_le; lia).
  replace (o <=? 360) with true by (symmetry; apply Z.leb_le; lia).
  cbn [andb negb]. unfold bind, lift, py_mod.
  replace (o =? 0) with false by (symmetry; apply Z.eqb_neq; lia).
  cbn [fst snd]. rewrite py_ne_int, Hd. reflexivity.
Qed.

(** [_validate_mode] on the mode dictionary that [get_yaml_data]
    builds. *)
Lemma mode_is_stored (mode_name : string) (md : list (string * yval))
    (rows : list table_row) (v : validator) :
  rows <> [] ->
  Forall (fun r => in_ranges (modulation_of_row r) = true) rows ->
  dict_get md "modulations" = Some (YList (get_modulations rows)) ->
  (String.eqb mode_name "calibration" = true ->
   exists o, dict_get md "retarding_plate_offsets" = Some (YInt o) /\
             is_factor_of_360 o = true) ->
  _validate_mode mode_name (YDict md) v =
    (Ret true,
     if String.eqb mode_name "calibration" then
       match dict_get md "retarding_plate_offsets" with
       | Some (YInt o) =>
           set_retarding_plate_offsets (Some o)
             (set_modulations (map modulation_of_row rows) v)
       | _ => v
       end
     else set_modulations (map modulation_of_row rows) v).
Proof.
  intros Hne Hr Hm Hcal. unfold _validate_mode. rewrite Hm.
  destruct (get_modulations rows) as [|y l] eqn:Eg.
  { destruct rows; [congruence | discriminate]. }
  rewrite <- Eg. unfold bind.
  rewrite (rows_are_stored rows 0 [] v Hr). cbn [app fst snd].
  destruct (map modulation_of_row rows) as [|m ms] eqn:Em.
  { destruct rows; [congruence | discriminate]. }
  rewrite <- Em. unfold modify. cbn [fst snd].
  destruct (String.eqb mode_name "calibration").
  - destruct (Hcal eq_refl) as [o [Ho Hf]]. rewrite Ho.
    rewrite (accepted_offset o _ Hf). cbn [fst snd negb].
    unfold lift, py_int. cbn [as_number fst snd]. reflexivity.
  - reflexivity.
Qed.

(** The cases in which [validate_data] answers [True]. *)
Lemma validate_data_true (e : editor) :
  fst (validate_data e) = true ->
  enabled_rows e <> [] /\
  (cal_enabled e = true /\ obs_enabled e = false /\
   is_factor_of_360 (offsets_spin e) = true \/
   cal_enabled e = false /\ obs_enabled e = true).
Proof.
  unfold validate_data, enabled_rows, get_modulations.
  destruct (cal_enabled e), (obs_enabled e); cbn [negb andb app].
  - destruct (map _ (cal_modulations e)),
      (is_factor_of_360 (offsets_spin e)),
      (map _ (obs_modulations e)); cbn; discriminate.
  - destruct (cal_modulations e) as [|r rest]; cbn [map app];
      destruct (is_factor_of_360 (offsets_spin e)); cbn;
      try discriminate.
    intros _. split; [discriminate | left; auto].
  - destruct (obs_modulations e) as [|r rest]; cbn; try discriminate.
    intros _. split; [discriminate | right; auto].
  - cbn. discriminate.
Qed.

(** X16: whatever the editor agrees to save, the controller accepts: a
    document that passed [validate_data], with every value of the enabled
    table inside the range of its spin box and descriptions of ASCII
    text, is validated with answer True and without any message, and the
    validator stores the rows of the table one by one and in order, the
    mode, and for a calibration plan the offset of the spin box, for
    which [get_number_of_cycles] returns what the editor displays. *)
Theorem saved_plan_is_accepted (e : editor) (doc : yval) :
  save_to_file e = Some doc ->
  Forall (fun r => in_ranges (modulation_of_row r) = true)
         (enabled_rows e) ->
  Forall (fun r => is_ascii (desc_edit r) = true) (enabled_rows e) ->
  exists v',
    validate (fresh (Some (Loaded doc))) = (Ret true, v') /\
    errors v' = [] /\ is_valid_flag v' = true /\
    modulations v' = map modulation_of_row (enabled_rows e) /\
    (if cal_enabled e then
       mode_type v' = Some CALIBRATION /\
       retarding_plate_offsets v' = Some (offsets_spin e) /\
       exists c, get_number_of_cycles v' = Ret (Some c) /\
                 update_number_of_cycles e = LabelCycles c
     else
       mode_type v' = Some OBSERVATION /\
       retarding_plate_offsets v' = None /\
       get_number_of_cycles v' = Ret None).
Proof.
  unfold save_to_file. intros Hs Hr _.
  destruct (fst (validate_data e)) eqn:Ev; [|discriminate].
  cbn [negb] in Hs. inversion Hs; subst doc; clear Hs.
  destruct (validate_data_true e Ev) as [Hne Hmode].
  unfold get_yaml_data, validate, fresh.
  destruct Hmode as [(Hc & Ho & Hf) | (Hc & Ho)];
    unfold enabled_rows in *; rewrite Hc in *; rewrite Ho;
    cbn [app]; unfold bind, modify, get, dict_item, ret;
    cbn [fst snd yaml_source set_errors set_is_valid_flag set_mode_type
         set_modulations set_retarding_plate_offsets set_data
         dict_get String.eqb Ascii.eqb Bool.eqb valid_modes filter
         dict_has negb].
  - rewrite mode_is_stored with (rows := cal_modulations e);
      [ | assumption | assumption | reflexivity
        | intros _; exists (offsets_spin e); split; [reflexivity | exact Hf] ].
    cbn [fst snd negb String.eqb Ascii.eqb Bool.eqb dict_get].
    eexists. split; [reflexivity|].
    split; [reflexivity|]. split; [reflexivity|].
    split; [reflexivity|].
    split; [reflexivity|]. split; [reflexivity|].
    exists (360 / offsets_spin e).
    pose proof Hf as Hf'. apply is_factor_iff_divisor in Hf'.
    split.
    + apply get_number_of_cycles_floor; [reflexivity | tauto].
    + unfold update_number_of_cycles.
      apply allowed_iff_divisor in Hf'. now rewrite Hf'.
  - rewrite mode_is_stored with (rows := obs_modulations e);
      [ | assumption | assumption | reflexivity | discriminate ].
    cbn [fst snd negb String.eqb Ascii.eqb Bool.eqb dict_get].
    eexists. split; [reflexivity|].
    split; [reflexivity|]. split; [reflexivity|].
    split; [reflexivity|]. split; [reflexivity|].
    split; reflexivity.
Qed.

Lemma saved_plan_is_accepted_witness :
  exists v',
    validate (fresh (Some (Loaded (get_yaml_data sample_editor))))
      = (Ret true, v') /\
    errors v' = [] /\ is_valid_flag v' = true /\
    modulations v' = map modulation_of_row (enabled_rows sample_editor) /\
    (if cal_enabled sample_editor then
       mode_type v' = Some CALIBRATION /\
       retarding_plate_offsets v' = Some (offsets_spin sample_editor) /\
       exists c, get_number_of_cycles v' = Ret (Some c) /\
                 update_number_of_cycles sample_editor = LabelCycles c
     else
       mode_type v' = Some OBSERVATION /\
       retarding_plate_offsets v' = None /\
       get_number_of_cycles v' = Ret None).
Proof.
  apply (saved_plan_is_accepted sample_editor
           (get_yaml_data sample_editor)).
  - reflexivity.
  - constructor; [vm_compute; reflexivity | constructor].
  - constructor; [reflexivity | constructor].
Defined.

End EditorGuarantees.

Module SimulatorGuarantees.

Import MusolLibSimulator.
Open Scope string_scope.
Open Scope list_scope.
Open Scope Z_scope.

Lemma log_ret (m : sim_msg) (w : plc_world) :
  _log_message m w = (Ret tt, logged m w).
Proof.
  unfold logged, _log_message, this, bind, get, ret, note, modify.
  cbn [fst snd].
  destruct (logs_enabled (plc w) && _); reflexivity.
Qed.

Lemma logged_plc (m : sim_msg) (w : plc_world) : plc (logged m w) = plc w.
Proof.
  unfold logged, _log_message, this, bind, get, ret, note, modify.
  cbn [fst snd].
  destruct (logs_enabled (plc w) && _); reflexivity.
Qed.

Lemma logged_draws (m : sim_msg) (w : plc_world) :
  draws (logged m w) = draws w.
Proof.
  unfold logged, _log_message, this, bind, get, ret, note, modify.
  cbn [fst snd].
  destruct (logs_enabled (plc w) && _); reflexivity.
Qed.

Lemma logged_drawn (m : sim_msg) (w : plc_world) :
  drawn (logged m w) = drawn w.
Proof.
  unfold logged, _log_message, this, bind, get, ret, note, modify.
  cbn [fst snd].
  destruct (logs_enabled (plc w) && _); reflexivity.
Qed.

Ltac psimpl :=
  repeat (rewrite ?log_ret, ?logged_plc, ?logged_draws, ?logged_drawn;
          cbn [fst snd plc draws drawn plc_events negb andb orb
               connected is_initialized current_mode logs_enabled
               logs_dir_path emergency_stop_active l511_position
               dt80_01_position dt80_02_position dt80_03_position
               plc_alpha plc_beta plc_theta plc_translation_unit plc_error
               set_positions]).

Ltac punfold :=
  unfold connect, initialize, set_mode, set_modulation, get_current_status,
    close, simulate_emergency_stop, positions_with, stored_status,
    _simulate_communication_delay, _simulate_random_failure,
    uniform, random, sleep, note, update, this, bind, ret, get, modify;
  psimpl.

Ltac pcase :=
  repeat (match goal with
          | |- context [if ?c then _ else _] =>
              lazymatch c with
              | context [if _ then _ else _] => fail
              | _ => destruct c eqn:?
              end
          | |- context [match ?c with Some _ => _ | None => _ end] =>
              lazymatch c with
              | context [if _ then _ else _] => fail
              | _ => destruct c eqn:?
              end
          end; psimpl).

Lemma connect_atomic (pe : string -> bool) (id : string) (logs : bool)
    (dir : string) (w : plc_world) :
  exists c, fst (connect pe id logs dir w) = Ret c /\
    In c [SUCCESS; ERR_CONNECTION_FAILED; ERR_DIR_NOT_FOUND] /\
    (c <> 0 -> plc (snd (connect pe id logs dir w)) = plc w) /\
    (c = 0 -> connected (plc (snd (connect pe id logs dir w))) = true).
Proof.
  punfold. pcase; eexists; (split; [reflexivity|]); cbn [In];
    (split; [tauto|]); split; intros; try reflexivity;
    unfold SUCCESS, ERR_CONNECTION_FAILED, ERR_DIR_NOT_FOUND in *;
    congruence.
Qed.

Lemma initialize_atomic (w : plc_world) :
  exists c, fst (initialize w) = Ret c /\
    In c [SUCCESS; ERR_TIMEOUT; ERR_PLC_FAILURE] /\
    (c <> 0 -> plc (snd (initialize w)) = plc w) /\
    (c = 0 -> connected (plc w) = true /\
              ready (plc (snd (initialize w))) = true /\
              stored_positions (plc (snd (initialize w))) =
                (0%float, 0%float, 0%float, 0%float)).
Proof.
  punfold. pcase; eexists; (split; [reflexivity|]); cbn [In];
    (split; [tauto|]); split; intros; try reflexivity;
    unfold SUCCESS, ERR_TIMEOUT, ERR_PLC_FAILURE in *; try congruence.
  unfold ready, stored_positions. cbn.
  destruct (connected (plc w)); [auto | discriminate].
Qed.

Lemma set_mode_atomic (mode : string) (w : plc_world) :
  exists c, fst (set_mode mode w) = Ret c /\
    In c [SUCCESS; ERR_INVALID_MODE; ERR_PLC_FAILURE; ERR_TIMEOUT] /\
    (c <> 0 -> plc (snd (set_mode mode w)) = plc w) /\
    (c = 0 -> connected (plc w) = true /\ is_initialized (plc w) = true /\
              In mode VALID_MODES /\
              current_mode (plc (snd (set_mode mode w))) = Some mode).
Proof.
  punfold. pcase; eexists; (split; [reflexivity|]); cbn [In];
    (split; [tauto|]); split; intros; try reflexivity;
    unfold SUCCESS, ERR_TIMEOUT, ERR_PLC_FAILURE, ERR_INVALID_MODE in *;
    try congruence.
  repeat match goal with
         | H : negb _ = false |- _ => apply negb_false_iff in H
         end.
  repeat split; try assumption.
  match goal with
  | H : existsb _ _ = true |- _ =>
      apply existsb_exists in H; destruct H as [x [Hx He]];
      apply String.eqb_eq in He; now subst
  end.
Qed.

(** The angle limits that [set_modulation] enforces. *)
Lemma set_modulation_atomic (a b : float) (th : option pynum)
    (w : plc_world) :
  exists r, fst (set_modulation a b th w) = Ret r /\
    In (plc_error r)
       [SUCCESS; ERR_INVALID_ANGLE; ERR_PLC_FAILURE; ERR_TIMEOUT] /\
    returned_positions r =
      stored_positions (plc (snd (set_modulation a b th w))) /\
    (plc_error r <> 0 -> plc (snd (set_modulation a b th w)) = plc w) /\
    (plc_error r = 0 ->
     ready (plc w) = true /\ within_limits a b th = true).
Proof.
  unfold within_limits, ready.
  punfold. pcase; eexists; (split; [reflexivity|]); cbn [In plc_error];
    (split; [tauto|]); (split; [reflexivity|]); split; intros;
    try reflexivity;
    unfold SUCCESS, ERR_TIMEOUT, ERR_PLC_FAILURE, ERR_INVALID_ANGLE in *;
    try congruence;
    repeat match goal with
           | H : negb _ = false |- _ => apply negb_false_iff in H
           | H : _ || _ = false |- _ => apply orb_false_iff in H; destruct H
           end;
    split;
    repeat match goal with
           | H : _ = true |- _ => rewrite H
           end; reflexivity.
Qed.

Lemma get_current_status_atomic (w : plc_world) :
  exists r, fst (get_current_status w) = Ret r /\
    In (st_error r) [SUCCESS; ERR_PLC_FAILURE; ERR_TIMEOUT] /\
    plc (snd (get_current_status w)) = plc w.
Proof.
  punfold. pcase; eexists; (split; [reflexivity|]); cbn [In st_error];
    (split; [tauto | reflexivity]).
Qed.

(** X17: a command that fails changes nothing in the device: when
    [connect], [initialize], [set_mode] or [set_modulation] returns a
    code other than 0, the state of the simulator (connection, mode,
    flags, positions) is what it was before the call, and
    [get_current_status] never changes it.  The four positions that
    [set_modulation] returns are always the positions stored when it
    returns. *)
Theorem failed_command_changes_nothing (w : plc_world) :
  (forall pe id logs dir c,
     fst (connect pe id logs dir w) = Ret c -> c <> 0 ->
     plc (snd (connect pe id logs dir w)) = plc w) /\
  (forall c, fst (initialize w) = Ret c -> c <> 0 ->
     plc (snd (initialize w)) = plc w) /\
  (forall mode c, fst (set_mode mode w) = Ret c -> c <> 0 ->
     plc (snd (set_mode mode w)) = plc w) /\
  (forall a b th, exists r,
     fst (set_modulation a b th w) = Ret r /\
     returned_positions r =
       stored_positions (plc (snd (set_modulation a b th w))) /\
     (plc_error r <> 0 -> plc (snd (set_modulation a b th w)) = plc w)) /\
  plc (snd (get_current_status w)) = plc w.
Proof.
  split; [|split; [|split; [|split]]].
  - intros pe id logs dir c Hc Hn.
    destruct (connect_atomic pe id logs dir w) as [c' [Hc' [_ [H _]]]].
    rewrite Hc in Hc'. inversion Hc'; subst. auto.
  - intros c Hc Hn.
    destruct (initialize_atomic w) as [c' [Hc' [_ [H _]]]].
    rewrite Hc in Hc'. inversion Hc'; subst. auto.
  - intros mode c Hc Hn.
    destruct (set_mode_atomic mode w) as [c' [Hc' [_ [H _]]]].
    rewrite Hc in Hc'. inversion Hc'; subst. auto.
  - intros a b th.
    destruct (set_modulation_atomic a b th w) as [r [Hr [_ [Hp [H _]]]]].
    exists r. auto.
  - destruct (get_current_status_atomic w) as [r [_ [_ H]]]. exact H.
Qed.

(** X18: the motors move only when the device is ready and the angles
    are within the limits: [set_modulation] returns code 0 only if the
    simulator is connected, initialised and not in emergency stop, alpha
    and beta lie in [-180, 180] and theta, when given, in [-360, 360];
    in every other case it returns a code among 5, 8 and 9 and the
    stored positions are unchanged. *)
Theorem motors_move_only_within_limits (a b : float) (th : option pynum)
    (w : plc_world) :
  exists r, fst (set_modulation a b th w) = Ret r /\
    (plc_error r = 0 /\ ready (plc w) = true /\
     within_limits a b th = true \/
     In (plc_error r) [ERR_INVALID_ANGLE; ERR_PLC_FAILURE; ERR_TIMEOUT] /\
     stored_positions (plc (snd (set_modulation a b th w))) =
       stored_positions (plc w)) /\
    (ready (plc w) && within_limits a b th = false ->
     In (plc_error r) [ERR_INVALID_ANGLE; ERR_PLC_FAILURE] /\
     drawn (snd (set_modulation a b th w)) = drawn w).
Proof.
  destruct (set_modulation_atomic a b th w) as [r [Hr [Hin [_ [Hf Hs]]]]].
  exists r. split; [exact Hr|]. split.
  - destruct (Z.eq_dec (plc_error r) 0) as [E|E].
    + left. split; [exact E | exact (Hs E)].
    + right. split.
      * cbn [In] in *. unfold SUCCESS in Hin. intuition congruence.
      * now rewrite (Hf E).
  - clear Hin Hf Hs. revert Hr. unfold ready, within_limits.
    punfold. pcase; intros Hr; inversion Hr; subst r; cbn [plc_error In];
      intros Hc;
      first [ split; [tauto | reflexivity]
            | exfalso; revert Hc;
              repeat match goal with
                     | H : negb _ = false |- _ => apply negb_false_iff in H
                     | H : _ || _ = false |- _ =>
                         apply orb_false_iff in H; destruct H
                     end;
              repeat match goal with
                     | H : _ = true |- _ => rewrite H
                     | H : _ = false |- _ => rewrite H
                     end; discriminate ].
Qed.

(** X19: a device that is not connected refuses everything but
    [connect]: after [close], and in any state that is not connected,
    [initialize], [set_mode], [set_modulation] and [get_current_status]
    return ERR_PLC_FAILURE (8), draw no random number and leave the
    device as it is; [set_modulation] does the same while an emergency
    stop is active or before the first successful [initialize]. *)
Theorem unready_device_refuses (w : plc_world) :
  connected (plc (snd (close w))) = false /\
  (connected (plc w) = false ->
   fst (initialize w) = Ret ERR_PLC_FAILURE /\ snd (initialize w) = w /\
   (forall mode, fst (set_mode mode w) = Ret ERR_PLC_FAILURE /\
                 snd (set_mode mode w) = w) /\
   (exists r, fst (get_current_status w) = Ret r /\
              st_error r = ERR_PLC_FAILURE) /\
   snd (get_current_status w) = w) /\
  (ready (plc w) = false ->
   forall a b th, exists r,
     fst (set_modulation a b th w) = Ret r /\
     plc_error r = ERR_PLC_FAILURE /\
     returned_positions r = stored_positions (plc w) /\
     plc (snd (set_modulation a b th w)) = plc w /\
     drawn (snd (set_modulation a b th w)) = drawn w).
Proof.
  split; [|split].
  - punfold. pcase; [reflexivity | assumption].
  - intros Hc. punfold. rewrite Hc. psimpl.
    destruct w as [p d n evs]. cbn [plc draws drawn plc_events] in *.
    repeat split; eauto.
  - unfold ready. intros Hr a b th. punfold.
    destruct (connected (plc w)), (is_initialized (plc w)),
      (emergency_stop_active (plc w)); try discriminate; psimpl;
      eexists; repeat split.
Qed.

Lemma described (c : Z) :
  In c [0; 1; 2; 4; 5; 8; 9] ->
  get_error_description c <> "Unknown error".
Proof.
  cbn [In]. intros H.
  repeat (destruct H as [<-|H]; [vm_compute; discriminate|]).
  contradiction.
Qed.

(** X20: every code that a command of the simulator returns has a
    description: [connect] returns 0, 1 or 2, [initialize] and
    [get_current_status] 0, 8 or 9, [set_mode] 0, 4, 8 or 9 and
    [set_modulation] 0, 5, 8 or 9, and [get_error_description] gives
    for each of them a text other than "Unknown error".  The code 11
    (emergency stop active) is never returned. *)
Theorem every_returned_code_is_described (w : plc_world) :
  (forall pe id logs dir, exists c,
     fst (connect pe id logs dir w) = Ret c /\ In c [0; 1; 2] /\
     get_error_description c <> "Unknown error") /\
  (exists c, fst (initialize w) = Ret c /\ In c [0; 8; 9] /\
     get_error_description c <> "Unknown error") /\
  (forall mode, exists c,
     fst (set_mode mode w) = Ret c /\ In c [0; 4; 8; 9] /\
     get_error_description c <> "Unknown error") /\
  (forall a b th, exists r,
     fst (set_modulation a b th w) = Ret r /\
     In (plc_error r) [0; 5; 8; 9] /\
     get_error_description (plc_error r) <> "Unknown error") /\
  (exists r, fst (get_current_status w) = Ret r /\
     In (st_error r) [0; 8; 9] /\
     get_error_description (st_error r) <> "Unknown error").
Proof.
  split; [|split; [|split; [|split]]].
  - intros pe id logs dir.
    destruct (connect_atomic pe id logs dir w) as [c [Hc [Hin _]]].
    exists c. split; [exact Hc|].
    cbn [In] in *.
    unfold SUCCESS, ERR_CONNECTION_FAILED, ERR_DIR_NOT_FOUND in Hin.
    split; [tauto | apply described; cbn [In]; tauto].
  - destruct (initialize_atomic w) as [c [Hc [Hin _]]].
    exists c. split; [exact Hc|].
    cbn [In] in *. unfold SUCCESS, ERR_TIMEOUT, ERR_PLC_FAILURE in Hin.
    split; [tauto | apply described; cbn [In]; tauto].
  - intros mode.
    destruct (set_mode_atomic mode w) as [c [Hc [Hin _]]].
    exists c. split; [exact Hc|].
    cbn [In] in *.
    unfold SUCCESS, ERR_TIMEOUT, ERR_PLC_FAILURE, ERR_INVALID_MODE in Hin.
    split; [tauto | apply described; cbn [In]; tauto].
  - intros a b th.
    destruct (set_modulation_atomic a b th w) as [r [Hr [Hin _]]].
    exists r. split; [exact Hr|].
    cbn [In] in *.
    unfold SUCCESS, ERR_TIMEOUT, ERR_PLC_FAILURE, ERR_INVALID_ANGLE in Hin.
    split; [tauto | apply described; cbn [In]; tauto].
  - destruct (get_current_status_atomic w) as [r [Hr [Hin _]]].
    exists r. split; [exact Hr|].
    cbn [In] in *. unfold SUCCESS, ERR_TIMEOUT, ERR_PLC_FAILURE in Hin.
    split; [tauto | apply described; cbn [In]; tauto].
Qed.

End SimulatorGuarantees.

Module FloatBridge.

Import YAMLSequenceValidator ValidatorFacts ValidatorGuarantees.
Open Scope string_scope.
Open Scope list_scope.
Open Scope Z_scope.

Lemma digits2_pos_lower (m : positive) :
  2 ^ (Z.pos (digits2_pos m) - 1) <= Z.pos m.
Proof.
  induction m as [m IH|m IH|]; cbn [digits2_pos].
  - rewrite Pos2Z.inj_succ.
    replace (Z.succ (Z.pos (digits2_pos m)) - 1)
      with (Z.succ (Z.pos (digits2_pos m) - 1)) by lia.
    rewrite Z.pow_succ_r by lia. lia.
  - rewrite Pos2Z.inj_succ.
    replace (Z.succ (Z.pos (digits2_pos m)) - 1)
      with (Z.succ (Z.pos (digits2_pos m) - 1)) by lia.
    rewrite Z.pow_succ_r by lia. lia.
  - cbn. lia.
Qed.

(** The mantissa of a binary64 value above the smallest exponent has
    53 bits. *)
Lemma normal_mantissa (f : float) (s : bool) (m : positive) (e : Z) :
  Prim2SF f = S754_finite s m e -> -1074 < e -> 2 ^ 52 <= Z.pos m.
Proof.
  intros Hf He. pose proof (Prim2SF_valid f) as Hv.
  rewrite Hf in Hv. cbn [valid_binary] in Hv.
  unfold bounded, canonical_mantissa in Hv.
  apply andb_true_iff in Hv. destruct Hv as [Hc _].
  apply Z.eqb_eq in Hc. unfold fexp, emin, prec, emax in Hc.
  pose proof (digits2_pos_lower m) as Hd.
  assert (Hdig : Z.pos (digits2_pos m) = 53) by lia.
  rewrite Hdig in Hd. exact Hd.
Qed.

(** A 53-bit mantissa with an exponent above [-q] is worth more than
    any integer [z] with [z * 2^q < 2^53]. *)
Lemma above_bound (m : positive) (e z : Z) (q : positive) :
  2 ^ 52 <= Z.pos m -> Z.neg q < e -> 0 < z ->
  z * 2 ^ Z.pos q < 2 ^ 53 ->
  match e with
  | Z0 => Z.pos m <= z
  | Z.pos p => Z.pos m * 2 ^ Z.pos p <= z
  | Z.neg p => Z.pos m <= z * 2 ^ Z.pos p
  end -> False.
Proof.
  intros Hm He Hz Hb H.
  assert (H2q : 2 <= 2 ^ Z.pos q).
  { change 2 with (2 ^ 1) at 1. apply Z.pow_le_mono_r; lia. }
  change (2 ^ 53) with (2 * 2 ^ 52) in Hb.
  destruct e as [|p|p].
  - nia.
  - assert (0 < 2 ^ Z.pos p) by (apply Z.pow_pos_nonneg; lia). nia.
  - assert (Hpq : Z.pos p + 1 <= Z.pos q) by lia.
    assert (Hp : 2 ^ Z.pos p * 2 <= 2 ^ Z.pos q).
    { replace (2 ^ Z.pos p * 2) with (2 ^ (Z.pos p + 1))
        by (rewrite Z.pow_add_r by lia; reflexivity).
      apply Z.pow_le_mono_r; lia. }
    assert (0 < 2 ^ Z.pos p) by (apply Z.pow_pos_nonneg; lia).
    nia.
Qed.

Lemma compare_cont_le (m n : positive) :
  (m <= n)%positive ->
  Pos.compare_cont Eq m n = Lt \/ Pos.compare_cont Eq m n = Eq.
Proof.
  intros H. change (Pos.compare_cont Eq m n) with (Pos.compare m n).
  destruct (Pos.compare_spec m n); [auto | auto | lia].
Qed.

(** The exact comparison of a float with a positive integer bound
    implies the comparison with the float of that bound. *)
Lemma le_int_le_float (f : float) (z : Z) (mB q : positive) :
  Z.pos mB = z * 2 ^ Z.pos q -> Z.pos mB < 2 ^ 53 -> (q < 1074)%positive ->
  py_le (PyFloat f) (PyInt z) = true ->
  SFcompare (Prim2SF f) (S754_finite false mB (Z.neg q)) = Some Lt \/
  SFcompare (Prim2SF f) (S754_finite false mB (Z.neg q)) = Some Eq.
Proof.
  intros HB Hb Hq. unfold py_le, py_compare, float_cmp_Z.
  assert (H2q : 0 < 2 ^ Z.pos q) by (apply Z.pow_pos_nonneg; lia).
  assert (Hz : 0 < z) by nia.
  destruct (Prim2SF f) as [s|s| |s m e] eqn:Ef; cbn [SFcompare].
  - auto.
  - destruct s; [auto | discriminate].
  - discriminate.
  - destruct s; [auto|].
    destruct (Z.compare_spec e (Z.neg q)) as [He|He|He].
    + subst e. intros H. apply cmp_le in H.
      rewrite Z.compare_gt_iff in H.
      destruct (compare_cont_le m mB ltac:(lia)) as [E|E];
        change PosDef.Pos.compare_cont with Pos.compare_cont;
        rewrite E; auto.
    + auto.
    + intros H. exfalso.
      apply (above_bound m e z q); try assumption.
      * apply (normal_mantissa f false m e Ef). lia.
      * lia.
      * destruct e as [|p|p]; apply cmp_le in H;
          rewrite Z.compare_gt_iff in H; lia.
Qed.

Lemma compare_cont_ge (m n : positive) :
  (n <= m)%positive ->
  CompOpp (Pos.compare_cont Eq m n) = Lt \/
  CompOpp (Pos.compare_cont Eq m n) = Eq.
Proof.
  intros H. change (Pos.compare_cont Eq m n) with (Pos.compare m n).
  destruct (Pos.compare_spec m n); cbn; [auto | lia | auto].
Qed.

(** The same for a negative integer bound on the left. *)
Lemma int_le_le_float (f : float) (z : Z) (mB q : positive) :
  Z.pos mB = - z * 2 ^ Z.pos q -> Z.pos mB < 2 ^ 53 ->
  (q < 1074)%positive ->
  py_le (PyInt z) (PyFloat f) = true ->
  SFcompare (S754_finite true mB (Z.neg q)) (Prim2SF f) = Some Lt \/
  SFcompare (S754_finite true mB (Z.neg q)) (Prim2SF f) = Some Eq.
Proof.
  intros HB Hb Hq. unfold py_le, py_compare, float_cmp_Z.
  assert (H2q : 0 < 2 ^ Z.pos q) by (apply Z.pow_pos_nonneg; lia).
  assert (Hz : 0 < - z) by nia.
  destruct (Prim2SF f) as [s|s| |s m e] eqn:Ef;
    cbn [SFcompare option_map].
  - auto.
  - destruct s; [discriminate | auto].
  - discriminate.
  - destruct s; [|auto].
    destruct (Z.compare_spec (Z.neg q) e) as [He|He|He].
    + subst e. cbn [option_map]. intros H. apply cmp_ge in H.
      rewrite Z.compare_lt_iff in H.
      destruct (compare_cont_ge mB m ltac:(lia)) as [E|E];
        change PosDef.Pos.compare_cont with Pos.compare_cont;
        rewrite E; auto.
    + intros H. exfalso.
      apply (above_bound m e (- z) q); try assumption.
      * apply (normal_mantissa f true m e Ef). lia.
      * lia.
      * destruct e as [|p|p]; cbn [option_map] in H; apply cmp_ge in H;
          rewrite Z.compare_lt_iff in H; lia.
    + auto.
Qed.

Lemma SFcompare_antisym (x y : spec_float) (c : comparison) :
  SFcompare x y = Some c -> SFcompare y x = Some (CompOpp c).
Proof.
  destruct x as [sx|sx| |sx mx ex], y as [sy|sy| |sy my ey];
    cbn [SFcompare]; try discriminate;
    try (intros H; inversion H; subst c; clear H;
         repeat match goal with s : bool |- _ => destruct s end;
         reflexivity).
  intros H; inversion H; subst c; clear H.
  change PosDef.Pos.compare_cont with Pos.compare_cont.
  rewrite (Z.compare_antisym ex ey).
  change (Pos.compare_cont Eq my mx) with (Pos.compare my mx).
  change (Pos.compare_cont Eq mx my) with (Pos.compare mx my).
  rewrite (Pos.compare_antisym mx my).
  destruct sx, sy; try reflexivity;
    destruct (ex ?= ey); cbn [CompOpp]; try reflexivity;
    destruct (mx ?= my)%positive; reflexivity.
Qed.

(** An angle that passed the range check of the validator passes the
    checks [-180.0 <= angle <= 180.0] of the simulated PLC. *)
Lemma angle_in_range_float (f : float) :
  angle_in_range f = true ->
  PrimFloat.leb (-180)%float f = true /\ PrimFloat.leb f 180%float = true.
Proof.
  unfold angle_in_range. intros H. apply andb_true_iff in H.
  destruct H as [Hlo Hhi]. rewrite !FloatAxioms.leb_spec. unfold SFleb.
  replace (Prim2SF (-180)%float)
    with (S754_finite true 6333186975989760 (-45))
    by (vm_compute; reflexivity).
  replace (Prim2SF 180%float)
    with (S754_finite false 6333186975989760 (-45))
    by (vm_compute; reflexivity).
  split.
  - destruct (int_le_le_float f (-180) 6333186975989760 45
                ltac:(reflexivity) ltac:(reflexivity) ltac:(reflexivity)
                Hlo) as [E|E]; rewrite E; reflexivity.
  - destruct (le_int_le_float f 180 6333186975989760 45
                ltac:(reflexivity) ltac:(reflexivity) ltac:(reflexivity)
                Hhi) as [E|E]; rewrite E; reflexivity.
Qed.

(** An exposure time that passed the range check of the validator is
    neither below [0.01] nor above [300.0]. *)
Lemma int_time_in_range_float (f : float) :
  int_time_in_range f = true ->
  PrimFloat.ltb f 0x1.47ae147ae147bp-7%float = false /\
  PrimFloat.ltb 300%float f = false.
Proof.
  unfold int_time_in_range. intros H. apply andb_true_iff in H.
  destruct H as [Hlo Hhi]. rewrite !FloatAxioms.ltb_spec. unfold SFltb. split.
  - revert Hlo. unfold py_le, py_compare. rewrite FloatAxioms.compare_spec.
    replace (Prim2SF f0_1)
      with (S754_finite false 7205759403792794 (-56))
      by (vm_compute; reflexivity).
    replace (Prim2SF 0x1.47ae147ae147bp-7%float)
      with (S754_finite false 5764607523034235 (-59))
      by (vm_compute; reflexivity).
    destruct (Prim2SF f) as [s|s| |s m e]; cbn [SFcompare flatten_cmp_opt];
      try discriminate.
    + destruct s; [discriminate | reflexivity].
    + destruct s; [discriminate|].
      destruct (Z.compare_spec (-56) e) as [He|He|He]; try discriminate;
        intros _;
        (replace (e ?= -59) with Gt
           by (symmetry; apply Z.compare_gt_iff; lia));
        reflexivity.
  - replace (Prim2SF 300%float)
      with (S754_finite false 5277655813324800 (-44))
      by (vm_compute; reflexivity).
    destruct (le_int_le_float f 300 5277655813324800 44
                ltac:(reflexivity) ltac:(reflexivity) ltac:(reflexivity)
                Hhi) as [E|E];
      rewrite (SFcompare_antisym _ _ _ E); reflexivity.
Qed.

End FloatBridge.

Module DeviceLimits.

Import YAMLSequenceValidator ValidatorFacts ValidatorGuarantees.
Import MusolLibSimulator SimulatorGuarantees FloatBridge.
Import Examples.
Open Scope string_scope.
Open Scope list_scope.
Open Scope Z_scope.

Lemma theta_within_every_offset :
  forallb (fun n => theta_within (Z.of_nat n)) (seq 1 360) = true.
Proof. vm_compute. reflexivity. Qed.

Lemma cycle_theta_within (o : Z) (i : nat) :
  1 <= o <= 360 -> (i < Z.to_nat (360 / o))%nat ->
  py_le (PyFloat theta_min) (cycle_theta o i) &&
  py_le (cycle_theta o i) (PyFloat theta_max) = true.
Proof.
  intros Ho Hi. pose proof theta_within_every_offset as H.
  rewrite forallb_forall in H.
  specialize (H (Z.to_nat o) ltac:(apply in_seq; lia)).
  rewrite Z2Nat.id in H by lia. unfold theta_within in H.
  rewrite forallb_forall in H. apply H. apply in_seq. lia.
Qed.

(** A draw that is not below 0.05 is not below 0.0. *)
Lemma not_below_zero (x : float) :
  PrimFloat.ltb x f0_05 = false -> PrimFloat.ltb x 0%float = false.
Proof.
  rewrite !FloatAxioms.ltb_spec. unfold SFltb.
  replace (Prim2SF f0_05)
    with (S754_finite false 7205759403792794 (-57))
    by (vm_compute; reflexivity).
  replace (Prim2SF 0%float) with (S754_zero false)
    by (vm_compute; reflexivity).
  destruct (Prim2SF x) as [s|s| |s m e]; cbn [SFcompare];
    try reflexivity; destruct s; try reflexivity; discriminate.
Qed.

(** The values of a validated plan lie within the limits that the
    simulated PLC enforces. *)
Lemma validated_within_limits (v : validator) (m : Modulation) (i : nat) :
  fst (validate v) = Ret true ->
  In m (modulations (snd (validate v))) ->
  plan_cycle (snd (validate v)) i ->
  within_limits (alpha m) (beta m) (plan_theta (snd (validate v)) i) = true.
Proof.
  intros Hv Hm Hi.
  pose proof (validate_stores_checked_modulations v) as Hr.
  rewrite Forall_forall in Hr. specialize (Hr m Hm).
  unfold in_ranges in Hr. apply andb_true_iff in Hr.
  destruct Hr as [Hr _]. apply andb_true_iff in Hr. destruct Hr as [Ha Hb].
  apply angle_in_range_float in Ha, Hb.
  destruct Ha as [Ha1 Ha2], Hb as [Hb1 Hb2].
  unfold within_limits, alpha_min, alpha_max, beta_min, beta_max.
  rewrite Ha1, Ha2, Hb1, Hb2. cbn [andb].
  pose proof (validate_model v) as Hmod.
  destruct (validate v) as [[[|]|e] v'] eqn:Ev; cbn [fst snd] in *;
    try discriminate.
  destruct Hmod as (doc & entries & _ & _ & _ & _ & _ & Hmode).
  unfold plan_theta, plan_cycle in *.
  destruct Hmode as [[_ Ho] | [_ [o [Ho Hrange]]]]; rewrite Ho in *.
  - reflexivity.
  - now apply cycle_theta_within.
Qed.

(** X21: what the validator accepts, the simulated PLC accepts: for
    every modulation stored by a [validate] that returned True, with no
    theta for an observation plan and with the theta of any cycle of a
    calibration plan, [set_modulation] on a simulator that is connected,
    initialised and not in emergency stop returns code 0 and the new
    positions, unless a communication timeout is drawn (a random number
    below 0.05). *)
Theorem validated_step_is_accepted (v : validator) (m : Modulation)
    (i : nat) (w : plc_world) :
  fst (validate v) = Ret true ->
  In m (modulations (snd (validate v))) ->
  plan_cycle (snd (validate v)) i ->
  ready (plc w) = true ->
  no_failure_drawn w ->
  exists r,
    fst (set_modulation (alpha m) (beta m)
           (plan_theta (snd (validate v)) i) w) = Ret r /\
    plc_error r = 0 /\
    returned_positions r =
      stored_positions
        (plc (snd (set_modulation (alpha m) (beta m)
                     (plan_theta (snd (validate v)) i) w))) /\
    ready (plc (snd (set_modulation (alpha m) (beta m)
                       (plan_theta (snd (validate v)) i) w))) = true.
Proof.
  intros Hv Hm Hi Hready Hdraws.
  pose proof (validated_within_limits v m i Hv Hm Hi) as Hlim.
  remember (plan_theta (snd (validate v)) i) as th eqn:Eth. clear Eth.
  unfold within_limits in Hlim. unfold ready in Hready.
  apply andb_true_iff in Hlim. destruct Hlim as [Hlim Hth].
  apply andb_true_iff in Hlim. destruct Hlim as [Ha Hb].
  apply andb_true_iff in Hready. destruct Hready as [Hready He].
  apply andb_true_iff in Hready. destruct Hready as [Hc Hin].
  apply negb_true_iff in He.
  pose proof (Hdraws (S (drawn w))) as Hd1.
  pose proof (not_below_zero _ (Hdraws (S (S (drawn w))))) as Hd2.
  unfold ready. punfold. rewrite Hc, Hin, He, Ha, Hb. psimpl.
  destruct th as [theta|]; [rewrite Hth|]; psimpl;
    rewrite Hd1; psimpl; rewrite Hd2; psimpl;
    eexists; repeat split; now rewrite Hc, Hin, He.
Qed.

Lemma validated_step_is_accepted_witness :
  exists r,
    fst (set_modulation (alpha good_step) (beta good_step)
           (plan_theta (snd (validate quarter_turn_plan)) 3)
           calm_plc_world) = Ret r /\
    plc_error r = 0 /\
    returned_positions r =
      stored_positions
        (plc (snd (set_modulation (alpha good_step) (beta good_step)
                     (plan_theta (snd (validate quarter_turn_plan)) 3)
                     calm_plc_world))) /\
    ready (plc (snd (set_modulation (alpha good_step) (beta good_step)
                       (plan_theta (snd (validate quarter_turn_plan)) 3)
                       calm_plc_world))) = true.
Proof.
  apply (validated_step_is_accepted quarter_turn_plan good_step 3 calm_plc_world).
  - vm_compute. reflexivity.
  - vm_compute. left. reflexivity.
  - vm_compute. repeat constructor.
  - reflexivity.
  - intros k. vm_compute. reflexivity.
Defined.

End DeviceLimits.

Module DetectorGuarantees.

Open Scope string_scope.
Open Scope list_scope.
Open Scope Z_scope.

Section Client.

Import xmlrpcSONGClient.

Variable R : Type.
Variable remote_is_alive : R -> res yval * R.
Variable remote_acquire :
  Z -> string -> float -> string -> float -> float -> pynum -> string ->
  R -> res reply_dict * R.
Variable str_of_exn : exn -> string.

Local Abbreviation connect := (connect remote_is_alive str_of_exn).
Local Abbreviation send_acquire_cmd :=
  (send_acquire_cmd remote_acquire str_of_exn).

Ltac krun :=
  unfold xmlrpcSONGClient.connect, xmlrpcSONGClient.send_acquire_cmd,
    disconnect, is_connected, me, update, remote, bind, ret, get, modify;
  cbn [fst snd connected server set_link].

(** [connect] never raises; the client is connected afterwards exactly
    when [is_alive] returned a true value, and then it holds a proxy. *)
Lemma connect_post (c : client) (r : R) :
  exists b msg c',
    connect (c, r) = (Ret (b, msg), (c', snd (remote_is_alive r))) /\
    connected c' = b /\ (b = true -> server c' = true) /\
    (b = true <-> exists v, fst (remote_is_alive r) = Ret v /\
                            truthy v = true).
Proof.
  krun. destruct (remote_is_alive r) as [[v|e] r'] eqn:Er; cbn [fst snd].
  - destruct (truthy v) eqn:Ev; cbn [negb fst snd];
      do 3 eexists; (split; [reflexivity|]); cbn [connected server set_link];
      (split; [reflexivity|]); (split; [auto|]); split.
    + intros _. exists v. auto.
    + auto.
    + discriminate.
    + intros [v' [Hv' Ht]]. inversion Hv'; subst. congruence.
  - do 3 eexists; (split; [reflexivity|]); cbn [connected server set_link];
      (split; [reflexivity|]); (split; [discriminate|]); split.
    + discriminate.
    + intros [v' [Hv' _]]. discriminate.
Qed.

(** X22: the detector client contains every failure: [send_acquire_cmd]
    never raises and leaves the client as it is; without a connection
    it asks nothing of the server and answers with status 1; with a
    connection it hands on the reply of the server unchanged, and turns
    an exception of the call into a reply with status 1 and a message.
    [connect] never raises either, and the client is connected
    afterwards exactly when [is_alive] returned a true value; after
    [disconnect] nothing is sent. *)
Theorem client_contains_failures (c : client) (r : R)
    (nr : Z) (name : string) (t : float) (it : string) (a b : float)
    (th : pynum) (cm : string) :
  (exists reply,
     send_acquire_cmd nr name t it a b th cm (c, r) =
       (Ret reply,
        (c, if connected c && server c
            then snd (remote_acquire nr name t it a b th cm r) else r)) /\
     (connected c && server c = false ->
      ar_status reply = 1 /\ ar_timestamp reply = None /\
      ar_filename reply = None) /\
     (connected c && server c = true ->
      match fst (remote_acquire nr name t it a b th cm r) with
      | Ret answer => reply = answer
      | Raise e => ar_status reply = 1 /\ ar_timestamp reply = None /\
                   ar_filename reply = None
      end)) /\
  (exists ok msg c',
     connect (c, r) = (Ret (ok, msg), (c', snd (remote_is_alive r))) /\
     connected c' = ok /\ (ok = true -> server c' = true) /\
     (ok = true <-> exists v, fst (remote_is_alive r) = Ret v /\
                              truthy v = true)) /\
  (exists reply,
     send_acquire_cmd nr name t it a b th cm
       (snd (disconnect (R := R) (c, r))) =
       (Ret reply, snd (disconnect (R := R) (c, r))) /\
     snd (snd (disconnect (R := R) (c, r))) = r /\
     ar_status reply = 1).
Proof.
  split; [|split].
  - krun. destruct (connected c), (server c); cbn [negb orb andb fst snd].
    + destruct (remote_acquire nr name t it a b th cm r) as [[ans|e] r']
        eqn:Er; cbn [fst snd]; eexists; (split; [reflexivity|]);
        (split; [discriminate|]); intros _; cbn; auto.
    + eexists; (split; [reflexivity|]); split; [cbn; auto | discriminate].
    + eexists; (split; [reflexivity|]); split; [cbn; auto | discriminate].
    + eexists; (split; [reflexivity|]); split; [cbn; auto | discriminate].
  - apply connect_post.
  - krun. eexists. split; [reflexivity|]. split; reflexivity.
Qed.

End Client.

Section Server.

Import SONGSpectrographSimulator.
Import YAMLSequenceValidator ValidatorFacts FloatBridge.

Variable time_sleep : float -> option exn.
Variable str_of_exn : exn -> string.

Local Abbreviation acquire_a_solar_image :=
  (acquire_a_solar_image time_sleep str_of_exn).

Ltac qrun :=
  unfold SONGSpectrographSimulator.acquire_a_solar_image, acquisition,
    _validate_parameters, invalid, sleep, uniform, now, note,
    SONGSpectrographSimulator.update, this, bind, ret, raise, get, modify;
  cbn [fst snd srv srv_draws srv_drawn clock ticks srv_events is_busy
       observation_count seq progress_steps].

Ltac qstep :=
  unfold invalid, sleep, uniform, now, note,
    SONGSpectrographSimulator.update, this, bind, ret, raise, get, modify;
  cbn [fst snd srv srv_draws srv_drawn clock ticks srv_events is_busy
       observation_count ar_status ar_message ar_timestamp ar_filename
       ar_acquisition_id negb Z.eqb seq progress_steps].

Ltac qdone :=
  cbn [fst snd srv srv_draws srv_drawn clock ticks srv_events is_busy
       observation_count ar_status ar_message ar_timestamp ar_filename
       ar_acquisition_id Z.eqb];
  repeat match goal with |- _ /\ _ => split end;
  try solve [ auto | discriminate | lia | intros; discriminate
            | intros; lia | intros; eauto | intros; split; auto ].

Ltac qcase :=
  repeat (match goal with
          | |- context [if ?c then _ else _] =>
              lazymatch c with
              | context [if _ then _ else _] => fail
              | context [match _ with _ => _ end] => fail
              | _ => destruct c eqn:?
              end
          | |- context [match time_sleep ?d with _ => _ end] =>
              destruct (time_sleep d) eqn:?
          | |- context [match find ?f ?l with _ => _ end] =>
              destruct (find f l) eqn:?
          end; qstep).

(** [_validate_parameters] never raises and answers with status 0 or
    1; it changes nothing but the clock. *)
Lemma _validate_parameters_post (nr name t it a b th : yval)
    (w : srv_world) :
  exists r w',
    _validate_parameters nr name t it a b th w = (Ret r, w') /\
    srv w' = srv w /\ srv_drawn w' = srv_drawn w /\
    srv_draws w' = srv_draws w /\ clock w' = clock w /\
    (ar_status r = 0 /\ w' = w \/
     ar_status r = 1 /\ ar_timestamp r <> None /\ ar_filename r = None).
Proof.
  unfold _validate_parameters.
  repeat match goal with
         | |- context [if ?c then _ else _] =>
             destruct c eqn:?
         | |- context [match find ?f ?l with _ => _ end] =>
             destruct (find f l) eqn:?
         end; qstep; do 2 eexists; (split; [reflexivity|]);
    cbn [srv srv_drawn srv_draws clock ar_status ar_timestamp ar_filename];
    repeat split; try reflexivity;
    first [ left; split; reflexivity
          | right; repeat split; try reflexivity; discriminate ].
Qed.

(** The five sleeps either all return or the first one raises; they
    change nothing but the record of what was slept and logged. *)
Lemma progress_steps_post (id : string) (st : float) (steps : list nat)
    (w : srv_world) :
  exists w',
    progress_steps time_sleep id st steps w =
      (match time_sleep st, steps with
       | Some e, _ :: _ => Raise e
       | _, _ => Ret tt
       end, w') /\
    srv w' = srv w /\ srv_drawn w' = srv_drawn w /\
    srv_draws w' = srv_draws w /\ clock w' = clock w /\ ticks w' = ticks w.
Proof.
  revert w. induction steps as [|k rest IH]; intros w.
  - exists w. destruct (time_sleep st); cbn; auto 6.
  - cbn [progress_steps]. unfold bind at 1. unfold sleep.
    destruct (time_sleep st) as [e|] eqn:Es.
    + exists w. cbn. auto 6.
    + unfold note at 1, modify. cbn [fst snd].
      unfold bind at 1. unfold note at 1, modify. cbn [fst snd].
      match goal with
      | |- context [progress_steps _ _ _ _ ?w0] =>
          destruct (IH w0) as (w' & Hp & H1 & H2 & H3 & H4 & H5)
      end.
      rewrite Hp. exists w'. split.
      * destruct rest; reflexivity.
      * cbn in *. auto 6.
Qed.

(** [acquire_a_solar_image] always returns; what its reply and the
    server look like afterwards. *)
Lemma acquire_run (nr name t it a b th cm : yval) (w : srv_world) :
  exists r w',
    acquire_a_solar_image nr name t it a b th cm w = (Ret r, w') /\
    (ar_status r = 0 \/ ar_status r = 1) /\
    ar_timestamp r <> None /\
    (ar_status r = 0 -> exists f, ar_filename r = Some (Some f)) /\
    is_busy (srv w') = is_busy (srv w) /\
    observation_count (srv w')
      = observation_count (srv w) + (if ar_status r =? 0 then 1 else 0) /\
    (is_busy (srv w) = true ->
     ar_status r = 1 /\ srv_drawn w' = srv_drawn w).
Proof.
  unfold SONGSpectrographSimulator.acquire_a_solar_image.
  unfold bind at 1. unfold note at 1, modify. cbn [fst snd].
  unfold bind at 1. unfold this at 1, bind, get, ret. cbn [fst snd srv].
  destruct (is_busy (srv w)) eqn:Eb.
  - qstep. do 2 eexists. split; [reflexivity|]. rewrite ?Eb. qdone.
  - match goal with
    | |- context [_validate_parameters nr name t it a b th ?w0] =>
        destruct (_validate_parameters_post nr name t it a b th w0)
          as (r & w' & Hv & Hs & Hd & Hdr & Hc & Hr); rewrite Hv
    end.
    cbn [fst snd srv] in *.
    destruct Hr as [[H0 Hw] | (H1 & Hts & Hf)].
    + rewrite H0. cbn [Z.eqb negb]. subst w'. clear Hv Hs Hd Hdr Hc.
      unfold acquisition, now, note, uniform,
        SONGSpectrographSimulator.update, this, bind, ret, get, modify.
      cbn [fst snd srv srv_draws srv_drawn clock ticks srv_events is_busy
           observation_count].
      match goal with
      | |- context [progress_steps _ ?id ?st ?l ?w0] =>
          destruct (progress_steps_post id st l w0)
            as (w' & Hp & Hs & Hd & Hdr & Hc & Ht); rewrite Hp;
          destruct (time_sleep st) as [e|] eqn:Es
      end; cbn [seq fst snd] in *;
        cbn [srv srv_draws srv_drawn clock ticks] in Hs, Hd, Hdr, Hc, Ht.
      * qstep. rewrite ?Hs, ?Hd, ?Hdr, ?Hc, ?Ht. qstep.
        do 2 eexists. split; [reflexivity|]. rewrite ?Eb. qdone.
      * qstep. rewrite ?Hs, ?Hd, ?Hdr, ?Hc, ?Ht. qstep.
        do 2 eexists. split; [reflexivity|]. rewrite ?Eb. qdone.
    + rewrite H1. cbn [Z.eqb negb]. qstep.
      do 2 eexists. split; [reflexivity|]. rewrite H1. cbn [Z.eqb].
      rewrite ?Hs, ?Hd, ?Eb. qdone.
Qed.

(** X23: every reply of the simulated server is complete and the
    server is left usable: [acquire_a_solar_image] never raises; its
    reply has status 0 or 1 and a timestamp; a reply with status 0
    carries a file name; the busy flag is afterwards what it was before,
    also when the acquisition ended with an exception; and the count of
    observations grows by one exactly when the status is 0.  A busy
    server refuses without drawing a random number. *)
Theorem server_reply_is_complete (nr name t it a b th cm : yval)
    (w : srv_world) :
  exists r,
    fst (acquire_a_solar_image nr name t it a b th cm w) = Ret r /\
    (ar_status r = 0 \/ ar_status r = 1) /\
    ar_timestamp r <> None /\
    (ar_status r = 0 -> exists f, ar_filename r = Some (Some f)) /\
    is_busy (srv (snd (acquire_a_solar_image nr name t it a b th cm w)))
      = is_busy (srv w) /\
    observation_count
      (srv (snd (acquire_a_solar_image nr name t it a b th cm w)))
      = observation_count (srv w) + (if ar_status r =? 0 then 1 else 0) /\
    (is_busy (srv w) = true ->
     ar_status r = 1 /\
     srv_drawn (snd (acquire_a_solar_image nr name t it a b th cm w))
       = srv_drawn w).
Proof.
  destruct (acquire_run nr name t it a b th cm w) as (r & w' & H & Hr).
  rewrite H. cbn [fst snd]. exists r. split; [reflexivity | exact Hr].
Qed.

Lemma py_lt_float (x y : float) :
  py_lt (PyFloat x) (PyFloat y) = PrimFloat.ltb x y.
Proof.
  unfold py_lt, py_compare.
  rewrite FloatAxioms.ltb_spec, FloatAxioms.compare_spec. unfold SFltb.
  destruct (SFcompare (Prim2SF x) (Prim2SF y)) as [[| |]|]; reflexivity.
Qed.

Lemma strip_not_blank (s : string) :
  strip s <> "" -> (String.length (strip s) =? 0)%nat = false.
Proof. destruct (strip s); [congruence | reflexivity]. Qed.

(** What the server answers to a request with acceptable parameters
    when it is not busy and the sleeps return. *)
Lemma acquire_accepts (nr : Z) (name : string) (t : float) (it : string)
    (a b : float) (th : pynum) (cm : string) (w : srv_world) :
  is_busy (srv w) = false -> 0 <= nr -> strip name <> "" ->
  int_time_in_range t = true -> In it valid_imagetypes ->
  time_sleep (step_time (PyFloat t) (srv_draws w (srv_drawn w))) = None ->
  exists w',
    acquire_a_solar_image (YInt nr) (YStr name) (YFloat t) (YStr it)
      (YFloat a) (YFloat b) (yval_of_pynum th) (YStr cm) w =
      (Ret {| ar_status := 0;
              ar_message := "Acquisition completed successfully";
              ar_timestamp := Some (isoformat (clock w (S (ticks w))));
              ar_filename :=
                Some (Some (fits_name (clock w (ticks w))
                              (observation_count (srv w)) it));
              ar_acquisition_id := None |}, w') /\
    srv w' = {| is_busy := false;
                observation_count := observation_count (srv w) + 1 |} /\
    srv_draws w' = srv_draws w /\ srv_drawn w' = S (srv_drawn w) /\
    clock w' = clock w /\ ticks w' = S (S (ticks w)).
Proof.
  intros Hb Hnr Hname Ht Hit Hsleep.
  apply int_time_in_range_float in Ht. destruct Ht as [Hlo Hhi].
  unfold SONGSpectrographSimulator.acquire_a_solar_image.
  unfold bind at 1. unfold note at 1, modify. cbn [fst snd].
  unfold bind at 1. unfold this at 1, bind, get, ret. cbn [fst snd srv].
  rewrite Hb. unfold _validate_parameters.
  replace (nr <? 0) with false by (symmetry; apply Z.ltb_ge; lia).
  rewrite (strip_not_blank name Hname). cbn [as_number].
  rewrite !py_lt_float. unfold min_exptime, max_exptime.
  rewrite Hlo, Hhi. cbn [orb].
  assert (Hex : existsb (String.eqb it) valid_imagetypes = true).
  { apply existsb_exists. exists it. split; [exact Hit|].
    apply String.eqb_refl. }
  rewrite Hex. cbn [negb].
  assert (Hth : as_number (yval_of_pynum th) <> None)
    by (destruct th; discriminate).
  cbn [find fst as_number].
  destruct (as_number (yval_of_pynum th)) eqn:Eth; [|congruence].
  cbn [ar_status Z.eqb negb fst snd].
  unfold acquisition, now, note, uniform,
    SONGSpectrographSimulator.update, this, bind, ret, get, modify.
  cbn [fst snd srv srv_draws srv_drawn clock ticks srv_events is_busy
       observation_count ar_status Z.eqb negb].
  unfold step_time in Hsleep.
  match goal with
  | |- context [progress_steps _ ?id ?st ?l ?w0] =>
      destruct (progress_steps_post id st l w0)
        as (w' & Hp & Hs & Hd & Hdr & Hc & Hti); rewrite Hp
  end.
  cbn [number_of as_number float_of_pynum] in *.
  rewrite Hsleep.
  cbn [srv srv_draws srv_drawn clock ticks] in Hs, Hd, Hdr, Hc, Hti.
  qstep. rewrite ?Hs, ?Hd, ?Hdr, ?Hc, ?Hti. qstep.
  eexists. split; [reflexivity|].
  cbn [srv srv_draws srv_drawn clock ticks]. auto 6.
Qed.

(** X24: what the validator accepts, the simulated server accepts: for
    every modulation stored by a [validate] that returned True, a
    request with its exposure time and angles, image type SUN or CALIB,
    a project number that is not negative and a project name of ASCII
    text that is not blank, sent to a server that is not busy, is
    answered with status 0, the timestamp and the file name
    [SONG_<time>_<count>_<imagetype>.fits], and the count of
    observations grows by one, provided the sleeps of the acquisition
    return. *)
Theorem server_accepts_validated_step (v : validator) (m : Modulation)
    (nr : Z) (name it cm : string) (th : pynum) (w : srv_world) :
  fst (validate v) = Ret true ->
  In m (modulations (snd (validate v))) ->
  is_busy (srv w) = false -> 0 <= nr ->
  is_ascii name = true -> strip name <> "" ->
  In it valid_imagetypes ->
  time_sleep (step_time (PyFloat (SONG_int_time m))
                (srv_draws w (srv_drawn w))) = None ->
  fst (acquire_a_solar_image (YInt nr) (YStr name)
         (YFloat (SONG_int_time m)) (YStr it) (YFloat (alpha m))
         (YFloat (beta m)) (yval_of_pynum th) (YStr cm) w) =
    Ret {| ar_status := 0;
           ar_message := "Acquisition completed successfully";
           ar_timestamp := Some (isoformat (clock w (S (ticks w))));
           ar_filename :=
             Some (Some (fits_name (clock w (ticks w))
                           (observation_count (srv w)) it));
           ar_acquisition_id := None |} /\
  srv (snd (acquire_a_solar_image (YInt nr) (YStr name)
              (YFloat (SONG_int_time m)) (YStr it) (YFloat (alpha m))
              (YFloat (beta m)) (yval_of_pynum th) (YStr cm) w)) =
    {| is_busy := false;
       observation_count := observation_count (srv w) + 1 |}.
Proof.
  intros Hv Hm Hb Hnr _ Hname Hit Hsleep.
  pose proof (validate_stores_checked_modulations v) as Hr.
  rewrite Forall_forall in Hr. specialize (Hr m Hm).
  unfold in_ranges in Hr. apply andb_true_iff in Hr. destruct Hr as [_ Ht].
  destruct (acquire_accepts nr name (SONG_int_time m) it (alpha m) (beta m)
              th cm w Hb Hnr Hname Ht Hit Hsleep) as (w' & H & Hs & _).
  rewrite H. cbn [fst snd]. split; [reflexivity | exact Hs].
Qed.

End Server.

Lemma server_accepts_validated_step_witness :
  fst (SONGSpectrographSimulator.acquire_a_solar_image
         Examples.quiet_sleep Examples.exn_text (YInt 7) (YStr "sun")
         (YFloat (SONG_int_time Examples.good_step)) (YStr "CALIB")
         (YFloat (alpha Examples.good_step))
         (YFloat (beta Examples.good_step))
         (yval_of_pynum (PyFloat 90%float)) (YStr " ")
         Examples.idle_srv_world) =
    Ret {| ar_status := 0;
           ar_message := "Acquisition completed successfully";
           ar_timestamp := Some "2025-01-01T12:00:00";
           ar_filename := Some (Some "SONG_20250101_120000_0000_CALIB.fits");
           ar_acquisition_id := None |} /\
  SONGSpectrographSimulator.srv
    (snd (SONGSpectrographSimulator.acquire_a_solar_image
            Examples.quiet_sleep Examples.exn_text (YInt 7) (YStr "sun")
            (YFloat (SONG_int_time Examples.good_step)) (YStr "CALIB")
            (YFloat (alpha Examples.good_step))
            (YFloat (beta Examples.good_step))
            (yval_of_pynum (PyFloat 90%float)) (YStr " ")
            Examples.idle_srv_world)) =
    {| SONGSpectrographSimulator.is_busy := false;
       SONGSpectrographSimulator.observation_count := 1 |}.
Proof.
  apply (server_accepts_validated_step Examples.quiet_sleep
           Examples.exn_text Examples.quarter_turn_plan Examples.good_step
           7 "sun" "CALIB" " " (PyFloat 90%float) Examples.idle_srv_world).
  - vm_compute. reflexivity.
  - vm_compute. left. reflexivity.
  - reflexivity.
  - lia.
  - reflexivity.
  - vm_compute. discriminate.
  - right. left. reflexivity.
  - reflexivity.
Defined.

End DetectorGuarantees.

Module SystemGuarantees.

Import YAMLSequenceValidator ValidatorFacts ValidatorGuarantees.
Import EngineFacts EngineGuarantees.
Import SimulatorGuarantees FloatBridge DeviceLimits DetectorGuarantees.
Import SimulatedSystem.
Open Scope string_scope.
Open Scope list_scope.
Open Scope Z_scope.

(** [set_modulation] on a ready simulator, within the limits and
    without a failure drawn. *)
Lemma set_modulation_accepts (a b : float) (th : option pynum)
    (w : MusolLibSimulator.plc_world) :
  ready (MusolLibSimulator.plc w) = true ->
  within_limits a b th = true ->
  no_failure_drawn w ->
  exists r w',
    MusolLibSimulator.set_modulation a b th w = (Ret r, w') /\
    plc_error r = 0 /\
    ready (MusolLibSimulator.plc w') = true /\
    MusolLibSimulator.draws w' = MusolLibSimulator.draws w /\
    MusolLibSimulator.current_mode (MusolLibSimulator.plc w') =
      MusolLibSimulator.current_mode (MusolLibSimulator.plc w).
Proof.
  intros Hready Hlim Hdraws.
  unfold within_limits in Hlim. unfold ready in Hready.
  apply andb_true_iff in Hlim. destruct Hlim as [Hlim Hth].
  apply andb_true_iff in Hlim. destruct Hlim as [Ha Hb].
  apply andb_true_iff in Hready. destruct Hready as [Hready He].
  apply andb_true_iff in Hready. destruct Hready as [Hc Hin].
  apply negb_true_iff in He.
  pose proof (Hdraws (S (MusolLibSimulator.drawn w))) as Hd1.
  pose proof (not_below_zero _
                (Hdraws (S (S (MusolLibSimulator.drawn w))))) as Hd2.
  unfold ready. punfold. rewrite Hc, Hin, He, Ha, Hb. psimpl.
  destruct th as [theta|]; [rewrite Hth|]; psimpl;
    rewrite Hd1; psimpl; rewrite Hd2; psimpl;
    do 2 eexists; (split; [reflexivity|]); psimpl;
    rewrite ?Hc, ?Hin, ?He; auto.
Qed.

(** [set_mode] with a valid mode on a ready simulator, without a failure
    drawn. *)
Lemma set_mode_accepts (mode : string) (w : MusolLibSimulator.plc_world) :
  ready (MusolLibSimulator.plc w) = true ->
  In mode MusolLibSimulator.VALID_MODES ->
  no_failure_drawn w ->
  exists w',
    MusolLibSimulator.set_mode mode w = (Ret 0, w') /\
    ready (MusolLibSimulator.plc w') = true /\
    MusolLibSimulator.draws w' = MusolLibSimulator.draws w /\
    MusolLibSimulator.current_mode (MusolLibSimulator.plc w') = Some mode.
Proof.
  intros Hready Hmode Hdraws. unfold ready in Hready.
  apply andb_true_iff in Hready. destruct Hready as [Hready He].
  apply andb_true_iff in Hready. destruct Hready as [Hc Hin].
  assert (Hex : existsb (String.eqb mode) MusolLibSimulator.VALID_MODES
                = true).
  { apply existsb_exists. exists mode. split; [exact Hmode|].
    apply String.eqb_refl. }
  pose proof (Hdraws (S (MusolLibSimulator.drawn w))) as Hd1.
  pose proof (not_below_zero _
                (Hdraws (S (S (MusolLibSimulator.drawn w))))) as Hd2.
  unfold ready. punfold. rewrite Hc, Hin, Hex. psimpl.
  rewrite Hd1. psimpl. rewrite Hd2. psimpl.
  eexists. split; [reflexivity|]. psimpl. rewrite Hc, Hin, He. auto.
Qed.

Section Installation.

Variable time_sleep : float -> option exn.
Variable str_of_exn : exn -> string.
Variable input : input_data.
Variables plc_draws srv_random : nat -> float.
Variable count0 : Z.

Local Abbreviation D := (simulated_devices time_sleep str_of_exn).
Local Abbreviation ok := (installation_ok plc_draws srv_random count0).

Hypothesis Hcalm :
  forall k, PrimFloat.ltb (plc_draws k) MusolLibSimulator.f0_05 = false.
Hypothesis Hsleep :
  sleeps_return time_sleep (in_modulations input) srv_random.
Hypothesis Hranges :
  Forall (fun m => in_ranges m = true) (in_modulations input).
Hypothesis Hnr : 0 <= proj_number input.
Hypothesis Hname : strip (proj_name input) <> "".

(** One step of a cycle in the simulated installation. *)
Lemma installation_step (c : Z) (tp : option pynum) (ts : pynum)
    (it : string) (i k : nat) (w : sys_world) (tr : list event) :
  (i < List.length (in_modulations input))%nat ->
  ok k w ->
  (forall m, In m (in_modulations input) ->
             within_limits (alpha m) (beta m) tp = true) ->
  In it SONGSpectrographSimulator.valid_imagetypes ->
  exists w' tr',
    MusolsongCLI.process_step D input c tp ts it i (w, tr)
      = (Ret None, (w', tr')) /\
    ok (S k) w'.
Proof.
  intros Hi (Hready & Hdraws & Hconn & Hserv & Hbusy & Hcnt & Hsd & Hab)
    Hlim Hit.
  destruct (nth_error_in_range (in_modulations input) i Hi) as [m Hm].
  assert (Hin : In m (in_modulations input))
    by (eapply nth_error_In; exact Hm).
  rewrite Forall_forall in Hranges. pose proof (Hranges m Hin) as Hr.
  unfold in_ranges in Hr. apply andb_true_iff in Hr. destruct Hr as [_ Ht].
  assert (Hnf : no_failure_drawn (plc_side w)).
  { intros j. rewrite Hdraws. apply Hcalm. }
  destruct (set_modulation_accepts (alpha m) (beta m) tp (plc_side w)
              Hready (Hlim m Hin) Hnf)
    as (r & p' & Hset & Hr0 & Hready' & Hdraws' & _).
  destruct (acquire_accepts time_sleep str_of_exn (proj_number input)
              (proj_name input) (SONG_int_time m) it (alpha m) (beta m) ts
              (description_or_space m) (song_server w) Hbusy Hnr Hname Ht
              Hit ltac:(rewrite Hsd; now apply Hsleep))
    as (s' & Hacq & Hsrv & Hsd' & _).
  unfold MusolsongCLI.process_step. erun.
  cbn [abort_flag musol_set_modulation musol_get_error_description
       song_send_acquire_cmd simulated_devices fst snd].
  rewrite Hab, Hm. cbn [fst snd].
  rewrite Hset. cbn [fst snd returned]. rewrite Hr0. cbn [Z.eqb negb fst snd].
  unfold xmlrpcSONGClient.send_acquire_cmd, xmlrpcSONGClient.me,
    xmlrpcSONGClient.remote, bind, ret, get.
  cbn [fst snd with_plc song_client song_server plc_side is_aborting].
  rewrite Hconn, Hserv. cbn [negb orb fst snd].
  unfold served_acquire. rewrite Hacq.
  cbn [fst snd returned song_dict_of status timestamp filename message
       ar_status ar_timestamp ar_filename ar_message Z.eqb].
  do 2 eexists. split; [reflexivity|].
  unfold installation_ok.
  cbn [with_song with_plc plc_side song_client song_server is_aborting
       fst snd].
  rewrite Hready', Hdraws', Hdraws, Hconn, Hserv, Hsrv, Hsd', Hsd, Hab.
  cbn [SONGSpectrographSimulator.is_busy
       SONGSpectrographSimulator.observation_count].
  repeat split; try reflexivity. lia.
Qed.

Hypothesis Hcount :
  modulations_count input = Z.of_nat (List.length (in_modulations input)).

Let n : nat := List.length (in_modulations input).

(** One cycle: every step succeeds. *)
Lemma installation_cycle (c : Z) (theta : pynum) (k : nat) (w : sys_world)
    (tr : list event) :
  ok k w ->
  (forall m, In m (in_modulations input) ->
             within_limits (alpha m) (beta m) (fst (fst (theta_setup theta)))
             = true) ->
  In (snd (theta_setup theta)) SONGSpectrographSimulator.valid_imagetypes ->
  exists w' tr',
    MusolsongCLI.process_modulations D input c theta (w, tr)
      = (Ret 0, (w', tr')) /\
    ok (k + n) w'.
Proof.
  intros Hok Hlim Hit. unfold MusolsongCLI.process_modulations.
  destruct (theta_setup theta) as [[tp ts] it]. cbn [fst snd] in *.
  pose proof (for_each_rule (sys_world * list event)
                (MusolsongCLI.process_step D input c tp ts it)
                (fun j st => ok (k + j) (fst st))
                (fun _ _ => False) (fun _ _ => False) n 0%nat) as R.
  cbn [Nat.add] in R.
  assert (Hbody : forall (i : nat) (st : sys_world * list event),
             (0 <= i < n)%nat -> ok (k + i) (fst st) ->
             loop_post (sys_world * list event)
               (fun j st' => ok (k + j) (fst st'))
               (fun _ _ => False) (fun _ _ => False) (S i)
               (MusolsongCLI.process_step D input c tp ts it i st)).
  { intros i [w1 tr1] Hi H1. cbn [fst] in H1.
    destruct (installation_step c tp ts it i (k + i) w1 tr1
                ltac:(unfold n in Hi; lia) H1 Hlim Hit)
      as (w2 & tr2 & Heq & H2).
    rewrite Heq. cbn [loop_post fst].
    now replace (k + S i)%nat with (S (k + i)) by lia. }
  specialize (R Hbody (w, tr)
                ltac:(cbn [fst]; now rewrite Nat.add_0_r)).
  unfold bind, range. rewrite Hcount, Nat2Z.id. fold n.
  destruct (for_each (MusolsongCLI.process_step D input c tp ts it)
              (seq 0 n) (w, tr)) as [[[code|]|e] [w' tr']];
    cbn [loop_post fst] in R; try contradiction.
  exists w', tr'. split; [reflexivity | exact R].
Qed.

(** The cycles of a calibration run: every cycle succeeds. *)
Lemma installation_calibration (cnt : nat) :
  forall (lo k : nat) (w : sys_world) (tr : list event),
  ok k w ->
  (forall c, (lo <= c < lo + cnt)%nat ->
     py_ne (cycle_theta (offset_angle input) c) (PyInt 999) = true /\
     forall m, In m (in_modulations input) ->
       within_limits (alpha m) (beta m)
         (Some (cycle_theta (offset_angle input) c)) = true) ->
  exists w' tr',
    MusolsongCLI.calibration_cycles D input (seq lo cnt)
      (cycle_theta (offset_angle input) lo) (w, tr)
      = (Ret true, (w', tr')) /\
    ok (k + cnt * n) w'.
Proof.
  induction cnt as [|cnt IH]; intros lo k w tr Hok Hth.
  - cbn. exists w, tr. split; [reflexivity|].
    now rewrite Nat.add_0_r.
  - cbn [seq]. rewrite calibration_cycles_cons.
    destruct (Hth lo ltac:(lia)) as [Hne Hlim].
    match goal with
    | |- context [MusolsongCLI.process_modulations _ _ ?c ?th (w, ?t)] =>
        destruct (installation_cycle c th k w t Hok) as (w1 & tr1 & Hc & H1)
    end.
    + unfold theta_setup. rewrite Hne. exact Hlim.
    + unfold theta_setup. rewrite Hne. right. left. reflexivity.
    + rewrite Hc. cbn [Z.leb Z.compare].
      change (py_add (cycle_theta (offset_angle input) lo)
                (PyInt (offset_angle input)))
        with (cycle_theta (offset_angle input) (S lo)).
      destruct (IH (S lo) (k + n)%nat w1 tr1 H1
                  ltac:(intros c Hc'; apply Hth; lia))
        as (w2 & tr2 & Hrun & H2).
      exists w2, tr2. split; [exact Hrun|].
      now replace (k + S cnt * n)%nat with (k + n + cnt * n)%nat
        by (cbn [Nat.mul]; lia).
Qed.

(** A whole run in the simulated installation. *)
Lemma installation_run (w : sys_world) :
  ok 0%nat w ->
  In (op_mode input) MusolLibSimulator.VALID_MODES ->
  (String.eqb (op_mode input) "OBSERVATION" = false ->
   forall c, (c < Z.to_nat (number_of_cycles input))%nat ->
     py_ne (cycle_theta (offset_angle input) c) (PyInt 999) = true /\
     forall m, In m (in_modulations input) ->
       within_limits (alpha m) (beta m)
         (Some (cycle_theta (offset_angle input) c)) = true) ->
  exists w' tr,
    MusolsongCLI.run D input w = (Ret true, (w', tr)) /\
    ok (cycles_run input * n) w'.
Proof.
  intros (Hready & Hdraws & Hconn & Hserv & Hbusy & Hcnt & Hsd & Hab)
    Hmode Hth.
  assert (Hnf : no_failure_drawn (plc_side w)).
  { intros j. rewrite Hdraws. apply Hcalm. }
  destruct (set_mode_accepts (op_mode input) (plc_side w) Hready Hmode Hnf)
    as (p' & Hset & Hready' & Hdraws' & _).
  rewrite process_modulation_data_eq. cbn zeta.
  cbn [musol_set_mode simulated_devices fst snd].
  rewrite Hset. cbn [fst snd returned Z.eqb negb].
  assert (Hok : ok 0%nat (with_plc p' w)).
  { unfold installation_ok.
    cbn [with_plc plc_side song_client song_server is_aborting].
    rewrite Hdraws'. repeat split; assumption. }
  unfold cycles_run.
  destruct (String.eqb (op_mode input) "OBSERVATION") eqn:Eo.
  - match goal with
    | |- context [MusolsongCLI.process_modulations _ _ ?c ?th (_, ?t)] =>
        destruct (installation_cycle c th 0%nat (with_plc p' w) t Hok)
          as (w1 & tr1 & Hc & H1)
    end.
    + intros m Hm. cbn [theta_setup fst]. unfold theta_setup.
      rewrite py_ne_int. cbn [Z.eqb negb fst].
      rewrite Forall_forall in Hranges. pose proof (Hranges m Hm) as Hr.
      unfold in_ranges in Hr. apply andb_true_iff in Hr.
      destruct Hr as [Hr _]. apply andb_true_iff in Hr.
      destruct Hr as [Ha Hb].
      apply angle_in_range_float in Ha, Hb.
      destruct Ha as [Ha1 Ha2], Hb as [Hb1 Hb2].
      unfold within_limits, MusolLibSimulator.alpha_min,
        MusolLibSimulator.alpha_max, MusolLibSimulator.beta_min,
        MusolLibSimulator.beta_max.
      now rewrite Ha1, Ha2, Hb1, Hb2.
    + unfold theta_setup. rewrite py_ne_int. cbn. auto.
    + rewrite Hc. cbn [Z.leb Z.compare fst snd].
      do 2 eexists. split; [reflexivity|].
      now rewrite Nat.mul_1_l.
  - destruct (installation_calibration
                (Z.to_nat (number_of_cycles input)) 0%nat 0%nat
                (with_plc p' w)
                ([EvLog INFO LogProcessStarted;
                  EvLog INFO (LogProcessingMode (op_mode input))] ++
                 [EvSetMode (op_mode input) 0]) Hok
                ltac:(intros c Hc; apply (Hth eq_refl); lia))
      as (w1 & tr1 & Hc & H1).
    unfold range. cbn [cycle_theta] in Hc. rewrite Hc. cbn [fst snd].
    do 2 eexists. split; [reflexivity | exact H1].
Qed.

End Installation.

Lemma limits_of_ranges (m : Modulation) (th : option pynum) :
  in_ranges m = true ->
  match th with
  | Some theta =>
      py_le (PyFloat MusolLibSimulator.theta_min) theta &&
      py_le theta (PyFloat MusolLibSimulator.theta_max) = true
  | None => True
  end ->
  within_limits (alpha m) (beta m) th = true.
Proof.
  intros Hr Hth. unfold in_ranges in Hr. apply andb_true_iff in Hr.
  destruct Hr as [Hr _]. apply andb_true_iff in Hr. destruct Hr as [Ha Hb].
  apply angle_in_range_float in Ha, Hb.
  destruct Ha as [Ha1 Ha2], Hb as [Hb1 Hb2].
  unfold within_limits, MusolLibSimulator.alpha_min,
    MusolLibSimulator.alpha_max, MusolLibSimulator.beta_min,
    MusolLibSimulator.beta_max.
  rewrite Ha1, Ha2, Hb1, Hb2. cbn [andb].
  destruct th; [exact Hth | reflexivity].
Qed.

(** X25: a validated plan runs to the end in the simulated
    installation.  After a [validate()] that returned True, with the
    simulated PLC connected, initialised and not in emergency stop, the
    client connected, the simulated server not busy, no abort requested,
    a project number that is not negative and a project name of ASCII
    text that is not blank, the run of the foreground engine returns
    True, provided no random draw of the PLC simulator is below the
    timeout rate 0.05 and the sleeps of the acquisitions return.
    Afterwards the server has counted one observation more for every
    step of every cycle, and both simulators are ready for the next
    run. *)
Theorem simulated_run_succeeds (time_sleep : float -> option exn)
    (str_of_exn : exn -> string) (v0 v : validator) (name : string)
    (nr : Z) (w : sys_world) :
  validate v0 = (Ret true, v) ->
  ready (MusolLibSimulator.plc (plc_side w)) = true ->
  xmlrpcSONGClient.connected (song_client w) = true ->
  xmlrpcSONGClient.server (song_client w) = true ->
  SONGSpectrographSimulator.is_busy
    (SONGSpectrographSimulator.srv (song_server w)) = false ->
  is_aborting w = false ->
  no_failure_drawn (plc_side w) ->
  sleeps_return time_sleep (modulations v)
    (SONGSpectrographSimulator.srv_draws (song_server w)) ->
  0 <= nr -> is_ascii name = true -> strip name <> "" ->
  exists input w' tr,
    MusolsongCLI.prepare_data_for_processing v name nr = Ret input /\
    MusolsongCLI.run (simulated_devices time_sleep str_of_exn) input w
      = (Ret true, (w', tr)) /\
    SONGSpectrographSimulator.observation_count
      (SONGSpectrographSimulator.srv (song_server w')) =
    SONGSpectrographSimulator.observation_count
      (SONGSpectrographSimulator.srv (song_server w)) +
    Z.of_nat (cycles_run input * List.length (modulations v)) /\
    ready (MusolLibSimulator.plc (plc_side w')) = true /\
    SONGSpectrographSimulator.is_busy
      (SONGSpectrographSimulator.srv (song_server w')) = false.
Proof.
  intros Hv Hready Hconn Hserv Hbusy Hab Hnf Hsleep Hnr _ Hname.
  pose proof (validate_model v0) as M. rewrite Hv in M.
  destruct M as [doc [entries [_ [_ [_ [_ [_ Hmode]]]]]]].
  pose proof (validate_stores_checked_modulations v0) as Hranges.
  rewrite Hv in Hranges. cbn [snd] in Hranges.
  assert (Hok : installation_ok (MusolLibSimulator.draws (plc_side w))
                  (SONGSpectrographSimulator.srv_draws (song_server w))
                  (SONGSpectrographSimulator.observation_count
                     (SONGSpectrographSimulator.srv (song_server w)))
                  0%nat w).
  { unfold installation_ok. repeat split; try assumption.
    cbn [Z.of_nat]. lia. }
  unfold MusolsongCLI.prepare_data_for_processing,
    get_retarding_plate_offsets, get_mode, get_modulations,
    get_modulation_count.
  destruct Hmode as [[Hm Ho]|[Hm [o [Ho Hr]]]].
  - unfold get_number_of_cycles. rewrite Ho, Hm. cbn [option_map].
    eexists. 
    match goal with
    | |- context [Ret ?inp = Ret _] => set (input := inp)
    end.
    destruct (installation_run time_sleep str_of_exn input
                (MusolLibSimulator.draws (plc_side w))
                (SONGSpectrographSimulator.srv_draws (song_server w))
                (SONGSpectrographSimulator.observation_count
                   (SONGSpectrographSimulator.srv (song_server w)))
                Hnf Hsleep Hranges Hnr Hname eq_refl w Hok)
      as (w' & tr & Hrun & Hok').
    + right. left. reflexivity.
    + discriminate.
    + exists w', tr. split; [reflexivity|]. split; [exact Hrun|].
      destruct Hok' as (R1 & _ & _ & _ & R5 & R6 & _).
      split; [exact R6|]. split; assumption.
  - rewrite (get_number_of_cycles_floor o v Ho Hr).
    rewrite Ho, Hm. cbn [option_map].
    eexists.
    match goal with
    | |- context [Ret ?inp = Ret _] => set (input := inp)
    end.
    destruct (installation_run time_sleep str_of_exn input
                (MusolLibSimulator.draws (plc_side w))
                (SONGSpectrographSimulator.srv_draws (song_server w))
                (SONGSpectrographSimulator.observation_count
                   (SONGSpectrographSimulator.srv (song_server w)))
                Hnf Hsleep Hranges Hnr Hname eq_refl w Hok)
      as (w' & tr & Hrun & Hok').
    + left. reflexivity.
    + intros _ c Hc. change (offset_angle input) with o.
      change (number_of_cycles input) with (360 / o) in Hc.
      split; [now apply cycle_theta_clear|].
      intros m Hm'. apply limits_of_ranges.
      * rewrite Forall_forall in Hranges. now apply Hranges.
      * now apply cycle_theta_within.
    + exists w', tr. split; [reflexivity|]. split; [exact Hrun|].
      destruct Hok' as (R1 & _ & _ & _ & R5 & R6 & _).
      split; [exact R6|]. split; assumption.
Qed.

Lemma simulated_run_succeeds_witness :
  exists input w' tr,
    MusolsongCLI.prepare_data_for_processing
      (snd (validate Examples.quarter_turn_plan)) "sun" 7 = Ret input /\
    MusolsongCLI.run
      (simulated_devices Examples.quiet_sleep Examples.exn_text) input
      Examples.sample_installation = (Ret true, (w', tr)) /\
    SONGSpectrographSimulator.observation_count
      (SONGSpectrographSimulator.srv (song_server w')) =
    SONGSpectrographSimulator.observation_count
      (SONGSpectrographSimulator.srv
         (song_server Examples.sample_installation)) +
    Z.of_nat (cycles_run input *
              List.length
                (modulations (snd (validate Examples.quarter_turn_plan)))) /\
    ready (MusolLibSimulator.plc (plc_side w')) = true /\
    SONGSpectrographSimulator.is_busy
      (SONGSpectrographSimulator.srv (song_server w')) = false.
Proof.
  apply (simulated_run_succeeds Examples.quiet_sleep Examples.exn_text
           Examples.quarter_turn_plan
           (snd (validate Examples.quarter_turn_plan)) "sun" 7
           Examples.sample_installation).
  - vm_compute. reflexivity.
  - reflexivity.
  - reflexivity.
  - reflexivity.
  - reflexivity.
  - reflexivity.
  - intros k. vm_compute. reflexivity.
  - intros m k _. reflexivity.
  - lia.
  - reflexivity.
  - vm_compute. discriminate.
Defined.

(** The run of the example: four cycles of one step each. *)
Example quarter_turn_run_counts_four :
  match MusolsongCLI.prepare_data_for_processing
          (snd (validate Examples.quarter_turn_plan)) "sun" 7 with
  | Ret input =>
      let out := MusolsongCLI.run
                   (simulated_devices Examples.quiet_sleep
                      Examples.exn_text) input
                   Examples.sample_installation in
      fst out = Ret true /\
      SONGSpectrographSimulator.observation_count
        (SONGSpectrographSimulator.srv (song_server (fst (snd out)))) = 4
  | Raise _ => False
  end.
Proof. vm_compute. split; reflexivity. Qed.

End SystemGuarantees.

Module LoggerGuarantees.

Import SystemLogger.
Open Scope string_scope.
Open Scope list_scope.
Open Scope Z_scope.

Lemma lookup_store_same {A : Type} (k : string) (v : A)
    (d : list (string * A)) :
  lookup (store k v d) k = Some v.
Proof.
  induction d as [|[k' v'] r IH]; cbn.
  - now rewrite String.eqb_refl.
  - destruct (String.eqb k' k) eqn:E; cbn; rewrite E; auto.
Qed.

Lemma lookup_store_other {A : Type} (k k' : string) (v : A)
    (d : list (string * A)) :
  k <> k' -> lookup (store k v d) k' = lookup d k'.
Proof.
  intros Hne. induction d as [|[k0 v0] r IH]; cbn.
  - destruct (String.eqb k k') eqn:E; [|reflexivity].
    apply String.eqb_eq in E. contradiction.
  - destruct (String.eqb k0 k) eqn:E; cbn.
    + apply String.eqb_eq in E. subst k0.
      destruct (String.eqb k k') eqn:E'; [|reflexivity].
      apply String.eqb_eq in E'. contradiction.
    + destruct (String.eqb k0 k'); auto.
Qed.

Lemma store_store {A : Type} (k : string) (v v' : A)
    (d : list (string * A)) :
  store k v (store k v' d) = store k v d.
Proof.
  induction d as [|[k0 v0] r IH]; cbn.
  - now rewrite String.eqb_refl.
  - destruct (String.eqb k0 k) eqn:E; cbn; rewrite E; [reflexivity|].
    now rewrite IH.
Qed.

(** The logger after a call of [log_event], whether or not the
    hand-over to the underlying logger raised. *)
Lemma log_event_effect (c : log_call) (w : log_world) :
  let l := lg w in
  let comp := lc_component c in
  let err := is_error_level (lc_level c) in
  lg (snd (log_call_run c w)) =
    {| log_level := log_level l; max_events := max_events l;
       events := deque_append (max_events l) (events l)
                   (event_of c (lg_clock w (lg_ticks w)));
       error_counts :=
         if err then store comp (error_counter l comp + 1) (error_counts l)
         else error_counts l;
       component_stats :=
         store comp
           {| event_count := event_count (stats_of l comp) + 1;
              error_count := error_count (stats_of l comp)
                             + (if err then 1 else 0);
              last_activity := Some (lg_clock w (S (lg_ticks w))) |}
           (component_stats l) |} /\
  lg_clock (snd (log_call_run c w)) = lg_clock w /\
  lg_ticks (snd (log_call_run c w)) = S (S (lg_ticks w)).
Proof.
  cbn zeta. unfold log_call_run, log_event, error_counter.
  unfold now, update, this, hand_over.
  unfold bind, modify, get, ret, raise.
  cbn -[lookup store deque_append json_serializable is_error_level
        Z.add].
  unfold stats_of.
  destruct (lookup (component_stats (lg w)) (lc_component c)) as [s|] eqn:El;
    cbn -[lookup store deque_append json_serializable is_error_level
          Z.add];
    rewrite ?lookup_store_same, ?El;
    cbn -[lookup store deque_append json_serializable is_error_level
          Z.add];
    destruct (is_error_level (lc_level c));
    cbn -[lookup store deque_append json_serializable is_error_level
          Z.add];
    rewrite ?lookup_store_same, ?store_store, ?El;
    cbn -[lookup store deque_append json_serializable is_error_level
          Z.add];
    rewrite ?lookup_store_same, ?store_store;
    match goal with
    | |- context [json_serializable ?d] => destruct (json_serializable d)
    end;
    cbn -[lookup store deque_append json_serializable is_error_level
          Z.add];
    rewrite ?Z.add_0_r; repeat split; reflexivity.
Qed.

(** What a call of [log_event] returns and hands to the underlying
    logger. *)
Lemma log_event_outcome (c : log_call) (w : log_world) :
  fst (log_call_run c w) =
    (if json_serializable (log_data_of c) then Ret tt
     else Raise TypeError) /\
  handed (snd (log_call_run c w)) =
    (if json_serializable (log_data_of c)
     then handed w ++ [(lc_level c, lc_message c, log_data_of c)]
     else handed w).
Proof.
  unfold log_call_run, log_event, log_data_of.
  unfold now, update, this, hand_over.
  unfold bind, modify, get, ret, raise.
  cbn -[lookup store deque_append json_serializable is_error_level
        Z.add xmlrpcSONGClient.truthy].
  destruct (lookup (component_stats (lg w)) (lc_component c)) as [s|];
    cbn -[lookup store deque_append json_serializable is_error_level
          Z.add xmlrpcSONGClient.truthy];
    destruct (is_error_level (lc_level c));
    cbn -[lookup store deque_append json_serializable is_error_level
          Z.add xmlrpcSONGClient.truthy];
    match goal with
    | |- context [json_serializable ?d] => destruct (json_serializable d)
    end;
    cbn -[lookup store deque_append json_serializable is_error_level
          Z.add xmlrpcSONGClient.truthy];
    split; reflexivity.
Qed.

Lemma log_data_encodable (c : log_call) :
  json_serializable (log_data_of c) = encodable c.
Proof.
  unfold log_data_of, encodable.
  destruct (lc_metadata c) as [|mb|mz|mf|ms|lm|dm|mo],
           (lc_error_details c) as [|[|]|z|f|s|[|x l]|[|x d]|o];
    cbn -[json_serializable Z.eqb PrimFloat.eqb String.eqb];
    try (cbn; rewrite ?andb_true_r; reflexivity).
  all: try (destruct (z =? 0); cbn; rewrite ?andb_true_r; reflexivity).
  all: try (destruct (PrimFloat.eqb f 0); cbn; rewrite ?andb_true_r;
            reflexivity).
  all: try (destruct (String.eqb s ""); cbn; rewrite ?andb_true_r;
            reflexivity).
Qed.

Lemma deque_append_last_n {A : Type} (bound : Z) (q : list A) (x : A) :
  0 <= bound -> (List.length q <= Z.to_nat bound)%nat ->
  deque_append bound q x = last_n (Z.to_nat bound) (q ++ [x]).
Proof.
  intros Hb Hq. unfold deque_append, last_n. rewrite length_app.
  cbn [List.length].
  destruct (Z.eqb_spec bound 0) as [->|Hne].
  - cbn in Hq. destruct q; [|cbn in Hq; lia]. reflexivity.
  - destruct (Z.ltb_spec (Z.of_nat (List.length q)) bound) as [Hlt|Hge].
    + replace (List.length q + 1 - Z.to_nat bound)%nat with 0%nat by lia.
      reflexivity.
    + replace (List.length q + 1 - Z.to_nat bound)%nat with 1%nat by lia.
      destruct q as [|y q]; [cbn in Hge; lia|]. reflexivity.
Qed.

Lemma last_n_length {A : Type} (n : nat) (l : list A) :
  (List.length (last_n n l) <= n)%nat.
Proof. unfold last_n. rewrite length_skipn. lia. Qed.

Lemma last_n_app {A : Type} (n : nat) (a b : list A) :
  last_n n (last_n n a ++ b) = last_n n (a ++ b).
Proof.
  unfold last_n.
  assert (H : skipn (List.length a - n) a ++ b
              = skipn (List.length a - n) (a ++ b)).
  { rewrite skipn_app.
    replace (List.length a - n - List.length a)%nat with 0%nat by lia.
    reflexivity. }
  rewrite H, skipn_skipn, length_skipn, length_app. f_equal. lia.
Qed.

(** The store after a sequence of calls, from any state of the logger
    whose store respects the bound. *)
Lemma events_after_calls (calls : list log_call) :
  forall w : log_world,
  0 <= max_events (lg w) ->
  (List.length (events (lg w)) <= Z.to_nat (max_events (lg w)))%nat ->
  events (lg (after_ops (map OpLog calls) w)) =
    last_n (Z.to_nat (max_events (lg w)))
      (events (lg w) ++ events_of calls (lg_clock w) (lg_ticks w)) /\
  max_events (lg (after_ops (map OpLog calls) w)) = max_events (lg w) /\
  log_level (lg (after_ops (map OpLog calls) w)) = log_level (lg w).
Proof.
  induction calls as [|c rest IH]; intros w Hb Hq.
  - cbn. rewrite app_nil_r. unfold last_n.
    replace (List.length (events (lg w)) - Z.to_nat (max_events (lg w)))%nat
      with 0%nat by lia.
    auto.
  - cbn [map after_ops fold_left log_op_run events_of].
    destruct (log_event_effect c w) as (Hl & Hc & Ht).
    cbn zeta in Hl.
    assert (Hm : max_events (lg (snd (log_call_run c w)))
                 = max_events (lg w)) by (rewrite Hl; reflexivity).
    assert (He : events (lg (snd (log_call_run c w)))
                 = last_n (Z.to_nat (max_events (lg w)))
                     (events (lg w)
                      ++ [event_of c (lg_clock w (lg_ticks w))])).
    { rewrite Hl. cbn [events]. now apply deque_append_last_n. }
    destruct (IH (snd (log_call_run c w))) as (IH1 & IH2 & IH3).
    + now rewrite Hm.
    + rewrite Hm, He. apply last_n_length.
    + fold (after_ops (map OpLog rest) (snd (log_call_run c w))).
      rewrite IH1, IH2, IH3, Hm, He, Hc, Ht, last_n_app, <- app_assoc.
      rewrite Hl. cbn [log_level app]. auto.
Qed.

(** X26: the logger keeps the newest events.  After any sequence of
    calls of [log_event] on a new logger with bound [max_events], the
    store holds the events of the last [max_events] calls, in the order
    of the calls, each with the time of its call and with [{}] for a
    missing [metadata]; this is so whatever level is configured, and
    also for a call whose hand-over to the underlying logger raised
    because its data have no JSON form. *)
Theorem logger_keeps_newest_events (level : LogLevel.t) (bound : Z)
    (l0 : logger) (clock : nat -> Z) (ticks : nat)
    (out : list (LogLevel.t * string * yval)) (calls : list log_call) :
  init level bound = Ret l0 ->
  let w := after_ops (map OpLog calls)
             {| lg := l0; lg_clock := clock; lg_ticks := ticks;
                handed := out |} in
  events (lg w) = last_n (Z.to_nat bound) (events_of calls clock ticks) /\
  (Z.of_nat (List.length (events (lg w))) <= bound) /\
  max_events (lg w) = bound /\ log_level (lg w) = level.
Proof.
  unfold init. destruct (Z.ltb_spec bound 0) as [Hneg|Hb]; [discriminate|].
  intros H. inversion H; subst l0; clear H. cbn zeta.
  match goal with
  | |- context [after_ops _ ?w0] =>
      destruct (events_after_calls calls w0 Hb ltac:(cbn; lia))
        as (H1 & H2 & H3)
  end.
  cbn [lg events max_events log_level lg_clock lg_ticks app] in *.
  rewrite H1, H2, H3. repeat split; try reflexivity.
  pose proof (last_n_length (Z.to_nat bound) (events_of calls clock ticks)).
  lia.
Qed.

Lemma calls_for_mono (component : string) (ops : list log_op) :
  forall a b, a <= b ->
  calls_for component ops a <= calls_for component ops b.
Proof.
  induction ops as [|[c|] rest IH]; intros a b Hab; cbn; auto.
  - apply IH. destruct (String.eqb (lc_component c) component); lia.
  - lia.
Qed.

Lemma errors_below_calls (component : string) (ops : list log_op) :
  forall a b, 0 <= a <= b ->
  0 <= errors_for component ops a <= calls_for component ops b.
Proof.
  induction ops as [|[c|] rest IH]; intros a b Hab; cbn; auto.
  - apply IH.
    destruct (String.eqb (lc_component c) component);
      destruct (is_error_level (lc_level c)); cbn; lia.
  - apply IH. lia.
Qed.

Lemma filter_deque_append {A : Type} (p : A -> bool) (bound : Z)
    (q : list A) (x : A) :
  (List.length (filter p (deque_append bound q x))
   <= List.length (filter p q) + (if p x then 1 else 0))%nat.
Proof.
  unfold deque_append.
  destruct (bound =? 0); [lia|].
  destruct (Z.of_nat (List.length q) <? bound);
    rewrite filter_app, length_app; cbn [filter];
    destruct (p x); cbn [List.length]; try lia.
  - destruct q as [|y q]; cbn; [lia|]. destruct (p y); cbn; lia.
  - destruct q as [|y q]; cbn; [lia|]. destruct (p y); cbn; lia.
Qed.

(** The counters of a component after one call of [log_event]. *)
Lemma counters_after_call (c : log_call) (w : log_world)
    (component : string) :
  let l := lg w in
  let l' := lg (snd (log_call_run c w)) in
  let mine := String.eqb (lc_component c) component in
  error_counter l' component =
    (if mine && is_error_level (lc_level c)
     then error_counter l component + 1 else error_counter l component) /\
  error_count (stats_of l' component) =
    (if mine && is_error_level (lc_level c)
     then error_count (stats_of l component) + 1
     else error_count (stats_of l component)) /\
  event_count (stats_of l' component) =
    (if mine then event_count (stats_of l component) + 1
     else event_count (stats_of l component)) /\
  (List.length (stored_for l' component)
   <= List.length (stored_for l component) + (if mine then 1 else 0))%nat.
Proof.
  cbn zeta. destruct (log_event_effect c w) as (Hl & _ & _).
  cbn zeta in Hl. rewrite Hl. clear Hl.
  unfold error_counter, stats_of, stored_for.
  cbn [error_counts component_stats events].
  destruct (String.eqb (lc_component c) component) eqn:E.
  - apply String.eqb_eq in E. subst component. rewrite lookup_store_same.
    cbn [event_count error_count andb].
    destruct (is_error_level (lc_level c));
      rewrite ?lookup_store_same; repeat split; try lia.
    + eapply Nat.le_trans; [apply filter_deque_append|].
      cbn [le_component event_of]. rewrite String.eqb_refl. lia.
    + eapply Nat.le_trans; [apply filter_deque_append|].
      cbn [le_component event_of]. rewrite String.eqb_refl. lia.
  - assert (Hne : lc_component c <> component)
      by (intros Heq; rewrite Heq, String.eqb_refl in E; discriminate).
    rewrite (lookup_store_other _ _ _ _ Hne). cbn [andb].
    destruct (is_error_level (lc_level c));
      rewrite ?(lookup_store_other _ _ _ _ Hne); repeat split; try lia.
    + eapply Nat.le_trans; [apply filter_deque_append|].
      cbn [le_component event_of]. rewrite E. lia.
    + eapply Nat.le_trans; [apply filter_deque_append|].
      cbn [le_component event_of]. rewrite E. lia.
Qed.

Lemma counters_after_ops (component : string) (ops : list log_op) :
  forall w : log_world,
  let l := lg w in
  let l' := lg (after_ops ops w) in
  error_counter l' component
    = errors_for component ops (error_counter l component) /\
  error_count (stats_of l' component)
    = errors_for component ops (error_count (stats_of l component)) /\
  event_count (stats_of l' component)
    = calls_for component ops (event_count (stats_of l component)) /\
  Z.of_nat (List.length (stored_for l' component))
    <= calls_for component ops
         (Z.of_nat (List.length (stored_for l component))).
Proof.
  induction ops as [|[c|] rest IH]; intros w; cbn zeta.
  - cbn. repeat split; lia.
  - cbn [after_ops fold_left log_op_run errors_for calls_for].
    fold (after_ops rest (snd (log_call_run c w))).
    destruct (IH (snd (log_call_run c w))) as (I1 & I2 & I3 & I4).
    destruct (counters_after_call c w component) as (S1 & S2 & S3 & S4).
    cbn zeta in *.
    rewrite I1, I2, I3, S1, S2, S3. repeat split.
    eapply Z.le_trans; [apply I4|]. apply calls_for_mono.
    destruct (String.eqb (lc_component c) component); lia.
  - cbn [after_ops fold_left log_op_run errors_for calls_for].
    fold (after_ops rest (snd (clear_events w))).
    destruct (IH (snd (clear_events w))) as (I1 & I2 & I3 & I4).
    cbn zeta in *. rewrite I1, I2, I3. repeat split.
    exact I4.
Qed.

(** X27: the counters of the logger agree with one another and with
    the calls.  After any sequence of [log_event] and [clear_events] on
    a new logger, for every component the entry of [error_counts] and
    the [error_count] of [component_stats] are both the number of calls
    of level ERROR or CRITICAL for that component since the last
    [clear_events], [event_count] is the number of all its calls since
    then, and the store never holds more events of the component than
    [event_count] says (it holds fewer once the bound has dropped
    some). *)
Theorem logger_counters_agree (level : LogLevel.t) (bound : Z)
    (l0 : logger) (clock : nat -> Z) (ticks : nat)
    (out : list (LogLevel.t * string * yval)) (ops : list log_op)
    (component : string) :
  init level bound = Ret l0 ->
  let l := lg (after_ops ops
                 {| lg := l0; lg_clock := clock; lg_ticks := ticks;
                    handed := out |}) in
  error_counter l component = errors_for component ops 0 /\
  error_count (stats_of l component) = errors_for component ops 0 /\
  event_count (stats_of l component) = calls_for component ops 0 /\
  0 <= errors_for component ops 0 <= calls_for component ops 0 /\
  Z.of_nat (List.length (stored_for l component))
    <= event_count (stats_of l component).
Proof.
  unfold init. destruct (bound <? 0); [discriminate|].
  intros H. inversion H; subst l0; clear H. cbn zeta.
  match goal with
  | |- context [after_ops _ ?w0] =>
      destruct (counters_after_ops component ops w0) as (H1 & H2 & H3 & H4)
  end.
  cbn zeta in *. rewrite H1, H2, H3.
  repeat split; try reflexivity.
  - apply (errors_below_calls component ops 0 0). lia.
  - apply (errors_below_calls component ops 0 0). lia.
  - exact H4.
Qed.

Lemma LogLevel_eqb_eq (a b : LogLevel.t) :
  LogLevel.eqb a b = true <-> a = b.
Proof. destruct a, b; cbn; split; congruence. Qed.

Lemma EventType_eqb_eq (a b : EventType.t) :
  EventType.eqb a b = true <-> a = b.
Proof. destruct a, b; cbn; split; congruence. Qed.

Lemma insert_newest_first_In (x e : LogEvent) (l : list LogEvent) :
  In e (insert_newest_first x l) <-> e = x \/ In e l.
Proof.
  induction l as [|y r IH]; cbn.
  - intuition.
  - destruct (le_timestamp y <=? le_timestamp x); cbn; [intuition|].
    rewrite IH. intuition.
Qed.

Lemma sort_newest_first_In (e : LogEvent) (l : list LogEvent) :
  In e (sort_newest_first l) <-> In e l.
Proof.
  induction l as [|y r IH]; cbn; [tauto|].
  rewrite insert_newest_first_In, IH. intuition.
Qed.

Lemma insert_newest_first_sorted (x : LogEvent) (l : list LogEvent) :
  newest_first l -> newest_first (insert_newest_first x l).
Proof.
  induction l as [|y r IH]; cbn; intros H.
  - split; [constructor|exact I].
  - destruct H as [Hy Hr].
    destruct (Z.leb_spec (le_timestamp y) (le_timestamp x)) as [Hle|Hgt].
    + cbn. repeat split; auto. constructor; [exact Hle|].
      eapply Forall_impl; [|exact Hy]. cbn. intros; lia.
    + cbn. split; [|auto].
      apply Forall_forall. intros e He.
      apply insert_newest_first_In in He. destruct He as [->|He]; [lia|].
      rewrite Forall_forall in Hy. auto.
Qed.

Lemma sort_newest_first_sorted (l : list LogEvent) :
  newest_first (sort_newest_first l).
Proof.
  induction l as [|y r IH]; cbn; [exact I|].
  now apply insert_newest_first_sorted.
Qed.

Lemma In_firstn {A : Type} (k : nat) (l : list A) (e : A) :
  In e (firstn k l) -> In e l.
Proof.
  revert l. induction k as [|k IH]; intros [|y r]; cbn; try tauto.
  intros [H|H]; auto.
Qed.

Lemma newest_first_firstn (k : nat) (l : list LogEvent) :
  newest_first l -> newest_first (firstn k l).
Proof.
  revert l. induction k as [|k IH]; intros [|y r]; cbn; try tauto.
  intros [Hy Hr]. split; [|auto].
  apply Forall_forall. intros e He. apply In_firstn in He.
  rewrite Forall_forall in Hy. auto.
Qed.

Lemma slice_to_In {A : Type} (l : list A) (limit : Z) (e : A) :
  In e (slice_to l limit) -> In e l.
Proof. unfold slice_to. destruct (limit <? 0); apply In_firstn. Qed.

Lemma slice_to_sorted (l : list LogEvent) (limit : Z) :
  newest_first l -> newest_first (slice_to l limit).
Proof. unfold slice_to. destruct (limit <? 0); apply newest_first_firstn. Qed.

Lemma filtered_In (component : option string) (level : option LogLevel.t)
    (event_type : option EventType.t) (since : option Z) (l : logger)
    (e : LogEvent) :
  In e (filtered component level event_type since l) <->
  In e (events l) /\ selected component level event_type since e.
Proof.
  unfold filtered, selected. cbn zeta.
  destruct since as [t|], event_type as [et|], level as [lv|],
           component as [[|c r]|];
    repeat (rewrite filter_In; cbn beta);
    rewrite ?Z.ltb_lt, ?EventType_eqb_eq, ?LogLevel_eqb_eq, ?String.eqb_eq;
    tauto.
Qed.

Lemma get_events_filtered (component : option string)
    (level : option LogLevel.t) (event_type : option EventType.t)
    (since : option Z) (limit : option Z) (l : logger) :
  get_events component level event_type since limit l =
  let sorted :=
    sort_newest_first (filtered component level event_type since l) in
  match limit with
  | Some n => if n =? 0 then sorted else slice_to sorted n
  | None => sorted
  end.
Proof. reflexivity. Qed.

(** X28: what [get_events] returns.  The result is ordered newest
    first and holds only stored events that pass every filter given
    (an empty component name filters nothing); without a limit, or with
    the limit 0, it holds every such event, and with a positive limit
    at most that many.  [get_recent_errors] raises [OverflowError]
    exactly when the given number of minutes is no [timedelta] or leads
    from the time of the call to no [datetime]; otherwise it returns
    only events of level ERROR, none of level CRITICAL, all of them
    later than that number of minutes before the call. *)
Theorem get_events_selects (component : option string)
    (level : option LogLevel.t) (event_type : option EventType.t)
    (since : option Z) (limit : option Z) (l : logger) :
  let r := get_events component level event_type since limit l in
  newest_first r /\
  (forall e, In e r ->
     In e (events l) /\ selected component level event_type since e) /\
  (limit = None \/ limit = Some 0 ->
   forall e, In e (events l) ->
     selected component level event_type since e -> In e r) /\
  (forall n, limit = Some n -> 0 < n ->
     (List.length r <= Z.to_nat n)%nat) /\
  (forall (minutes n : Z) (w : log_world),
     match fst (get_recent_errors minutes n w) with
     | Ret recent =>
         window_computable w minutes = true /\
         forall e, In e recent ->
           In e (events (lg w)) /\ le_level e = LogLevel.ERROR /\
           window_start w minutes < le_timestamp e
     | Raise e => e = OverflowError /\ window_computable w minutes = false
     end).
Proof.
  cbn zeta. rewrite get_events_filtered. cbn zeta.
  split; [|split; [|split; [|split]]].
  - destruct limit as [n|]; [destruct (n =? 0)|];
      auto using sort_newest_first_sorted, slice_to_sorted.
  - intros e H.
    destruct limit as [n|]; [destruct (n =? 0)|];
      try apply slice_to_In in H;
      apply sort_newest_first_In, filtered_In in H; exact H.
  - intros [->| ->] e He Hs; cbn; apply sort_newest_first_In, filtered_In;
      auto.
  - intros n -> Hn. destruct (Z.eqb_spec n 0) as [->|_]; [lia|].
    unfold slice_to. destruct (Z.ltb_spec n 0); [lia|].
    apply firstn_le_length.
  - intros minutes n w.
    unfold get_recent_errors, window_computable, window_start, now, this.
    unfold bind, get, ret, raise. cbn [fst snd lg lg_clock lg_ticks].
    set (since0 := lg_clock w (lg_ticks w) - minutes * 60000000).
    destruct (Z.leb_spec (- timedelta_max_days) (minutes / 1440)) as [A|A],
             (Z.leb_spec (minutes / 1440) timedelta_max_days) as [B|B],
             (Z.leb_spec 0 since0) as [C|C],
             (Z.leb_spec since0 datetime_max) as [E|E];
      cbn [andb];
      destruct (Z.ltb_spec (minutes / 1440) (- timedelta_max_days));
      try lia; cbn [orb fst];
      destruct (Z.ltb_spec timedelta_max_days (minutes / 1440));
      try lia; cbn [orb fst];
      try (split; reflexivity);
      destruct (Z.ltb_spec since0 0); try lia; cbn [orb fst];
      try (split; reflexivity);
      destruct (Z.ltb_spec datetime_max since0); try lia; cbn [orb fst];
      try (split; reflexivity).
    split; [reflexivity|]. subst since0.
    intros e He. rewrite get_events_filtered in He. cbn zeta in He.
    assert (Hin : In e (filtered None (Some LogLevel.ERROR) None
                        (Some (lg_clock w (lg_ticks w)
                               - minutes * 60000000)) (lg w))).
    { revert He. destruct (n =? 0); intros He;
        try apply slice_to_In in He;
        apply -> sort_newest_first_In in He; exact He. }
    apply filtered_In in Hin. unfold selected in Hin. tauto.
Qed.

Section Wrappers.

Variable format_exc : string.

(** X30: where the text given to a logging wrapper of the engine ends
    up.  [_log_debug], [_log_info] and [_log_critical] store a text
    given as third argument as the metadata of the event; [_log_error]
    passes it on as the exception, so that the event is stored with
    empty metadata and the text as the message of an exception of type
    [str], with whatever [traceback.format_exc()] returns.  None of the
    four raises for a text. *)
Theorem wrappers_store_text (message component s : string)
    (w : log_world) :
  s <> "" ->
  let stored (run : L unit) (c : log_call) :=
    fst (run w) = Ret tt /\
    events (lg (snd (run w)))
      = deque_append (max_events (lg w)) (events (lg w))
          (event_of c (lg_clock w (lg_ticks w))) /\
    handed (snd (run w))
      = handed w ++ [(lc_level c, lc_message c, log_data_of c)] in
  stored (CliLogging._log_debug message component (Some s))
         (text_call LogLevel.DEBUG message component s) /\
  stored (CliLogging._log_info message component (Some s))
         (text_call LogLevel.INFO message component s) /\
  stored (CliLogging._log_critical message component (Some s))
         (text_call LogLevel.CRITICAL message component s) /\
  stored (CliLogging._log_error format_exc message component (Some s))
         (text_as_exception format_exc message component s).
Proof.
  intros Hs. cbn zeta.
  assert (Hrun : forall c : log_call, encodable c = true ->
            fst (log_call_run c w) = Ret tt /\
            events (lg (snd (log_call_run c w)))
              = deque_append (max_events (lg w)) (events (lg w))
                  (event_of c (lg_clock w (lg_ticks w))) /\
            handed (snd (log_call_run c w))
              = handed w ++ [(lc_level c, lc_message c, log_data_of c)]).
  { intros c Hc.
    destruct (log_event_outcome c w) as (Hr & Hh).
    destruct (log_event_effect c w) as (Hl & _ & _).
    cbn zeta in Hl. rewrite log_data_encodable, Hc in Hr, Hh.
    rewrite Hr, Hh, Hl. cbn [events]. auto. }
  assert (He : String.eqb s "" = false).
  { destruct (String.eqb_spec s ""); [contradiction|reflexivity]. }
  split; [|split; [|split]].
  - apply (Hrun (text_call LogLevel.DEBUG message component s)).
    reflexivity.
  - apply (Hrun (text_call LogLevel.INFO message component s)).
    reflexivity.
  - apply (Hrun (text_call LogLevel.CRITICAL message component s)).
    reflexivity.
  - unfold CliLogging._log_error, log_error. rewrite He.
    apply (Hrun (text_as_exception format_exc message component s)).
    reflexivity.
Qed.

End Wrappers.

Lemma logger_keeps_newest_events_witness :
  events (lg (after_ops (map OpLog Examples.three_calls)
                Examples.small_log_world))
    = last_n 2 (events_of Examples.three_calls Examples.counting_clock 0) /\
  Z.of_nat (List.length
              (events (lg (after_ops (map OpLog Examples.three_calls)
                             Examples.small_log_world)))) <= 2 /\
  max_events (lg (after_ops (map OpLog Examples.three_calls)
                    Examples.small_log_world)) = 2 /\
  log_level (lg (after_ops (map OpLog Examples.three_calls)
                   Examples.small_log_world)) = LogLevel.INFO.
Proof.
  exact (logger_keeps_newest_events LogLevel.INFO 2 Examples.small_logger
           Examples.counting_clock 0 [] Examples.three_calls eq_refl).
Defined.

Lemma logger_counters_agree_witness :
  let l := lg (after_ops (OpClear :: map OpLog Examples.three_calls)
                 Examples.small_log_world) in
  error_counter l "plc"
    = errors_for "plc" (OpClear :: map OpLog Examples.three_calls) 0 /\
  error_count (stats_of l "plc")
    = errors_for "plc" (OpClear :: map OpLog Examples.three_calls) 0 /\
  event_count (stats_of l "plc")
    = calls_for "plc" (OpClear :: map OpLog Examples.three_calls) 0 /\
  0 <= errors_for "plc" (OpClear :: map OpLog Examples.three_calls) 0
    <= calls_for "plc" (OpClear :: map OpLog Examples.three_calls) 0 /\
  Z.of_nat (List.length (stored_for l "plc"))
    <= event_count (stats_of l "plc").
Proof.
  exact (logger_counters_agree LogLevel.INFO 2 Examples.small_logger
           Examples.counting_clock 0 []
           (OpClear :: map OpLog Examples.three_calls) "plc" eq_refl).
Defined.

Lemma wrappers_store_text_witness :
  "status:1" <> "" /\
  fst (CliLogging._log_error "NoneType: None" "acquisition failed"
         "process_modulations()" (Some "status:1")
         Examples.small_log_world) = Ret tt /\
  events (lg (snd (CliLogging._log_error "NoneType: None"
                     "acquisition failed" "process_modulations()"
                     (Some "status:1") Examples.small_log_world)))
    = [event_of (text_as_exception "NoneType: None" "acquisition failed"
                   "process_modulations()" "status:1") 0].
Proof.
  assert (H : "status:1" <> "") by discriminate.
  split; [exact H|].
  destruct (wrappers_store_text "NoneType: None" "acquisition failed"
              "process_modulations()" "status:1" Examples.small_log_world H)
    as (_ & _ & _ & Hr & He & _).
  split; [exact Hr|exact He].
Defined.

End LoggerGuarantees.
